(* ===== verification/_CoqProject ===== *)
-Q . S2P
Prelude.v
JsString.v
Encryption.v
Logger.v
Formats.v
Await.v
Model.v
Reply.v
Registry.v
Transport.v
Connection.v
Dispatcher.v
System.v
AppCore.v
AppRun.v
Legacy.v
Original.v
Storage.v
FileService.v
FsHook.v
NativeSms.v
NativeFs.v
Permissions.v
Settings.v
SmsHook.v
