(* ===== verification/Prelude.v ===== *)
(** * TelegramActionHub: a verification development of the bot client core

    The program is a React Native client that is configured with a bot
    token and a chat id, polls the Telegram Bot API for updates every
    three seconds, dispatches each update to a registered command handler
    and answers through the same API.  Its core is the singleton class
    [TelegramAPI] of [src/src/api/telegramAPI.js]:

    - [createTelegramAPI] (lines 11-73) builds the HTTP client with a
      response interceptor that retries network errors, 5xx and 429 with
      an exponential backoff of [2^n * 1000] ms, at most [retry = 3] times;
    - [initialize], [testConnection], [handleDisconnection] (lines 99-168)
      form the connection state machine, with a reconnect timer whose
      delay is [min(30000, 2^attempts * 1000)] and a bound of ten attempts;
    - [startUpdatePolling] / [stopUpdatePolling] (lines 173-203) arm and
      disarm the 3000 ms poll interval; its callback awaits [getUpdates]
      and then [processUpdate] for every update of the batch;
    - [setConnected], [addConnectionListener], [removeConnectionListener]
      (lines 209-238) notify the connection listeners;
    - [registerCommandHandler] (lines 245-250) fills the command table,
      a plain JavaScript object;
    - [getUpdates] (lines 256-282) advances the cursor [lastUpdateId] to
      the id of the last update of a batch;
    - [processUpdate] (lines 288-361) filters by chat id, acknowledges
      callback queries, routes exact and parameterised ([name_param])
      commands and slash commands, and contains every handler failure;
    - [sendMessage] (lines 369-386) is the reply channel.

    Around the class, the component [App] ([src/unnamed/part_002])
    registers the command handlers, keeps a second poll loop of its own
    and runs the handlers on the device's data (files through
    [useFileSystem], contacts, SMS, device information, screenshots);
    the Logger ([src/src/utils/logger.js]), the encryption utilities and
    the CSV formats are the libraries the handlers use.  Two earlier
    versions are in the repository: the original component
    ([src/unnamed/part_000]), which calls the Bot API with axios itself,
    and the legacy class ([src/unnamed/part_003]).

    ** Files, in dependency order

    - [Prelude] (this file): the [tah_scope] notations, JavaScript
      truthiness, shared list and option lemmas, [sort_by] (the stable
      [Array.prototype.sort] every comparator of the code goes through,
      with its permutation and key-first lemmas), the hint databases
      [tah] and [tah_rw], and the development's tactics.
    - [JsString]: the JavaScript string built-ins the code calls
      ([split], [join], [includes], [startsWith], [endsWith],
      [lastIndexOf], [substring], [toLowerCase], [trim],
      [Number.prototype.toString]) on
      [String.string], with the split/join round trip.
    - [Encryption] (Module [Encryption]): [xorEncrypt], [toBase64],
      [fromBase64], [encrypt], [decrypt] and [maskSensitive] of
      [part_007] over UTF-16 code units, the built-ins
      [encodeURIComponent], [unescape], [btoa], [atob], [escape],
      [decodeURIComponent] from their standards; the round trip
      [decrypt (encrypt t) = t].
    - [Logger] (Module [Logger]): the bounded log of at most 200 entries
      and its subscribers.
    - [Formats] (Module [Formats]): the CSV writers and text summaries of
      contacts and SMS, checked against an RFC 4180 reader.
    - [Await]: a small monad for [async] JavaScript code: a heap threaded
      through, completions [Normal]/[Abrupt] for [throw], [try]/[catch]/
      [finally], and an oracle that decides how each [await] of an
      external promise settles; [no_throw] and [keeps] with their
      composition lemmas carry the failure-isolation and frame proofs.
    - [Model]: the fields of [TelegramAPI] (constructor, lines 79-92) as
      the record [TelegramAPI], the JavaScript runtime's timers, and the
      observable events (HTTP requests, listener calls, handler calls,
      log lines) in the record [World].
    - [Reply] (Module [Reply]): [sendMessage], [sendFile] and
      [sendDeviceInfo] with their texts and the command menu.
    - [Registry] (Module [Registry]): [registerCommandHandler] and the
      property lookup [this.commandHandlers[key]] of a JavaScript object,
      including the members inherited from [Object.prototype]; the
      spec's exact-match contract as the class [CommandRegistry].
    - [Transport] (Module [Transport]): the retry interceptor of
      [createTelegramAPI] as a function of the raw outcomes of the
      attempts, with fuel.
    - [Connection] (Module [Connection]): [setConnected], the listener
      operations, the poll interval, [handleDisconnection],
      [initialize], [testConnection] and the reconnect timer callback.
    - [Dispatcher] (Module [Dispatcher]): [getUpdates] and
      [processUpdate], the batch loop of the poll callback.
    - [System] (Module [System]): the event loop as a step relation over
      the client, the JavaScript runtime, the requests in flight and the
      Bot API server; reachability and the interleavings the code allows.
    - [AppCore] (Module [App]): the state of the enhanced [App], its
      closures as snapshots of their render and [useCallback] cells
      whose dependencies are compared as [Object.is] does (arrays and
      objects by identity), and every command handler with the hooks and
      services it calls.
    - [AppRun] (Module [AppRun]): the mount effects, the App's own poll
      loop, the settings form, and [app_step], the App and the client
      together.
    - [Legacy] (Module [Legacy]): every method of the legacy class,
      and its agreement with the current [processUpdate] on callbacks.
    - [Original] (Module [Original]): every function of the original
      component and [ostep], its event loop with the Bot API queue.
    - [Storage] (Module [Storage]): [saveSecure], [getSecure],
      [saveToStorage], [getFromStorage] and the accessors of
      [src/utils/storage.js] (in [part_007]) over the two stores, with
      [JSON.parse] and [JSON.stringify] as parameters.
    - [FileService] (Module [FileService]): every function of
      [src/src/services/fileService.js] over a map from paths to files
      and directories, which plays [expo-file-system].
    - [FsHook] (Module [FsHook]): the enhanced [useFileSystem] hook of
      [part_007] (lines 1-459): its seven state cells, every operation
      as a closure of its render with [catch] and [finally], the mount
      effect that asks the native module for storage access, and
      [hstep], the hook in use.
    - [NativeSms] (Modules [NativeSms] and [SmsService]): every function
      of [src/src/native-modules/NativeSmsAccess.js], which makes its
      answers up with [Math.random] (an oracle stream counted in the
      heap), and the Expo SMS service of [part_005] ([isSmsAvailable],
      the placeholder [getSmsMessages], [generateMockSmsData]).
    - [NativeFs] (Modules [NativeFileSystem] and [ScreenCapture]): the
      two JavaScript modules of
      [src/src/native-modules/NativeFileSystem.js] over the storage of
      [FileService] and a screen-capture flag, and the screen functions
      of [src/src/services/deviceService.js] that call them.
    - [SmsHook] (Module [SmsHook]): the [useMessageService] hook of
      [part_006] (lines 284-503) over the native SMS module, with
      [mstep], the hook in use.
    - [Permissions] (Module [Permissions]): the [usePermissions] hook of
      [part_006] (lines 504-742), its mount effect and [pstep], the hook
      in use, over the storage of [FileService].
    - [Settings] (Module [Settings]): the [SettingsForm] component of
      [part_004] (lines 22-205), its fields, buttons and handlers, with
      its texts as [Encryption]'s UTF-16 strings.

    ** What the theorems show

    The client filters updates by chat id, acknowledges callbacks before
    running their handler, routes exact, parameterised and slash
    commands, contains every handler failure, keeps the cursor at the
    largest id of a batch, bounds its retries (four attempts, waits of
    2, 4 and 8 s, fuel four is enough) and its reconnections (ten, waits
    capped at 30 s); its command object breaks the exact-match contract
    on the keys of [Object.prototype] ([/constructor] reaches an
    inherited member); its poll interval has no reentrancy guard (two [getUpdates]
    with one offset in flight).  The encryption round-trips and the
    contacts CSV reads back.  In the App, stale closures decide the
    behaviour: the interval's guard reads its closure, so in a run of
    the App a tick during processing sends a second [getUpdates] for
    the same offset, and Stop then Start during a poll arms an interval
    that never polls again; the connection listener never starts
    monitoring; the [sms_logs] handler sees the first render until a
    listing stores a new array of entries; [sendDeviceInfo] sends the
    device information of its render; Back lists the same
    directory, [handleFile] and [handleContacts] always fail; every
    handler completes normally.  In the original component the interval
    reads the render that connected, so every poll asks for offset 1 and
    no update is ever confirmed, against the cursor contract of the
    specification, yet every armed tick answers each waiting callback
    query; the legacy class runs commands from any chat, and on a
    callback from the configured chat it sends the same requests and
    calls the same handler as the current class.  The secure store
    round-trips, but a rejected [setItemAsync] saves a value that
    [getSecure] never reads.  The file service reads back what it
    writes, refuses files above 5 MiB and creates a directory
    idempotently.  The file-system hook always lowers [isLoading], its
    [navigateUp] undoes [navigateTo], a failed [navigateTo] still grows
    the history, a saved file lands in its album, and without the
    storage permission no reachable state reaches the native module.
    For every random stream the native SMS module's messages respect
    [maxCount], are sorted newest first and pass every filter of the
    options, a thread of [n] messages has [n - 4] read ones and every
    thread reports 5 to 54 messages; the Expo SMS service never returns
    a message; off Android the message service hook never gets the
    permission, so in every reachable state every reader, whatever its
    arguments, stops at its guard, answers nothing and records the
    guard's error.  The native system listing is the hook's [listFiles] on a
    directory path; a production screenshot is an empty file at a path
    that is never empty; and on Android [areScreenshotsDisabled] answers
    [false] even after [preventScreenshots].  The permissions hook never
    reports [sms] as granted in any reachable state, records exactly the
    libraries' answers, and its storage probe deletes a user's file of
    the probe's name.  The client's [initialize] accepts any non-empty
    token, so the settings form's Connect always reports success;
    editing its hidden token field replaces the token by its mask,
    which Connect then saves, hands to the client, which calls itself
    connected, and to [onConnect].

    ** Granularity and bounds

    An [await] of an HTTP request whose answer decides the control flow
    of a loop ([getUpdates], [getMe], the App's [checkTelegramUpdates])
    is split into two steps, so other timers may run in between, as in
    the JavaScript event loop.  The other [await]s are resolved by the
    oracle of the [Await] monad within one step: a batch is processed
    without interleaving.  The original component's tick runs to
    completion; its overlapping ticks send the same requests.  The
    providers of the device (storage, contacts, SMS, file system,
    location, screenshots) are records of values ([App.Env],
    [Original.OEnv]).  Time is abstract: any armed timer may fire.
    Update ids are integers ([Z]); the retry count and reconnect
    attempts are [nat]s bounded by 3 and 10, which the theorems
    establish; [Transport.send] needs fuel four, which a theorem shows
    is always enough.  Strings are [String.string] (texts with emoji as
    their UTF-8 bytes); the chat id comparison goes through the decimal
    printing of [Z] as [toString] does.

    ** Not modelled

    UI components and styling, animations, permission prompts, the
    Java source of [SCREEN_CAPTURE_JAVA_CODE], [getDeviceInfo] (it only
    reads the Expo device libraries), the rounding of the double
    products with [Math.random()] in [NativeSms] (they are exact there),
    HTTP transport below the interceptor, the download progress
    callback of [FsHook.downloadFile], and the GitHub workflow files.
    [expo-secure-store], [AsyncStorage], [expo-file-system],
    [expo-sharing], [expo-media-library] and [expo-screen-capture] are
    libraries: their
    behaviour is written from their documentation as maps and flags. *)

From stdpp Require Export base list gmap strings pretty relations.
From Stdlib Require Export ZArith Lia Ascii String Sorted.

Declare Scope tah_scope.
Delimit Scope tah_scope with tah.
Open Scope tah_scope.

Create HintDb tah.
Create Rewrite HintDb tah_rw.

(** ** JavaScript truthiness of the optional strings the code tests *)

(** [if (x)] for a value that is [null] or a string: [null] and the
    empty string are falsy. *)
Definition truthy (o : option string) : bool :=
  match o with
  | Some s => negb (String.eqb s "")
  | None => false
  end.

Notation "'js?' o" := (truthy o) (at level 10) : tah_scope.

Lemma truthy_Some s : s <> ""%string -> truthy (Some s) = true.
Proof. intros H. simpl. destruct (String.eqb_spec s ""); [contradiction | done]. Qed.

Lemma truthy_is_Some o : truthy o = true -> is_Some o.
Proof. destruct o; [eauto | done]. Qed.

#[export] Hint Resolve truthy_Some truthy_is_Some : tah.

(** ** Lists *)

Section ListFacts.
Context {A : Type}.

(** The last element of a non-empty list, as [xs[xs.length - 1]]. *)
Definition last_elem (xs : list A) : option A :=
    match xs with
    | [] => None
    | x :: xs' => Some (List.last xs' x)
    end.

Lemma last_elem_snoc (xs : list A) x : last_elem (xs ++ [x]) = Some x.
Proof.
  destruct xs as [|y ys]; [done|]. simpl. f_equal. apply List.last_last.
Qed.

Lemma last_in (xs : list A) d : List.last xs d ∈ d :: xs.
Proof.
  induction xs as [|y ys IH]; [by apply elem_of_cons; left|].
  destruct ys as [|z zs]; [by rewrite !elem_of_cons; auto|].
  change (List.last (y :: z :: zs) d) with (List.last (z :: zs) d).
  rewrite !elem_of_cons in IH. rewrite !elem_of_cons. tauto.
Qed.

Lemma last_elem_Some (xs : list A) x : last_elem xs = Some x -> x ∈ xs.
Proof. destruct xs as [|y ys]; intros H; [done|]. injection H as <-. apply last_in. Qed.

Lemma last_irrel (l : list A) d1 d2 : l <> [] -> List.last l d1 = List.last l d2.
Proof.
  induction l as [|a l IH]; intros H; [done|].
  destruct l as [|b l]; [done|]. apply IH. done.
Qed.

Lemma last_elem_cons2 (x y : A) ys : last_elem (x :: y :: ys) = last_elem (y :: ys).
Proof.
  simpl. f_equal. destruct ys as [|z zs]; [done|]. apply last_irrel. done.
Qed.

Lemma last_elem_None (xs : list A) : last_elem xs = None <-> xs = [].
Proof. destruct xs; split; done. Qed.
End ListFacts.

Lemma last_elem_map {A B} (f : A -> B) (xs : list A) : last_elem (map f xs) = f <$> last_elem xs.
Proof.
  induction xs as [|x [|y ys] IH]; [done|done|].
  change (map f (x :: y :: ys)) with (f x :: f y :: map f ys).
  rewrite !last_elem_cons2. exact IH.
Qed.

#[export] Hint Rewrite @last_elem_snoc : tah_rw.

Lemma StronglySorted_filter {A} (R : A -> A -> Prop) (f : A -> bool) l :
  StronglySorted R l -> StronglySorted R (List.filter f l).
Proof.
  induction l as [|x l IH]; intros Hl; [constructor|]. apply StronglySorted_inv in Hl as [Hl Hx].
  simpl. destruct (f x); [|by apply IH]. constructor; [by apply IH|].
  apply Forall_forall. intros y Hy%list_elem_of_In. apply filter_In in Hy as [Hy _].
  rewrite Forall_forall in Hx. apply Hx. by apply list_elem_of_In.
Qed.

Section FilterFacts.
Context {A : Type}.

Lemma filter_length_le (f : A -> bool) l : List.length (List.filter f l) <= List.length l.
Proof. induction l as [|x l IH]; simpl; [lia|]. destruct (f x); simpl; lia. Qed.

Lemma filter_perm (f : A -> bool) l l' : l ≡ₚ l' -> List.filter f l ≡ₚ List.filter f l'.
Proof.
  induction 1; simpl; try done.
  - destruct (f x); [by constructor|done].
  - destruct (f x), (f y); try done; by constructor.
  - by etransitivity.
Qed.

Lemma filter_map_length {B} (f : B -> bool) (g : A -> B) l :
  List.length (List.filter f (map g l)) = List.length (List.filter (fun x => f (g x)) l).
Proof. induction l as [|x l IH]; simpl; [done|]. destruct (f (g x)); simpl; lia. Qed.
End FilterFacts.

(** [Array.from({length: n}, (_, i) => i).filter(i => i < k).length]. *)
Lemma filter_lt_seq k n : List.length (List.filter (fun i => Nat.ltb i k) (seq 0 n)) = Nat.min k n.
Proof.
  induction n as [|n IH]; [simpl; lia|]. rewrite seq_S, List.filter_app, length_app, IH. simpl.
  destruct (Nat.ltb_spec n k); simpl; lia.
Qed.

(** ** [Array.prototype.sort(compare)] *)

(** The engines sort stably; an insertion sort that puts each element
    after every earlier one it does not strictly precede is one such
    sort, and the one the development uses for every comparator of the
    code. *)
Section SortBy.
Context {A : Type} (cmp : A -> A -> Z).

Fixpoint insert_by (x : A) (l : list A) : list A :=
  match l with
  | [] => [x]
  | y :: l' => if (cmp x y <? 0)%Z then x :: y :: l' else y :: insert_by x l'
  end.

Definition sort_by (l : list A) : list A := fold_left (fun acc x => insert_by x acc) l [].

(** Every element whose [key] holds comes before every other one. *)
Fixpoint key_first (key : A -> bool) (l : list A) : bool :=
  match l with
  | [] => true
  | e :: rest => if key e then key_first key rest else forallb (fun f => negb (key f)) rest
  end.

Lemma insert_by_perm x l : insert_by x l ≡ₚ x :: l.
Proof.
  induction l as [|y l IH]; simpl; [done|].
  case_match; [done|]. rewrite IH. apply perm_swap.
Qed.

Lemma sort_by_perm l : sort_by l ≡ₚ l.
Proof.
  unfold sort_by. rewrite <- (app_nil_r l) at 2. generalize (@nil A) as acc.
  induction l as [|x l IH]; intros acc; simpl; [done|].
  rewrite IH, insert_by_perm. symmetry. apply Permutation_middle.
Qed.

Lemma forallb_perm (f : A -> bool) l l' : l ≡ₚ l' -> forallb f l = forallb f l'.
Proof.
  intros Hp. apply Bool.eq_iff_eq_true. rewrite !forallb_forall.
  split; intros H x Hx; apply H; apply list_elem_of_In; apply list_elem_of_In in Hx;
    [rewrite Hp | rewrite <- Hp]; exact Hx.
Qed.

(** A comparator that says [a] before [b] ([< 0]) only when [R a b], and
    [b] not after [a] ([>= 0]) only when [R b a], sorts along [R]. *)
Section Sorting.
Context (R : A -> A -> Prop) (HR : Transitive R).
Hypothesis Hlt : forall a b, (cmp a b < 0)%Z -> R a b.
Hypothesis Hge : forall a b, (0 <= cmp a b)%Z -> R b a.

Lemma insert_by_sorted x l : StronglySorted R l -> StronglySorted R (insert_by x l).
Proof.
  induction l as [|y l IH]; intros Hl; simpl; [repeat constructor|].
  apply StronglySorted_inv in Hl as [Hl Hy].
  destruct (Z.ltb_spec (cmp x y) 0) as [Hc|Hc].
  - constructor; [by constructor|]. constructor; [by apply Hlt|].
    eapply Forall_impl; [exact Hy|]. intros z Hz. transitivity y; [by apply Hlt|exact Hz].
  - constructor; [by apply IH|]. apply (Permutation_Forall (Permutation_sym (insert_by_perm x l))).
    constructor; [by apply Hge|exact Hy].
Qed.

Lemma sort_by_sorted l : StronglySorted R (sort_by l).
Proof.
  unfold sort_by. assert (H : StronglySorted R []) by constructor. revert H. generalize (@nil A) as acc.
  induction l as [|x l IH]; intros acc Hacc; simpl; [done|]. by apply IH, insert_by_sorted.
Qed.
End Sorting.

Section KeyFirst.
Context (key : A -> bool).
Hypothesis Hlt : forall a b, key a = true -> key b = false -> (cmp a b < 0)%Z.
Hypothesis Hge : forall a b, key a = false -> key b = true -> (0 <= cmp a b)%Z.

Lemma insert_by_key_first x l : key_first key l = true -> key_first key (insert_by x l) = true.
Proof.
  induction l as [|y l IH]; intros Hl; simpl; [by destruct (key x)|]. simpl in Hl.
  destruct (key x) eqn:Ex, (key y) eqn:Ey.
  - case_match; simpl; rewrite ?Ex, ?Ey; auto.
  - pose proof (Hlt x y Ex Ey) as Hc. apply Z.ltb_lt in Hc. rewrite Hc. simpl. by rewrite Ex, Ey, Hl.
  - pose proof (Hge x y Ex Ey) as Hc. destruct (Z.ltb_spec (cmp x y) 0); [lia|]. simpl. rewrite Ey. auto.
  - case_match; simpl; rewrite ?Ex, ?Ey; simpl; [by rewrite Hl|].
    rewrite (forallb_perm _ _ _ (insert_by_perm x l)). simpl. by rewrite Ex, Hl.
Qed.

(** A comparator that ranks the [key] elements first yields a list with
    them first, whatever it answers between two elements of one kind. *)
Lemma sort_by_key_first l : key_first key (sort_by l) = true.
Proof.
  unfold sort_by. assert (H : key_first key [] = true) by done. revert H. generalize (@nil A) as acc.
  induction l as [|x l IH]; intros acc Hacc; simpl; [done|]. by apply IH, insert_by_key_first.
Qed.
End KeyFirst.
End SortBy.

(** Strictly ascending integer keys, the order in which the Bot API
    delivers update ids. *)
Fixpoint ascending (zs : list Z) : bool :=
  match zs with
  | x :: ((y :: _) as rest) => (x <? y)%Z && ascending rest
  | _ => true
  end.

Lemma ascending_cons x zs :
  ascending (x :: zs) = true -> ascending zs = true /\ Forall (fun y => x < y)%Z zs.
Proof.
  revert x. induction zs as [|y ys IH]; intros x H; [split; constructor|].
  simpl in H. apply andb_prop in H as [Hxy Hrest]. apply Z.ltb_lt in Hxy.
  split; [exact Hrest|]. constructor; [exact Hxy|].
  destruct (IH y Hrest) as [_ Hall].
  eapply Forall_impl; [exact Hall|]. intros z Hz. simpl in Hz. lia.
Qed.

(** In an ascending list the last element is the maximum. *)
Lemma ascending_last_max (zs : list Z) m :
  ascending zs = true -> last_elem zs = Some m -> Forall (fun y => y <= m)%Z zs.
Proof.
  revert m. induction zs as [|x xs IH]; intros m Hasc Hlast; [constructor|].
  destruct (ascending_cons x xs Hasc) as [Hxs Hall].
  destruct xs as [|y ys].
  - simpl in Hlast. injection Hlast as ->. repeat constructor. lia.
  - assert (Hm : last_elem (y :: ys) = Some m) by (rewrite <- (last_elem_cons2 x); exact Hlast).
    pose proof (IH m Hxs Hm) as Hle.
    constructor; [|exact Hle].
    apply last_elem_Some in Hm.
    rewrite Forall_forall in Hall, Hle.
    specialize (Hall m Hm). lia.
Qed.

(** ** Tactics *)

(** Invert a hypothesis and clean up. *)
Ltac invc H := inversion H; subst; clear H.

(** Split a boolean test of the goal, with its equation. *)
Ltac case_bool_goal :=
  match goal with
  | |- context [if ?b then _ else _] =>
      let E := fresh "E" in destruct b eqn:E
  end.

(** [lia] after turning division and remainder by constants into
    equations. *)
Ltac zlia := Z.to_euclidean_division_equations; lia.

(** Decide the integer comparisons of the goal, discarding the branches
    whose conditions contradict the context. *)
Ltac zbools :=
  repeat match goal with
  | |- context [Z.ltb ?x ?y] => destruct (Z.ltb_spec x y); try zlia
  | |- context [Z.leb ?x ?y] => destruct (Z.leb_spec x y); try zlia
  | |- context [Z.eqb ?x ?y] => destruct (Z.eqb_spec x y); try zlia
  end.

(** Induction on a list with the hypothesis for every shorter list, for
    functions that consume several elements at a time. *)
Lemma list_len_ind {A} (P : list A -> Prop) :
  (forall l, (forall l', List.length l' < List.length l -> P l') -> P l) -> forall l, P l.
Proof.
  intros Hstep l. remember (List.length l) as n eqn:Hn. revert l Hn.
  induction n as [n IH] using lt_wf_ind. intros l ->. apply Hstep.
  intros l' Hl'. by apply (IH (List.length l')).
Qed.

(** Case analysis of an integer in a small interval, one concrete value
    per goal. *)
Lemma Z_enum (lo : Z) (n : nat) (x : Z) : (lo <= x < lo + Z.of_nat n)%Z -> x ∈ seqZ lo (Z.of_nat n).
Proof. intros. apply elem_of_seqZ. lia. Qed.

Ltac enum_Z x lo n :=
  let H := fresh in
  assert (H : x ∈ seqZ lo (Z.of_nat n)) by (apply Z_enum; lia);
  vm_compute in H;
  repeat (apply elem_of_cons in H as [->|H]; [|]); [..|apply elem_of_nil in H; contradiction].
