(* ===== verification/JsString.v ===== *)
(** * JavaScript string built-ins used by the dispatcher

    [String.prototype.split] with a one-character separator,
    [Array.prototype.join], [includes], [startsWith], [substring(1)],
    [toLowerCase] (ASCII letters) and [Number.prototype.toString] on
    integers, on [String.string].  These are the language's built-ins,
    not code of the repository; [processUpdate] calls them on callback
    data and message texts.  The lemmas: [split] never returns an empty
    array, [join] undoes [split], and destructuring
    [const [command, ...params] = s.split(c)] followed by
    [params.join(c)] is the split of [s] at its first [c]. *)

From S2P Require Import Prelude.

Module Js.

(** [s.split(c)]: every occurrence of [c] ends a piece; the result has
    one more piece than there are occurrences. *)
Fixpoint split (c : ascii) (s : string) : list string :=
  match s with
  | EmptyString => [EmptyString]
  | String a s' =>
      let rest := split c s' in
      if Ascii.eqb a c then EmptyString :: rest
      else match rest with
           | r :: rs => String a r :: rs
           | [] => [String a EmptyString]
           end
  end.

(** [xs.join(sep)]. *)
Fixpoint join (sep : string) (xs : list string) : string :=
  match xs with
  | [] => EmptyString
  | [x] => x
  | x :: xs' => x +:+ sep +:+ join sep xs'
  end.

(** [s.includes(c)] for a one-character [c]. *)
Fixpoint includes (c : ascii) (s : string) : bool :=
  match s with
  | EmptyString => false
  | String a s' => Ascii.eqb a c || includes c s'
  end.

(** [s.startsWith(p)]. *)
Definition startsWith (p s : string) : bool := String.prefix p s.

(** [s.endsWith(c)] for a one-character [c]. *)
Fixpoint endsWith (c : ascii) (s : string) : bool :=
  match s with
  | EmptyString => false
  | String a EmptyString => Ascii.eqb a c
  | String _ s' => endsWith c s'
  end.

(** [s.substring(1)]. *)
Definition substring1 (s : string) : string :=
  match s with
  | EmptyString => EmptyString
  | String _ s' => s'
  end.

(** [s.toLowerCase()] on ASCII letters. *)
Definition lower_char (a : ascii) : ascii :=
  let n := nat_of_ascii a in
  if (65 <=? n) && (n <=? 90) then ascii_of_nat (n + 32) else a.

Fixpoint toLowerCase (s : string) : string :=
  match s with
  | EmptyString => EmptyString
  | String a s' => String (lower_char a) (toLowerCase s')
  end.

(** [s.toUpperCase()] on ASCII letters. *)
Definition upper_char (a : ascii) : ascii :=
  let n := nat_of_ascii a in
  if (97 <=? n) && (n <=? 122) then ascii_of_nat (n - 32) else a.

Fixpoint toUpperCase (s : string) : string :=
  match s with
  | EmptyString => EmptyString
  | String a s' => String (upper_char a) (toUpperCase s')
  end.

(** The white space [trim] removes, on ASCII: tab, line feed, vertical
    tab, form feed, carriage return and space. *)
Definition is_ws (a : ascii) : bool :=
  let n := nat_of_ascii a in ((9 <=? n) && (n <=? 13)) || (n =? 32).

Fixpoint trim_start (s : string) : string :=
  match s with
  | EmptyString => EmptyString
  | String a s' => if is_ws a then trim_start s' else s
  end.

Fixpoint rev_onto (s acc : string) : string :=
  match s with
  | EmptyString => acc
  | String a s' => rev_onto s' (String a acc)
  end.

Definition str_rev (s : string) : string := rev_onto s EmptyString.

(** [s.trim()]. *)
Definition trim (s : string) : string :=
  str_rev (trim_start (str_rev (trim_start s))).

(** The text built by appending the pieces in order ([s += piece] in a
    loop, or [reduce]). *)
Definition concat_all (pieces : list string) : string := fold_right String.append EmptyString pieces.

(** [n.toString()] for an integer-valued number. *)
Definition numToString (n : Z) : string := pretty n.

(** The piece before the first [c] and the text after it. *)
Fixpoint split_first (c : ascii) (s : string) : option (string * string) :=
  match s with
  | EmptyString => None
  | String a s' =>
      if Ascii.eqb a c then Some (EmptyString, s')
      else match split_first c s' with
           | Some (b, r) => Some (String a b, r)
           | None => None
           end
  end.

(** [const [head, ...rest] = s.split(c)] followed by [rest.join(c)]. *)
Definition head_and_rest (c : ascii) (s : string) : string * string :=
  match split c s with
  | h :: t => (h, join (String c EmptyString) t)
  | [] => (EmptyString, EmptyString)
  end.

(** [s.replace(c, d)] with one-character strings: the first [c] only. *)
Fixpoint replace1 (c d : ascii) (s : string) : string :=
  match s with
  | EmptyString => EmptyString
  | String a s' => if Ascii.eqb a c then String d s' else String a (replace1 c d s')
  end.

(** [s.padStart(n, c)] with a one-character [c]. *)
Definition padStart (n : nat) (c : ascii) (s : string) : string :=
  String.append (String.concat "" (repeat (String c EmptyString) (n - String.length s))) s.

(** [s.lastIndexOf(c)] for a one-character [c]: the index of its last
    occurrence, [None] for [-1]. *)
Fixpoint lastIndexOf (c : ascii) (s : string) : option nat :=
  match s with
  | EmptyString => None
  | String a s' =>
      match lastIndexOf c s' with
      | Some i => Some (S i)
      | None => if Ascii.eqb a c then Some 0 else None
      end
  end.

Lemma split_not_nil c s : split c s <> [].
Proof. destruct s as [|a s]; simpl; [done|]. destruct (Ascii.eqb a c); [done|]. by destruct (split c s). Qed.

Lemma join_cons sep x y ys : join sep (x :: y :: ys) = x +:+ sep +:+ join sep (y :: ys).
Proof. reflexivity. Qed.

(** Round trip: joining the pieces with the separator gives back [s]. *)
Lemma join_split c s : join (String c EmptyString) (split c s) = s.
Proof.
  induction s as [|a s IH]; [done|]. cbn [split].
  pose proof (split_not_nil c s) as Hnn.
  destruct (split c s) as [|r rs]; [done|].
  destruct (Ascii.eqb_spec a c) as [->|Hne].
  - rewrite join_cons, IH. reflexivity.
  - destruct rs as [|r' rs]; [simpl in *; by rewrite IH|].
    rewrite join_cons in IH |- *. simpl. f_equal. rewrite <- IH. reflexivity.
Qed.

Lemma includes_split_first c s : includes c s = true <-> is_Some (split_first c s).
Proof.
  induction s as [|a s IH]; simpl; [split; [done | by intros []]|].
  destruct (Ascii.eqb_spec a c); simpl; [split; eauto|].
  rewrite IH. destruct (split_first c s) as [[b r]|]; split; eauto; by intros [].
Qed.

(** Destructuring the split and re-joining the tail is the split at the
    first separator. *)
Lemma head_and_rest_first c s b r :
  split_first c s = Some (b, r) -> head_and_rest c s = (b, r).
Proof.
  unfold head_and_rest. revert b r.
  induction s as [|a s IH]; intros b r H; simpl in *; [done|].
  destruct (Ascii.eqb_spec a c) as [->|Hne].
  - injection H as <- <-. pose proof (join_split c s) as J.
    simpl. by rewrite J.
  - destruct (split_first c s) as [[b' r']|] eqn:E; [|done].
    injection H as <- <-. specialize (IH b' r' eq_refl).
    destruct (split c s) as [|h t]; by injection IH as <- <-.
Qed.

(** Without a separator the split is the whole string. *)
Lemma split_no_sep c s : includes c s = false -> split c s = [s].
Proof.
  induction s as [|a s IH]; simpl; [done|].
  destruct (Ascii.eqb a c); [done|]. simpl. intros H. by rewrite IH.
Qed.

Lemma startsWith_cons (a : ascii) s : startsWith (String a EmptyString) (String a s) = true.
Proof. unfold startsWith. destruct s; simpl; by destruct (Ascii.ascii_dec a a). Qed.

(** A separator ends the last piece of what precedes it. *)
Lemma split_app_sep c s1 s2 : split c (s1 +:+ String c s2) = split c s1 ++ split c s2.
Proof.
  induction s1 as [|a s1 IH].
  - change (EmptyString +:+ String c s2) with (String c s2). cbn [split].
    destruct (Ascii.eqb c c) eqn:E; [done|]. by rewrite Ascii.eqb_refl in E.
  - change (String a s1 +:+ String c s2) with (String a (s1 +:+ String c s2)). cbn [split]. rewrite IH. destruct (Ascii.eqb a c); [done|].
    destruct (split c s1) as [|r rs] eqn:E; [by apply split_not_nil in E|]. done.
Qed.

(** ** Concatenation *)


Lemma str_app_cons x (a b : string) : String x a +:+ b = String x (a +:+ b).
Proof. reflexivity. Qed.

Lemma str_app_nil_l (a : string) : EmptyString +:+ a = a.
Proof. reflexivity. Qed.

Lemma str_app_assoc (a b c : string) : (a +:+ b) +:+ c = a +:+ (b +:+ c).
Proof. induction a as [|x a IH]; [done|]. by rewrite !str_app_cons, IH. Qed.

Lemma str_app_nil_r (a : string) : a +:+ EmptyString = a.
Proof. induction a as [|x a IH]; [done|]. by rewrite str_app_cons, IH. Qed.

Lemma str_length_app (a b : string) : String.length (a +:+ b) = String.length a + String.length b.
Proof. induction a as [|x a IH]; [done|]. rewrite str_app_cons. simpl. by rewrite IH. Qed.

Lemma lastIndexOf_none c s : includes c s = false -> lastIndexOf c s = None.
Proof.
  induction s as [|a s IH]; [done|]. simpl. intros [Ha Hs]%orb_false_iff. by rewrite IH, Ha.
Qed.

(** The last [c] of [s ++ c ++ t], where [t] has none, is at the length of [s]. *)
Lemma lastIndexOf_app_last c s t :
  includes c t = false -> lastIndexOf c (s +:+ String c t) = Some (String.length s).
Proof.
  intros Ht. induction s as [|a s IH]; simpl.
  - rewrite lastIndexOf_none by done. by rewrite Ascii.eqb_refl.
  - by rewrite IH.
Qed.

Lemma substring_prefix (s t : string) : String.substring 0 (String.length s) (s +:+ t) = s.
Proof. induction s as [|a s IH]; simpl; [by destruct t|]. by rewrite IH. Qed.

Lemma endsWith_app_r c s t : t <> EmptyString -> endsWith c (s +:+ t) = endsWith c t.
Proof.
  intros Ht. induction s as [|a s IH]; [done|]. rewrite str_app_cons. simpl.
  destruct (s +:+ t) eqn:E; [|exact IH]. destruct s, t; done.
Qed.

Lemma endsWith_snoc c s : endsWith c (s +:+ String c EmptyString) = true.
Proof. rewrite endsWith_app_r by done. simpl. apply Ascii.eqb_refl. Qed.

Lemma endsWith_includes c s : endsWith c s = true -> includes c s = true.
Proof.
  induction s as [|a s IH]; [done|]. simpl. intros H.
  destruct s as [|b s]; [by rewrite H|]. by rewrite IH, orb_true_r.
Qed.

End Js.

#[export] Hint Resolve Js.split_not_nil : tah.
#[export] Hint Rewrite Js.join_split : tah_rw.
