(* ===== verification/Encryption.v ===== *)
(** * The encryption utilities

    [src/unnamed/part_007], lines 616-718 ([src/utils/encryption.js]):
    [xorEncrypt] XORs each UTF-16 code unit of the text with the key's,
    the key repeated; [toBase64] is [btoa(unescape(encodeURIComponent
    text))] and [fromBase64] is [decodeURIComponent(escape(atob b64))],
    each returning [''] when the built-in throws; [encrypt] and
    [decrypt] compose them; [maskSensitive] keeps the first and last
    characters.  [telegramAPI.js] shows [encrypt(deviceId)] to the chat.

    A JavaScript string is the list of its UTF-16 code units, each a [Z]
    in [0, 65536).  The built-ins follow ECMA-262 ([encodeURIComponent],
    [decodeURIComponent], and [escape]/[unescape] of Annex B) and the
    HTML standard ([btoa], the forgiving-base64 [atob]); the UTF-8 bytes
    of a code point are written with division and remainder by powers of
    two. *)

From S2P Require Import Prelude.

Module Encryption.

Local Open Scope Z_scope.

Definition js_string := list Z.

(** The code units of an ASCII literal. *)
Definition of_string (s : string) : js_string :=
  map (fun a => Z.of_nat (nat_of_ascii a)) (list_ascii_of_string s).

Definition DEFAULT_KEY : js_string := of_string "TelegramMonitorEncryptionKey".

(** [key.charCodeAt(i % key.length)]; for an empty key this is [NaN],
    which [^] turns into [0]. *)
Definition key_code (key : js_string) (i : nat) : Z :=
  match key with [] => 0 | _ => nth (Nat.modulo i (List.length key)) key 0 end.

(** [String.fromCharCode(text.charCodeAt(i) ^ key.charCodeAt(...))]:
    [fromCharCode] keeps the low 16 bits. *)
Definition xorEncrypt (text key : js_string) : js_string :=
  match text with
  | [] => []
  | _ => imap (fun i c => Z.land (Z.lxor c (key_code key i)) 65535) text
  end.

Definition xorDecrypt (text key : js_string) : js_string := xorEncrypt text key.

(** ** UTF-16 and UTF-8 *)

Definition is_high (c : Z) : bool := (55296 <=? c) && (c <=? 56319).
Definition is_low (c : Z) : bool := (56320 <=? c) && (c <=? 57343).

(** The code point of a surrogate pair. *)
Definition pair_cp (hi lo : Z) : Z := 65536 + (hi - 55296) * 1024 + (lo - 56320).

(** The UTF-8 bytes of a code point. *)
Definition utf8_bytes (cp : Z) : list Z :=
  if cp <? 128 then [cp]
  else if cp <? 2048 then [192 + cp / 64; 128 + cp mod 64]
  else if cp <? 65536 then [224 + cp / 4096; 128 + (cp / 64) mod 64; 128 + cp mod 64]
  else [240 + cp / 262144; 128 + (cp / 4096) mod 64; 128 + (cp / 64) mod 64; 128 + cp mod 64].

(** The code units of a code point. *)
Definition utf16_units (cp : Z) : js_string :=
  if cp <? 65536 then [cp] else [55296 + (cp - 65536) / 1024; 56320 + (cp - 65536) mod 1024].

(** ** [encodeURIComponent] and [unescape] *)

Definition in_range (lo hi c : Z) : bool := (lo <=? c) && (c <=? hi).

Definition is_alnum (c : Z) : bool := in_range 65 90 c || in_range 97 122 c || in_range 48 57 c.

(** The characters [encodeURIComponent] leaves alone: letters, digits
    and [- _ . ! ~ * ' ( )]. *)
Definition uri_unreserved (c : Z) : bool :=
  is_alnum c || bool_decide (c ∈ [45; 95; 46; 33; 126; 42; 39; 40; 41]).

(** An upper-case hexadecimal digit. *)
Definition hex_digit (n : Z) : Z := if n <? 10 then 48 + n else 55 + n.

Definition percent (b : Z) : js_string := [37; hex_digit (b / 16); hex_digit (b mod 16)].

Definition escape_cp (cp : Z) : js_string := List.concat (map percent (utf8_bytes cp)).

(** A lone surrogate throws a [URIError]. *)
Fixpoint encodeURIComponent (s : js_string) : option js_string :=
  match s with
  | [] => Some []
  | c :: rest =>
      if uri_unreserved c then cons c <$> encodeURIComponent rest
      else if is_low c then None
      else if is_high c then
        match rest with
        | d :: rest' =>
            if is_low d then app (escape_cp (pair_cp c d)) <$> encodeURIComponent rest' else None
        | [] => None
        end
      else app (escape_cp c) <$> encodeURIComponent rest
  end.

Definition hex_val (c : Z) : option Z :=
  if in_range 48 57 c then Some (c - 48)
  else if in_range 65 70 c then Some (c - 55)
  else if in_range 97 102 c then Some (c - 87)
  else None.

Definition hex2 (a b : Z) : option Z :=
  match hex_val a, hex_val b with Some x, Some y => Some (16 * x + y) | _, _ => None end.

Definition hex4 (a b c d : Z) : option Z :=
  match hex2 a b, hex2 c d with Some x, Some y => Some (256 * x + y) | _, _ => None end.

(** Annex B [unescape]: [%uXXXX] and [%XX] become the unit they name;
    any other [%] stays. *)
Fixpoint unescape (s : js_string) : js_string :=
  match s with
  | [] => []
  | c :: tl =>
      if c =? 37 then
        match tl with
        | u :: ((a :: tl3) as tl2) =>
            let pct2 := match hex2 u a with
                        | Some v => v :: unescape tl3
                        | None => 37 :: unescape tl2
                        end in
            match u =? 117, tl3 with
            | true, b :: c' :: d :: rest =>
                match hex4 a b c' d with Some v => v :: unescape rest | None => pct2 end
            | _, _ => pct2
            end
        | _ => 37 :: unescape tl
        end
      else c :: unescape tl
  end.

(** ** [btoa] and [atob] *)

(** The base64 alphabet [A-Z a-z 0-9 + /]. *)
Definition b64_char (n : Z) : Z :=
  if n <? 26 then 65 + n else if n <? 52 then 71 + n else if n <? 62 then n - 4
  else if n =? 62 then 43 else 47.

Definition b64_val (c : Z) : option Z :=
  if in_range 65 90 c then Some (c - 65)
  else if in_range 97 122 c then Some (c - 71)
  else if in_range 48 57 c then Some (c + 4)
  else if c =? 43 then Some 62
  else if c =? 47 then Some 63
  else None.

(** The sextets of a byte string, three bytes to four sextets, the last
    group short. *)
Fixpoint sextets (bs : list Z) : list Z :=
  match bs with
  | [] => []
  | [a] => [a / 4; (a mod 4) * 16]
  | [a; b] => [a / 4; (a mod 4) * 16 + b / 16; (b mod 16) * 4]
  | a :: b :: c :: rest => [a / 4; (a mod 4) * 16 + b / 16; (b mod 16) * 4 + c / 64; c mod 64] ++ sextets rest
  end.

(** The [=] padding of the last group. *)
Definition padding (bs : list Z) : nat :=
  match Nat.modulo (List.length bs) 3 with 1%nat => 2 | 2%nat => 1 | _ => 0 end.

(** [btoa(s)] throws an [InvalidCharacterError] on a unit above 255. *)
Definition btoa (s : js_string) : option js_string :=
  if forallb (fun c => (0 <=? c) && (c <=? 255)) s
  then Some (map b64_char (sextets s) ++ replicate (padding s) 61)
  else None.

(** The bytes of a list of sextets; the bits of a short last group
    that do not fill a byte are dropped. *)
Fixpoint decode_sextets (xs : list Z) : list Z :=
  match xs with
  | a :: b :: c :: d :: rest =>
      [a * 4 + b / 16; (b mod 16) * 16 + c / 4; (c mod 4) * 64 + d] ++ decode_sextets rest
  | [a; b; c] => [a * 4 + b / 16; (b mod 16) * 16 + c / 4]
  | [a; b] => [a * 4 + b / 16]
  | _ => []
  end.

(** ASCII whitespace: tab, line feed, form feed, carriage return,
    space. *)
Definition ascii_whitespace (c : Z) : bool := bool_decide (c ∈ [9; 10; 12; 13; 32]).

(** Remove one or two trailing [=]. *)
Definition strip_padding (s : js_string) : js_string :=
  match reverse s with
  | x :: y :: r => if (x =? 61) && (y =? 61) then reverse r else if x =? 61 then reverse (y :: r) else s
  | [x] => if x =? 61 then [] else s
  | [] => s
  end.

(** The forgiving-base64 decode of [atob]; failure throws an
    [InvalidCharacterError]. *)
Definition atob (s : js_string) : option js_string :=
  let s1 := filter (fun c => negb (ascii_whitespace c)) s in
  let s2 := if Nat.eqb (Nat.modulo (List.length s1) 4) 0 then strip_padding s1 else s1 in
  if Nat.eqb (Nat.modulo (List.length s2) 4) 1 then None
  else decode_sextets <$> mapM b64_val s2.

(** ** [escape] and [decodeURIComponent] *)

(** The characters [escape] leaves alone: letters, digits and
    [@ * _ + - . /]. *)
Definition escape_unreserved (c : Z) : bool :=
  is_alnum c || bool_decide (c ∈ [64; 42; 95; 43; 45; 46; 47]).

Definition escape (s : js_string) : js_string :=
  List.concat (map (fun c =>
    if escape_unreserved c then [c]
    else if c <? 256 then percent c
    else [37; 117; hex_digit (c / 4096); hex_digit ((c / 256) mod 16);
          hex_digit ((c / 16) mod 16); hex_digit (c mod 16)]) s).

(** The string read by [decodeURIComponent]: a unit copied as it is, or
    a [%XX] byte. *)
Inductive token := Chr (c : Z) | Pct (b : Z).

(** A [%] not followed by two hexadecimal digits throws a [URIError]. *)
Fixpoint tokens (s : js_string) : option (list token) :=
  match s with
  | [] => Some []
  | c :: tl =>
      if c =? 37 then
        match tl with
        | a :: b :: rest =>
            match hex2 a b with Some v => cons (Pct v) <$> tokens rest | None => None end
        | _ => None
        end
      else cons (Chr c) <$> tokens tl
  end.

Definition is_cont (b : Z) : bool := in_range 128 191 b.

(** The code point of a sequence of UTF-8 bytes, if it is the shortest
    encoding of a scalar value. *)
Definition valid_cp (min v : Z) : option Z :=
  if (v <? min) || in_range 55296 57343 v || (1114111 <? v) then None else Some v.

(** The UTF-8 decoding of [decodeURIComponent]: a byte below [0x80] is
    a character; a lead byte announces [n] continuation bytes, each of
    which must be a [%XX] of the form [10xxxxxx]; an invalid sequence
    throws a [URIError]. *)
Fixpoint utf8_tokens (ts : list token) : option js_string :=
  match ts with
  | [] => Some []
  | Chr c :: rest => cons c <$> utf8_tokens rest
  | Pct b :: rest =>
      if b <? 128 then cons b <$> utf8_tokens rest
      else if b <? 192 then None
      else if b <? 224 then
        match rest with
        | Pct b1 :: rest' =>
            if is_cont b1 then
              match valid_cp 128 ((b - 192) * 64 + (b1 - 128)) with
              | Some v => app (utf16_units v) <$> utf8_tokens rest'
              | None => None
              end
            else None
        | _ => None
        end
      else if b <? 240 then
        match rest with
        | Pct b1 :: Pct b2 :: rest' =>
            if is_cont b1 && is_cont b2 then
              match valid_cp 2048 ((b - 224) * 4096 + (b1 - 128) * 64 + (b2 - 128)) with
              | Some v => app (utf16_units v) <$> utf8_tokens rest'
              | None => None
              end
            else None
        | _ => None
        end
      else if b <? 248 then
        match rest with
        | Pct b1 :: Pct b2 :: Pct b3 :: rest' =>
            if is_cont b1 && is_cont b2 && is_cont b3 then
              match valid_cp 65536 ((b - 240) * 262144 + (b1 - 128) * 4096 + (b2 - 128) * 64 + (b3 - 128)) with
              | Some v => app (utf16_units v) <$> utf8_tokens rest'
              | None => None
              end
            else None
        | _ => None
        end
      else None
  end.

Definition decodeURIComponent (s : js_string) : option js_string :=
  tokens s ≫= utf8_tokens.

(** ** The exported functions *)

(** [try { return btoa(unescape(encodeURIComponent(text))) } catch { return '' }]. *)
Definition toBase64 (text : js_string) : js_string :=
  match encodeURIComponent text ≫= (fun e => btoa (unescape e)) with Some r => r | None => [] end.

(** [try { return decodeURIComponent(escape(atob(base64))) } catch { return '' }]. *)
Definition fromBase64 (b64 : js_string) : js_string :=
  match atob b64 ≫= (fun bin => decodeURIComponent (escape bin)) with Some r => r | None => [] end.

Definition encrypt (text key : js_string) : js_string := toBase64 (xorEncrypt text key).

Definition decrypt (encryptedText key : js_string) : js_string := xorDecrypt (fromBase64 encryptedText) key.

(** The literal of line 708 as the file has it: the three characters
    [U+00E2 U+20AC U+00A2], the UTF-8 bytes of a bullet read as
    Windows-1252. *)
Definition mask_literal : js_string := [226; 8364; 162].

(** [maskSensitive(text, visibleChars)]. *)
Definition maskSensitive (text : js_string) (visibleChars : nat) : js_string :=
  if bool_decide (text = []) || Nat.leb (List.length text) (visibleChars * 2) then text
  else
    let start := take visibleChars text in
    let end_ := drop (List.length text - visibleChars) text in
    let middle := List.concat (replicate (Nat.min 10 (List.length text - visibleChars * 2)) mask_literal) in
    start ++ middle ++ end_.

(** ** Specification-level notions *)

(** A code unit. *)
Definition unit_range (c : Z) : Prop := 0 <= c < 65536.

(** Well-formed UTF-16: every high surrogate is followed by a low one,
    and no low surrogate stands alone. *)
Fixpoint wf_utf16 (s : js_string) : bool :=
  match s with
  | [] => true
  | c :: rest =>
      if is_low c then false
      else if is_high c then
        match rest with d :: rest' => is_low d && wf_utf16 rest' | [] => false end
      else wf_utf16 rest
  end.

(** The UTF-8 bytes of a well-formed string. *)
Fixpoint utf8_of (s : js_string) : list Z :=
  match s with
  | [] => []
  | c :: rest =>
      if is_high c then
        match rest with d :: rest' => utf8_bytes (pair_cp c d) ++ utf8_of rest' | [] => [] end
      else utf8_bytes c ++ utf8_of rest
  end.

Definition byte_range (b : Z) : Prop := 0 <= b < 256.

(** How [decodeURIComponent] reads the [escape] of a byte. *)
Definition tok (b : Z) : token := if escape_unreserved b then Chr b else Pct b.

(** ** Lemmas *)

(** ** XOR *)

Lemma land_65535 x : 0 <= x < 65536 -> Z.land x 65535 = x.
Proof. intros. change 65535 with (Z.ones 16). rewrite Z.land_ones by lia. apply Z.mod_small. lia. Qed.

Lemma lxor_small a b : unit_range a -> unit_range b -> unit_range (Z.lxor a b).
Proof.
  unfold unit_range. intros Ha Hb.
  assert (E : Z.lxor a b = Z.lxor a b mod 2 ^ 16).
  { apply Z.bits_inj'. intros i Hi. destruct (Z.lt_ge_cases i 16).
    - by rewrite Z.mod_pow2_bits_low by lia.
    - rewrite Z.mod_pow2_bits_high, Z.lxor_spec by lia.
      rewrite <- (Z.mod_small a (2 ^ 16)), <- (Z.mod_small b (2 ^ 16)) by lia.
      by rewrite !Z.mod_pow2_bits_high by lia. }
  rewrite E. split; [apply Z.mod_pos_bound; lia|]. apply Z.mod_pos_bound. lia.
Qed.

Lemma xor_unit_inv c k :
  unit_range c -> unit_range k -> Z.land (Z.lxor (Z.land (Z.lxor c k) 65535) k) 65535 = c.
Proof.
  intros Hc Hk. rewrite (land_65535 (Z.lxor c k)) by (apply lxor_small; done).
  rewrite Z.lxor_assoc, Z.lxor_nilpotent, Z.lxor_0_r. apply land_65535, Hc.
Qed.

Lemma key_code_range key i : Forall unit_range key -> unit_range (key_code key i).
Proof.
  intros Hk. unfold key_code. destruct key as [|k ks]; [unfold unit_range; lia|].
  rewrite Forall_forall in Hk. apply Hk, list_elem_of_In, nth_In, Nat.mod_upper_bound. simpl. lia.
Qed.

Lemma imap_imap_id (f g : nat -> Z -> Z) (l : list Z) :
  (forall i x, l !! i = Some x -> f i (g i x) = x) -> imap f (imap g l) = l.
Proof.
  intros H. apply list_eq. intros i. rewrite !list_lookup_imap.
  destruct (l !! i) eqn:E; simpl; [by rewrite H|done].
Qed.

Lemma Forall_lookup_range (l : list Z) i x : Forall unit_range l -> l !! i = Some x -> unit_range x.
Proof. intros Hl Hi. rewrite Forall_forall in Hl. by apply Hl, list_elem_of_lookup_2 with i. Qed.

Lemma xorEncrypt_imap text key :
  xorEncrypt text key = imap (fun i c => Z.land (Z.lxor c (key_code key i)) 65535) text.
Proof. by destruct text. Qed.

(** [xorDecrypt] undoes [xorEncrypt] for any key. *)
Lemma xorEncrypt_involutive text key :
  Forall unit_range text -> Forall unit_range key -> xorDecrypt (xorEncrypt text key) key = text.
Proof.
  intros Ht Hk. unfold xorDecrypt. rewrite !xorEncrypt_imap. apply imap_imap_id. intros i x Hx.
  apply xor_unit_inv; [exact (Forall_lookup_range text i x Ht Hx)|apply key_code_range, Hk].
Qed.

Lemma xorEncrypt_range text key :
  Forall unit_range text -> Forall unit_range key -> Forall unit_range (xorEncrypt text key).
Proof.
  intros Ht Hk. rewrite xorEncrypt_imap. apply Forall_lookup. intros i y Hy. apply list_lookup_imap_Some in Hy as (x & Hx & ->).
  rewrite land_65535; apply lxor_small; eauto using Forall_lookup_range, key_code_range.
Qed.

(** ** Surrogates *)

Lemma is_high_div c : unit_range c -> is_high c = (c / 1024 =? 54).
Proof. unfold unit_range, is_high. intros. zbools; reflexivity. Qed.

Lemma is_low_div c : unit_range c -> is_low c = (c / 1024 =? 55).
Proof. unfold unit_range, is_low. intros. zbools; reflexivity. Qed.

Lemma lxor_div1024 c k : 0 <= c -> 0 <= k < 1024 -> Z.lxor c k / 1024 = c / 1024.
Proof.
  intros Hc Hk. change 1024 with (2 ^ 10).
  rewrite <- !Z.shiftr_div_pow2, Z.shiftr_lxor by lia.
  rewrite (Z.shiftr_div_pow2 k), Z.div_small by lia. apply Z.lxor_0_r.
Qed.

(** XOR with a unit below [0x400] keeps the surrogate class. *)
Lemma xor_class c k :
  unit_range c -> 0 <= k < 1024 ->
  is_high (Z.land (Z.lxor c k) 65535) = is_high c /\ is_low (Z.land (Z.lxor c k) 65535) = is_low c.
Proof.
  intros Hc Hk. assert (Hr : unit_range (Z.lxor c k)) by (apply lxor_small; unfold unit_range in *; lia).
  rewrite land_65535 by exact Hr.
  rewrite (is_high_div c), (is_low_div c), is_high_div, is_low_div, lxor_div1024 by (unfold unit_range in *; lia).
  done.
Qed.

(** A map of the units that keeps their surrogate class keeps
    well-formedness. *)
Lemma wf_utf16_imap (g : nat -> Z -> Z) s :
  (forall i c, unit_range c -> is_high (g i c) = is_high c /\ is_low (g i c) = is_low c) ->
  Forall unit_range s -> wf_utf16 (imap g s) = wf_utf16 s.
Proof.
  revert g. induction s as [s IH] using list_len_ind. intros g Hg Hs.
  destruct s as [|c rest]; [done|]. apply Forall_cons in Hs as [Hc Hrest].
  rewrite imap_cons. cbn [wf_utf16]. destruct (Hg 0%nat c Hc) as [-> ->].
  destruct (is_low c); [done|]. destruct (is_high c).
  - destruct rest as [|d rest']; [done|]. apply Forall_cons in Hrest as [Hd Hrest'].
    rewrite imap_cons. unfold compose. destruct (Hg 1%nat d Hd) as [_ ->]. simpl.
    f_equal. apply IH; [simpl; lia| |done]. intros i x Hx. apply Hg, Hx.
  - apply IH; [simpl; lia| |done]. intros i x Hx. apply Hg, Hx.
Qed.

Lemma xorEncrypt_wf text key :
  Forall unit_range text -> Forall (fun k => 0 <= k < 1024) key ->
  wf_utf16 (xorEncrypt text key) = wf_utf16 text.
Proof.
  intros Ht Hk. rewrite xorEncrypt_imap. apply wf_utf16_imap; [|done]. intros i x Hx. apply xor_class; [done|].
  unfold key_code. destruct key as [|k0 ks]; [lia|].
  rewrite Forall_forall in Hk. apply Hk, list_elem_of_In, nth_In, Nat.mod_upper_bound. simpl. lia.
Qed.

(** ** Percent-encoding *)

Lemma member_Forall (P : Z -> Prop) (l : list Z) c :
  Forall P l -> bool_decide (c ∈ l) = true -> P c.
Proof. rewrite Forall_forall. intros Hl Hc. apply Hl. by apply bool_decide_eq_true in Hc. Qed.

Lemma uri_unreserved_ascii c : uri_unreserved c = true -> 0 <= c < 128 /\ c <> 37.
Proof.
  unfold uri_unreserved, is_alnum, in_range. intros H.
  apply orb_true_iff in H as [H|H].
  - rewrite !orb_true_iff, !andb_true_iff, !Z.leb_le in H. lia.
  - eapply (member_Forall (fun x => 0 <= x < 128 /\ x <> 37) _ c _ H). Unshelve. repeat constructor; lia.
Qed.

Lemma escape_unreserved_ascii c : escape_unreserved c = true -> 0 <= c < 128 /\ c <> 37.
Proof.
  unfold escape_unreserved, is_alnum, in_range. intros H.
  apply orb_true_iff in H as [H|H].
  - rewrite !orb_true_iff, !andb_true_iff, !Z.leb_le in H. lia.
  - eapply (member_Forall (fun x => 0 <= x < 128 /\ x <> 37) _ c _ H). Unshelve. repeat constructor; lia.
Qed.

Lemma hex_val_digit n : 0 <= n < 16 -> hex_val (hex_digit n) = Some n.
Proof. intros. unfold hex_val, hex_digit, in_range. zbools; f_equal; lia. Qed.

Lemma hex_digit_not_u n : 0 <= n < 16 -> (hex_digit n =? 117) = false.
Proof. intros. unfold hex_digit. zbools; reflexivity. Qed.

Lemma hex2_percent b : byte_range b -> hex2 (hex_digit (b / 16)) (hex_digit (b mod 16)) = Some b.
Proof. unfold byte_range. intros. unfold hex2. rewrite !hex_val_digit by zlia. f_equal. zlia. Qed.

Lemma unescape_percent b rest : byte_range b -> unescape (percent b ++ rest) = b :: unescape rest.
Proof.
  intros Hb. unfold percent. cbn [app unescape Z.eqb Pos.eqb].
  rewrite hex2_percent, hex_digit_not_u by (unfold byte_range in *; zlia). reflexivity.
Qed.

Lemma unescape_bytes bs rest :
  Forall byte_range bs -> unescape (List.concat (map percent bs) ++ rest) = bs ++ unescape rest.
Proof.
  induction 1 as [|b bs Hb Hbs IH]; [done|].
  cbn [map List.concat]. by rewrite <- app_assoc, unescape_percent, IH.
Qed.

Lemma utf8_bytes_range cp : 0 <= cp < 1114112 -> Forall byte_range (utf8_bytes cp).
Proof. unfold utf8_bytes, byte_range. intros. zbools; repeat constructor; zlia. Qed.

Lemma unescape_escape_cp cp rest :
  0 <= cp < 1114112 -> unescape (escape_cp cp ++ rest) = utf8_bytes cp ++ unescape rest.
Proof. intros. apply unescape_bytes, utf8_bytes_range. done. Qed.

Lemma unescape_unreserved c rest : uri_unreserved c = true -> unescape (c :: rest) = c :: unescape rest.
Proof.
  intros H. apply uri_unreserved_ascii in H. cbn [unescape].
  by rewrite (proj2 (Z.eqb_neq c 37)) by lia.
Qed.

Lemma utf8_bytes_ascii c : 0 <= c < 128 -> utf8_bytes c = [c].
Proof. unfold utf8_bytes. intros. zbools. reflexivity. Qed.

Lemma pair_cp_range c d : is_high c = true -> is_low d = true -> 65536 <= pair_cp c d < 1114112.
Proof.
  unfold is_high, is_low, pair_cp. rewrite !andb_true_iff, !Z.leb_le. lia.
Qed.

Lemma not_surrogate c : is_high c = false -> is_low c = false -> ~ (55296 <= c <= 57343).
Proof. unfold is_high, is_low. rewrite !andb_false_iff, !Z.leb_gt. lia. Qed.

(** [unescape(encodeURIComponent(s))] is the UTF-8 encoding of a
    well-formed [s]. *)
Lemma encode_unescape s :
  Forall unit_range s -> wf_utf16 s = true ->
  exists e, encodeURIComponent s = Some e /\ unescape e = utf8_of s.
Proof.
  induction s as [s IH] using list_len_ind. intros Hs Hwf.
  destruct s as [|c rest]; [by exists []|]. apply Forall_cons in Hs as [Hc Hrest].
  cbn [encodeURIComponent wf_utf16 utf8_of] in *.
  destruct (uri_unreserved c) eqn:U.
  - pose proof (uri_unreserved_ascii c U) as Ha.
    assert (is_low c = false /\ is_high c = false) as [Hl Hh]
      by (unfold is_low, is_high; split; zbools; reflexivity).
    rewrite Hl, Hh in *. destruct (IH rest) as (e & He & Hu); [simpl; lia|done|done|].
    exists (c :: e). rewrite He. split; [done|].
    by rewrite unescape_unreserved, Hu, utf8_bytes_ascii by (done || lia).
  - destruct (is_low c) eqn:Hl; [done|]. destruct (is_high c) eqn:Hh.
    + destruct rest as [|d rest']; [done|]. apply andb_prop in Hwf as [Hd Hwf].
      apply Forall_cons in Hrest as [_ Hrest']. rewrite Hd.
      destruct (IH rest') as (e & He & Hu); [simpl; lia|done|done|].
      exists (escape_cp (pair_cp c d) ++ e). rewrite He. split; [done|].
      rewrite unescape_escape_cp, Hu; [done|]. pose proof (pair_cp_range c d Hh Hd). lia.
    + destruct (IH rest) as (e & He & Hu); [simpl; lia|done|done|].
      exists (escape_cp c ++ e). rewrite He. split; [done|].
      rewrite unescape_escape_cp, Hu; [done|]. unfold unit_range in Hc. lia.
Qed.

(** ** Base64 *)

Lemma b64_roundtrip n : 0 <= n < 64 -> b64_val (b64_char n) = Some n.
Proof. intros. unfold b64_val, b64_char, in_range. zbools; f_equal; lia. Qed.

Lemma b64_char_range n : 0 <= n < 64 -> 43 <= b64_char n <= 122 /\ b64_char n <> 61.
Proof. intros. unfold b64_char. zbools; lia. Qed.

Lemma not_member (c : Z) (l : list Z) : Forall (fun x => x <> c) l -> bool_decide (c ∈ l) = false.
Proof.
  intros Hl. apply bool_decide_eq_false_2. intros Hin.
  rewrite Forall_forall in Hl. by apply (Hl c Hin).
Qed.

Lemma filter_id_Forall (P : Z -> Prop) `{!forall x, Decision (P x)} (l : list Z) :
  Forall P l -> filter P l = l.
Proof. induction 1; [done|]. rewrite filter_cons_True; [f_equal|]; done. Qed.

Lemma sextets_range bs : Forall byte_range bs -> Forall (fun x => 0 <= x < 64) (sextets bs).
Proof.
  induction bs as [bs IH] using list_len_ind. intros Hbs.
  destruct bs as [|a [|b [|c rest]]]; repeat match goal with H : Forall _ (_ :: _) |- _ => apply Forall_cons in H as [? H] end;
    unfold byte_range in *; cbn [sextets]; repeat constructor; try zlia.
  apply IH; [simpl; lia|done].
Qed.

Lemma padding_cons3 a b c rest : padding (a :: b :: c :: rest) = padding rest.
Proof.
  unfold padding. cbn [List.length].
  replace (S (S (S (List.length rest)))) with (List.length rest + 1 * 3)%nat by lia.
  by rewrite Nat.Div0.mod_add.
Qed.

(** The sextets and the padding fill whole groups of four. *)
Lemma sextets_shape bs :
  exists q, (List.length (sextets bs) = 4 * q /\ padding bs = 0)%nat \/
            (List.length (sextets bs) = 4 * q + 2 /\ padding bs = 2)%nat \/
            (List.length (sextets bs) = 4 * q + 3 /\ padding bs = 1)%nat.
Proof.
  induction bs as [bs IH] using list_len_ind.
  destruct bs as [|a [|b [|c rest]]]; [exists 0%nat; auto..|].
  destruct (IH rest) as [q Hq]; [simpl; lia|]. exists (S q).
  rewrite padding_cons3. cbn [sextets]. rewrite length_app. simpl. lia.
Qed.

Lemma decode_sextets_sextets bs : Forall byte_range bs -> decode_sextets (sextets bs) = bs.
Proof.
  induction bs as [bs IH] using list_len_ind. intros Hbs.
  destruct bs as [|a [|b [|c rest]]]; repeat match goal with H : Forall _ (_ :: _) |- _ => apply Forall_cons in H as [? H] end;
    unfold byte_range in *; cbn [sextets decode_sextets app]; repeat f_equal; try zlia.
  apply IH; [simpl; lia|done].
Qed.

Lemma mapM_b64 xs : Forall (fun x => 0 <= x < 64) xs -> mapM b64_val (map b64_char xs) = Some xs.
Proof. induction 1 as [|x xs Hx _ IH]; [done|]. simpl. by rewrite b64_roundtrip, IH. Qed.

Lemma strip_padding_b64 xs p :
  Forall (fun x => 0 <= x < 64) xs -> (p <= 2)%nat ->
  strip_padding (map b64_char xs ++ replicate p 61) = map b64_char xs.
Proof.
  intros Hxs Hp. unfold strip_padding. rewrite reverse_app, reverse_replicate.
  assert (Hne : Forall (fun y => y <> 61) (reverse (map b64_char xs))).
  { apply Forall_reverse, Forall_map. eapply Forall_impl; [exact Hxs|]. intros x Hx. apply b64_char_range, Hx. }
  destruct p as [|[|[|p]]]; [| |cbn [replicate app]; by rewrite reverse_involutive|lia].
  - rewrite app_nil_r, app_nil_l.
    destruct (reverse (map b64_char xs)) as [|x [|y r]] eqn:E; [done| |];
      apply Forall_cons in Hne as [Hx _]; by rewrite (proj2 (Z.eqb_neq x 61)) by done.
  - cbn [replicate app]. destruct (reverse (map b64_char xs)) as [|y r] eqn:E.
    + apply (f_equal reverse) in E. rewrite reverse_involutive in E. by rewrite E.
    + apply Forall_cons in Hne as [Hy _]. rewrite (proj2 (Z.eqb_neq y 61)) by done.
      simpl. rewrite <- E. by rewrite reverse_involutive.
Qed.

Lemma btoa_bytes bs :
  Forall byte_range bs -> btoa bs = Some (map b64_char (sextets bs) ++ replicate (padding bs) 61).
Proof.
  intros Hbs. unfold btoa. replace (forallb _ bs) with true; [done|]. symmetry.
  apply forallb_forall. intros x Hx. rewrite Forall_forall in Hbs.
  apply list_elem_of_In, Hbs in Hx. unfold byte_range in Hx. apply andb_true_iff. lia.
Qed.

Lemma mod4_eq n q r : (r < 4)%nat -> n = (4 * q + r)%nat -> Nat.modulo n 4 = r.
Proof. intros Hr ->. rewrite Nat.add_comm, Nat.mul_comm, Nat.Div0.mod_add. by apply Nat.mod_small. Qed.

Lemma sextets_mod bs :
  Nat.modulo (List.length (sextets bs) + padding bs) 4 = 0%nat /\
  Nat.modulo (List.length (sextets bs)) 4 <> 1%nat /\ (padding bs <= 2)%nat.
Proof.
  destruct (sextets_shape bs) as [q [[-> ->]|[[-> ->]|[-> ->]]]]; split_and!; try lia;
    match goal with
    | |- context [Nat.modulo ?n 4] =>
        first [rewrite (mod4_eq n q 0) by lia | rewrite (mod4_eq n (S q) 0) by lia
              | rewrite (mod4_eq n q 2) by lia | rewrite (mod4_eq n q 3) by lia]
    end; lia.
Qed.

(** [atob] inverts [btoa] on byte strings. *)
Lemma atob_btoa bs :
  Forall byte_range bs -> atob (map b64_char (sextets bs) ++ replicate (padding bs) 61) = Some bs.
Proof.
  intros Hbs. pose proof (sextets_range bs Hbs) as Hr.
  destruct (sextets_mod bs) as (H0 & H1 & Hp). unfold atob.
  rewrite filter_id_Forall.
  2:{ apply Forall_app. split.
      - apply Forall_map. eapply Forall_impl; [exact Hr|]. intros x Hx.
        destruct (b64_char_range x Hx). unfold ascii_whitespace.
        rewrite not_member; [done|]. repeat constructor; lia.
      - apply Forall_replicate. done. }
  rewrite length_app, length_map, length_replicate, H0. cbn [Nat.eqb].
  rewrite strip_padding_b64 by done. rewrite length_map.
  rewrite (proj2 (Nat.eqb_neq _ _) H1), mapM_b64 by done.
  cbn [fmap option_fmap option_map]. by rewrite decode_sextets_sextets.
Qed.

(** ** Percent-decoding *)

Lemma escape_cons c s :
  escape (c :: s) =
    (if escape_unreserved c then [c] else if c <? 256 then percent c
     else [37; 117; hex_digit (c / 4096); hex_digit ((c / 256) mod 16);
           hex_digit ((c / 16) mod 16); hex_digit (c mod 16)]) ++ escape s.
Proof. reflexivity. Qed.

Lemma tokens_percent b rest : byte_range b -> tokens (percent b ++ rest) = cons (Pct b) <$> tokens rest.
Proof. intros Hb. cbn [percent app tokens Z.eqb Pos.eqb]. by rewrite hex2_percent. Qed.

(** [decodeURIComponent] reads the [escape] of a byte string byte by
    byte. *)
Lemma tokens_escape bs : Forall byte_range bs -> tokens (escape bs) = Some (map tok bs).
Proof.
  induction 1 as [|b bs Hb _ IH]; [done|]. rewrite escape_cons. cbn [map]. unfold tok at 1.
  destruct (escape_unreserved b) eqn:U.
  - apply escape_unreserved_ascii in U. cbn [app tokens].
    rewrite (proj2 (Z.eqb_neq b 37)) by lia. by rewrite IH.
  - unfold byte_range in Hb. rewrite (proj2 (Z.ltb_lt b 256)) by lia.
    rewrite tokens_percent, IH by done. done.
Qed.

Lemma tok_high b : 128 <= b -> tok b = Pct b.
Proof.
  intros Hb. unfold tok. destruct (escape_unreserved b) eqn:U; [|done].
  apply escape_unreserved_ascii in U. lia.
Qed.

Lemma fmap_cons_app (x : Z) (o : option js_string) : cons x <$> o = app [x] <$> o.
Proof. by destruct o. Qed.

(** The UTF-8 decoder reads back the bytes of a scalar value. *)
Lemma utf8_tokens_cp cp ts :
  0 <= cp < 1114112 -> ~ (55296 <= cp <= 57343) ->
  utf8_tokens (map tok (utf8_bytes cp) ++ ts) = app (utf16_units cp) <$> utf8_tokens ts.
Proof.
  intros Hr Hs. unfold utf8_bytes.
  destruct (Z.ltb_spec cp 128).
  - unfold utf16_units. rewrite (proj2 (Z.ltb_lt cp 65536)) by lia. rewrite <- fmap_cons_app.
    cbn [map app]. unfold tok. destruct (escape_unreserved cp); cbn [utf8_tokens]; [done|].
    by rewrite (proj2 (Z.ltb_lt cp 128)) by lia.
  - destruct (Z.ltb_spec cp 2048); [|destruct (Z.ltb_spec cp 65536)];
      cbn [map app]; rewrite !tok_high by zlia; cbn [utf8_tokens];
      unfold is_cont, valid_cp, in_range; zbools; cbn [andb orb]; repeat f_equal; zlia.
Qed.

Lemma utf16_units_pair c d : is_high c = true -> is_low d = true -> utf16_units (pair_cp c d) = [c; d].
Proof.
  unfold is_high, is_low, utf16_units, pair_cp. rewrite !andb_true_iff, !Z.leb_le. intros.
  zbools. repeat f_equal; zlia.
Qed.

Lemma utf16_units_bmp c : unit_range c -> utf16_units c = [c].
Proof. unfold unit_range, utf16_units. intros. zbools. reflexivity. Qed.

Lemma utf8_of_range s : Forall unit_range s -> wf_utf16 s = true -> Forall byte_range (utf8_of s).
Proof.
  induction s as [s IH] using list_len_ind. intros Hs Hwf.
  destruct s as [|c rest]; [constructor|]. apply Forall_cons in Hs as [Hc Hrest].
  cbn [utf8_of wf_utf16] in *. destruct (is_low c); [done|]. destruct (is_high c) eqn:Hh.
  - destruct rest as [|d rest']; [done|]. apply andb_prop in Hwf as [Hd Hwf].
    apply Forall_cons in Hrest as [_ Hrest']. pose proof (pair_cp_range c d Hh Hd).
    apply Forall_app. split; [apply utf8_bytes_range; lia|]. apply IH; [simpl; lia|done|done].
  - apply Forall_app. split; [apply utf8_bytes_range; unfold unit_range in Hc; lia|].
    apply IH; [simpl; lia|done|done].
Qed.

(** UTF-8 decoding inverts UTF-8 encoding on well-formed strings. *)
Lemma decode_utf8_of s :
  Forall unit_range s -> wf_utf16 s = true -> utf8_tokens (map tok (utf8_of s)) = Some s.
Proof.
  induction s as [s IH] using list_len_ind. intros Hs Hwf.
  destruct s as [|c rest]; [done|]. apply Forall_cons in Hs as [Hc Hrest].
  cbn [utf8_of wf_utf16] in *. destruct (is_low c) eqn:Hl; [done|]. destruct (is_high c) eqn:Hh.
  - destruct rest as [|d rest']; [done|]. apply andb_prop in Hwf as [Hd Hwf].
    apply Forall_cons in Hrest as [_ Hrest']. pose proof (pair_cp_range c d Hh Hd).
    rewrite map_app, utf8_tokens_cp, IH, utf16_units_pair by (simpl; lia || done). done.
  - pose proof (not_surrogate c Hh Hl). unfold unit_range in Hc.
    rewrite map_app, utf8_tokens_cp, IH, utf16_units_bmp by (unfold unit_range; simpl; lia || done). done.
Qed.

(** [fromBase64] inverts [toBase64] on well-formed strings. *)
Lemma fromBase64_toBase64 s : Forall unit_range s -> wf_utf16 s = true -> fromBase64 (toBase64 s) = s.
Proof.
  intros Hs Hwf. destruct (encode_unescape s Hs Hwf) as (e & He & Hu).
  pose proof (utf8_of_range s Hs Hwf) as Hb.
  unfold toBase64. rewrite He. cbn [mbind option_bind]. rewrite Hu, btoa_bytes by done.
  unfold fromBase64. rewrite atob_btoa by done. cbn [mbind option_bind].
  unfold decodeURIComponent. rewrite tokens_escape by done. cbn [mbind option_bind].
  by rewrite decode_utf8_of.
Qed.

(** ** Properties *)

(** C13: [decrypt] inverts [encrypt] on every well-formed UTF-16
    string, for every key whose code units are below [0x400] (the
    default key is ASCII): XOR with such a unit keeps surrogates
    paired, so [encodeURIComponent] does not throw, and the base64 and
    UTF-8 layers are inverted by [atob] and [decodeURIComponent]. *)
Theorem decrypt_encrypt text key :
  Forall unit_range text -> wf_utf16 text = true -> Forall (fun k => 0 <= k < 1024) key ->
  decrypt (encrypt text key) key = text.
Proof.
  intros Ht Hwf Hk.
  assert (Hk' : Forall unit_range key) by (eapply Forall_impl; [exact Hk|]; unfold unit_range; intros; lia).
  unfold decrypt, encrypt. rewrite fromBase64_toBase64.
  - by apply xorEncrypt_involutive.
  - by apply xorEncrypt_range.
  - by rewrite xorEncrypt_wf.
Qed.



Lemma decrypt_encrypt_witness :
  decrypt (encrypt (of_string "device-123") DEFAULT_KEY) DEFAULT_KEY = of_string "device-123".
Proof.
  apply decrypt_encrypt; [| reflexivity |];
    unfold DEFAULT_KEY, of_string, unit_range; cbn; repeat constructor; lia.
Defined.

(** a text longer than twice [visibleChars] keeps its first
    and last [visibleChars] units, and the middle becomes
    [min(10, length - 2 visibleChars)] copies of the three-character
    literal of the source, so the result has
    [2 visibleChars + 3 min(10, ...)] units; a shorter text is returned
    unchanged. *)
Theorem maskSensitive_shape text v :
  (List.length text <= 2 * v)%nat /\ maskSensitive text v = text \/
  (2 * v < List.length text)%nat /\
  maskSensitive text v =
    take v text ++ List.concat (replicate (Nat.min 10 (List.length text - 2 * v)) mask_literal)
      ++ drop (List.length text - v) text /\
  List.length (maskSensitive text v) = (2 * v + 3 * Nat.min 10 (List.length text - 2 * v))%nat.
Proof.
  unfold maskSensitive. destruct (Nat.leb_spec (List.length text) (v * 2)) as [Hle|Hgt].
  - left. rewrite orb_true_r. split; [lia|done].
  - right. destruct text as [|c cs]; [simpl in Hgt; lia|].
    rewrite bool_decide_eq_false_2 by done. cbn [orb].
    replace (List.length (c :: cs) - v * 2)%nat with (List.length (c :: cs) - 2 * v)%nat by lia.
    split_and!; [lia|done|].
    rewrite !List.length_app, length_take, length_drop.
    assert (Hc : forall n, List.length (List.concat (replicate n mask_literal)) = (3 * n)%nat).
    { induction n as [|n IH]; [done|]. simpl. rewrite IH. lia. }
    rewrite Hc. lia.
Qed.

End Encryption.
