(* ===== verification/Logger.v ===== *)
(** * The application log

    [src/src/utils/logger.js]: the singleton [Logger] keeps the entries
    newest first, at most [MAX_LOGS = 200] of them, and calls every
    subscriber with the array after each change.  [log(message, level)]
    looks the level up, uppercased, in [LOG_LEVELS] and falls back to
    [INFO]; the entry's [id] is the clock in milliseconds.

    The state is a record of the two fields; the clock is an argument
    of [log]; what the environment sees (subscriber calls and console
    lines) is a list of events.  [formattedTime]
    ([toLocaleTimeString], locale-dependent) is not modelled.  A
    subscriber is identified by the function it is ([===]). *)

From S2P Require Import Prelude JsString.

Module Logger.

Record LogLevel := mkLevel { color : string; label : string }.

Definition LOG_LEVELS : list (string * LogLevel) :=
  [("DEBUG", mkLevel "#aaa" "DEBUG"); ("INFO", mkLevel "#0f0" "INFO");
   ("SUCCESS", mkLevel "#0ff" "SUCCESS"); ("WARNING", mkLevel "#ff0" "WARNING");
   ("ERROR", mkLevel "#f00" "ERROR")]%string.

Definition MAX_LOGS : nat := 200.

Record LogEntry := mkEntry {
  id : Z;
  timestamp : Z;
  text : string;
  level : string;
  entry_color : string
}.

Definition subscriber := nat.

Record Logger := mkLogger {
  logs : list LogEntry;
  subscribers : list subscriber
}.

(** [new Logger()]. *)
Definition new_Logger : Logger := mkLogger [] [].

(** What a call shows outside the object. *)
Inductive log_event :=
  | Called (s : subscriber) (snapshot : list LogEntry)
  | Console (line : string).

(** [LOG_LEVELS[key]]: the keys of the table are upper case, so no
    member of [Object.prototype] is ever found. *)
Fixpoint lookup_level (key : string) (tbl : list (string * LogLevel)) : option LogLevel :=
  match tbl with
  | [] => None
  | (k, v) :: rest => if String.eqb k key then Some v else lookup_level key rest
  end.

(** [LOG_LEVELS[level.toUpperCase()] || LOG_LEVELS.INFO]. *)
Definition level_of (lv : string) : LogLevel :=
  match lookup_level (Js.toUpperCase lv) LOG_LEVELS with
  | Some l => l
  | None => mkLevel "#0f0" "INFO"
  end.

(** [this.subscribers.forEach(callback => callback(this.logs))]. *)
Definition notify (lg : Logger) : list log_event :=
  map (fun s => Called s (logs lg)) (subscribers lg).

(** [log(message, level)] at time [now]: the new state, the events, the
    entry returned. *)
Definition log (lg : Logger) (now : Z) (message lv : string) : Logger * list log_event * LogEntry :=
  let l := level_of lv in
  let entry := mkEntry now now message (label l) (color l) in
  let unshifted := entry :: logs lg in
  let trimmed := if Nat.ltb MAX_LOGS (List.length unshifted) then take MAX_LOGS unshifted else unshifted in
  let lg' := mkLogger trimmed (subscribers lg) in
  (lg', notify lg' ++ [Console ("[" +:+ label l +:+ "] " +:+ message)], entry).

Definition getLogs (lg : Logger) : list LogEntry := logs lg.

(** [subscribe(callback)]: only functions are added. *)
Definition subscribe (lg : Logger) (cb : option subscriber) : Logger :=
  match cb with
  | Some s => mkLogger (logs lg) (subscribers lg ++ [s])
  | None => lg
  end.

Definition unsubscribe (lg : Logger) (s : subscriber) : Logger :=
  mkLogger (logs lg) (filter (fun s' => s' <> s) (subscribers lg)).

Definition clear (lg : Logger) : Logger * list log_event :=
  let lg' := mkLogger [] (subscribers lg) in (lg', notify lg').

(** The shorthands of lines 90-124. *)
Definition debug (lg : Logger) (now : Z) (message : string) := log lg now message "DEBUG".
Definition info (lg : Logger) (now : Z) (message : string) := log lg now message "INFO".
Definition success (lg : Logger) (now : Z) (message : string) := log lg now message "SUCCESS".
Definition warning (lg : Logger) (now : Z) (message : string) := log lg now message "WARNING".
Definition error (lg : Logger) (now : Z) (message : string) := log lg now message "ERROR".

(** The singleton of line 136. *)
Definition logger : Logger := new_Logger.

(** A run of [log] calls, each with its time, message and level. *)
Fixpoint log_all (lg : Logger) (calls : list (Z * string * string)) : Logger :=
  match calls with
  | [] => lg
  | (now, m, lv) :: rest => log_all (fst (fst (log lg now m lv))) rest
  end.

(** ** Properties *)

Lemma log_logs lg now m lv :
  logs (fst (fst (log lg now m lv))) = take MAX_LOGS (mkEntry now now m (label (level_of lv)) (color (level_of lv)) :: logs lg).
Proof.
  unfold log. cbn [fst logs].
  match goal with |- context [Nat.ltb ?a ?b] => destruct (Nat.ltb_spec a b) as [_|Hle]; [done|] end.
  symmetry. apply take_ge. exact Hle.
Qed.

(** [log] puts the new entry first and keeps the 199 newest
    older ones: the log never holds more than [MAX_LOGS] entries. *)
Theorem log_keeps_newest lg now m lv :
  logs (fst (fst (log lg now m lv))) =
    mkEntry now now m (label (level_of lv)) (color (level_of lv)) :: take (MAX_LOGS - 1) (logs lg) /\
  List.length (logs (fst (fst (log lg now m lv)))) <= MAX_LOGS.
Proof. rewrite log_logs, length_take. split; [reflexivity|lia]. Qed.

(** From the empty log, any sequence of calls leaves at most
    [MAX_LOGS] entries. *)
Theorem log_all_bounded calls : List.length (logs (log_all new_Logger calls)) <= MAX_LOGS.
Proof.
  cut (forall lg, List.length (logs lg) <= MAX_LOGS -> List.length (logs (log_all lg calls)) <= MAX_LOGS).
  { intros H. apply H. simpl. lia. }
  induction calls as [|[[now m] lv] calls IH]; intros lg Hlg; [done|].
  apply IH. apply log_keeps_newest.
Qed.

End Logger.
