(* ===== verification/Formats.v ===== *)
(** * Text formats: CSV exports and chat summaries

    The pure formatting functions the command handlers call:
    - [contactsToCSV] and [formatContact] of the contacts service
      ([src/unnamed/part_006], lines 57-123);
    - the CSV text of [formatSmsAsCSV] and [formatSmsAsText] of the
      message hook ([src/unnamed/part_006], lines 434-491);
    - the CSV text of [formatSmsAsCSV] and [formatSmsAsText] of the SMS
      service ([src/unnamed/part_005], lines 61-129);
    - the CSV text of [generateCSV] ([src/src/services/fileService.js],
      lines 173-202).
    Writing the text to a file ([createTempFile]) is I/O and is not
    part of these functions.

    Every writer encloses a field in double quotes after doubling the
    double quotes it contains ([s.replace(/Q/g, QQ)], Q the quote).
    [parse_row] is a reader for RFC 4180 rows of quoted fields; it is the
    specification against which the writers are checked (the round-trip
    theorems), not code of the repository.

    Strings are byte strings ([String.string]); a JavaScript [undefined]
    or absent field is [None]; the rendering of a date is given as a
    string, since [toLocaleString] depends on the locale. *)

From S2P Require Import Prelude JsString.

Module Formats.

Definition dq : ascii := "034"%char.
Definition comma : ascii := ","%char.
Definition lf : ascii := "010"%char.

Definition quote_str : string := String dq EmptyString.
Definition nl : string := String lf EmptyString.

(** [s.replace(/Q/g, QQ)]: every double quote doubled. *)
Fixpoint csv_escape (s : string) : string :=
  match s with
  | EmptyString => EmptyString
  | String c s' => if Ascii.eqb c dq then String dq (String dq (csv_escape s')) else String c (csv_escape s')
  end.

(** A field in double quotes, its own quotes doubled. *)
Definition quoted (s : string) : string := quote_str +:+ csv_escape s +:+ quote_str.

(** A row of quoted fields, [,]-separated and ended by a newline. *)
Definition csv_row (fields : list string) : string := Js.join "," (map quoted fields) +:+ nl.

(** ** The RFC 4180 reader: quoted or unquoted fields *)

(** The rest of a quoted field after its opening quote: its content
    (a doubled quote stands for one) and what follows the closing
    quote. *)
Fixpoint read_quoted (s : string) : option (string * string) :=
  match s with
  | EmptyString => None
  | String c s' =>
      if Ascii.eqb c dq then
        match s' with
        | String c2 s'' =>
            if Ascii.eqb c2 dq then
              match read_quoted s'' with Some (f, r) => Some (String dq f, r) | None => None end
            else Some (EmptyString, s')
        | EmptyString => Some (EmptyString, s')
        end
      else match read_quoted s' with Some (f, r) => Some (String c f, r) | None => None end
  end.

(** An unquoted field: the text up to the next [,] or newline, which
    may not contain a quote. *)
Fixpoint read_plain (s : string) : option (string * string) :=
  match s with
  | EmptyString => None
  | String c s' =>
      if Ascii.eqb c comma || Ascii.eqb c lf then Some (EmptyString, s)
      else if Ascii.eqb c dq then None
      else match read_plain s' with Some (f, r) => Some (String c f, r) | None => None end
  end.

Definition read_field (s : string) : option (string * string) :=
  match s with
  | String c s' => if Ascii.eqb c dq then read_quoted s' else read_plain s
  | EmptyString => None
  end.

(** The fields of one row up to its newline, and the text after it.
    Each field is followed by one separator, so [fuel] at the length of
    the text suffices. *)
Fixpoint read_row (fuel : nat) (s : string) : option (list string * string) :=
  match fuel with
  | O => None
  | S fuel' =>
      match read_field s with
      | Some (f, String c2 rest) =>
          if Ascii.eqb c2 comma then
            match read_row fuel' rest with Some (fs, r) => Some (f :: fs, r) | None => None end
          else if Ascii.eqb c2 lf then Some ([f], rest)
          else None
      | _ => None
      end
  end.

Definition parse_row (s : string) : option (list string * string) := read_row (String.length s) s.

(** All the rows of a text. *)
Fixpoint parse_rows (fuel : nat) (s : string) : option (list (list string)) :=
  match fuel with
  | O => None
  | S fuel' =>
      match s with
      | EmptyString => Some []
      | _ => match parse_row s with
             | Some (fs, rest) => match parse_rows fuel' rest with Some rs => Some (fs :: rs) | None => None end
             | None => None
             end
      end
  end.

Definition parse_csv (s : string) : option (list (list string)) := parse_rows (S (String.length s)) s.

(** ** Contacts ([part_006], lines 57-123) *)

Record PhoneNumber := mkPhone { number : option string }.
Record Email := mkEmail { email : option string }.
Record Address := mkAddress { street : option string; city : option string; country : option string }.

(** The fields of an [expo-contacts] contact the service reads. *)
Record Contact := mkContact {
  name : option string;
  firstName : option string;
  lastName : option string;
  phoneNumbers : option (list PhoneNumber);
  emails : option (list Email);
  company : option string;
  jobTitle : option string;
  addresses : option (list Address)
}.

(** [x || ''] for an optional string. *)
Definition or_empty (o : option string) : string := default EmptyString o.

(** [contact.name || `${firstName || ''} ${lastName || ''}`.trim() || 'Unknown']. *)
Definition contact_name (c : Contact) : string :=
  if truthy (name c) then or_empty (name c)
  else
    let full := Js.trim (or_empty (firstName c) +:+ " " +:+ or_empty (lastName c)) in
    if truthy (Some full) then full else "Unknown".

(** [.replace(/^, |, $/, '')]: the first match only, a leading [, ]
    before a trailing one. *)
Definition strip_edge (s : string) : string :=
  if String.prefix ", " s then substring 2 (String.length s - 2) s
  else if Nat.leb 2 (String.length s) && String.eqb (substring (String.length s - 2) 2 s) ", "
  then substring 0 (String.length s - 2) s
  else s.

(** The six cells of a contact's row; [None] for the [phone] or
    [email] of a first entry without [number] or [email], whose
    [.replace] throws a [TypeError]. *)
Definition contact_cells (c : Contact) : option (list string) :=
  let phone := match phoneNumbers c with Some (p :: _) => number p | _ => Some EmptyString end in
  let mail := match emails c with Some (e :: _) => email e | _ => Some EmptyString end in
  let addr := match addresses c with
              | Some (a :: _) =>
                  strip_edge (or_empty (street a) +:+ ", " +:+ or_empty (city a) +:+ ", " +:+ or_empty (country a))
              | _ => EmptyString
              end in
  match phone, mail with
  | Some p, Some m => Some [contact_name c; p; m; or_empty (company c); or_empty (jobTitle c); addr]
  | _, _ => None
  end.

Definition contacts_header : string := "Name,PhoneNumber,Email,Company,JobTitle,Address" +:+ nl.

Definition type_error_replace : string := "Cannot read property 'replace' of undefined".

(** [contactsToCSV(contacts)]; [None] is a falsy [contacts]. *)
Definition contactsToCSV (contacts : option (list Contact)) : string :=
  match contacts with
  | None | Some [] => "No contacts found"
  | Some cs =>
      match mapM contact_cells cs with
      | Some rows => contacts_header +:+ Js.concat_all (map csv_row rows)
      | None => "Error: " +:+ type_error_replace
      end
  end.

(** [formatContact(contact)]. *)
Definition formatContact (contact : option Contact) : string :=
  match contact with
  | None => "Invalid contact"
  | Some c =>
      let phones := match phoneNumbers c with
                    | Some ps => Js.join ", " (map (fun p => or_empty (number p)) ps)
                    | None => "None"
                    end in
      let mails := match emails c with
                   | Some es => Js.join ", " (map (fun e => or_empty (email e)) es)
                   | None => "None"
                   end in
      let comp := if truthy (company c)
                  then (if truthy (jobTitle c) then or_empty (jobTitle c) +:+ " at " else EmptyString) +:+ or_empty (company c)
                  else EmptyString in
      "Name: " +:+ contact_name c +:+ nl +:+ "Phone: " +:+ phones +:+ nl +:+ "Email: " +:+ mails +:+
      (if truthy (Some comp) then nl +:+ comp else EmptyString)
  end.

(** ** SMS of the native module ([part_006], lines 434-491) *)

(** A message of [NativeSmsAccess.getSmsMessages]: four strings. *)
Record NativeSms := mkNativeSms { address : string; sms_type : string; date : string; body : string }.

Definition sms_header : string := "Address,Type,Date,Body" +:+ nl.

(** The text [formatSmsAsCSV] writes, or [None] for no messages (the
    function then returns [null]). *)
Definition sms_csv_content (messages : list NativeSms) : option string :=
  match messages with
  | [] => None
  | _ => Some (sms_header +:+ Js.concat_all
                 (map (fun m => csv_row [address m; sms_type m; date m; body m]) messages))
  end.

Fixpoint repeat_str (n : nat) (s : string) : string :=
  match n with O => EmptyString | S k => s +:+ repeat_str k s end.

(** [formatSmsAsText(messages, limit)]. *)
Definition formatSmsAsText (messages : list NativeSms) (limit : nat) : string :=
  match messages with
  | [] => "No messages available"
  | _ => Js.join nl (map (fun m =>
           (if String.eqb (sms_type m) "inbox" then "From" else "To") +:+ ": " +:+ address m +:+ nl +:+
           "Date: " +:+ date m +:+ nl +:+ body m +:+ nl +:+ repeat_str 40 "-") (take limit messages))
  end.

(** ** SMS of the Expo service ([part_005], lines 61-129) *)

(** An SMS as the service reads it: optional [address], [body], the
    renderings of [date_sent] and [date], and the numeric [type]. *)
Record ServiceSms := mkServiceSms {
  s_address : option string;
  s_body : option string;
  s_date_sent : option string;
  s_date : option string;
  s_type : Z
}.

Definition service_header : string := csv_row ["From/To"; "Message"; "Date"; "Type"].

(** One row: the address is written between quotes as it is, without
    doubling its quotes; the body is escaped. *)
Definition service_row (m : ServiceSms) : string :=
  let date := match s_date_sent m with Some d => d | None => or_empty (s_date m) end in
  quote_str +:+ or_empty (s_address m) +:+ quote_str +:+ "," +:+
  quoted (or_empty (s_body m)) +:+ "," +:+ quoted date +:+ "," +:+
  quoted (if (s_type m =? 1)%Z then "Inbox" else "Sent") +:+ nl.

Definition service_csv_content (messages : list ServiceSms) : string :=
  service_header +:+ Js.concat_all (map service_row messages).

(** ** [generateCSV(data, headers)] ([fileService.js], lines 173-202) *)

(** The values a data object may hold. *)
Inductive jsvalue := JStr (s : string) | JNum (n : Z) | JBool (b : bool) | JNull | JUndefined.

(** [value || ''] then [String(value)]. *)
Definition cell_text (v : jsvalue) : string :=
  match v with
  | JStr s => s
  | JNum n => if (n =? 0)%Z then EmptyString else pretty n
  | JBool b => if b then "true" else EmptyString
  | JNull | JUndefined => EmptyString
  end.

(** A data object: its own keys, in insertion order. *)
Definition jsobject := list (string * jsvalue).

Fixpoint get (o : jsobject) (k : string) : jsvalue :=
  match o with
  | [] => JUndefined
  | (k', v) :: rest => if String.eqb k' k then v else get rest k
  end.

(** The text of [generateCSV]; [None] when [data] is empty (it
    throws).  Header names are put between quotes without escaping. *)
Definition generateCSV_content (data : list jsobject) (headers : option (list string)) : option string :=
  match data with
  | [] => None
  | first :: _ =>
      let hs := match headers with Some h => h | None => map fst first end in
      Some ((Js.join "," (map (fun h => quote_str +:+ h +:+ quote_str) hs) +:+ nl) +:+
            Js.concat_all (map (fun item => csv_row (map (fun k => cell_text (get item k)) hs)) data))
  end.

(** Unquoted fields: no separator, newline or quote inside. *)
Fixpoint plain_field (s : string) : bool :=
  match s with
  | EmptyString => true
  | String c s' => negb (Ascii.eqb c comma || Ascii.eqb c lf || Ascii.eqb c dq) && plain_field s'
  end.

(** A row of unquoted fields. *)
Definition plain_row (fields : list string) : string := Js.join "," fields +:+ nl.

(** The text [t] is read back as the row [fs], whatever follows it. *)
Definition row_reads (t : string) (fs : list string) : Prop :=
  fs <> [] /\ List.length fs <= String.length t /\
  forall rest n, List.length fs <= n -> read_row n (t +:+ rest) = Some (fs, rest).

(** ** Lemmas on the reader *)

Lemma eqb_dq_comma : Ascii.eqb comma dq = false.
Proof. reflexivity. Qed.

Lemma read_quoted_escape f rest :
  (forall r, rest <> String dq r) -> read_quoted (csv_escape f +:+ String dq rest) = Some (f, rest).
Proof.
  intros Hr. induction f as [|c f IH].
  - rewrite Js.str_app_nil_l. cbn [read_quoted]. rewrite Ascii.eqb_refl.
    destruct rest as [|c2 r]; [done|]. destruct (Ascii.eqb_spec c2 dq) as [->|]; [by destruct (Hr r)|done].
  - cbn [csv_escape]. destruct (Ascii.eqb_spec c dq) as [->|Hne].
    + rewrite !Js.str_app_cons. cbn [read_quoted]. rewrite Ascii.eqb_refl, IH. done.
    + rewrite Js.str_app_cons. cbn [read_quoted]. rewrite (proj2 (Ascii.eqb_neq c dq) Hne), IH. done.
Qed.

Lemma quoted_app f r : quoted f +:+ r = String dq (csv_escape f +:+ String dq r).
Proof. unfold quoted, quote_str. by rewrite !Js.str_app_assoc. Qed.

Lemma read_field_quoted f r :
  (forall r', r <> String dq r') -> read_field (quoted f +:+ r) = Some (f, r).
Proof. intros Hr. rewrite quoted_app. cbn [read_field]. rewrite Ascii.eqb_refl. by apply read_quoted_escape. Qed.

(** The fields of [csv_row] come back from [read_row]. *)
Lemma read_row_quoted n fs rest :
  fs <> [] -> List.length fs <= n ->
  read_row n (Js.join "," (map quoted fs) +:+ String lf rest) = Some (fs, rest).
Proof.
  revert n. induction fs as [|f fs IH]; intros n Hne Hn; [done|].
  destruct n as [|n]; [simpl in Hn; lia|]. cbn [read_row].
  destruct fs as [|f2 fs].
  - cbn [map Js.join]. rewrite read_field_quoted by done. reflexivity.
  - change (map quoted (f :: f2 :: fs)) with (quoted f :: quoted f2 :: map quoted fs).
    rewrite Js.join_cons. change (quoted f2 :: map quoted fs) with (map quoted (f2 :: fs)).
    rewrite !Js.str_app_assoc, read_field_quoted by done.
    rewrite Js.str_app_cons, Js.str_app_nil_l. cbn -[read_row Js.join map].
    rewrite (IH n); [done|done|simpl in Hn; simpl; lia].
Qed.

Lemma join_length_ge (xs : list string) :
  xs <> [] -> List.length xs <= S (String.length (Js.join "," xs)).
Proof.
  induction xs as [|x xs IH]; intros Hne; [done|].
  destruct xs as [|y ys]; [simpl; lia|].
  rewrite Js.join_cons, !Js.str_length_app. simpl. specialize (IH ltac:(done)). simpl in IH. lia.
Qed.

Lemma row_length_ge (xs : list string) :
  xs <> [] -> List.length xs <= String.length (Js.join "," xs +:+ nl).
Proof. intros Hne. rewrite Js.str_length_app. simpl. pose proof (join_length_ge xs Hne). lia. Qed.

Lemma csv_row_reads fs : fs <> [] -> row_reads (csv_row fs) fs.
Proof.
  intros Hne. split_and!; [done| |].
  - unfold csv_row. rewrite <- (length_map quoted fs). apply row_length_ge. by destruct fs.
  - intros rest n Hn. unfold csv_row, nl. rewrite Js.str_app_assoc, Js.str_app_cons, Js.str_app_nil_l.
    by apply read_row_quoted.
Qed.

Lemma read_plain_text p c r :
  plain_field p = true -> (c = comma \/ c = lf) -> read_plain (p +:+ String c r) = Some (p, String c r).
Proof.
  intros Hp Hc. induction p as [|a p IH].
  - rewrite Js.str_app_nil_l. cbn [read_plain]. by destruct Hc as [->| ->].
  - cbn [plain_field] in Hp. apply andb_prop in Hp as [Ha Hp].
    rewrite Js.str_app_cons. cbn [read_plain]. apply negb_true_iff, orb_false_iff in Ha as [Hsep Hdq].
    rewrite Hsep, Hdq, IH by done. done.
Qed.

Lemma read_field_plain p c r :
  plain_field p = true -> (c = comma \/ c = lf) -> read_field (p +:+ String c r) = Some (p, String c r).
Proof.
  intros Hp Hc. destruct p as [|a p].
  - rewrite Js.str_app_nil_l. cbn [read_field]. destruct Hc as [->| ->]; reflexivity.
  - rewrite Js.str_app_cons. cbn [read_field].
    assert (Hdq : Ascii.eqb a dq = false).
    { cbn [plain_field] in Hp. apply andb_prop in Hp as [Ha _].
      apply negb_true_iff, orb_false_iff in Ha as [_ H]. exact H. }
    rewrite Hdq, <- Js.str_app_cons. by apply read_plain_text.
Qed.

Lemma read_row_plain n fs rest :
  fs <> [] -> Forall (fun f => plain_field f = true) fs -> List.length fs <= n ->
  read_row n (Js.join "," fs +:+ String lf rest) = Some (fs, rest).
Proof.
  revert n. induction fs as [|f fs IH]; intros n Hne Hp Hn; [done|].
  apply Forall_cons in Hp as [Hf Hp]. destruct n as [|n]; [simpl in Hn; lia|]. cbn [read_row].
  destruct fs as [|f2 fs].
  - cbn [Js.join]. rewrite read_field_plain by auto. reflexivity.
  - rewrite Js.join_cons, !Js.str_app_assoc.
    change ("," +:+ ?x)%string with (String comma EmptyString +:+ x).
    rewrite Js.str_app_cons, Js.str_app_nil_l, read_field_plain by auto. cbn -[read_row Js.join].
    rewrite (IH n); [done|done|done|simpl in Hn; simpl; lia].
Qed.

Lemma plain_row_reads fs :
  fs <> [] -> Forall (fun f => plain_field f = true) fs -> row_reads (plain_row fs) fs.
Proof.
  intros Hne Hp. split_and!; [done|apply row_length_ge, Hne|].
  intros rest n Hn. unfold plain_row, nl. rewrite Js.str_app_assoc, Js.str_app_cons, Js.str_app_nil_l.
  by apply read_row_plain.
Qed.

(** A text made of rows that read back gives back its rows. *)
Lemma parse_rows_concat ts rows n :
  Forall2 row_reads ts rows -> List.length ts < n -> parse_rows n (Js.concat_all ts) = Some rows.
Proof.
  intros Hall. revert n. induction Hall as [|t fs ts rows Ht Hall IH]; intros n Hn.
  - destruct n; [lia|]. reflexivity.
  - destruct n as [|n]; [lia|]. destruct Ht as (Hne & Hlen & Hread).
    cbn [Js.concat_all fold_right]. fold (Js.concat_all ts).
    assert (Hs : exists c t', t +:+ Js.concat_all ts = String c t').
    { destruct t as [|c t']; [destruct fs; simpl in Hlen; [done|lia]|]. eexists _, _. apply Js.str_app_cons. }
    destruct Hs as (c & t' & Hs). cbn [parse_rows]. rewrite Hs. rewrite <- Hs.
    unfold parse_row. rewrite Hread by (rewrite Js.str_length_app; lia).
    rewrite IH by (simpl in Hn; lia). done.
Qed.

Lemma concat_all_length_ge ts rows :
  Forall2 row_reads ts rows -> List.length ts <= String.length (Js.concat_all ts).
Proof.
  induction 1 as [|t fs ts rows (Hne & Hlen & _) _ IH]; [simpl; lia|].
  cbn [Js.concat_all fold_right]. fold (Js.concat_all ts). rewrite Js.str_length_app.
  destruct fs; [done|]. simpl in *. lia.
Qed.

Lemma parse_csv_concat ts rows :
  Forall2 row_reads ts rows -> parse_csv (Js.concat_all ts) = Some rows.
Proof.
  intros Hall. apply parse_rows_concat; [done|]. pose proof (concat_all_length_ge ts rows Hall). lia.
Qed.

Lemma csv_rows_read (rows : list (list string)) :
  Forall (fun r => r <> []) rows -> Forall2 row_reads (map csv_row rows) rows.
Proof. induction 1; constructor; [by apply csv_row_reads|done]. Qed.

Lemma contact_cells_nonempty c r : contact_cells c = Some r -> r <> [].
Proof.
  unfold contact_cells. intros Hc. repeat case_match; simplify_eq; done.
Qed.

(** ** Properties *)

(** C15: the contacts export reads back: the header, then for each
    contact the six cells the code computes, whatever quotes, commas or
    newlines they contain (when no first phone number or e-mail lacks
    its value, which makes the export an error message). *)
Theorem contactsToCSV_roundtrip cs rows :
  cs <> [] -> mapM contact_cells cs = Some rows ->
  parse_csv (contactsToCSV (Some cs)) =
    Some (["Name"; "PhoneNumber"; "Email"; "Company"; "JobTitle"; "Address"] :: rows).
Proof.
  intros Hne Hrows. unfold contactsToCSV. destruct cs as [|c cs']; [done|]. rewrite Hrows.
  change (contacts_header +:+ Js.concat_all (map csv_row rows))
    with (Js.concat_all (plain_row ["Name"; "PhoneNumber"; "Email"; "Company"; "JobTitle"; "Address"] :: map csv_row rows)).
  apply parse_csv_concat. constructor.
  - apply plain_row_reads; [done|]. repeat constructor.
  - apply csv_rows_read. apply mapM_Some_1 in Hrows.
    clear Hne. induction Hrows as [|x y xs ys Hxy _ IH]; [constructor|].
    constructor; [by eapply contact_cells_nonempty|exact IH].
Qed.

Lemma contactsToCSV_roundtrip_witness :
  parse_csv (contactsToCSV (Some [mkContact (Some "Ann, the boss") None None (Some [mkPhone (Some "+1 555")]) None
                                     (Some "ACME") None None]))
  = Some (["Name"; "PhoneNumber"; "Email"; "Company"; "JobTitle"; "Address"] ::
          [["Ann, the boss"; "+1 555"; ""; "ACME"; ""; ""]]).
Proof. apply contactsToCSV_roundtrip; [done|reflexivity]. Defined.

(** the SMS export of the Expo service does not escape the
    address: an address with a double quote makes the file unreadable
    as CSV, while the body, escaped, would be read back. *)
Theorem service_csv_address_unescaped :
  exists m, parse_csv (service_csv_content [m]) <>
            Some [["From/To"; "Message"; "Date"; "Type"];
                  [or_empty (s_address m); or_empty (s_body m); or_empty (s_date_sent m); "Inbox"]].
Proof.
  exists (mkServiceSms (Some (String dq "Bank" +:+ String dq EmptyString)) (Some "Code 1234") (Some "1/2/2024") None 1).
  vm_compute. discriminate.
Qed.

End Formats.
