(* ===== verification/Await.v ===== *)
(** * A monad for the [async] functions of the client

    An [async] JavaScript function reads and writes the heap (the fields
    of the singleton, the timers, the log), may [throw], may [catch], and
    suspends at each [await] of an external promise (an HTTP request, a
    handler of the App).  [aw H A] threads the heap [H] and a list of
    [settlement]s, the oracle that says how the awaited promises settle,
    in order; an exhausted oracle fulfils.  A run yields a [completion]:
    [Normal v] or [Abrupt reason] (an uncaught exception).

    [no_throw c] says [c] completes normally from every heap and every
    oracle; [keeps P c] says [c] preserves the heap property [P].  Both
    compose through [bind], [catch] and [for_each], and the hint
    database [tah] proves them for whole functions. *)

From S2P Require Import Prelude.

Inductive completion (A : Type) : Type :=
  | Normal (v : A)
  | Abrupt (reason : string).
Arguments Normal {A} v.
Arguments Abrupt {A} reason.

(** How an awaited external promise settles. *)
Inductive settlement : Type :=
  | Fulfilled
  | Rejected (reason : string).

Definition aw (H A : Type) : Type :=
  H -> list settlement -> completion A * H * list settlement.

Section Await.
Context {H : Type}.

Definition aw_ret {A} (v : A) : aw H A := fun h o => (Normal v, h, o).

Definition aw_bind {A B} (c : aw H A) (k : A -> aw H B) : aw H B :=
    fun h o =>
      match c h o with
      | (Normal v, h', o') => k v h' o'
      | (Abrupt r, h', o') => (Abrupt r, h', o')
      end.

(** [throw new Error(reason)]. *)
Definition aw_throw {A} (reason : string) : aw H A := fun h o => (Abrupt reason, h, o).

(** [try { c } catch (e) { k(e.message) }]. *)
Definition aw_catch {A} (c : aw H A) (k : string -> aw H A) : aw H A :=
    fun h o =>
      match c h o with
      | (Abrupt r, h', o') => k r h' o'
      | res => res
      end.

Definition aw_get : aw H H := fun h o => (Normal h, h, o).

Definition aw_modify (f : H -> H) : aw H unit := fun h o => (Normal tt, f h, o).

(** [await p] for an external promise [p]; [start] is the synchronous
    effect of creating it (recording the request). *)
Definition aw_await (start : H -> H) : aw H unit :=
    fun h o =>
      match o with
      | [] => (Normal tt, start h, [])
      | Fulfilled :: o' => (Normal tt, start h, o')
      | Rejected r :: o' => (Abrupt r, start h, o')
      end.

(** [for (const x of xs) { await body(x); }]. *)
Fixpoint for_each {A} (xs : list A) (body : A -> aw H unit) : aw H unit :=
    match xs with
    | [] => aw_ret tt
    | x :: xs' => aw_bind (body x) (fun _ => for_each xs' body)
    end.

(** [await Promise.all(xs.map(async x => ...))]: the callbacks run one
    after the other, each to completion, and the first rejection
    rejects the whole. *)
Fixpoint map_all {A B} (xs : list A) (f : A -> aw H B) : aw H (list B) :=
    match xs with
    | [] => aw_ret []
    | x :: xs' => aw_bind (f x) (fun y => aw_bind (map_all xs' f) (fun ys => aw_ret (y :: ys)))
    end.

(** [try { c } finally { f }]. *)
Definition aw_finally {A} (c : aw H A) (f : aw H unit) : aw H A :=
  fun h o =>
    let '(r, h1, o1) := c h o in
    match f h1 o1 with
    | (Normal _, h2, o2) => (r, h2, o2)
    | (Abrupt e, h2, o2) => (Abrupt e, h2, o2)
    end.

Definition run {A} (c : aw H A) (h : H) (o : list settlement) := c h o.

(** ** Monad laws, pointwise *)

Lemma aw_bind_ret_l {A B} (v : A) (k : A -> aw H B) h o :
    aw_bind (aw_ret v) k h o = k v h o.
Proof. reflexivity. Qed.

Lemma aw_bind_ret_r {A} (c : aw H A) h o : aw_bind c aw_ret h o = c h o.
Proof. unfold aw_bind. by destruct (c h o) as [[[v|r] h'] o']. Qed.

Lemma aw_bind_assoc {A B C} (c : aw H A) (k1 : A -> aw H B) (k2 : B -> aw H C) h o :
    aw_bind (aw_bind c k1) k2 h o = aw_bind c (fun v => aw_bind (k1 v) k2) h o.
Proof. unfold aw_bind. by destruct (c h o) as [[[v|r] h'] o']. Qed.

(** ** Running a computation step by step *)

Lemma bind_step {A B} (c : aw H A) (k : A -> aw H B) h o v h1 o1 :
  c h o = (Normal v, h1, o1) -> aw_bind c k h o = k v h1 o1.
Proof. intros Hc. unfold aw_bind. by rewrite Hc. Qed.

(** A [try] whose body completes normally is the body. *)
Lemma catch_step {A} (c : aw H A) (k : string -> aw H A) h o v h1 o1 :
  c h o = (Normal v, h1, o1) -> aw_catch c k h o = (Normal v, h1, o1).
Proof. intros Hc. unfold aw_catch. by rewrite Hc. Qed.

(** Inversion of a normal completion through [bind]. *)
Lemma bind_normal {A B} (c : aw H A) (k : A -> aw H B) h o v h2 o2 :
  aw_bind c k h o = (Normal v, h2, o2) ->
  exists v1 h1 o1, c h o = (Normal v1, h1, o1) /\ k v1 h1 o1 = (Normal v, h2, o2).
Proof. unfold aw_bind. destruct (c h o) as [[[v1|r] h1] o1]; [eauto|congruence]. Qed.

Lemma await_normal (start : H -> H) h o h1 o1 :
  aw_await start h o = (Normal tt, h1, o1) -> h1 = start h.
Proof. destruct o as [|[|r] o]; cbn; congruence. Qed.

(** ** Completing normally *)

Definition no_throw {A} (c : aw H A) : Prop :=
    forall h o, exists v h' o', c h o = (Normal v, h', o').

Lemma no_throw_ret {A} (v : A) : no_throw (aw_ret v).
Proof. intros h o. eauto. Qed.

Lemma no_throw_get : no_throw aw_get.
Proof. intros h o. eauto. Qed.

Lemma no_throw_modify f : no_throw (aw_modify f).
Proof. intros h o. eauto. Qed.

Lemma no_throw_bind {A B} (c : aw H A) (k : A -> aw H B) :
    no_throw c -> (forall v, no_throw (k v)) -> no_throw (aw_bind c k).
Proof.
  intros Hc Hk h o. unfold aw_bind.
  destruct (Hc h o) as (v & h' & o' & ->). apply Hk.
Qed.

(** A [catch] whose handler cannot throw contains every exception. *)
Lemma no_throw_catch {A} (c : aw H A) (k : string -> aw H A) :
    (forall r, no_throw (k r)) -> no_throw (aw_catch c k).
Proof.
  intros Hk h o. unfold aw_catch.
  destruct (c h o) as [[[v|r] h'] o']; [eauto | apply Hk].
Qed.

Lemma no_throw_for_each {A} (xs : list A) body :
    (forall x, no_throw (body x)) -> no_throw (for_each xs body).
Proof.
  intros Hb. induction xs as [|x xs IH]; simpl.
  - apply no_throw_ret.
  - apply no_throw_bind; [apply Hb | intros _; exact IH].
Qed.

Lemma no_throw_map_all {A B} (xs : list A) (f : A -> aw H B) :
    (forall x, no_throw (f x)) -> no_throw (map_all xs f).
Proof.
  intros Hf. induction xs as [|x xs IH]; simpl; [apply no_throw_ret|].
  apply no_throw_bind; [apply Hf|intros y]. apply no_throw_bind; [exact IH|intros ys]. apply no_throw_ret.
Qed.

Lemma no_throw_if {A} (b : bool) (c1 c2 : aw H A) :
    no_throw c1 -> no_throw c2 -> no_throw (if b then c1 else c2).
Proof. by destruct b. Qed.

(** ** Heap invariants *)

Definition keeps {A} (P : H -> Prop) (c : aw H A) : Prop :=
    forall h o, P h -> P (snd (fst (c h o))).

Lemma keeps_ret {A} P (v : A) : keeps P (aw_ret v).
Proof. intros h o Hp. exact Hp. Qed.

Lemma keeps_get P : keeps P aw_get.
Proof. intros h o Hp. exact Hp. Qed.

Lemma keeps_throw {A} P r : keeps P (@aw_throw A r).
Proof. intros h o Hp. exact Hp. Qed.

Lemma keeps_modify P f : (forall h, P h -> P (f h)) -> keeps P (aw_modify f).
Proof. intros Hf h o Hp. by apply Hf. Qed.

Lemma keeps_await P start : (forall h, P h -> P (start h)) -> keeps P (aw_await start).
Proof. intros Hs h o Hp. destruct o as [|[|r] o]; simpl; by apply Hs. Qed.

Lemma keeps_await_id P : keeps P (aw_await id).
Proof. apply keeps_await. done. Qed.

Lemma keeps_bind {A B} P (c : aw H A) (k : A -> aw H B) :
    keeps P c -> (forall v, keeps P (k v)) -> keeps P (aw_bind c k).
Proof.
  intros Hc Hk h o Hp. unfold aw_bind. specialize (Hc h o Hp).
  destruct (c h o) as [[[v|r] h'] o']; [by apply Hk | exact Hc].
Qed.

Lemma keeps_catch {A} P (c : aw H A) k :
    keeps P c -> (forall r, keeps P (k r)) -> keeps P (aw_catch c k).
Proof.
  intros Hc Hk h o Hp. unfold aw_catch. specialize (Hc h o Hp).
  destruct (c h o) as [[[v|r] h'] o']; [exact Hc | by apply Hk].
Qed.

Lemma keeps_for_each {A} P (xs : list A) body :
    (forall x, keeps P (body x)) -> keeps P (for_each xs body).
Proof.
  intros Hb. induction xs as [|x xs IH]; simpl.
  - apply keeps_ret.
  - apply keeps_bind; [apply Hb | intros _; exact IH].
Qed.

Lemma keeps_map_all {A B} P (xs : list A) (f : A -> aw H B) :
    (forall x, keeps P (f x)) -> keeps P (map_all xs f).
Proof.
  intros Hf. induction xs as [|x xs IH]; simpl; [apply keeps_ret|].
  apply keeps_bind; [apply Hf|intros y]. apply keeps_bind; [exact IH|intros ys]. apply keeps_ret.
Qed.

Lemma keeps_if {A} P (b : bool) (c1 c2 : aw H A) :
    keeps P c1 -> keeps P c2 -> keeps P (if b then c1 else c2).
Proof. by destruct b. Qed.

Lemma no_throw_finally {A} (c : aw H A) f : no_throw c -> no_throw f -> no_throw (aw_finally c f).
Proof.
  intros Hc Hf h o. unfold aw_finally. destruct (Hc h o) as (v & h1 & o1 & ->).
  destruct (Hf h1 o1) as (u & h2 & o2 & ->). eauto.
Qed.

Lemma keeps_finally {A} (P : H -> Prop) (c : aw H A) f :
  keeps P c -> keeps P f -> keeps P (aw_finally c f).
Proof.
  intros Hc Hf h o Hp. unfold aw_finally. specialize (Hc h o Hp).
  destruct (c h o) as [[r h1] o1]. specialize (Hf h1 o1 Hc).
  destruct (f h1 o1) as [[[]h2] o2]; exact Hf.
Qed.

(** ** Postconditions *)

(** [ensures Q c]: whatever the heap and the oracle, [Q] holds after
    [c], thrown or not. *)
Definition ensures {A} (Q : H -> Prop) (c : aw H A) : Prop :=
    forall h o, Q (snd (fst (c h o))).

Lemma ensures_await Q start : (forall h, Q (start h)) -> ensures Q (aw_await start).
Proof. intros Hs h o. destruct o as [|[|r] o]; apply Hs. Qed.

Lemma ensures_bind_l {A B} Q (c : aw H A) (k : A -> aw H B) :
    ensures Q c -> (forall v, keeps Q (k v)) -> ensures Q (aw_bind c k).
Proof.
  intros Hc Hk h o. specialize (Hc h o). unfold aw_bind.
  destruct (c h o) as [[[v|r] h'] o']; [by apply Hk | exact Hc].
Qed.

Lemma ensures_modify Q f : (forall h, Q (f h)) -> ensures Q (aw_modify f).
Proof. intros Hf h o. apply Hf. Qed.

(** What a [finally] block ensures holds after the whole statement. *)
Lemma ensures_finally {A} Q (c : aw H A) f : ensures Q f -> ensures Q (aw_finally c f).
Proof.
  intros Hf h o. unfold aw_finally. destruct (c h o) as [[r h1] o1]. specialize (Hf h1 o1).
  destruct (f h1 o1) as [[[] h2] o2]; exact Hf.
Qed.

(** Once [c] cannot throw, what its continuation ensures holds. *)
Lemma ensures_bind_r {A B} Q (c : aw H A) (k : A -> aw H B) :
    no_throw c -> (forall v, ensures Q (k v)) -> ensures Q (aw_bind c k).
Proof. intros Hc Hk h o. unfold aw_bind. destruct (Hc h o) as (v & h' & o' & ->). apply Hk. Qed.

Lemma ensures_catch {A} Q (c : aw H A) k :
    ensures Q c -> (forall r, keeps Q (k r)) -> ensures Q (aw_catch c k).
Proof.
  intros Hc Hk h o. specialize (Hc h o). unfold aw_catch.
  destruct (c h o) as [[[v|r] h'] o']; [exact Hc | by apply Hk].
Qed.

(** A loop whose bodies cannot throw runs the body of every element:
    what that body ensures and the later bodies keep holds at the end. *)
Lemma ensures_for_each {A} Q (xs : list A) body x :
    x ∈ xs -> (forall y, no_throw (body y)) -> (forall y, keeps Q (body y)) -> ensures Q (body x) ->
    ensures Q (for_each xs body).
Proof.
  intros Hx Hn Hk He. induction xs as [|y ys IH]; [by apply elem_of_nil in Hx|]. cbn [for_each].
  apply elem_of_cons in Hx as [->|Hx].
  - apply ensures_bind_l; [exact He|intros _]. by apply keeps_for_each.
  - apply ensures_bind_r; [apply Hn|intros _]. by apply IH.
Qed.
End Await.

Arguments aw_ret {H A} v h o /.
Arguments aw_bind {H A B} c k h o /.
Arguments aw_throw {H A} reason h o /.
Arguments aw_catch {H A} c k h o /.
Arguments aw_get {H} h o /.
Arguments aw_modify {H} f h o /.
Arguments aw_await {H} start h o /.

Notation "'let!' x ':=' c 'in' k" := (aw_bind c (fun x => k))
  (at level 10, x name, c at level 100, k at level 200) : tah_scope.
Notation "c ';!' k" := (aw_bind c (fun _ => k))
  (at level 100, k at level 200, right associativity) : tah_scope.

#[export] Hint Resolve no_throw_ret no_throw_get no_throw_modify no_throw_bind
  no_throw_catch no_throw_for_each no_throw_if no_throw_finally no_throw_map_all : tah.
#[export] Hint Resolve keeps_ret keeps_get keeps_throw keeps_modify keeps_await
  keeps_bind keeps_catch keeps_for_each keeps_if keeps_map_all : tah.

(** Decompose a [keeps] goal along the structure of the computation. *)
Ltac solve_keeps :=
  repeat match goal with
  | |- keeps _ (aw_bind _ _) => apply keeps_bind; [|intros ?]
  | |- keeps _ (aw_catch _ _) => apply keeps_catch; [|intros ?]
  | |- keeps _ (if _ then _ else _) => apply keeps_if
  | |- keeps _ (for_each _ _) => apply keeps_for_each; intros ?
  | |- keeps _ (map_all _ _) => apply keeps_map_all; intros ?
  | |- keeps _ (aw_ret _) => apply keeps_ret
  | |- keeps _ (aw_await id) => apply keeps_await_id
  | |- keeps _ aw_get => apply keeps_get
  | |- keeps _ (aw_throw _) => apply keeps_throw
  | |- keeps _ _ => progress case_match
  end.
