(* ===== verification/Model.v ===== *)
(** * Data model of the client: the singleton, the runtime, the events

    [TelegramAPI] has the fields the constructor of the class sets
    ([src/src/api/telegramAPI.js], lines 79-92).  The axios instance
    [this.api] is [Some token] for the instance built from [token] (every
    instance has the same interceptors), [None] for [null].  The
    JavaScript runtime contributes the armed timers, [setTimeout] and
    [setInterval] returning fresh positive ids.  Everything observable is
    an [event] appended to [out]: HTTP requests, calls of connection
    listeners, calls of command handlers and log lines.

    The update objects have the fields of the Bot API's [Update],
    [Message] and [CallbackQuery] the code reads. *)

From S2P Require Import Prelude Await.

(** ** Bot API objects *)

(** [update.message]: [chat.id] and the optional [text]. *)
Record Message := mkMessage {
  chat_id : Z;
  text : option string
}.

(** [update.callback_query]: [id], [data], and the message it was
    attached to (absent for inline-mode messages). *)
Record CallbackQuery := mkCallback {
  cq_id : string;
  cq_data : string;
  cq_message : option Message
}.

Record Update := mkUpdate {
  update_id : Z;
  message : option Message;
  callback_query : option CallbackQuery
}.

(** ** Values the App passes in *)

(** A command handler of the App, by the name of its function. *)
Inductive handler := Handler (name : string).

(** A connection listener, by identity (JavaScript [===] on functions). *)
Definition listener := nat.

(** A JavaScript value that may or may not be a function
    ([typeof v === 'function']). *)
Inductive jsval (F : Type) : Type :=
  | JsFunction (f : F)
  | JsOther.
Arguments JsFunction {F} f.
Arguments JsOther {F}.

(** What [this.commandHandlers[key]] yields when it is truthy: an own
    property set by [registerCommandHandler], or a member inherited from
    [Object.prototype]. *)
Inductive slot :=
  | Own (h : handler)
  | Inherited (member : string).

(** The arguments of a handler call. *)
Inductive invocation :=
  | OnCallback (q : CallbackQuery)
  | OnCallbackParam (q : CallbackQuery) (param : string)
  | OnCommand (m : Message) (params : list string)
  | OnMessage (m : Message).

(** ** Observable events *)

(** An inline keyboard button [{ text, callback_data }]. *)
Record button := mkButton {
  button_text : string;
  callback_data : string
}.

(** [reply_markup: { inline_keyboard: rows }]. *)
Definition keyboard := list (list button).

(** The Bot API calls, with the fields of their payloads: the chat id
    ([this.chatId], possibly [null]); for [sendDocument] the optional
    [caption] form field and the [uri] and [name] of the [document]. *)
Inductive request :=
  | GetMe
  | GetUpdates (offset : Z)
  | AnswerCallbackQuery (callback_query_id : string)
  | SendMessage (chat : option string) (msg : string) (parse_mode : string) (reply_markup : option keyboard)
  | SendDocument (chat : option string) (caption : option string) (uri : string) (name : string).

Inductive level := Debug | Info | Success | Warning | Error.

Inductive event :=
  | Request (r : request)
  | Notify (l : listener) (status : bool)
  | Invoke (s : slot) (args : invocation)
  | Log (lv : level) (msg : string).

(** Decidable equality, computed by [decide] and [vm_compute]. *)
#[export] Instance Message_eq_dec : EqDecision Message.
Proof. solve_decision. Defined.
#[export] Instance CallbackQuery_eq_dec : EqDecision CallbackQuery.
Proof. solve_decision. Defined.
#[export] Instance Update_eq_dec : EqDecision Update.
Proof. solve_decision. Defined.
#[export] Instance handler_eq_dec : EqDecision handler.
Proof. solve_decision. Defined.
#[export] Instance slot_eq_dec : EqDecision slot.
Proof. solve_decision. Defined.
#[export] Instance invocation_eq_dec : EqDecision invocation.
Proof. solve_decision. Defined.
#[export] Instance button_eq_dec : EqDecision button.
Proof. solve_decision. Defined.
#[export] Instance request_eq_dec : EqDecision request.
Proof. solve_decision. Defined.
#[export] Instance level_eq_dec : EqDecision level.
Proof. solve_decision. Defined.
#[export] Instance event_eq_dec : EqDecision event.
Proof. solve_decision. Defined.

(** ** The singleton *)

Record TelegramAPI := mkTelegramAPI {
  api : option string;
  token : option string;
  chatId : option string;
  lastUpdateId : Z;
  connected : bool;
  connectionListeners : list listener;
  commandHandlers : gmap string handler;
  reconnectTimer : option nat;
  reconnectAttempts : nat;
  maxReconnectAttempts : nat;
  updatePollingInterval : option nat;
  isPolling : bool
}.

(** [new TelegramAPI()]. *)
Definition new_TelegramAPI : TelegramAPI := {|
  api := None; token := None; chatId := None; lastUpdateId := 0;
  connected := false; connectionListeners := []; commandHandlers := ∅;
  reconnectTimer := None; reconnectAttempts := 0; maxReconnectAttempts := 10;
  updatePollingInterval := None; isPolling := false |}.

(** Field assignments [this.f = v]. *)
Section Setters.
Variable t : TelegramAPI.
Definition with_api v := {| api := v; token := token t; chatId := chatId t; lastUpdateId := lastUpdateId t; connected := connected t; connectionListeners := connectionListeners t; commandHandlers := commandHandlers t; reconnectTimer := reconnectTimer t; reconnectAttempts := reconnectAttempts t; maxReconnectAttempts := maxReconnectAttempts t; updatePollingInterval := updatePollingInterval t; isPolling := isPolling t |}.
Definition with_credentials tk cid := {| api := api t; token := tk; chatId := cid; lastUpdateId := lastUpdateId t; connected := connected t; connectionListeners := connectionListeners t; commandHandlers := commandHandlers t; reconnectTimer := reconnectTimer t; reconnectAttempts := reconnectAttempts t; maxReconnectAttempts := maxReconnectAttempts t; updatePollingInterval := updatePollingInterval t; isPolling := isPolling t |}.
Definition with_lastUpdateId v := {| api := api t; token := token t; chatId := chatId t; lastUpdateId := v; connected := connected t; connectionListeners := connectionListeners t; commandHandlers := commandHandlers t; reconnectTimer := reconnectTimer t; reconnectAttempts := reconnectAttempts t; maxReconnectAttempts := maxReconnectAttempts t; updatePollingInterval := updatePollingInterval t; isPolling := isPolling t |}.
Definition with_connected v := {| api := api t; token := token t; chatId := chatId t; lastUpdateId := lastUpdateId t; connected := v; connectionListeners := connectionListeners t; commandHandlers := commandHandlers t; reconnectTimer := reconnectTimer t; reconnectAttempts := reconnectAttempts t; maxReconnectAttempts := maxReconnectAttempts t; updatePollingInterval := updatePollingInterval t; isPolling := isPolling t |}.
Definition with_listeners v := {| api := api t; token := token t; chatId := chatId t; lastUpdateId := lastUpdateId t; connected := connected t; connectionListeners := v; commandHandlers := commandHandlers t; reconnectTimer := reconnectTimer t; reconnectAttempts := reconnectAttempts t; maxReconnectAttempts := maxReconnectAttempts t; updatePollingInterval := updatePollingInterval t; isPolling := isPolling t |}.
Definition with_handlers v := {| api := api t; token := token t; chatId := chatId t; lastUpdateId := lastUpdateId t; connected := connected t; connectionListeners := connectionListeners t; commandHandlers := v; reconnectTimer := reconnectTimer t; reconnectAttempts := reconnectAttempts t; maxReconnectAttempts := maxReconnectAttempts t; updatePollingInterval := updatePollingInterval t; isPolling := isPolling t |}.
Definition with_reconnectTimer v := {| api := api t; token := token t; chatId := chatId t; lastUpdateId := lastUpdateId t; connected := connected t; connectionListeners := connectionListeners t; commandHandlers := commandHandlers t; reconnectTimer := v; reconnectAttempts := reconnectAttempts t; maxReconnectAttempts := maxReconnectAttempts t; updatePollingInterval := updatePollingInterval t; isPolling := isPolling t |}.
Definition with_reconnectAttempts v := {| api := api t; token := token t; chatId := chatId t; lastUpdateId := lastUpdateId t; connected := connected t; connectionListeners := connectionListeners t; commandHandlers := commandHandlers t; reconnectTimer := reconnectTimer t; reconnectAttempts := v; maxReconnectAttempts := maxReconnectAttempts t; updatePollingInterval := updatePollingInterval t; isPolling := isPolling t |}.
Definition with_polling iv p := {| api := api t; token := token t; chatId := chatId t; lastUpdateId := lastUpdateId t; connected := connected t; connectionListeners := connectionListeners t; commandHandlers := commandHandlers t; reconnectTimer := reconnectTimer t; reconnectAttempts := reconnectAttempts t; maxReconnectAttempts := maxReconnectAttempts t; updatePollingInterval := iv; isPolling := p |}.
End Setters.

(** ** The runtime *)

Inductive timer :=
  | PollInterval                  (** [setInterval(..., 3000)] of [startUpdatePolling] *)
  | ReconnectTimeout (delay : Z). (** [setTimeout(..., delay)] of [handleDisconnection] *)

(** An [async] function suspended at the [await] of an HTTP request:
    the poll callback waiting for [getUpdates]' response (requested with
    [offset]), or [testConnection] waiting for [getMe] (called from
    [initialize] or from the reconnect timer). *)
Inductive task :=
  | KPoll (offset : Z)
  | KTestConnection (from_reconnect : bool).

#[export] Instance timer_eq_dec : EqDecision timer.
Proof. solve_decision. Defined.
#[export] Instance task_eq_dec : EqDecision task.
Proof. solve_decision. Defined.

Record World := mkWorld {
  self : TelegramAPI;
  timers : list (nat * timer);
  next_timer : nat;
  pending : list task;
  out : list event
}.

Definition with_self (w : World) t := mkWorld t (timers w) (next_timer w) (pending w) (out w).

Definition new_World : World := mkWorld new_TelegramAPI [] 1 [] [].

Abbreviation io := (aw World).

(** The heap after running [c] from [w] with oracle [o]. *)
Definition exec {A} (c : io A) (w : World) (o : list settlement) : World := snd (fst (c w o)).

(** ** Heap operations *)

Definition this : io TelegramAPI := let! w := aw_get in aw_ret (self w).

Definition update_self (f : TelegramAPI -> TelegramAPI) : io unit :=
  aw_modify (fun w => with_self w (f (self w))).

(** Append an event to the observable trace. *)
Definition push (e : event) (w : World) : World :=
  mkWorld (self w) (timers w) (next_timer w) (pending w) (out w ++ [e]).

Definition emit (e : event) : io unit := aw_modify (push e).

(** A heap property that trace events cannot break. *)
Definition trace_only (P : World -> Prop) : Prop := forall w e, P w -> P (push e w).

Definition log (lv : level) (msg : string) : io unit := emit (Log lv msg).

(** [setTimeout] / [setInterval]: arm a timer, return its id. *)
Definition set_timer (k : timer) : io nat :=
  let! w := aw_get in
  aw_modify (fun w => mkWorld (self w) (timers w ++ [(next_timer w, k)]) (S (next_timer w))
                        (pending w) (out w)) ;!
  aw_ret (next_timer w).

(** [clearTimeout] / [clearInterval]: disarm; no effect on an unknown id. *)
Definition clear_timer (id : nat) : io unit :=
  aw_modify (fun w => mkWorld (self w) (filter (fun p => fst p <> id) (timers w)) (next_timer w)
                        (pending w) (out w)).

(** The runtime removes a timeout when it fires. *)
Definition fire (id : nat) (w : World) : World :=
  mkWorld (self w) (filter (fun p => fst p <> id) (timers w)) (next_timer w) (pending w) (out w).

(** The delay of an armed reconnect timeout. *)
Definition rt_delay (p : nat * timer) : option Z :=
  match snd p with ReconnectTimeout d => Some d | PollInterval => None end.

(** The delays of the armed reconnect timeouts. *)
Definition reconnect_timeouts (w : World) : list Z := omap rt_delay (timers w).

Lemma rt_delay_nil (ts : list (nat * timer)) :
  (forall id d, (id, ReconnectTimeout d) ∉ ts) -> omap rt_delay ts = [].
Proof.
  induction ts as [|[i [|d]] ts IH]; intros Hn; [done| |].
  - simpl. apply IH. intros id d Hin. apply (Hn id d). by apply elem_of_cons; right.
  - exfalso. apply (Hn i d). by apply elem_of_cons; left.
Qed.

Lemma rt_delay_cleared (ts : list (nat * timer)) id :
  (forall id' d, (id', ReconnectTimeout d) ∈ ts -> id' = id) ->
  omap rt_delay (filter (fun p => fst p <> id) ts) = [].
Proof.
  intros Hall. apply rt_delay_nil. intros id' d Hin.
  apply list_elem_of_filter in Hin as [Hne Hin]. apply Hne, (Hall id' d Hin).
Qed.

(** Send a request and suspend the running [async] function as [k]. *)
Definition suspend (k : task) (r : request) : io unit :=
  aw_modify (fun w => mkWorld (self w) (timers w) (next_timer w) (pending w ++ [k])
                        (out w ++ [Request r])).

(** Suspend the running [async] function as [k], its request sent. *)
Definition park (k : task) : io unit :=
  aw_modify (fun w => mkWorld (self w) (timers w) (next_timer w) (pending w ++ [k]) (out w)).

Definition type_error_null : string := "Cannot read property of null".

(** [await this.api.get(...)] / [await this.api.post(...)]: a [TypeError]
    when [this.api] is [null]; otherwise the request is sent and its
    settlement, after the interceptor's retries, comes from the oracle. *)
Definition call_api (r : request) : io unit :=
  let! t := this in
  match api t with
  | None => aw_throw type_error_null
  | Some _ => aw_await (push (Request r))
  end.

(** ** Frame lemmas *)

Lemma no_throw_this : no_throw this.
Proof. unfold this. auto with tah. Qed.

Lemma no_throw_emit e : no_throw (emit e).
Proof. unfold emit. auto with tah. Qed.

Lemma no_throw_log lv m : no_throw (log lv m).
Proof. apply no_throw_emit. Qed.

Lemma no_throw_update_self f : no_throw (update_self f).
Proof. unfold update_self. auto with tah. Qed.

Lemma no_throw_set_timer k : no_throw (set_timer k).
Proof. unfold set_timer. auto with tah. Qed.

Lemma no_throw_clear_timer id : no_throw (clear_timer id).
Proof. unfold clear_timer. auto with tah. Qed.

Lemma no_throw_suspend k r : no_throw (suspend k r).
Proof. unfold suspend. auto with tah. Qed.

#[export] Hint Resolve no_throw_suspend no_throw_this no_throw_emit no_throw_log no_throw_update_self
  no_throw_set_timer no_throw_clear_timer : tah.
