(* ===== verification/Reply.v ===== *)
(** * The reply channel

    [sendMessage] (lines 369-386), [sendFile] (lines 394-424) and
    [sendDeviceInfo] (lines 431-469) of [src/src/api/telegramAPI.js].
    Each returns [false] at once when the client is not connected, and
    otherwise catches every failure of its request (a rejected promise
    or the [TypeError] of a [null] [this.api]), logs it and returns
    [false]: none of them throws.  [sendDeviceInfo] builds the text
    before its first [await]; reading [location.latitude] of a missing
    [location] throws inside its [try].

    Texts are strings of bytes: the emoji and the bullet of the source
    are written as their UTF-8 bytes.  A coordinate is a number of
    ten-thousandths of a degree, so that [toFixed(4)] prints it exactly;
    [0] is falsy, as in JavaScript. *)

From S2P Require Import Prelude JsString Encryption Await Model.

Module Reply.

Definition newline : string := String "010"%char EmptyString.

(** A string given by its UTF-8 bytes. *)
Definition utf8_str (bs : list nat) : string := fold_right (fun b s => String (ascii_of_nat b) s) EmptyString bs.

(** The ASCII string of a list of code units below 128. *)
Definition ascii_string (s : Encryption.js_string) : string :=
  fold_right (fun c r => String (ascii_of_nat (Z.to_nat c)) r) EmptyString s.

(** ** [sendMessage(text, options = {})] *)

Record send_options := mkOptions {
  parse_mode : option string;
  reply_markup : option keyboard
}.

Definition no_options : send_options := mkOptions None None.

(** [options.parse_mode || 'Markdown']. *)
Definition parse_mode_or_default (options : send_options) : string :=
  match parse_mode options with
  | Some p => if truthy (Some p) then p else "Markdown"
  | None => "Markdown"
  end.

Definition sendMessage (text : string) (options : send_options) : io bool :=
  let! t := this in
  if negb (connected t) then aw_ret false
  else
    aw_catch (call_api (SendMessage (chatId t) text (parse_mode_or_default options)
                          (reply_markup options)) ;! aw_ret true)
             (fun e => log Error ("Failed to send message: " +:+ e) ;! aw_ret false).

(** ** [sendFile(filePath, caption = '')] *)

(** [filePath.split('/').pop()]. *)
Definition file_name (filePath : string) : string := default EmptyString (last_elem (Js.split "/" filePath)).

Definition sendFile (filePath caption : string) : io bool :=
  let! t := this in
  if negb (connected t) then aw_ret false
  else
    aw_catch (call_api (SendDocument (chatId t) (if truthy (Some caption) then Some caption else None)
                          filePath (file_name filePath)) ;! aw_ret true)
             (fun e => log Error ("Failed to send file: " +:+ e) ;! aw_ret false).

(** ** [sendDeviceInfo(deviceInfo)] *)

(** [deviceInfo.location]: [latitude] and [longitude] in ten-thousandths
    of a degree, [None] when undefined. *)
Record Location := mkLocation {
  latitude : option Z;
  longitude : option Z
}.

(** The fields of the object [useDeviceInfo] builds ([part_006], lines
    236-256) that the messages read, each as its template-literal
    rendering; [location] is [None] when undefined; [timestamp_text] is
    [new Date(timestamp).toLocaleString()], which depends on the
    locale. *)
Record DeviceInfo := mkDeviceInfo {
  deviceName : string;
  model : string;
  osVersion : string;
  osBuild : string;
  ipAddress : string;
  location : option Location;
  uptime : string;
  appVersion : string;
  deviceId : Encryption.js_string;
  brand : string;
  osName : string;
  networkType : string;
  netConnected : bool;
  internetReachable : bool;
  batteryLevel : string;
  timestamp_text : string
}.

#[export] Instance Location_eq_dec : EqDecision Location.
Proof. solve_decision. Defined.
#[export] Instance DeviceInfo_eq_dec : EqDecision DeviceInfo.
Proof. solve_decision. Defined.

Fixpoint zeros (n : nat) : string :=
  match n with O => EmptyString | S k => String "0" (zeros k) end.

(** [x.toFixed(4)] for [x] in ten-thousandths. *)
Definition toFixed4 (z : Z) : string :=
  let a := Z.abs z in
  let frac := pretty (a mod 10000)%Z in
  (if (z <? 0)%Z then "-" else "") +:+ pretty (a / 10000)%Z +:+ "." +:+
  zeros (4 - String.length frac) +:+ frac.

(** The [Location] line; reading a field of a missing [location] or
    calling [toFixed] on a missing [longitude] throws a [TypeError]. *)
Definition location_text (d : DeviceInfo) : io string :=
  match location d with
  | None => aw_throw "Cannot read properties of undefined (reading 'latitude')"
  | Some l =>
      match latitude l with
      | Some la =>
          if (la =? 0)%Z then aw_ret "N/A"
          else match longitude l with
               | Some lo => aw_ret (toFixed4 la +:+ ", " +:+ toFixed4 lo)
               | None => aw_throw "Cannot read properties of undefined (reading 'toFixed')"
               end
      | None => aw_ret "N/A"
      end
  end.

Definition bullet : string := utf8_str [226; 128; 162].

Definition device_message (d : DeviceInfo) (loc : string) : string :=
  utf8_str [240; 159; 147; 177] +:+ " *Device Connected!*" +:+ newline +:+ newline +:+
  bullet +:+ " Device: " +:+ deviceName d +:+ newline +:+
  bullet +:+ " Model: " +:+ model d +:+ newline +:+
  bullet +:+ " OS: Android " +:+ osVersion d +:+ newline +:+
  bullet +:+ " Build: " +:+ osBuild d +:+ newline +:+
  bullet +:+ " IP: " +:+ ipAddress d +:+ newline +:+
  bullet +:+ " Location: " +:+ loc +:+ newline +:+
  bullet +:+ " Uptime: " +:+ uptime d +:+ newline +:+
  bullet +:+ " App Version: " +:+ appVersion d +:+ newline +:+
  bullet +:+ " Device ID: " +:+ ascii_string (take 16 (Encryption.encrypt (deviceId d) Encryption.DEFAULT_KEY)).

(** The command menu of lines 452-461. *)
Definition device_menu : keyboard :=
  [[mkButton (utf8_str [240; 159; 147; 158] +:+ " Call Logs") "call_logs";
    mkButton (utf8_str [240; 159; 146; 172] +:+ " SMS Logs") "sms_logs"];
   [mkButton (utf8_str [240; 159; 145; 165] +:+ " Contacts") "contacts";
    mkButton (utf8_str [240; 159; 147; 129] +:+ " Storage") "storage"];
   [mkButton (utf8_str [240; 159; 147; 138] +:+ " Device Info") "device_info";
    mkButton (utf8_str [240; 159; 147; 183] +:+ " Take Screenshot") "screenshot"]].

(** [deviceInfo] is [None] when falsy. *)
Definition sendDeviceInfo (deviceInfo : option DeviceInfo) : io bool :=
  let! t := this in
  match deviceInfo with
  | Some d =>
      if negb (connected t) then aw_ret false
      else
        aw_catch (let! loc := location_text d in
                  sendMessage (device_message d loc) no_options ;!
                  sendMessage "Choose an option:" (mkOptions None (Some device_menu)) ;!
                  aw_ret true)
                 (fun e => log Error ("Failed to send device info: " +:+ e) ;! aw_ret false)
  | None => aw_ret false
  end.

(** ** Configurations used by the witnesses *)

Definition reply_world : World :=
  with_self new_World
    (with_connected (with_api (with_credentials new_TelegramAPI (Some "tok") (Some "123")) (Some "tok")) true).

Definition demo_device : DeviceInfo :=
  mkDeviceInfo "Pixel 7" "Pixel 7" "14" "UQ1A.240205.004" "192.168.1.20" (Some (mkLocation None None))
    "3h 12m" "1.0.0" (Encryption.of_string "a1b2c3d4e5f6")
    "google" "Android" "WIFI" true true "Unknown" "11/9/2026, 10:00:00 AM".

(** ** Lemmas *)

Lemma sendMessage_offline text opts w o :
  connected (self w) = false -> sendMessage text opts w o = (Normal false, w, o).
Proof. intros Hc. unfold sendMessage, this. cbn. by rewrite Hc. Qed.

Lemma no_throw_sendMessage text opts : no_throw (sendMessage text opts).
Proof.
  unfold sendMessage. apply no_throw_bind; [auto with tah|intros t].
  destruct (connected t); simpl; auto with tah.
Qed.

Lemma file_name_last dir name :
  Js.includes "/" name = false -> file_name (dir +:+ String "/" name) = name.
Proof.
  intros Hn. unfold file_name. rewrite Js.split_app_sep, (Js.split_no_sep _ _ Hn).
  by rewrite last_elem_snoc.
Qed.

#[export] Hint Resolve no_throw_sendMessage : tah.

Section Connected.
Context (w : World) (tok : string).
Hypothesis Hcon : connected (self w) = true.
Hypothesis Hapi : api (self w) = Some tok.

(** One settlement of the request decides the result. *)
Lemma sendMessage_run text opts s o :
  sendMessage text opts w (s :: o) =
  let w1 := push (Request (SendMessage (chatId (self w)) text (parse_mode_or_default opts) (reply_markup opts))) w in
  match s with
  | Fulfilled => (Normal true, w1, o)
  | Rejected e => (Normal false, push (Log Error ("Failed to send message: " +:+ e)) w1, o)
  end.
Proof. unfold sendMessage, call_api, this. cbn. rewrite Hcon. cbn. rewrite Hapi. by destruct s. Qed.

(** [sendFile] uploads the file under the last segment of its
    path, with the caption as a form field only when it is not empty. *)
Theorem sendFile_uploads_basename dir name caption o :
  Js.includes "/" name = false ->
  sendFile (dir +:+ String "/" name) caption w (Fulfilled :: o) =
    (Normal true,
     push (Request (SendDocument (chatId (self w)) (if String.eqb caption "" then None else Some caption)
                     (dir +:+ String "/" name) name)) w, o).
Proof.
  intros Hn. unfold sendFile, call_api, this. cbn -[file_name]. rewrite Hcon.
  cbn -[file_name]. rewrite Hapi. cbn -[file_name]. rewrite file_name_last by done. by destruct (String.eqb caption "").
Qed.

(** once its text is built, [sendDeviceInfo] returns [true]
    whatever happens to its two messages: [sendMessage] reports a
    failed request by returning [false], which is ignored, so a
    rejected send still counts as success. *)
Theorem sendDeviceInfo_ignores_delivery d l o :
  location d = Some l -> (latitude l = None \/ latitude l = Some 0%Z \/ is_Some (longitude l)) ->
  fst (fst (sendDeviceInfo (Some d) w o)) = Normal true.
Proof.
  intros Hl Hok. unfold sendDeviceInfo, this. cbn -[location_text sendMessage]. rewrite Hcon. cbn -[location_text sendMessage].
  assert (Hloc : exists s, location_text d = aw_ret s).
  { unfold location_text. rewrite Hl.
    destruct Hok as [->|[->|[lo ->]]]; [eauto|eauto|].
    destruct (latitude l) as [la|]; [|eauto]. destruct (la =? 0)%Z; eauto. }
  destruct Hloc as [s ->]. cbn -[sendMessage].
  destruct (no_throw_sendMessage (device_message d s) no_options w o) as (v1 & w1 & o1 & ->).
  destruct (no_throw_sendMessage "Choose an option:" (mkOptions None (Some device_menu)) w1 o1) as (v2 & w2 & o2 & ->).
  reflexivity.
Qed.
End Connected.

Lemma sendFile_uploads_basename_witness :
  sendFile ("/storage/emulated/0/DCIM" +:+ String "/" "photo.jpg") "" reply_world [Fulfilled] =
    (Normal true,
     push (Request (SendDocument (Some "123") (if String.eqb "" "" then None else Some "")
                     ("/storage/emulated/0/DCIM" +:+ String "/" "photo.jpg") "photo.jpg")) reply_world, []).
Proof. apply sendFile_uploads_basename with (tok := "tok"); reflexivity. Defined.

Lemma sendDeviceInfo_ignores_delivery_witness :
  fst (fst (sendDeviceInfo (Some demo_device) reply_world [Rejected "Network Error"; Rejected "Network Error"]))
    = Normal true.
Proof.
  apply sendDeviceInfo_ignores_delivery with (l := mkLocation None None);
    [reflexivity|reflexivity|left; reflexivity].
Defined.

End Reply.
