(* ===== verification/Registry.v ===== *)
(** * The command table

    [registerCommandHandler] ([src/src/api/telegramAPI.js], lines
    245-250) stores a handler under a string key of the plain object
    [this.commandHandlers], ignoring values that are not functions.  The
    dispatcher reads it with [this.commandHandlers[key]], a JavaScript
    property access: an own property if there is one, otherwise a member
    inherited from [Object.prototype] ([constructor], [toString],
    [__proto__], ...), which is truthy.  Calling an inherited member does
    nothing observable, or throws a [TypeError] for the members that need
    a function argument or are not functions.

    The contract the spec gives the table (exact match, last
    registration wins, nothing found in an empty table) is the class
    [CommandRegistry] with its laws; [spec_table] implements it, and the
    JavaScript object agrees with it on every key that is not a member
    of [Object.prototype]. *)

From S2P Require Import Prelude JsString Await Model.

Module Registry.

(** The members of [Object.prototype] a property access falls back to. *)
Definition object_prototype_members : list string :=
  ["constructor"; "__defineGetter__"; "__defineSetter__"; "hasOwnProperty";
   "__lookupGetter__"; "__lookupSetter__"; "isPrototypeOf";
   "propertyIsEnumerable"; "toString"; "valueOf"; "__proto__"; "toLocaleString"]%string.

(** Members whose call with the dispatcher's arguments throws a
    [TypeError]: the two that require a function as second argument, and
    [__proto__], which is an object and not callable. *)
Definition member_call_throws (m : string) : bool :=
  bool_decide (m ∈ ["__defineGetter__"; "__defineSetter__"; "__proto__"]%string).

(** [this.commandHandlers[key]], when truthy. *)
Definition resolve (handlers : gmap string handler) (key : string) : option slot :=
  match handlers !! key with
  | Some h => Some (Own h)
  | None =>
      if bool_decide (key ∈ object_prototype_members) then Some (Inherited key) else None
  end.

(** [registerCommandHandler(command, handler)]. *)
Definition registerCommandHandler (command : string) (v : jsval handler) : io unit :=
  match v with
  | JsFunction h =>
      update_self (fun t => with_handlers t (<[command := h]> (commandHandlers t))) ;!
      log Debug ("Registered command handler: " +:+ command)
  | JsOther => aw_ret tt
  end.

(** [await this.commandHandlers[key](...args)]: the call is an event; an
    App handler settles as the oracle says, an inherited member settles
    at once. *)
Definition invoke (s : slot) (args : invocation) : io unit :=
  match s with
  | Own _ => aw_await (push (Invoke s args))
  | Inherited m =>
      emit (Invoke s args) ;!
      if member_call_throws m then aw_throw "is not a function" else aw_ret tt
  end.

(** ** The contract of a command table *)

Class CommandRegistry (T : Type) := {
  reg_empty : T;
  reg_register : string -> handler -> T -> T;
  reg_resolve : T -> string -> option slot
}.

Class CommandRegistryLaws (T : Type) `{CommandRegistry T} := {
  resolve_register_eq k h t : reg_resolve (reg_register k h t) k = Some (Own h);
  resolve_register_ne k k' h t : k <> k' -> reg_resolve (reg_register k h t) k' = reg_resolve t k';
  resolve_empty k : reg_resolve reg_empty k = None
}.

(** The spec's table: exact match only. *)
#[export] Instance spec_table : CommandRegistry (gmap string handler) := {
  reg_empty := ∅;
  reg_register k h t := <[k := h]> t;
  reg_resolve t k := Own <$> t !! k
}.

#[export] Instance spec_table_laws : CommandRegistryLaws (gmap string handler).
Proof.
  split; intros; simpl.
  - by rewrite lookup_insert_eq.
  - by rewrite lookup_insert_ne.
  - by rewrite lookup_empty.
Qed.

(** The object of the code. *)
Definition js_object_table : CommandRegistry (gmap string handler) := {|
  reg_empty := ∅;
  reg_register k h t := <[k := h]> t;
  reg_resolve := resolve
|}.

Lemma resolve_own handlers key h : handlers !! key = Some h -> resolve handlers key = Some (Own h).
Proof. unfold resolve. by intros ->. Qed.

Lemma resolve_not_member handlers key :
  key ∉ object_prototype_members -> resolve handlers key = Own <$> handlers !! key.
Proof.
  intros Hn. unfold resolve. destruct (handlers !! key); [done|].
  by rewrite bool_decide_eq_false_2.
Qed.

(** ** Properties *)

(** registering a function under [command] makes it the entry for
    [command], whatever was registered there before and even when
    [command] names a member of [Object.prototype]; registering a value
    that is not a function changes nothing. *)
Theorem register_last_wins w o command h :
  resolve (commandHandlers (self (exec (registerCommandHandler command (JsFunction h)) w o))) command
    = Some (Own h) /\
  exec (registerCommandHandler command JsOther) w o = w.
Proof. split; [|done]. unfold exec, registerCommandHandler. simpl. apply resolve_own, lookup_insert_eq. Qed.

(** The object of the code is not an exact-match table: its empty
    table already resolves the inherited member [constructor], so the
    law [resolve_empty] of the spec's contract fails. *)
Theorem js_object_violates_contract : ~ @CommandRegistryLaws _ js_object_table.
Proof. intros Hl. pose proof (@resolve_empty _ _ Hl "constructor") as H. discriminate H. Qed.

End Registry.

#[export] Hint Resolve Registry.resolve_own : tah.
