(* ===== verification/Transport.v ===== *)
(** * The retry policy of the HTTP client

    [createTelegramAPI] ([src/src/api/telegramAPI.js], lines 11-73)
    returns [null] for a falsy token, and otherwise an axios instance with
    two interceptors.  The request interceptor sets [config.retry = 3] on
    every request, the retries included.  The response interceptor, on an
    error without [config.retry], rejects; on a network error (no
    status), a 5xx or a 429 with [config._retryCount < config.retry], it
    increments [_retryCount], waits [2^_retryCount * 1000] ms and sends
    the request again with the same config; otherwise it rejects.

    [send] runs the chain for the raw outcome of each attempt, with fuel;
    the theorems bound the attempts by four and the waits by
    2000, 4000 and 8000 ms, and show that fuel four is always enough. *)

From S2P Require Import Prelude JsString Await Model.

Module Transport.

(** [createTelegramAPI(token)]: the instance, or [null]. *)
Definition createTelegramAPI (tk : option string) : option string :=
  if truthy tk then tk else None.

(** The raw result of one HTTP attempt: success, or an error with the
    response status (none for a network error), the API's
    [description] and the error's [message]. *)
Inductive raw :=
  | RawOk
  | RawErr (status : option Z) (description : option string) (message : string).

Record config := mkConfig { retry : nat; retryCount : nat }.

(** The request interceptor: [config.retry = 3]. *)
Definition request_interceptor (cfg : config) : config := mkConfig 3 (retryCount cfg).

(** [!status || status >= 500 || status === 429]. *)
Definition retryable (status : option Z) : bool :=
  match status with
  | None => true
  | Some s => (500 <=? s)%Z || (s =? 429)%Z
  end.

(** [Math.pow(2, config._retryCount) * 1000] after the increment. *)
Definition backoff (n : nat) : Z := (2 ^ Z.of_nat n * 1000)%Z.

(** What the response interceptor does with one error. *)
Inductive decision :=
  | Retry (count : nat) (delay : Z)
  | Reject.

Definition on_error (cfg : config) (status : option Z) : decision :=
  if retry cfg =? 0 then Reject
  else if retryable status then
    if retryCount cfg <? retry cfg then Retry (S (retryCount cfg)) (backoff (S (retryCount cfg)))
    else Reject
  else Reject.

Record result := mkResult {
  settled : settlement;      (** how the caller's [await] settles *)
  waits : list Z;            (** the delays slept before each retry *)
  logs : list (level * string)
}.

(** [errorMessage = description || message]. *)
Definition error_message (description : option string) (message : string) : string :=
  match description with
  | Some d => if truthy (Some d) then d else message
  | None => message
  end.

(** The request with its config, attempt [k], the attempts' outcomes
    [outcome]. *)
Fixpoint send (fuel : nat) (cfg : config) (outcome : nat -> raw) (k : nat) : result :=
  match fuel with
  | 0 => mkResult (Rejected "fuel") [] []
  | S fuel' =>
      let cfg := request_interceptor cfg in
      match outcome k with
      | RawOk => mkResult Fulfilled [] []
      | RawErr st desc msg =>
          let em := error_message desc msg in
          match on_error cfg st with
          | Retry c d =>
              let r := send fuel' (mkConfig (retry cfg) c) outcome (S k) in
              mkResult (settled r) (d :: waits r)
                ((Warning, "Retrying Telegram API request (" +:+ pretty c +:+ "/"
                   +:+ pretty (retry cfg) +:+ ") after " +:+ pretty d +:+ "ms") :: logs r)
          | Reject =>
              mkResult (Rejected msg) []
                [(Error, if retry cfg =? 0 then "Telegram API error: " +:+ em
                         else "Telegram API error after retries: " +:+ em)]
          end
      end
  end.

(** A fresh request: [_retryCount] is unset. *)
Definition request (outcome : nat -> raw) : result := send 4 (mkConfig 0 0) outcome 0.

(** The attempt's outcome is a retryable error. *)
Definition retryable_error (r : raw) : bool :=
  match r with
  | RawOk => false
  | RawErr st _ _ => retryable st
  end.

(** ** Lemmas *)

Lemma on_error_retry cfg st c d :
  retry cfg = 3 -> on_error cfg st = Retry c d -> c = S (retryCount cfg) /\ c <= 3 /\ d = backoff c.
Proof.
  unfold on_error. intros ->. simpl.
  destruct (retryable st); [|discriminate].
  destruct (Nat.ltb_spec (retryCount cfg) 3); [|discriminate].
  intros [= <- <-]. split_and!; [done|lia|done].
Qed.

(** From retry count [n], at most [4 - n] attempts are made. *)
Lemma send_fuel_enough fuel fuel' n outcome k :
  n <= 3 -> 4 - n <= fuel -> 4 - n <= fuel' ->
  send fuel (mkConfig 3 n) outcome k = send fuel' (mkConfig 3 n) outcome k.
Proof.
  revert fuel' n k. induction fuel as [|f IH]; intros fuel' n k Hn Hf Hf'; [lia|].
  destruct fuel' as [|f']; [lia|]. cbn -[on_error backoff]. change (request_interceptor (mkConfig 3 n)) with (mkConfig 3 n).
  destruct (outcome k) as [|st desc msg]; [done|].
  destruct (on_error (mkConfig 3 n) st) as [c d|] eqn:E; [|done].
  apply on_error_retry in E as (-> & Hc & ->); [|done]. cbn [retryCount] in *.
  rewrite (IH f' (S n) (S k)); [done|lia|lia|lia].
Qed.

Lemma send_waits fuel n outcome k :
  n <= 3 -> exists j, waits (send fuel (mkConfig 3 n) outcome k) = map backoff (seq (S n) j) /\ n + j <= 3.
Proof.
  revert n k. induction fuel as [|f IH]; intros n k Hn; [exists 0; simpl; split; [done|lia]|].
  cbn -[on_error backoff]. change (request_interceptor (mkConfig 3 n)) with (mkConfig 3 n). destruct (outcome k) as [|st desc msg]; [exists 0; split; [done|lia]|].
  destruct (on_error (mkConfig 3 n) st) as [c d|] eqn:E; [|exists 0; split; [done|lia]].
  apply on_error_retry in E as (-> & Hc & ->); [|done]. cbn [retryCount] in *.
  destruct (IH (S n) (S k) Hc) as (j & Hw & Hj).
  exists (S j). simpl. rewrite Hw. split; [done|lia].
Qed.

Lemma send_interceptor fuel r n outcome k :
  send (S fuel) (mkConfig r n) outcome k = send (S fuel) (mkConfig 3 n) outcome k.
Proof. reflexivity. Qed.

(** ** Properties *)

(** C19: whatever the attempts return, a request waits at most three
    times before its promise settles, 2000, 4000 and 8000 ms in this
    order: the waits are a prefix of [2000; 4000; 8000]. *)
Theorem request_waits_bounded outcome :
  exists j, j <= 3 /\ waits (request outcome) = firstn j [2000; 4000; 8000]%Z.
Proof.
  unfold request. rewrite send_interceptor.
  destruct (send_waits 4 0 outcome 0) as (j & Hw & Hj); [lia|].
  exists j. split; [lia|]. rewrite Hw.
  destruct j as [|[|[|[|j]]]]; [reflexivity..|lia].
Qed.

(** C18: the retry loop terminates within four attempts: any fuel of at
    least four gives the same result as [request]. *)
Theorem request_total fuel outcome :
  4 <= fuel -> send fuel (mkConfig 0 0) outcome 0 = request outcome.
Proof.
  intros Hf. unfold request. destruct fuel as [|f]; [lia|].
  rewrite (send_interceptor f 0 0), (send_interceptor 3 0 0). apply send_fuel_enough; lia.
Qed.

Lemma request_total_witness :
  send 10 (mkConfig 0 0) (fun _ => RawErr None None "Network Error") 0
  = request (fun _ => RawErr None None "Network Error").
Proof. apply request_total. lia. Defined.

(** a client error other than 429 is not retried: the request
    rejects at once with the error's message, without waiting. *)
Theorem request_fail_fast outcome status desc msg :
  outcome 0 = RawErr (Some status) desc msg -> (400 <= status < 500)%Z -> status <> 429%Z ->
  settled (request outcome) = Rejected msg /\ waits (request outcome) = [].
Proof.
  intros Ho Hs H429. unfold request. cbn -[on_error]. rewrite Ho.
  unfold on_error. cbn -[retryable].
  replace (retryable (Some status)) with false; [done|].
  simpl. symmetry. apply orb_false_intro; [apply Z.leb_gt; lia | apply Z.eqb_neq; lia].
Qed.

Lemma request_fail_fast_witness :
  settled (request (fun _ => RawErr (Some 401%Z) (Some "Unauthorized") "Request failed with status code 401"))
    = Rejected "Request failed with status code 401" /\
  waits (request (fun _ => RawErr (Some 401%Z) (Some "Unauthorized") "Request failed with status code 401")) = [].
Proof. apply (request_fail_fast _ 401 (Some "Unauthorized")); [reflexivity|lia|lia]. Defined.

(** when all four attempts fail with a network error, a 5xx or a
    429, the request waits 2000, 4000 and 8000 ms and then rejects
    with the last attempt's message. *)
Theorem request_gives_up outcome :
  (forall k, k <= 3 -> retryable_error (outcome k) = true) ->
  waits (request outcome) = [2000; 4000; 8000]%Z /\
  exists st desc msg, outcome 3 = RawErr st desc msg /\ settled (request outcome) = Rejected msg.
Proof.
  intros Hr. unfold request.
  assert (Hk : forall k, k <= 3 -> exists st desc msg, outcome k = RawErr st desc msg /\ retryable st = true).
  { intros k Hk. specialize (Hr k Hk). destruct (outcome k) as [|st desc msg]; [done|]. eauto. }
  destruct (Hk 0) as (s0 & d0 & m0 & E0 & R0); [lia|].
  destruct (Hk 1) as (s1 & d1 & m1 & E1 & R1); [lia|].
  destruct (Hk 2) as (s2 & d2 & m2 & E2 & R2); [lia|].
  destruct (Hk 3) as (s3 & d3 & m3 & E3 & R3); [lia|].
  cbn -[retryable backoff]. rewrite E0, R0. cbn -[retryable backoff]. rewrite E1, R1.
  cbn -[retryable backoff]. rewrite E2, R2. cbn -[retryable backoff]. rewrite E3, R3.
  split; [reflexivity|]. exists s3, d3, m3. split; reflexivity.
Qed.

Lemma request_gives_up_witness :
  waits (request (fun _ => RawErr (Some 502%Z) None "Bad Gateway")) = [2000; 4000; 8000]%Z /\
  exists st desc msg, RawErr (Some 502%Z) None "Bad Gateway" = RawErr st desc msg /\
    settled (request (fun _ => RawErr (Some 502%Z) None "Bad Gateway")) = Rejected msg.
Proof. apply (request_gives_up (fun _ => RawErr (Some 502%Z) None "Bad Gateway")). intros k _. reflexivity. Defined.

End Transport.
