(* ===== verification/Connection.v ===== *)
(** * The connection state machine

    The methods of [TelegramAPI] that change [connected], the listeners,
    the poll interval and the reconnect timer
    ([src/src/api/telegramAPI.js], lines 99-238), one definition each, as
    [io] computations.  [testConnection] is split at its [await]:
    [testConnection_start] sends [getMe] and suspends as the task
    [KTestConnection]; [testConnection_resume] is the rest of the
    function, with the [.then(success => ...)] of the reconnect timer
    when the call came from there.  [reconnect_callback] is the arrow
    function passed to [setTimeout] in [handleDisconnection].

    The state is the boolean [connected] (the code has no [Connecting]
    state), [reconnectAttempts] and the armed timers.  The theorems: a
    transition to the current state notifies nobody; a new listener is
    called at once with the current state; [handleDisconnection] waits
    [min(30000, 2^attempts * 1000)] ms, the sequence of waits from zero,
    and it gives up at [maxReconnectAttempts]. *)

From S2P Require Import Prelude JsString Await Model Transport.

Module Connection.

(** [this.connectionListeners.forEach(listener => listener(status))]. *)
Definition notify_all (ls : list listener) (status : bool) : io unit :=
  for_each ls (fun l => emit (Notify l status)).

(** [setConnected(status)]. *)
Definition setConnected (status : bool) : io unit :=
  let! t := this in
  let wasConnected := connected t in
  update_self (fun t => with_connected t status) ;!
  if Bool.eqb wasConnected status then aw_ret tt
  else
    log Info ("Telegram connection status: " +:+ (if status then "Connected" else "Disconnected")) ;!
    notify_all (connectionListeners t) status.

(** [addConnectionListener(listener)]. *)
Definition addConnectionListener (v : jsval listener) : io unit :=
  match v with
  | JsFunction l =>
      update_self (fun t => with_listeners t (connectionListeners t ++ [l])) ;!
      let! t := this in
      emit (Notify l (connected t))
  | JsOther => aw_ret tt
  end.

(** [removeConnectionListener(listener)]: [filter(l => l !== listener)]. *)
Definition removeConnectionListener (l : listener) : io unit :=
  update_self (fun t => with_listeners t (filter (fun l' => l' <> l) (connectionListeners t))).

(** [startUpdatePolling()]. *)
Definition startUpdatePolling : io unit :=
  let! t := this in
  if isPolling t then aw_ret tt
  else
    update_self (fun t => with_polling t (updatePollingInterval t) true) ;!
    let! id := set_timer PollInterval in
    update_self (fun t => with_polling t (Some id) (isPolling t)).

(** [stopUpdatePolling()]. *)
Definition stopUpdatePolling : io unit :=
  let! t := this in
  match updatePollingInterval t with
  | Some id => clear_timer id ;! update_self (fun t => with_polling t None (isPolling t))
  | None => aw_ret tt
  end ;!
  update_self (fun t => with_polling t (updatePollingInterval t) false).

(** [Math.min(30000, Math.pow(2, this.reconnectAttempts) * 1000)]. *)
Definition reconnect_delay (attempts : nat) : Z := Z.min 30000 (2 ^ Z.of_nat attempts * 1000).

(** [handleDisconnection()]. *)
Definition handleDisconnection : io unit :=
  setConnected false ;!
  stopUpdatePolling ;!
  let! t := this in
  match reconnectTimer t with
  | Some id => clear_timer id
  | None => aw_ret tt
  end ;!
  let! t := this in
  if reconnectAttempts t <? maxReconnectAttempts t then
    let delay := reconnect_delay (reconnectAttempts t) in
    log Warning ("Telegram disconnected. Reconnecting in " +:+ pretty (delay / 1000)%Z +:+ "s (attempt "
                 +:+ pretty (S (reconnectAttempts t)) +:+ "/" +:+ pretty (maxReconnectAttempts t) +:+ ")") ;!
    let! id := set_timer (ReconnectTimeout delay) in
    update_self (fun t => with_reconnectTimer t (Some id))
  else
    log Error ("Failed to reconnect to Telegram after " +:+ pretty (maxReconnectAttempts t) +:+ " attempts").

(** The part of [testConnection()] before its [await]: [this.api.get]
    throws synchronously when [this.api] is [null], which its own
    [catch] handles. *)
Definition testConnection_start (from_reconnect : bool) : io unit :=
  let! t := this in
  match api t with
  | None => log Error ("Failed to connect to Telegram: " +:+ type_error_null) ;! handleDisconnection
  | Some _ => suspend (KTestConnection from_reconnect) GetMe
  end.

(** How [getMe] settles: the [result] of the response, [botInfo.id]
    when present, and the username; or the rejection's message. *)
Inductive me_reply :=
  | MeOk (bot_id : option Z) (username : string)
  | MeErr (message : string).

(** The rest of [testConnection()] and, for the reconnect timer, the
    [.then(success => { if (success) { setConnected(true);
    startUpdatePolling(); } })]. *)
Definition testConnection_resume (from_reconnect : bool) (r : me_reply) : io unit :=
  let! success :=
    match r with
    | MeOk (Some id) username =>
        if (id =? 0)%Z then aw_ret false
        else
          log Success ("Connected to Telegram bot: " +:+ username) ;!
          update_self (fun t => with_reconnectAttempts t 0) ;!
          aw_ret true
    | MeOk None _ => aw_ret false
    | MeErr msg =>
        log Error ("Failed to connect to Telegram: " +:+ msg) ;!
        handleDisconnection ;!
        aw_ret false
    end in
  if from_reconnect && success then setConnected true ;! startUpdatePolling else aw_ret tt.

(** The callback of the reconnect [setTimeout]. *)
Definition reconnect_callback : io unit :=
  update_self (fun t => with_reconnectAttempts t (S (reconnectAttempts t))) ;!
  let! t := this in
  if truthy (token t) && truthy (chatId t) then
    update_self (fun t => with_api t (Transport.createTelegramAPI (token t))) ;!
    testConnection_start true
  else aw_ret tt.

(** [initialize(token, chatId)]: returns [this.connected]. *)
Definition initialize (tk cid : option string) : io bool :=
  update_self (fun t => with_credentials t tk cid) ;!
  update_self (fun t => with_api t (Transport.createTelegramAPI tk)) ;!
  let! t := this in
  (if match api t with Some _ => truthy (chatId t) | None => false end then
     setConnected true ;! startUpdatePolling ;! testConnection_start false
   else setConnected false) ;!
  let! t := this in
  aw_ret (connected t).

(** ** A configured client, and consecutive failed reconnections *)

Definition demo_link : World :=
  with_self new_World
    (with_connected (with_api (with_credentials new_TelegramAPI (Some "tok") (Some "123")) (Some "tok")) true).

(** Fire the armed reconnect timeout, let its [getMe] fail, and repeat
    [n] times; the delays of the timeouts fired, in order. *)
Fixpoint failing_reconnects (n : nat) (w : World) : list Z :=
  match n with
  | 0 => []
  | S n' =>
      match omap (fun p => match snd p with ReconnectTimeout d => Some (fst p, d) | PollInterval => None end)
                 (timers w) with
      | (id, d) :: _ =>
          d :: failing_reconnects n'
                 (exec (testConnection_resume true (MeErr "Network Error"))
                       (exec reconnect_callback (fire id w) []) [])
      | [] => []
      end
  end.

(** The trace lines of [setConnected status] from a state with
    [connected = was]. *)
Definition transition_events (was status : bool) (ls : list listener) : list event :=
  if Bool.eqb was status then []
  else Log Info ("Telegram connection status: " +:+ (if status then "Connected" else "Disconnected"))
       :: map (fun l => Notify l status) ls.

(** ** Run lemmas *)

Lemma notify_all_run ls status w o :
  notify_all ls status w o =
  (Normal tt, mkWorld (self w) (timers w) (next_timer w) (pending w)
                (out w ++ map (fun l => Notify l status) ls), o).
Proof.
  unfold notify_all. revert w. induction ls as [|l ls IH]; intros w.
  - destruct w; simpl. by rewrite app_nil_r.
  - cbn [for_each aw_bind emit aw_modify]. rewrite IH. simpl. by rewrite <- app_assoc.
Qed.

Lemma setConnected_run status w o :
  setConnected status w o =
  (Normal tt, mkWorld (with_connected (self w) status) (timers w) (next_timer w) (pending w)
                (out w ++ transition_events (connected (self w)) status (connectionListeners (self w))), o).
Proof.
  unfold setConnected, transition_events. cbn -[notify_all].
  destruct (Bool.eqb (connected (self w)) status); cbn -[notify_all].
  - by rewrite app_nil_r.
  - rewrite notify_all_run. simpl. by rewrite <- app_assoc.
Qed.

Lemma stopUpdatePolling_run w o :
  stopUpdatePolling w o =
  (Normal tt, mkWorld (with_polling (self w) None false)
                (match updatePollingInterval (self w) with
                 | Some id => filter (fun p => fst p <> id) (timers w)
                 | None => timers w
                 end) (next_timer w) (pending w) (out w), o).
Proof.
  unfold stopUpdatePolling. cbn.
  destruct (updatePollingInterval (self w)) eqn:E; cbn; [reflexivity|]. unfold update_self. cbn. by rewrite E.
Qed.

(** ** Properties *)

(** [setConnected] records the new state; a call with the current
    state notifies nobody and logs nothing; a change logs one line and
    calls every listener once with the new state, in registration order. *)
Theorem setConnected_debounce w o status :
  connected (self (exec (setConnected status) w o)) = status /\
  (connected (self w) = status -> out (exec (setConnected status) w o) = out w) /\
  (connected (self w) <> status ->
   out (exec (setConnected status) w o) =
   out w ++ Log Info ("Telegram connection status: " +:+ (if status then "Connected" else "Disconnected"))
          :: map (fun l => Notify l status) (connectionListeners (self w))).
Proof.
  unfold exec. rewrite setConnected_run. simpl. unfold transition_events.
  split_and!; [done| |]; intros H.
  - subst. by rewrite eqb_reflx, app_nil_r.
  - destruct (Bool.eqb (connected (self w)) status) eqn:E; [|done].
    apply eqb_prop in E. contradiction.
Qed.

(** a listener added with [addConnectionListener] is appended to
    the listeners and called at once with the current state; a value
    that is not a function is ignored. *)
Theorem addConnectionListener_replays w o l :
  connectionListeners (self (exec (addConnectionListener (JsFunction l)) w o)) = connectionListeners (self w) ++ [l] /\
  out (exec (addConnectionListener (JsFunction l)) w o) = out w ++ [Notify l (connected (self w))] /\
  exec (addConnectionListener JsOther) w o = w.
Proof. split_and!; reflexivity. Qed.

(** C17: [handleDisconnection] leaves the client disconnected with
    exactly one reconnect timeout armed, of [min(30000, 2^attempts *
    1000)] ms, while [reconnectAttempts < maxReconnectAttempts], and none
    once the bound is reached (when the timeouts armed before carried the
    id [reconnectTimer], which it clears). *)
Theorem handleDisconnection_backoff w o :
  (forall id d, (id, ReconnectTimeout d) ∈ timers w -> reconnectTimer (self w) = Some id) ->
  connected (self (exec handleDisconnection w o)) = false /\
  reconnect_timeouts (exec handleDisconnection w o) =
    if reconnectAttempts (self w) <? maxReconnectAttempts (self w)
    then [reconnect_delay (reconnectAttempts (self w))] else [].
Proof.
  intros Hrt. unfold exec, handleDisconnection.
  cbn -[setConnected stopUpdatePolling Nat.ltb]. rewrite setConnected_run.
  cbn -[stopUpdatePolling Nat.ltb]. rewrite stopUpdatePolling_run. cbn -[Nat.ltb].
  set (ts1 := match updatePollingInterval (self w) with
              | Some id => filter (fun p => fst p <> id) (timers w) | None => timers w end).
  assert (Hts1 : forall id d, (id, ReconnectTimeout d) ∈ ts1 -> reconnectTimer (self w) = Some id).
  { intros id d Hin. apply (Hrt id d). subst ts1.
    destruct (updatePollingInterval (self w)); [|done]. by apply list_elem_of_filter in Hin as [_ ?]. }
  assert (Hnone : omap rt_delay (match reconnectTimer (self w) with
                                 | Some id => filter (fun p => fst p <> id) ts1 | None => ts1 end) = []).
  { destruct (reconnectTimer (self w)) as [rid|] eqn:Er.
    - apply rt_delay_cleared. intros id' d Hin. specialize (Hts1 id' d Hin). congruence.
    - apply rt_delay_nil. intros id' d Hin. specialize (Hts1 id' d Hin). congruence. }
  destruct (reconnectTimer (self w)) as [rid|]; cbn -[Nat.ltb];
    destruct (reconnectAttempts (self w) <? maxReconnectAttempts (self w)); cbn;
    unfold reconnect_timeouts; simpl; rewrite ?omap_app, Hnone; done.
Qed.


Lemma handleDisconnection_backoff_witness :
  connected (self (exec handleDisconnection demo_link [])) = false /\
  reconnect_timeouts (exec handleDisconnection demo_link []) = [1000%Z].
Proof.
  apply (handleDisconnection_backoff demo_link []). intros id d Hin. by apply not_elem_of_nil in Hin.
Defined.

(** after a disconnection, each failed [getMe] of a reconnect
    attempt arms the next timeout: the waits are 1, 2, 4, 8, 16 seconds
    and then 30 seconds five times, and after the tenth failure no
    timeout is armed any more (twelve rounds are asked for, ten happen). *)
Theorem reconnect_backoff_sequence :
  failing_reconnects 12 (exec handleDisconnection demo_link []) =
  [1000; 2000; 4000; 8000; 16000; 30000; 30000; 30000; 30000; 30000]%Z.
Proof. vm_compute. reflexivity. Qed.

End Connection.
