(* ===== verification/Dispatcher.v ===== *)
(** * The update dispatcher

    [getUpdates] (lines 256-282), [processUpdate] (lines 288-361) and
    the callback of the poll interval (lines 177-191) of
    [src/src/api/telegramAPI.js]; replies go through [Reply.sendMessage].
    [getUpdates] is split at its [await]: [getUpdates_start] sends the
    request with [offset = lastUpdateId + 1] and suspends the poll
    callback as [KPoll offset]; [poll_resume] is the rest of
    [getUpdates] followed by the loop [for (const update of updates)
    await this.processUpdate(update)] inside the callback's [try].

    [processUpdate] follows the code branch by branch: the two chat-id
    guards with their early returns, the callback-query branch
    (acknowledge, exact key, [command_param] key, or reply
    "Command not implemented"), the message branch (slash command with
    lowercased name and space-separated parameters, or the [message]
    handler), and the outer [catch] that reports the error to the chat. *)

From S2P Require Import Prelude JsString Encryption Await Model Reply Registry Connection.

Module Dispatcher.

(** [this.chatId.toString()]. *)
Definition chat_key : io string :=
  let! t := this in
  match chatId t with
  | Some c => aw_ret c
  | None => aw_throw type_error_null
  end.

(** [chat.id.toString() !== this.chatId.toString()]. *)
Definition foreign (chat : Z) : io bool :=
  let! c := chat_key in aw_ret (negb (String.eqb (Js.numToString chat) c)).

(** The chat of [update.callback_query.message]; reading [.chat] of a
    missing message throws. *)
Definition callback_chat (q : CallbackQuery) : io Z :=
  match cq_message q with
  | Some m => aw_ret (chat_id m)
  | None => aw_throw "Cannot read properties of undefined"
  end.

(** Lines 310-324: the handler for [data], exact key first, then the
    [command_param] form. *)
Definition route_callback (q : CallbackQuery) : io unit :=
  let data := cq_data q in
  let! t := this in
  match Registry.resolve (commandHandlers t) data with
  | Some s => Registry.invoke s (OnCallback q)
  | None =>
      if Js.includes "_" data then
        let '(command, params) := Js.head_and_rest "_" data in
        let! t := this in
        match Registry.resolve (commandHandlers t) command with
        | Some s => Registry.invoke s (OnCallbackParam q params)
        | None => log Warning ("No handler for parameterized command: " +:+ command)
        end
      else
        log Warning ("No handler for command: " +:+ data) ;!
        Reply.sendMessage ("Command not implemented: " +:+ data) Reply.no_options ;!
        aw_ret tt
  end.

(** The callback-query branch (lines 303-325). *)
Definition handle_callback (q : CallbackQuery) : io unit :=
  log Info ("Received callback query: " +:+ cq_data q) ;!
  call_api (AnswerCallbackQuery (cq_id q)) ;!
  route_callback q.

(** The message branch, for a truthy [update.message.text]. *)
Definition handle_text (m : Message) (txt : string) : io unit :=
  log Info ("Received message: " +:+ txt) ;!
  if Js.startsWith "/" txt then
    let fullCommand := Js.substring1 txt in
    match Js.split " " fullCommand with
    | [] => aw_throw type_error_null
    | first :: params =>
        let command := Js.toLowerCase first in
        let! t := this in
        match Registry.resolve (commandHandlers t) command with
        | Some s =>
            log Debug ("Executing command: " +:+ command +:+ " with params: " +:+ Js.join ", " params) ;!
            Registry.invoke s (OnCommand m params)
        | None =>
            log Warning ("Unknown command: " +:+ command) ;!
            Reply.sendMessage ("Unknown command: /" +:+ command +:+ Reply.newline +:+ "Type /help for available commands.") Reply.no_options ;!
            aw_ret tt
        end
    end
  else
    let! t := this in
    match Registry.resolve (commandHandlers t) "message" with
    | Some s => Registry.invoke s (OnMessage m)
    | None => aw_ret tt
    end.

(** Lines 302-351, once both chat guards passed. *)
Definition dispatch (u : Update) : io unit :=
  match callback_query u with
  | Some q => handle_callback q
  | None => aw_ret tt
  end ;!
  match message u with
  | Some m =>
      match text m with
      | Some txt => if truthy (Some txt) then handle_text m txt else aw_ret tt
      | None => aw_ret tt
      end
  | None => aw_ret tt
  end.

(** The second guard (lines 297-300). *)
Definition callback_guard (u : Update) : io unit :=
  match callback_query u with
  | Some q =>
      let! c := callback_chat q in
      let! f := foreign c in
      if f then log Warning ("Received callback from unauthorized chat: " +:+ Js.numToString c)
      else dispatch u
  | None => dispatch u
  end.

(** The body of [processUpdate] inside its [try]: the first guard
    (lines 292-295), then the second. *)
Definition process_body (u : Update) : io unit :=
  match message u with
  | Some m =>
      let! f := foreign (chat_id m) in
      if f then log Warning ("Received message from unauthorized chat: " +:+ Js.numToString (chat_id m))
      else callback_guard u
  | None => callback_guard u
  end.

(** The inner [try] of the [catch] block (lines 355-359). *)
Definition report_to_chat (e : string) : io unit :=
  aw_catch (Reply.sendMessage ("Error processing command: " +:+ e) Reply.no_options ;! aw_ret tt)
           (fun e' => log Error ("Failed to send error message: " +:+ e')).

(** The [catch (error)] block of [processUpdate] (lines 352-360). *)
Definition report_error (e : string) : io unit :=
  log Error ("Error processing update: " +:+ e) ;!
  report_to_chat e.

(** [processUpdate(update)]. *)
Definition processUpdate (u : Update) : io unit := aw_catch (process_body u) report_error.

(** What the [getUpdates] request settles with: the response's
    [result] (possibly missing), or the rejection's message. *)
Inductive poll_reply :=
  | UpdatesOk (result : option (list Update))
  | UpdatesErr (message : string).

(** The [catch] of [getUpdates]. *)
Definition getUpdates_failed (e : string) : io (list Update) :=
  log Error ("Failed to get updates: " +:+ e) ;!
  Connection.handleDisconnection ;!
  aw_ret [].

(** [getUpdates()] up to its [await]: the offset of the request when it
    is sent; [None] when it returns [[]] at once (not connected, or
    [this.api] is [null], which its [catch] treats as a failure). *)
Definition getUpdates_begin : io (option Z) :=
  let! t := this in
  if negb (connected t) then aw_ret None
  else
    match api t with
    | None => getUpdates_failed type_error_null ;! aw_ret None
    | Some _ => emit (Request (GetUpdates (lastUpdateId t + 1)%Z)) ;! aw_ret (Some (lastUpdateId t + 1)%Z)
    end.

(** The poll callback suspended at [await this.getUpdates()]. *)
Definition getUpdates_start : io unit :=
  let! r := getUpdates_begin in
  match r with
  | Some off => park (KPoll off)
  | None => aw_ret tt
  end.

(** [getUpdates()] after its [await]. *)
Definition getUpdates_resume (r : poll_reply) : io (list Update) :=
  match r with
  | UpdatesOk res =>
      let updates := default [] res in
      match last_elem updates with
      | Some u => update_self (fun t => with_lastUpdateId t (update_id u))
      | None => aw_ret tt
      end ;!
      aw_ret updates
  | UpdatesErr e => getUpdates_failed e
  end.

(** The interval callback up to [await this.getUpdates()]. *)
Definition poll_tick : io unit :=
  let! t := this in
  if connected t then
    aw_catch getUpdates_start (fun e => log Error ("Error in update polling: " +:+ e))
  else aw_ret tt.

(** The interval callback after [getUpdates] settles. *)
Definition poll_resume (r : poll_reply) : io unit :=
  aw_catch (let! updates := getUpdates_resume r in for_each updates processUpdate)
           (fun e => log Error ("Error in update polling: " +:+ e)).

(** ** Configurations used by the witnesses *)

(** Configured for chat ["123"], connected, with handlers under [file]
    and [sms_logs]. *)
Definition demo_self : TelegramAPI :=
  with_handlers
    (with_connected (with_api (with_credentials new_TelegramAPI (Some "tok") (Some "123")) (Some "tok")) true)
    (<["file" := Handler "handleFile"]> (<["sms_logs" := Handler "handleSmsLogs"]> ∅)).

Definition demo_world : World := with_self new_World demo_self.

Definition demo_query (data : string) : CallbackQuery := mkCallback "cb1" data (Some (mkMessage 123 None)).

Definition demo_message (txt : string) : Message := mkMessage 123 (Some txt).

(** The configuration of the scenario of the specification: cursor at
    [4], handlers under [storage] and [back]. *)
Definition scenario_world : World :=
  with_self new_World
    (with_lastUpdateId
       (with_handlers demo_self
          (<["storage" := Handler "handleStorage"]> (<["back" := Handler "handleNavigateBack"]> ∅))) 4).

Definition scenario_batch : list Update :=
  [mkUpdate 5 None (Some (demo_query "storage")); mkUpdate 6 None (Some (mkCallback "cb2" "back" (Some (mkMessage 123 None))))].

(** The requests and handler calls of a trace. *)
Definition calls_of (l : list event) : list event :=
  List.filter (fun e => match e with Request _ | Invoke _ _ => true | _ => false end) l.

(** The chat id the guards of [processUpdate] compare first. *)
Definition guard_chat (u : Update) : option Z :=
  match message u with
  | Some m => Some (chat_id m)
  | None => match callback_query u with Some q => chat_id <$> cq_message q | None => None end
  end.

(** Trace events that are not handler calls leave "no handler was called
    since [base]" intact. *)
Definition no_invoke_since (base : list event) (w : World) : Prop :=
  exists fresh, out w = base ++ fresh /\ forall s a, Invoke s a ∉ fresh.

(** ** Library lemmas *)

Lemma foreign_run z w o c :
  chatId (self w) = Some c -> foreign z w o = (Normal (negb (String.eqb (Js.numToString z) c)), w, o).
Proof. intros Hc. unfold foreign, chat_key, this. cbn. by rewrite Hc. Qed.

(** [processUpdate] only appends to the trace: every heap property that
    trace events cannot break is kept. *)
Section TraceOnly.
Variable P : World -> Prop.
Hypothesis HP : trace_only P.

Local Ltac go := solve_keeps; try (apply keeps_modify || apply keeps_await); try (intros ??; eapply HP; eassumption).

Lemma keeps_this : keeps P this.
Proof. unfold this. go. Qed.
Lemma keeps_emit e : keeps P (emit e).
Proof. unfold emit. go. Qed.
Lemma keeps_call_api r : keeps P (call_api r).
Proof. unfold call_api. go; auto using keeps_this. Qed.
Lemma keeps_invoke s a : keeps P (Registry.invoke s a).
Proof. unfold Registry.invoke. go; auto using keeps_emit. Qed.
Lemma keeps_sendMessage m opts : keeps P (Reply.sendMessage m opts).
Proof. unfold Reply.sendMessage, log. go; auto using keeps_this, keeps_call_api, keeps_emit. Qed.
Lemma keeps_foreign z : keeps P (foreign z).
Proof. unfold foreign, chat_key. go; auto using keeps_this. Qed.

Local Hint Resolve keeps_this keeps_emit keeps_call_api keeps_invoke keeps_sendMessage
    keeps_foreign : core.

Lemma keeps_handle_callback q : keeps P (handle_callback q).
Proof. unfold handle_callback, route_callback, log. go; auto. Qed.
Lemma keeps_handle_text m txt : keeps P (handle_text m txt).
Proof. unfold handle_text, log. go; auto. Qed.
Lemma keeps_processUpdate u : keeps P (processUpdate u).
Proof.
  unfold processUpdate, report_error, report_to_chat, process_body, callback_guard, dispatch, callback_chat, log.
  go; auto using keeps_handle_callback, keeps_handle_text.
Qed.
End TraceOnly.

#[local] Hint Resolve Reply.no_throw_sendMessage : tah.

Lemma no_throw_report_error e : no_throw (report_error e).
Proof.
  unfold report_error, report_to_chat. apply no_throw_bind; [auto with tah|intros _].
  apply no_throw_catch. auto with tah.
Qed.

Lemma no_invoke_since_push base e w :
  (forall s a, e <> Invoke s a) -> no_invoke_since base w -> no_invoke_since base (push e w).
Proof.
  intros He (fresh & Hout & Hf). exists (fresh ++ [e]). simpl. rewrite Hout, app_assoc.
  split; [done|]. intros s a. rewrite elem_of_app, list_elem_of_singleton.
  intros [Hin|Heq]; [by eapply Hf|by eapply He].
Qed.

Lemma keeps_no_invoke_report_to_chat base e : keeps (no_invoke_since base) (report_to_chat e).
Proof.
  unfold report_to_chat, Reply.sendMessage, call_api, this, log, emit.
  solve_keeps; try (apply keeps_modify || apply keeps_await);
    try (intros ??; apply no_invoke_since_push; [discriminate|assumption]).
Qed.

(** ** Properties *)

(** C1: an update whose chat id (of the message, or of the message a
    callback query is attached to) differs from the configured chat id
    reaches no handler: processing it appends one warning to the trace,
    sends nothing and consumes no settlement. *)
Theorem unauthorized_update_dropped w o u c z :
  chatId (self w) = Some c -> guard_chat u = Some z -> Js.numToString z <> c ->
  exists msg, processUpdate u w o = (Normal tt, push (Log Warning msg) w, o).
Proof.
  intros Hc Hg Hne. unfold guard_chat in Hg. unfold processUpdate, process_body.
  destruct (message u) as [m|].
  - injection Hg as <-. cbn -[foreign log]. rewrite (foreign_run _ _ _ c Hc).
    destruct (String.eqb_spec (Js.numToString (chat_id m)) c); [contradiction|]. simpl. eauto.
  - unfold callback_guard. destruct (callback_query u) as [q|]; [|done].
    unfold callback_chat. destruct (cq_message q) as [m|]; [|done]. injection Hg as <-.
    cbn -[foreign log]. rewrite (foreign_run _ _ _ c Hc).
    destruct (String.eqb_spec (Js.numToString (chat_id m)) c); [contradiction|]. simpl. eauto.
Qed.

Lemma unauthorized_update_dropped_witness :
  exists msg, processUpdate (mkUpdate 7 (Some (mkMessage 999 (Some "/sms_logs"))) None) demo_world []
              = (Normal tt, push (Log Warning msg) demo_world, []).
Proof. apply (unauthorized_update_dropped demo_world [] _ "123" 999); [reflexivity|reflexivity|vm_compute; discriminate]. Defined.

(** The guards passed, [processUpdate] runs its branch inside the [try]. *)
Section Authorized.
Context (w : World) (c tok : string).
Hypothesis Hc : chatId (self w) = Some c.
Hypothesis Ha : api (self w) = Some tok.

Lemma process_callback_run u q m o :
    message u = None -> callback_query u = Some q -> cq_message q = Some m ->
    Js.numToString (chat_id m) = c ->
    processUpdate u w o = aw_catch (handle_callback q ;! aw_ret tt) report_error w o.
Proof.
  intros Hmsg Hcb Hcm Hchat. unfold processUpdate, process_body, callback_guard, callback_chat.
  rewrite Hmsg, Hcb, Hcm. cbn -[foreign handle_callback report_error].
  rewrite (foreign_run _ _ _ c Hc), Hchat, String.eqb_refl.
  unfold dispatch. rewrite Hcb, Hmsg. reflexivity.
Qed.

Lemma process_text_run u m txt o :
    message u = Some m -> callback_query u = None -> text m = Some txt -> txt <> ""%string ->
    Js.numToString (chat_id m) = c ->
    processUpdate u w o = aw_catch (handle_text m txt) report_error w o.
Proof.
  intros Hmsg Hcb Htxt Hne Hchat. unfold processUpdate, process_body, callback_guard.
  rewrite Hmsg. cbn -[foreign handle_text report_error dispatch].
  rewrite (foreign_run _ _ _ c Hc), Hchat, String.eqb_refl. rewrite Hcb.
  unfold dispatch. rewrite Hcb, Hmsg, Htxt, truthy_Some by done. reflexivity.
Qed.

(** Acknowledging the callback is the first request. *)
Lemma handle_callback_ack q o :
    handle_callback q w (Fulfilled :: o) =
    route_callback q (push (Request (AnswerCallbackQuery (cq_id q)))
                        (push (Log Info ("Received callback query: " +:+ cq_data q)) w)) o.
Proof. unfold handle_callback. cbn -[route_callback]. rewrite Ha. reflexivity. Qed.
Section AuthorizedCallback.
Context (u : Update) (q : CallbackQuery) (m : Message).
Hypothesis Hmsg : message u = None.
Hypothesis Hcb : callback_query u = Some q.
Hypothesis Hcm : cq_message q = Some m.
Hypothesis Hchat : Js.numToString (chat_id m) = c.

(** C11: a callback query from the configured chat is acknowledged
    with [answerCallbackQuery] before anything else is requested, and
    then dispatched to the handler registered under its exact data. *)
Theorem callback_exact_dispatch h o :
      commandHandlers (self w) !! cq_data q = Some h ->
      processUpdate u w (Fulfilled :: Fulfilled :: o) =
        (Normal tt, push (Invoke (Own h) (OnCallback q))
                      (push (Request (AnswerCallbackQuery (cq_id q)))
                         (push (Log Info ("Received callback query: " +:+ cq_data q)) w)), o).
Proof.
  intros Hh. rewrite (process_callback_run u q m) by done.
  cbn -[handle_callback]. rewrite handle_callback_ack.
  unfold route_callback. cbn -[Registry.resolve]. by rewrite (Registry.resolve_own _ _ _ Hh).
Qed.

(** callback data [command_param] with no handler under the whole
    data goes to the handler of [command], the text before the first
    underscore, with [param], the text after it. *)
Theorem callback_param_dispatch cmd param h o :
      commandHandlers (self w) !! cq_data q = None ->
      cq_data q ∉ Registry.object_prototype_members ->
      Js.split_first "_" (cq_data q) = Some (cmd, param) ->
      commandHandlers (self w) !! cmd = Some h ->
      processUpdate u w (Fulfilled :: Fulfilled :: o) =
        (Normal tt, push (Invoke (Own h) (OnCallbackParam q param))
                      (push (Request (AnswerCallbackQuery (cq_id q)))
                         (push (Log Info ("Received callback query: " +:+ cq_data q)) w)), o).
Proof.
  intros Hnone Hmem Hsplit Hh. rewrite (process_callback_run u q m) by done.
  cbn -[handle_callback]. rewrite handle_callback_ack.
  unfold route_callback. cbn -[Registry.resolve Js.includes Js.head_and_rest].
  rewrite (Registry.resolve_not_member _ _ Hmem), Hnone. simpl.
  assert (Hinc : Js.includes "_" (cq_data q) = true) by (apply Js.includes_split_first; by rewrite Hsplit).
  rewrite Hinc, (Js.head_and_rest_first _ _ _ _ Hsplit). cbn -[Registry.resolve].
  by rewrite (Registry.resolve_own _ _ _ Hh).
Qed.

(** when the acknowledgement is rejected, no handler is called:
    the error is logged and reported, and nothing of what follows is a
    handler call. *)
Theorem ack_rejected_skips_handler r o :
      no_invoke_since (out w ++ [Log Info ("Received callback query: " +:+ cq_data q);
                                 Request (AnswerCallbackQuery (cq_id q));
                                 Log Error ("Error processing update: " +:+ r)])
        (exec (processUpdate u) w (Rejected r :: o)).
Proof.
  unfold exec. rewrite (process_callback_run u q m) by done.
  unfold handle_callback. cbn -[report_to_chat]. rewrite Ha. cbn -[report_to_chat].
  apply keeps_no_invoke_report_to_chat. exists []. rewrite app_nil_r. split; [|set_solver].
  simpl. by rewrite <- !app_assoc.
Qed.
End AuthorizedCallback.
Section AuthorizedText.
Context (u : Update) (m : Message) (cmd : string).
Hypothesis Hmsg : message u = Some m.
Hypothesis Hcb : callback_query u = None.
Hypothesis Htxt : text m = Some ("/" +:+ cmd).
Hypothesis Hchat : Js.numToString (chat_id m) = c.
Hypothesis Hsp : Js.includes " " cmd = false.

Lemma slash_text_run o :
      processUpdate u w o =
      aw_catch (let! t := this in
                match Registry.resolve (commandHandlers t) (Js.toLowerCase cmd) with
                | Some s =>
                    log Debug ("Executing command: " +:+ Js.toLowerCase cmd +:+ " with params: " +:+ Js.join ", " []) ;!
                    Registry.invoke s (OnCommand m [])
                | None =>
                    log Warning ("Unknown command: " +:+ Js.toLowerCase cmd) ;!
                    Reply.sendMessage ("Unknown command: /" +:+ Js.toLowerCase cmd +:+ Reply.newline +:+ "Type /help for available commands.") Reply.no_options ;!
                    aw_ret tt
                end) report_error (push (Log Info ("Received message: /" +:+ cmd)) w) o.
Proof.
  rewrite (process_text_run u m ("/" +:+ cmd)) by done.
  unfold handle_text. cbn -[Js.split Registry.resolve report_error].
  change ("/" +:+ cmd)%string with (String "/" cmd). rewrite Js.startsWith_cons.
  change (Js.substring1 (String "/" cmd)) with cmd.
  cbv iota beta. by rewrite (Js.split_no_sep _ _ Hsp).
Qed.

(** a message [/name] from the configured chat, with no space in
    [name], runs the handler registered under [name] lowercased,
    with no parameters. *)
Theorem slash_command_dispatch h o :
      commandHandlers (self w) !! Js.toLowerCase cmd = Some h ->
      processUpdate u w (Fulfilled :: o) =
        (Normal tt, push (Invoke (Own h) (OnCommand m []))
                      (push (Log Debug ("Executing command: " +:+ Js.toLowerCase cmd +:+ " with params: "))
                         (push (Log Info ("Received message: /" +:+ cmd)) w)), o).
Proof.
  intros Hh. rewrite slash_text_run. cbn -[Registry.resolve].
  by rewrite (Registry.resolve_own _ _ _ Hh).
Qed.

(** an unknown command is answered in the chat with
    "Unknown command: /name" and the hint to type /help; no handler is
    called. *)
Theorem unknown_command_replies o :
      connected (self w) = true ->
      commandHandlers (self w) !! Js.toLowerCase cmd = None ->
      Js.toLowerCase cmd ∉ Registry.object_prototype_members ->
      processUpdate u w (Fulfilled :: o) =
        (Normal tt, push (Request (SendMessage (Some c)
                              ("Unknown command: /" +:+ Js.toLowerCase cmd +:+ Reply.newline
                               +:+ "Type /help for available commands.") "Markdown" None))
                      (push (Log Warning ("Unknown command: " +:+ Js.toLowerCase cmd))
                         (push (Log Info ("Received message: /" +:+ cmd)) w)), o).
Proof.
  intros Hcon Hnone Hmem. rewrite slash_text_run. cbn -[Registry.resolve Reply.sendMessage].
  rewrite (Registry.resolve_not_member _ _ Hmem), Hnone. unfold Reply.sendMessage.
  cbn. rewrite Hcon. cbn. rewrite Ha, Hc. reflexivity.
Qed.
End AuthorizedText.

(** C38: a message [/constructor] reaches the member [constructor] that
    the command table inherits from [Object.prototype]: it is called
    as if it were a handler, and the "Unknown command" reply the spec
    promises for unregistered commands is not sent. *)
Theorem prototype_key_dispatched u m o :
    message u = Some m -> callback_query u = None -> text m = Some "/constructor" ->
    Js.numToString (chat_id m) = c -> commandHandlers (self w) !! "constructor" = None ->
    processUpdate u w o =
      (Normal tt, push (Invoke (Inherited "constructor") (OnCommand m []))
                    (push (Log Debug "Executing command: constructor with params: ")
                       (push (Log Info "Received message: /constructor") w)), o).
Proof.
  intros Hmsg Hcb Htxt Hchat Hnone.
  rewrite (slash_text_run u m "constructor") by done.
  replace (Js.toLowerCase "constructor") with "constructor"%string by reflexivity.
  cbn -[Registry.resolve]. unfold Registry.resolve. by rewrite Hnone.
Qed.
End Authorized.

Lemma processUpdate_no_throw u : no_throw (processUpdate u).
Proof. unfold processUpdate. apply no_throw_catch. apply no_throw_report_error. Qed.

(** C39: a handler that throws, or any other failure while processing an
    update, does not stop the batch: the loop of the poll callback goes
    on with the next update from the heap and oracle the failed one left. *)
Theorem batch_continues u us w o :
  exists o', for_each (u :: us) processUpdate w o = for_each us processUpdate (exec (processUpdate u) w o) o'.
Proof.
  destruct (processUpdate_no_throw u w o) as (v & w' & o' & E).
  exists o'. simpl. unfold exec. by rewrite E.
Qed.

Lemma poll_resume_ok_run us w o :
  poll_resume (UpdatesOk (Some us)) w o =
  aw_catch (for_each us processUpdate) (fun e => log Error ("Error in update polling: " +:+ e))
    (match last_elem us with
     | Some u => with_self w (with_lastUpdateId (self w) (update_id u))
     | None => w
     end) o.
Proof. unfold poll_resume, getUpdates_resume. change (default [] (Some us)) with us. destruct (last_elem us); reflexivity. Qed.

Lemma trace_only_cursor z : trace_only (fun w => lastUpdateId (self w) = z).
Proof. intros w e H. exact H. Qed.

(** C40: after a poll whose batch has ascending ids, [lastUpdateId] is
    the id of the last update, which is the largest id of the batch;
    processing the updates does not move it. *)
Theorem poll_cursor_is_max us w o u :
  ascending (map update_id us) = true -> last_elem us = Some u ->
  lastUpdateId (self (exec (poll_resume (UpdatesOk (Some us))) w o)) = update_id u /\
  Forall (fun u' => (update_id u' <= update_id u)%Z) us.
Proof.
  intros Hasc Hlast. split.
  - unfold exec. rewrite poll_resume_ok_run, Hlast.
    apply (keeps_catch (fun w => lastUpdateId (self w) = update_id u)).
    + apply keeps_for_each. intros x. apply keeps_processUpdate, trace_only_cursor.
    + intros e. apply keeps_emit, trace_only_cursor.
    + reflexivity.
  - assert (Hm : last_elem (map update_id us) = Some (update_id u)) by (by rewrite last_elem_map, Hlast).
    pose proof (ascending_last_max _ _ Hasc Hm) as H. rewrite Forall_map in H. exact H.
Qed.

(** ** Witnesses *)

Lemma callback_exact_dispatch_witness :
  processUpdate (mkUpdate 5 None (Some (demo_query "sms_logs"))) demo_world [Fulfilled; Fulfilled] =
  (Normal tt, push (Invoke (Own (Handler "handleSmsLogs")) (OnCallback (demo_query "sms_logs")))
                (push (Request (AnswerCallbackQuery "cb1"))
                   (push (Log Info "Received callback query: sms_logs") demo_world)), []).
Proof.
  apply callback_exact_dispatch with (c := "123") (tok := "tok") (m := mkMessage 123 None);
    reflexivity.
Defined.

Lemma callback_param_dispatch_witness :
  processUpdate (mkUpdate 6 None (Some (demo_query "file_42"))) demo_world [Fulfilled; Fulfilled] =
  (Normal tt, push (Invoke (Own (Handler "handleFile")) (OnCallbackParam (demo_query "file_42") "42"))
                (push (Request (AnswerCallbackQuery "cb1"))
                   (push (Log Info "Received callback query: file_42") demo_world)), []).
Proof.
  apply callback_param_dispatch with (c := "123") (tok := "tok") (m := mkMessage 123 None) (cmd := "file");
    try reflexivity. vm_compute. intros H. inversion H; repeat match goal with H : _ ∈ _ |- _ => inversion H end.
Defined.

Lemma ack_rejected_skips_handler_witness :
  no_invoke_since (out demo_world ++ [Log Info "Received callback query: sms_logs";
                                      Request (AnswerCallbackQuery "cb1");
                                      Log Error "Error processing update: timeout"])
    (exec (processUpdate (mkUpdate 5 None (Some (demo_query "sms_logs")))) demo_world [Rejected "timeout"]).
Proof.
  apply ack_rejected_skips_handler with (c := "123") (tok := "tok") (m := mkMessage 123 None) (q := demo_query "sms_logs");
    reflexivity.
Defined.

Lemma slash_command_dispatch_witness :
  processUpdate (mkUpdate 8 (Some (demo_message "/SMS_Logs")) None) demo_world [Fulfilled] =
  (Normal tt, push (Invoke (Own (Handler "handleSmsLogs")) (OnCommand (demo_message "/SMS_Logs") []))
                (push (Log Debug "Executing command: sms_logs with params: ")
                   (push (Log Info "Received message: /SMS_Logs") demo_world)), []).
Proof.
  apply slash_command_dispatch with (c := "123") (cmd := "SMS_Logs"); reflexivity.
Defined.

Lemma unknown_command_replies_witness :
  processUpdate (mkUpdate 9 (Some (demo_message "/wipe")) None) demo_world [Fulfilled] =
  (Normal tt, push (Request (SendMessage (Some "123")
                      ("Unknown command: /wipe" +:+ Reply.newline +:+ "Type /help for available commands.") "Markdown" None))
                (push (Log Warning "Unknown command: wipe")
                   (push (Log Info "Received message: /wipe") demo_world)), []).
Proof.
  apply unknown_command_replies with (tok := "tok") (cmd := "wipe") (m := demo_message "/wipe"); try reflexivity.
  vm_compute. intros H. repeat (inversion H as [|? ? ? H']; subst; clear H; rename H' into H).
Defined.

Lemma prototype_key_dispatched_witness :
  processUpdate (mkUpdate 10 (Some (demo_message "/constructor")) None) demo_world [] =
  (Normal tt, push (Invoke (Inherited "constructor") (OnCommand (demo_message "/constructor") []))
                (push (Log Debug "Executing command: constructor with params: ")
                   (push (Log Info "Received message: /constructor") demo_world)), []).
Proof. apply prototype_key_dispatched with (c := "123"); reflexivity. Defined.

Lemma poll_cursor_is_max_witness :
  lastUpdateId (self (exec (poll_resume (UpdatesOk (Some [mkUpdate 5 None None; mkUpdate 6 None None])))
                       demo_world [])) = 6%Z /\
  Forall (fun u' => (update_id u' <= 6)%Z) [mkUpdate 5 None None; mkUpdate 6 None None].
Proof. apply (poll_cursor_is_max _ _ _ (mkUpdate 6 None None)); reflexivity. Defined.

(** the scenario of the specification.  With the cursor at [4],
    a batch of two callback queries [storage] (id 5) then [back] (id
    6) is acknowledged and dispatched in order, each acknowledgement
    before its handler, and the cursor becomes [6]. *)
Theorem spec_scenario_two_callbacks :
  let w' := exec (poll_resume (UpdatesOk (Some scenario_batch))) scenario_world
                 [Fulfilled; Fulfilled; Fulfilled; Fulfilled] in
  calls_of (out w') =
    [Request (AnswerCallbackQuery "cb1"); Invoke (Own (Handler "handleStorage")) (OnCallback (demo_query "storage"));
     Request (AnswerCallbackQuery "cb2");
     Invoke (Own (Handler "handleNavigateBack")) (OnCallback (mkCallback "cb2" "back" (Some (mkMessage 123 None))))] /\
  lastUpdateId (self w') = 6%Z.
Proof. vm_compute. split; reflexivity. Qed.

End Dispatcher.
