(* ===== verification/System.v ===== *)
(** * The event loop

    A state of the system is the client's [World] (the singleton, the
    armed timers, the suspended [async] functions, the trace) together
    with the Bot API server's queue of unconfirmed updates and the id the
    next update will get.  [step] has one rule per macrotask the
    JavaScript event loop may run: a timer fires (the poll interval or
    the reconnect timeout), an HTTP response arrives for a suspended
    function (in any order), an update arrives at the server, or the App
    calls into the singleton ([initialize], [registerCommandHandler],
    the listener operations).

    The server follows the Bot API's contract for [getUpdates]: an
    update is confirmed, and dropped, when a request with a larger
    [offset] arrives, and the answer is every unconfirmed update with
    [update_id >= offset], oldest first.  Update ids are assigned in
    increasing order.  The Bot API server is the environment of the
    program, not code of the repository. *)

From S2P Require Import Prelude JsString Await Model Registry Connection Dispatcher.

Module System.

Record Sys := mkSys {
  world : World;
  server : list Update;
  next_id : Z
}.

(** [getUpdates?offset=off] at the server: the confirmed updates are
    dropped and the rest is the answer. *)
Definition answer (srv : list Update) (off : Z) : list Update :=
  filter (fun u => (off <= update_id u)%Z) srv.

(** The runtime hands a settled promise back to its function. *)
Definition resume_task (pre post : list task) (w : World) : World :=
  mkWorld (self w) (timers w) (next_timer w) (pre ++ post) (out w).

(** What the App may call on the singleton. *)
Inductive app_call :=
  | CallInitialize (tk cid : option string)
  | CallRegister (command : string) (v : jsval handler)
  | CallAddListener (v : jsval listener)
  | CallRemoveListener (l : listener).

Definition run_app_call (c : app_call) : io unit :=
  match c with
  | CallInitialize tk cid => Connection.initialize tk cid ;! aw_ret tt
  | CallRegister k v => Registry.registerCommandHandler k v
  | CallAddListener v => Connection.addConnectionListener v
  | CallRemoveListener l => Connection.removeConnectionListener l
  end.

Inductive step : Sys -> Sys -> Prop :=
  | step_poll_tick s id :
      (id, PollInterval) ∈ timers (world s) ->
      step s (mkSys (exec Dispatcher.poll_tick (world s) []) (server s) (next_id s))
  | step_reconnect s id d :
      (id, ReconnectTimeout d) ∈ timers (world s) ->
      step s (mkSys (exec Connection.reconnect_callback (fire id (world s)) []) (server s) (next_id s))
  | step_poll_ok s pre post off o :
      pending (world s) = pre ++ KPoll off :: post ->
      step s (mkSys (exec (Dispatcher.poll_resume (Dispatcher.UpdatesOk (Some (answer (server s) off))))
                          (resume_task pre post (world s)) o)
                    (answer (server s) off) (next_id s))
  | step_poll_err s pre post off e :
      pending (world s) = pre ++ KPoll off :: post ->
      step s (mkSys (exec (Dispatcher.poll_resume (Dispatcher.UpdatesErr e)) (resume_task pre post (world s)) [])
                    (server s) (next_id s))
  | step_test_reply s pre post b r :
      pending (world s) = pre ++ KTestConnection b :: post ->
      step s (mkSys (exec (Connection.testConnection_resume b r) (resume_task pre post (world s)) [])
                    (server s) (next_id s))
  | step_arrive s m q :
      step s (mkSys (world s) (server s ++ [mkUpdate (next_id s) m q]) (next_id s + 1))
  | step_app s c :
      step s (mkSys (exec (run_app_call c) (world s) []) (server s) (next_id s)).

Definition init : Sys := mkSys new_World [] 1.

Definition reachable (s : Sys) : Prop := rtc step init s.

(** ** Scenarios *)

Definition storage_query : CallbackQuery := mkCallback "cb1" "storage" (Some (mkMessage 123 None)).

(** How often [e] occurs in the trace. *)
Definition occurrences (e : event) (l : list event) : nat := List.length (filter (fun x => x = e) l).

(** C2: the poll callback has no reentrancy guard.  If [getUpdates]
    takes longer than the 3000 ms period, the interval fires again and a
    second request with the same offset is sent while the first is in
    flight; both answers carry the same update, and its handler runs
    twice.  The run: the App registers [storage] and initializes, an
    update arrives, the interval fires twice, both responses arrive. *)
Theorem poll_cycles_overlap :
  exists s, reachable s /\
    filter (fun k => k = KPoll 1) (pending (world s)) = [] /\
    occurrences (Invoke (Own (Handler "handleStorage")) (OnCallback storage_query)) (out (world s)) = 2.
Proof.
  eexists. split.
  { unfold reachable.
  eapply rtc_l; [apply (step_app _ (CallRegister "storage" (JsFunction (Handler "handleStorage"))))|].
  eapply rtc_l; [apply (step_app _ (CallInitialize (Some "tok") (Some "123")))|].
  eapply rtc_l; [apply (step_arrive _ None (Some storage_query))|].
  eapply rtc_l; [apply (step_poll_tick _ 1); vm_compute; left|].
  eapply rtc_l; [apply (step_poll_tick _ 1); vm_compute; left|].
  eapply rtc_l; [apply (step_poll_ok _ [KTestConnection false] [KPoll 1] 1 []); vm_compute; reflexivity|].
  eapply rtc_l; [apply (step_poll_ok _ [KTestConnection false] [] 1 []); vm_compute; reflexivity|].
  apply rtc_refl. }
  vm_compute. split; reflexivity.
Qed.

End System.
