(* ===== verification/AppCore.v ===== *)
(** * The enhanced App: state, closures and command handlers

    [src/unnamed/part_002] (the component [App], lines 44-544) with the
    hooks and services it calls: [useFileSystem]
    ([src/src/hooks/useFileSystem.js]), [useDeviceInfo] and
    [useMessageService] ([src/unnamed/part_006]), the contacts service
    ([part_006], lines 12-50), [createTempFile]
    ([src/src/services/fileService.js]) and [formatDeviceInfo] and
    [takeScreenshot] ([src/src/services/deviceService.js]).  The mount
    effects, the polling of [checkTelegramUpdates] and the transition
    system of the whole App are in [AppRun].

    React semantics.  A callback created during a render reads the state
    of that render: a closure is the snapshot ([AppState]) of the render
    that created it.  [useCallback(f, deps)] keeps the closure of an
    earlier render while the values of [deps] are unchanged ([memo]);
    [render] recomputes the memo cells ([Cells]) from the state, and
    [commit] renders and runs the effects whose dependencies changed (the
    registration of the command handlers).  A timer or a listener keeps
    the closure it was given, whatever renders follow.  A [setX] call
    changes the state at once ([set_state]); closures created afterwards
    see it.  The model renders at the end of each step of the App (a
    timer callback, a listener call, a handler run, a resumed [await]):
    React batches the updates of one task into one render.

    The client ([World] of [Model]) runs under [lift].  The results of
    the device's providers (storage, contacts, SMS, file system, device
    information, screenshot) come from an environment [Env]; how each
    request of the client settles comes from the oracle. *)

From S2P Require Import Prelude JsString Encryption Await Model Reply Registry Connection Dispatcher Formats.

Module App.

(** ** Data *)

(** An entry of [useFileSystem]'s [listFiles]. *)
Record FileEntry := mkFileEntry {
  fe_name : string;
  fe_path : string;
  fe_isDirectory : bool;
  fe_size : Z
}.

(** [FileSystem.getInfoAsync(path)]. *)
Record FileInfo := mkFileInfo { fi_exists : bool; fi_isDirectory : bool; fi_size : Z }.

(** The state hooks of [App] and of the hooks it calls. *)
Record AppState := mkAppState {
  isConnected : bool;
  processing : bool;
  monitoringActive : bool;
  updateInterval : option nat;
  showSettings : bool;
  lastUpdateTime : option Z;
  appState : string;
  currentPath : string;                 (** [useFileSystem] *)
  fileList : list FileEntry;
  fileList_id : nat;
  pathHistory : list string;
  pathHistory_id : nat;
  smsAvailable : bool;                  (** [useMessageService] *)
  smsPermissionGranted : bool;
  deviceInfo : option Reply.DeviceInfo;       (** [useDeviceInfo] *)
  deviceInfo_id : nat
}.

(** The state setters of the hooks.  [fileList], [pathHistory] and
    [deviceInfo] hold arrays and objects, and each of their setters
    stores a new one ([setFileList(sortedFiles)], [setPathHistory(prev =>
    [...prev, currentPath])], [setDeviceInfo(info)]): [X_id] counts the
    values the cell has held, so that two snapshots hold the same array
    exactly when their identities agree. *)
Definition set_isConnected v (s : AppState) : AppState := mkAppState v (processing s) (monitoringActive s) (updateInterval s) (showSettings s) (lastUpdateTime s) (appState s) (currentPath s) (fileList s) (fileList_id s) (pathHistory s) (pathHistory_id s) (smsAvailable s) (smsPermissionGranted s) (deviceInfo s) (deviceInfo_id s).
Definition set_processing v (s : AppState) : AppState := mkAppState (isConnected s) v (monitoringActive s) (updateInterval s) (showSettings s) (lastUpdateTime s) (appState s) (currentPath s) (fileList s) (fileList_id s) (pathHistory s) (pathHistory_id s) (smsAvailable s) (smsPermissionGranted s) (deviceInfo s) (deviceInfo_id s).
Definition set_monitoringActive v (s : AppState) : AppState := mkAppState (isConnected s) (processing s) v (updateInterval s) (showSettings s) (lastUpdateTime s) (appState s) (currentPath s) (fileList s) (fileList_id s) (pathHistory s) (pathHistory_id s) (smsAvailable s) (smsPermissionGranted s) (deviceInfo s) (deviceInfo_id s).
Definition set_updateInterval v (s : AppState) : AppState := mkAppState (isConnected s) (processing s) (monitoringActive s) v (showSettings s) (lastUpdateTime s) (appState s) (currentPath s) (fileList s) (fileList_id s) (pathHistory s) (pathHistory_id s) (smsAvailable s) (smsPermissionGranted s) (deviceInfo s) (deviceInfo_id s).
Definition set_showSettings v (s : AppState) : AppState := mkAppState (isConnected s) (processing s) (monitoringActive s) (updateInterval s) v (lastUpdateTime s) (appState s) (currentPath s) (fileList s) (fileList_id s) (pathHistory s) (pathHistory_id s) (smsAvailable s) (smsPermissionGranted s) (deviceInfo s) (deviceInfo_id s).
Definition set_lastUpdateTime v (s : AppState) : AppState := mkAppState (isConnected s) (processing s) (monitoringActive s) (updateInterval s) (showSettings s) v (appState s) (currentPath s) (fileList s) (fileList_id s) (pathHistory s) (pathHistory_id s) (smsAvailable s) (smsPermissionGranted s) (deviceInfo s) (deviceInfo_id s).
Definition set_appState v (s : AppState) : AppState := mkAppState (isConnected s) (processing s) (monitoringActive s) (updateInterval s) (showSettings s) (lastUpdateTime s) v (currentPath s) (fileList s) (fileList_id s) (pathHistory s) (pathHistory_id s) (smsAvailable s) (smsPermissionGranted s) (deviceInfo s) (deviceInfo_id s).
Definition set_currentPath v (s : AppState) : AppState := mkAppState (isConnected s) (processing s) (monitoringActive s) (updateInterval s) (showSettings s) (lastUpdateTime s) (appState s) v (fileList s) (fileList_id s) (pathHistory s) (pathHistory_id s) (smsAvailable s) (smsPermissionGranted s) (deviceInfo s) (deviceInfo_id s).
Definition set_fileList v (s : AppState) : AppState := mkAppState (isConnected s) (processing s) (monitoringActive s) (updateInterval s) (showSettings s) (lastUpdateTime s) (appState s) (currentPath s) v (S (fileList_id s)) (pathHistory s) (pathHistory_id s) (smsAvailable s) (smsPermissionGranted s) (deviceInfo s) (deviceInfo_id s).
Definition set_pathHistory v (s : AppState) : AppState := mkAppState (isConnected s) (processing s) (monitoringActive s) (updateInterval s) (showSettings s) (lastUpdateTime s) (appState s) (currentPath s) (fileList s) (fileList_id s) v (S (pathHistory_id s)) (smsAvailable s) (smsPermissionGranted s) (deviceInfo s) (deviceInfo_id s).
Definition set_smsAvailable v (s : AppState) : AppState := mkAppState (isConnected s) (processing s) (monitoringActive s) (updateInterval s) (showSettings s) (lastUpdateTime s) (appState s) (currentPath s) (fileList s) (fileList_id s) (pathHistory s) (pathHistory_id s) v (smsPermissionGranted s) (deviceInfo s) (deviceInfo_id s).
Definition set_smsPermissionGranted v (s : AppState) : AppState := mkAppState (isConnected s) (processing s) (monitoringActive s) (updateInterval s) (showSettings s) (lastUpdateTime s) (appState s) (currentPath s) (fileList s) (fileList_id s) (pathHistory s) (pathHistory_id s) (smsAvailable s) v (deviceInfo s) (deviceInfo_id s).
Definition set_deviceInfo v (s : AppState) : AppState := mkAppState (isConnected s) (processing s) (monitoringActive s) (updateInterval s) (showSettings s) (lastUpdateTime s) (appState s) (currentPath s) (fileList s) (fileList_id s) (pathHistory s) (pathHistory_id s) (smsAvailable s) (smsPermissionGranted s) v (S (deviceInfo_id s)).

#[export] Existing Instance Reply.DeviceInfo_eq_dec.

#[export] Instance FileEntry_eq_dec : EqDecision FileEntry.
Proof. solve_decision. Defined.

(** How [deviceService.takeScreenshot()] settles. *)
Inductive screenshot_result :=
  | ShotTaken (path : string)     (** the native module's file path *)
  | ShotNotAllowed                (** [isScreenshotAllowed] is false: [null] *)
  | ShotFailed (message : string). (** the native module throws *)

(** What the capability providers return: the environment of a run. *)
Record Env := mkEnv {
  now : Z;                                  (** [Date.now()] *)
  locale_now : string;                      (** [new Date().toLocaleString()] *)
  currentAppState : string;                 (** [AppState.currentState] at the first render *)
  documentDirectory : string;               (** [FileSystem.documentDirectory] *)
  cacheDirectory : string;                  (** [FileSystem.cacheDirectory] *)
  saved_token : option string;              (** [storage.getBotToken()] *)
  saved_chat : option string;               (** [storage.getChatId()] *)
  device_now : option Reply.DeviceInfo;           (** [collectDeviceInfo]: [None] when it fails *)
  sms_available : bool;                     (** [SMS.isAvailableAsync()] *)
  sms_granted : bool;                       (** [NativeSmsAccess.requestSmsPermission()] *)
  sms_messages : list Formats.NativeSms;            (** [NativeSmsAccess.getSmsMessages] *)
  contacts_status : string;                 (** [Contacts.getPermissionsAsync()] *)
  contacts_request : string;                (** [Contacts.requestPermissionsAsync()] *)
  contacts_data : list Formats.Contact;             (** [Contacts.getContactsAsync] *)
  path_info : string -> FileInfo;           (** [FileSystem.getInfoAsync] *)
  read_dir : string -> list string;         (** [FileSystem.readDirectoryAsync] *)
  locale_compare : string -> string -> Z;   (** the sign of [a.localeCompare(b)] *)
  screenshot : screenshot_result
}.

(** ** Closures and memo cells *)

(** The closures [App] hands out, each the snapshot of the render that
    created it.  [startMonitoring] also holds the
    [checkTelegramUpdates] and [sendDeviceInfo] of its render. *)
Record Cells := mkCells {
  c_check : AppState;
  c_sendDeviceInfo : AppState;
  c_start : AppState * AppState * AppState;
  c_stop : AppState;
  c_smsLogs : AppState;
  c_storage : AppState;
  c_file : AppState;
  c_back : AppState;
  c_deviceInfo : AppState;
  c_static : AppState     (** the callbacks with no dependencies *)
}.

(** [useCallback]: the old closure while the dependencies are equal
    by [Object.is]: [deps] gives the primitive values of the list and
    the identities of its arrays and objects. *)
Definition memo {D} `{EqDecision D} (deps : AppState -> D) (old st : AppState) : AppState :=
  if decide (deps old = deps st) then old else st.

Definition check_deps (s : AppState) := (processing s, isConnected s).
Definition start_deps (s : AppState) := (isConnected s, updateInterval s).
Definition registration_deps (s : AppState) := (currentPath s, fileList_id s).

(** The first render: every closure sees the initial state. *)
Definition first_cells (st : AppState) : Cells := mkCells st st (st, st, st) st st st st st st st.

(** A render: each [useCallback] compares its dependencies. *)
Definition render (cs : Cells) (st : AppState) : Cells :=
  let check := memo check_deps (c_check cs) st in
  let sdi := memo deviceInfo_id (c_sendDeviceInfo cs) st in
  let '(start_snap, _, _) := c_start cs in
  let start := if decide (start_deps start_snap = start_deps st) then c_start cs else (st, check, sdi) in
  mkCells check sdi start
    (memo updateInterval (c_stop cs) st)
    (memo (fun s => (smsAvailable s, smsPermissionGranted s)) (c_smsLogs cs) st)
    (memo currentPath (c_storage cs) st)
    (memo currentPath (c_file cs) st)
    (memo (fun s => (pathHistory_id s, currentPath s)) (c_back cs) st)
    (memo deviceInfo_id (c_deviceInfo cs) st)
    (c_static cs).

(** A suspended [async] function of the App, with what it still needs:
    [checkTelegramUpdates] waiting for [getUpdates] (its closure's
    snapshot), [sendDeviceInfo] waiting for [refreshDeviceInfo] (its
    snapshot), the [initialize] effect waiting for the stored
    credentials, and the mount effects of [useDeviceInfo] and
    [useMessageService] waiting for their providers. *)
Inductive app_task :=
  | AppCheck (snap : AppState) (offset : option Z)
  | AppSendInfo (snap : AppState)
  | AppInit
  | AppCollectDevice
  | AppSmsInit.

Record AppWorld := mkAppWorld {
  core : World;
  st : AppState;
  cells : Cells;
  registered : Cells;       (** the closures given to [registerCommandHandler] *)
  reg_state : AppState;     (** the render of the last registration *)
  listener_cells : option (AppState * AppState * AppState * AppState);
                            (** [startMonitoring] (three snapshots) and [stopMonitoring] of the listener *)
  app_intervals : list (nat * AppState);   (** [setInterval(checkTelegramUpdates)], with its closure *)
  app_pending : list app_task
}.

Abbreviation app := (aw AppWorld).

Definition with_core (a : AppWorld) w := mkAppWorld w (st a) (cells a) (registered a) (reg_state a) (listener_cells a) (app_intervals a) (app_pending a).
Definition with_st (a : AppWorld) s := mkAppWorld (core a) s (cells a) (registered a) (reg_state a) (listener_cells a) (app_intervals a) (app_pending a).
Definition with_cells (a : AppWorld) cs := mkAppWorld (core a) (st a) cs (registered a) (reg_state a) (listener_cells a) (app_intervals a) (app_pending a).
Definition with_registered (a : AppWorld) cs s := mkAppWorld (core a) (st a) (cells a) cs s (listener_cells a) (app_intervals a) (app_pending a).
Definition with_listener (a : AppWorld) l := mkAppWorld (core a) (st a) (cells a) (registered a) (reg_state a) l (app_intervals a) (app_pending a).
Definition with_intervals (a : AppWorld) ivs := mkAppWorld (core a) (st a) (cells a) (registered a) (reg_state a) (listener_cells a) ivs (app_pending a).
Definition with_pending (a : AppWorld) ks := mkAppWorld (core a) (st a) (cells a) (registered a) (reg_state a) (listener_cells a) (app_intervals a) ks.

(** ** Running client code and changing state *)

(** A call of the singleton's code. *)
Definition lift {A} (c : io A) : app A :=
  fun a o => let '(r, w, o') := c (core a) o in (r, with_core a w, o').

Definition app_log (lv : level) (msg : string) : app unit := lift (log lv msg).

(** [setX(...)]: the state changes now, the closures at the next render. *)
Definition set_state (f : AppState -> AppState) : app unit := aw_modify (fun a => with_st a (f (st a))).

Definition app_park (k : app_task) : app unit := aw_modify (fun a => with_pending a (app_pending a ++ [k])).

(** A fresh timer id, from the same counter as the client's timers. *)
Definition fresh_id : io nat :=
  let! w := aw_get in
  aw_modify (fun w => mkWorld (self w) (timers w) (S (next_timer w)) (pending w) (out w)) ;!
  aw_ret (next_timer w).

(** [setInterval(checkTelegramUpdates, 3000)] with the closure [chk]. *)
Definition app_setInterval (chk : AppState) : app nat :=
  let! id := lift fresh_id in
  aw_modify (fun a => with_intervals a (app_intervals a ++ [(id, chk)])) ;!
  aw_ret id.

(** [clearInterval(id)]. *)
Definition app_clearInterval (id : nat) : app unit :=
  aw_modify (fun a => with_intervals a (filter (fun p => fst p <> id) (app_intervals a))).

(** The handlers the third effect registers, by command. *)
Definition command_handlers : list (string * string) :=
  [("call_logs", "handleCallLogs"); ("sms_logs", "handleSmsLogs"); ("contacts", "handleContacts");
   ("storage", "handleStorage"); ("device_info", "handleDeviceInfo"); ("screenshot", "handleScreenshot");
   ("file", "handleFile"); ("back", "handleNavigateBack")]%string.

(** The third effect (lines 166-180). *)
Definition register_all : app unit :=
  lift (for_each command_handlers (fun p => Registry.registerCommandHandler (fst p) (JsFunction (Handler (snd p))))) ;!
  aw_modify (fun a => with_registered a (cells a) (st a)).

(** A render and the effects whose dependencies changed: only the third
    effect has dependencies, [[currentPath, fileList]], which React
    compares with [Object.is]: the path by value, the array by identity,
    so that every listing that sets the entries runs it again. *)
Definition commit : app unit :=
  aw_modify (fun a => with_cells a (render (cells a) (st a))) ;!
  let! a := aw_get in
  if decide (registration_deps (reg_state a) = registration_deps (st a)) then aw_ret tt else register_all.

(** ** Monitoring (lines 183-264) *)

Section Ops.
Context (env : Env).

(** [refreshDeviceInfo()]: [collectDeviceInfo] of [useDeviceInfo]
    ([part_006], lines 197-270) after its awaits. *)
Definition refreshDeviceInfo : app unit :=
  match device_now env with
  | Some d => set_state (set_deviceInfo (Some d)) ;! app_log Debug "Device info collected successfully"
  | None => app_log Error "Failed to collect device info"
  end.

(** [sendDeviceInfo] (lines 251-264) up to [await refreshDeviceInfo()],
    and after it: the text is built from the closure's [deviceInfo]. *)
Definition sendDeviceInfo_start (snap : AppState) : app unit := app_park (AppSendInfo snap).

Definition sendDeviceInfo_resume (snap : AppState) : app unit :=
  aw_catch
    (refreshDeviceInfo ;!
     let! success := lift (Reply.sendDeviceInfo (deviceInfo snap)) in
     if success then app_log Success "Device info sent to Telegram"
     else app_log Error "Failed to send device info")
    (fun e => app_log Error ("Send device info error: " +:+ e)).

(** [startMonitoring] (lines 183-204), the closure of a render: its
    snapshot and the [checkTelegramUpdates] and [sendDeviceInfo] it
    sees. *)
Definition startMonitoring (c : AppState * AppState * AppState) : app unit :=
  let '(s, chk, sdi) := c in
  match updateInterval s with Some id => app_clearInterval id | None => aw_ret tt end ;!
  if isConnected s then
    let! id := app_setInterval chk in
    set_state (set_updateInterval (Some id)) ;!
    set_state (set_monitoringActive true) ;!
    app_log Info "Monitoring started" ;!
    sendDeviceInfo_start sdi
  else aw_ret tt.

(** [stopMonitoring] (lines 206-214). *)
Definition stopMonitoring (s : AppState) : app unit :=
  match updateInterval s with
  | Some id => app_clearInterval id ;! set_state (set_updateInterval None)
  | None => aw_ret tt
  end ;!
  set_state (set_monitoringActive false) ;!
  app_log Info "Monitoring stopped".

(** [handleConnectionChange] (lines 149-156), with the [startMonitoring]
    and [stopMonitoring] of the render that ran the effect. *)
Definition handleConnectionChange (connected : bool) : app unit :=
  let! a := aw_get in
  match listener_cells a with
  | Some (s, chk, sdi, stop) =>
      set_state (set_isConnected connected) ;!
      if connected then startMonitoring (s, chk, sdi) else stopMonitoring stop
  | None => aw_ret tt
  end.

(** [handleConnect] (lines 217-224): the [startMonitoring] of the
    current render. *)
Definition handleConnect : app unit :=
  let! a := aw_get in
  set_state (set_isConnected true) ;!
  set_state (set_showSettings false) ;!
  startMonitoring (c_start (cells a)).

(** The Start/Stop button (lines 604-611), disabled when not connected. *)
Definition press_monitor_button : app unit :=
  let! a := aw_get in
  if negb (isConnected (st a)) then aw_ret tt
  else if monitoringActive (st a) then stopMonitoring (c_stop (cells a))
  else startMonitoring (c_start (cells a)).

(** ** The first render and the mount effects of the hooks *)

(** [useDeviceInfo]'s initial state [{}]: truthy, every field
    [undefined]. *)
Definition empty_device : Reply.DeviceInfo :=
  Reply.mkDeviceInfo "undefined" "undefined" "undefined" "undefined" "undefined" None "undefined" "undefined"
    (Encryption.of_string "undefined") "undefined" "undefined" "undefined" false false "undefined" "Invalid Date".

Definition initial_state : AppState :=
  mkAppState false false false None true None (currentAppState env) (documentDirectory env) [] 0 [] 0 false false (Some empty_device) 0.

(** The App before its first commit, beside the client [w]. *)
Definition app_init (w : World) : AppWorld :=
  mkAppWorld w initial_state (first_cells initial_state) (first_cells initial_state) initial_state None [] [].

(** The mount effect of [useMessageService] ([part_006], lines 300-328)
    after [SMS.isAvailableAsync()], on Android. *)
Definition sms_initialize : app unit :=
  set_state (set_smsAvailable (sms_available env)) ;!
  if sms_available env then
    set_state (set_smsPermissionGranted (sms_granted env)) ;!
    (if sms_granted env then app_log Success "SMS access enabled" else app_log Warning "SMS permission not granted")
  else aw_ret tt.

(** ** [useFileSystem] ([src/src/hooks/useFileSystem.js]) *)

(** The comparator of lines 68-72: directories first, then by name. *)
Definition file_cmp (a b : FileEntry) : Z :=
  if fe_isDirectory a && negb (fe_isDirectory b) then -1
  else if negb (fe_isDirectory a) && fe_isDirectory b then 1
  else locale_compare env (fe_name a) (fe_name b).

(** [fileDetails.sort(...)] (lines 70-74). *)
Definition sort_files (l : list FileEntry) : list FileEntry := sort_by file_cmp l.

(** An entry of [fileDetails] (lines 44-54). *)
Definition file_entry (dir name : string) : FileEntry :=
  let i := path_info env (dir +:+ name) in
  mkFileEntry name (dir +:+ name) (fi_isDirectory i) (fi_size i).

(** [listFiles(path)] (lines 21-88). *)
Definition listFiles (path : string) : app (list FileEntry) :=
  aw_catch
    (let normalized := if Js.endsWith "/" path then path else path +:+ "/" in
     let info := path_info env normalized in
     if negb (fi_exists info) then aw_throw ("Path does not exist: " +:+ normalized)
     else if negb (fi_isDirectory info) then aw_throw ("Path is not a directory: " +:+ normalized)
     else
       let sorted := sort_files (map (file_entry normalized) (read_dir env normalized)) in
       set_state (set_currentPath normalized) ;!
       set_state (set_fileList sorted) ;!
       app_log Info ("Listed " +:+ pretty (List.length sorted) +:+ " files in " +:+ normalized) ;!
       aw_ret sorted)
    (fun e => app_log Error ("Failed to list files: " +:+ e) ;! aw_ret []).

(** [navigateTo(path)] (lines 94-102): the history grows by the
    closure's [currentPath]. *)
Definition navigateTo (snap : AppState) (path : string) : app unit :=
  set_state (fun s => set_pathHistory (pathHistory s ++ [currentPath snap]) s) ;!
  listFiles path ;! aw_ret tt.

(** [navigateBack()] (lines 133-148). *)
Definition navigateBack (snap : AppState) : app unit :=
  match last_elem (pathHistory snap) with
  | None => app_log Warning "No navigation history"
  | Some previousPath =>
      set_state (fun s => set_pathHistory (removelast (pathHistory s)) s) ;!
      listFiles previousPath ;! aw_ret tt
  end.

(** ** Services the handlers call *)

(** [await telegramAPI.sendMessage(text)], its result ignored. *)
Definition send (text : string) : app unit := lift (Reply.sendMessage text Reply.no_options) ;! aw_ret tt.

(** [fileService.createTempFile(content, filename)]
    ([src/src/services/fileService.js], lines 153-166); the write itself
    is not observable here. *)
Definition createTempFile (filename : string) : app string :=
  let path := cacheDirectory env +:+ filename in
  app_log Info ("Created temporary file: " +:+ path) ;!
  aw_ret path.

(** [getSmsMessages(options)] of [useMessageService] ([part_006], lines
    335-361), with the closure [snap]. *)
Definition getSmsMessages (snap : AppState) : app (list Formats.NativeSms) :=
  aw_catch
    (if negb (smsAvailable snap) then aw_throw "SMS functionality is not available on this device"
     else if negb (smsPermissionGranted snap) then aw_throw "SMS permission not granted"
     else
       app_log Info ("Retrieved " +:+ pretty (List.length (sms_messages env)) +:+ " SMS messages") ;!
       aw_ret (sms_messages env))
    (fun e => app_log Error ("Failed to get SMS messages: " +:+ e) ;! aw_ret []).

(** [formatSmsAsCSV(messages)] ([part_006], lines 434-463). *)
Definition formatSmsAsCSV (messages : list Formats.NativeSms) : app (option string) :=
  match Formats.sms_csv_content messages with
  | None => aw_ret None
  | Some _ =>
      let! fileUri := createTempFile ("sms_export_" +:+ pretty (now env) +:+ ".csv") in
      app_log Info ("Created SMS CSV export: " +:+ fileUri) ;!
      aw_ret (Some fileUri)
  end.

(** [contactsService.getAllContacts()] ([part_006], lines 12-50): the
    contacts array, or a rejection when permission is refused. *)
Definition getAllContacts : app (list Formats.Contact) :=
  aw_catch
    ((if String.eqb (contacts_status env) "granted" then aw_ret tt
      else if String.eqb (contacts_request env) "granted" then aw_ret tt
      else aw_throw "Contacts permission denied") ;!
     app_log Info ("Fetched " +:+ pretty (List.length (contacts_data env)) +:+ " contacts") ;!
     aw_ret (contacts_data env))
    (fun e => app_log Error ("Failed to get contacts: " +:+ e) ;! aw_throw e).

(** [const { status } = array]: an array has no [status] property. *)
Definition array_status (xs : list Formats.Contact) : option string := None.

(** [deviceService.takeScreenshot()] ([src/src/services/deviceService.js],
    lines 163-188). *)
Definition takeScreenshot : app (option string) :=
  aw_catch
    (match screenshot env with
     | ShotNotAllowed => app_log Warning "Screenshot taking is not allowed on this device" ;! aw_ret None
     | ShotFailed m => aw_throw m
     | ShotTaken path =>
         if String.eqb path "" then aw_throw "Failed to take screenshot"
         else app_log Success ("Screenshot taken successfully: " +:+ path) ;! aw_ret (Some path)
     end)
    (fun e => app_log Error ("Screenshot error: " +:+ e) ;! aw_throw e).

(** [(n / d).toFixed(2)] for non-negative [n], rounding half up. *)
Definition fixed2 (n d : Z) : string :=
  let q := ((n * 100 + d / 2) / d)%Z in
  let f := pretty (q mod 100)%Z in
  pretty (q / 100)%Z +:+ "." +:+ Reply.zeros (2 - String.length f) +:+ f.

(** The free identifier [FileSystem] of [handleFile]: [App.js] imports
    no [FileSystem], so evaluating it throws a [ReferenceError]. *)
Definition reference_error : string := "FileSystem is not defined".

Definition FileSystem_getInfoAsync (path : string) : app FileInfo := aw_throw reference_error.

(** ** Command handlers (lines 267-544) *)

Definition nl : string := Reply.newline.

Definition handleCallLogs : app unit :=
  aw_catch
    (app_log Info "Call logs requested" ;!
     send "Call log access requires native Android modules. Not available in this version." ;!
     app_log Warning "Call log access not available in Expo")
    (fun e => app_log Error ("Call logs error: " +:+ e)).

Definition handleSmsLogs (snap : AppState) : app unit :=
  aw_catch
    (app_log Info "SMS logs requested" ;!
     if negb (smsAvailable snap) then
       send "SMS functionality is not available on this device." ;!
       app_log Warning "SMS not available on this device"
     else if negb (smsPermissionGranted snap) then
       send "SMS permission not granted. Please grant permission in the app settings." ;!
       app_log Warning "SMS permission denied"
     else
       let! messages := getSmsMessages snap in
       match messages with
       | [] => send "No SMS messages found on this device." ;! app_log Info "No SMS messages found"
       | _ =>
           let n := pretty (List.length messages) in
           let! csvPath := formatSmsAsCSV messages in
           match csvPath with
           | Some path =>
               lift (Reply.sendFile path ("SMS Messages Export (" +:+ n +:+ " messages)")) ;!
               send ("Found " +:+ n +:+ " SMS messages." +:+ nl +:+ nl +:+ "Recent messages sample:" +:+ nl +:+ nl +:+
                     Formats.formatSmsAsText (take 5 messages) 20) ;!
               app_log Success ("SMS logs sent successfully (" +:+ n +:+ " messages)")
           | None => send "Failed to generate SMS logs." ;! app_log Error "Failed to generate SMS logs"
           end
       end)
    (fun e => app_log Error ("SMS logs error: " +:+ e) ;! send ("Error accessing SMS: " +:+ e)).

Definition contacts_separator : string := nl +:+ nl +:+ "-----------------" +:+ nl +:+ nl.

Definition handleContacts : app unit :=
  aw_catch
    (app_log Info "Contacts requested" ;!
     let! first := getAllContacts in
     if negb (bool_decide (array_status first = Some "granted")) then
       send "Contacts permission not granted. Cannot access contacts." ;!
       app_log Warning "Contacts permission denied"
     else
       let! contacts := getAllContacts in
       match contacts with
       | [] => send "No contacts found on this device." ;! app_log Info "No contacts found"
       | _ =>
           let n := pretty (List.length contacts) in
           let! csvPath := createTempFile "contacts.csv" in
           lift (Reply.sendFile csvPath ("Contacts: " +:+ n +:+ " entries")) ;!
           let summary := Js.join contacts_separator (map (fun c => Formats.formatContact (Some c)) (take 5 contacts)) in
           send ("Found " +:+ n +:+ " contacts." +:+ nl +:+ nl +:+ "Sample contacts:" +:+ nl +:+ nl +:+ summary) ;!
           app_log Success "Contacts sent successfully"
       end)
    (fun e => app_log Error ("Contacts error: " +:+ e) ;! send ("Error accessing contacts: " +:+ e)).

(** The keyboard of [handleStorage] (lines 397-412): the first ten
    entries, then the navigation row.  The labels are the bytes of the
    source text. *)
Definition file_btn (i : nat) (f : FileEntry) : button :=
  mkButton (pretty (S i) +:+ ". " +:+ fe_name f +:+ (if fe_isDirectory f then "/" else ""))
           ("file_" +:+ fe_path f).

Definition file_button (i : nat) (f : FileEntry) : list button := [file_btn i f].

Definition nav_row : list button :=
  [mkButton (Reply.utf8_str [195; 176; 197; 184; 226; 128; 157; 226; 132; 162] +:+ " Back") "back";
   mkButton (Reply.utf8_str [195; 176; 197; 184; 226; 128; 157; 226; 128; 158] +:+ " Refresh") "storage"].

Definition storage_keyboard (files : list FileEntry) : keyboard :=
  imap file_button (take 10 files) ++ [nav_row].

Definition storage_text (path : string) (count : nat) : string :=
  Reply.utf8_str [195; 176; 197; 184; 226; 128; 156; 226; 128; 154] +:+ " *Current Directory*: `" +:+ path +:+ "`" +:+
  nl +:+ nl +:+ "Found " +:+ pretty count +:+ " items." +:+ nl +:+
  (if Nat.ltb 10 count then "Showing first 10 items." else "").

Definition handleStorage (snap : AppState) : app unit :=
  aw_catch
    (app_log Info "Storage access requested" ;!
     let! files := listFiles (currentPath snap) in
     lift (Reply.sendMessage (storage_text (currentPath snap) (List.length files))
                             (Reply.mkOptions None (Some (storage_keyboard files)))) ;!
     app_log Success ("Sent file list for path: " +:+ currentPath snap))
    (fun e => app_log Error ("Storage error: " +:+ e) ;! send ("Error accessing storage: " +:+ e)).

(** [handleFile(query, filePath)] (lines 431-477). *)
Definition handleFile (snap : AppState) (filePath : string) : app unit :=
  aw_catch
    (app_log Info ("File selected: " +:+ filePath) ;!
     let! fileInfo := FileSystem_getInfoAsync filePath in
     if negb (fi_exists fileInfo) then
       send ("File not found: " +:+ filePath) ;! app_log Warning ("File not found: " +:+ filePath)
     else if fi_isDirectory fileInfo then
       navigateTo snap filePath ;! handleStorage snap
     else if (50 * 1024 * 1024 <? fi_size fileInfo)%Z then
       send ("File too large to send: " +:+ fixed2 (fi_size fileInfo) (1024 * 1024) +:+ " MB." +:+ nl +:+
             "Maximum size is 50 MB.") ;!
       app_log Warning ("File too large: " +:+ filePath +:+ " (" +:+ pretty (fi_size fileInfo) +:+ " bytes)")
     else
       lift (Reply.sendFile filePath ("File: " +:+ Reply.file_name filePath +:+ nl +:+ "Size: " +:+
                                      fixed2 (fi_size fileInfo) 1024 +:+ " KB")) ;!
       app_log Success ("File sent: " +:+ filePath))
    (fun e => app_log Error ("File handling error: " +:+ e) ;! send ("Error accessing file: " +:+ e)).

(** [handleNavigateBack] (lines 479-488): the [navigateBack] and the
    [handleStorage] of its render. *)
Definition handleNavigateBack (snap : AppState) : app unit :=
  aw_catch
    (app_log Info "Navigate back requested" ;!
     navigateBack snap ;!
     handleStorage snap)
    (fun e => app_log Error ("Navigate back error: " +:+ e) ;! send ("Navigation error: " +:+ e)).

Definition contains (needle hay : string) : bool :=
  match String.index 0 needle hay with Some _ => true | None => false end.

Definition handleScreenshot : app unit :=
  aw_catch
    (app_log Info "Screenshot requested" ;!
     let! screenshotPath := takeScreenshot in
     match screenshotPath with
     | Some path =>
         lift (Reply.sendFile path ("Screenshot taken at " +:+ locale_now env)) ;!
         app_log Success "Screenshot sent successfully"
     | None =>
         send "Could not take a screenshot. This might be due to permission restrictions or device limitations." ;!
         app_log Warning "Screenshot functionality failed"
     end)
    (fun e => app_log Error ("Screenshot error: " +:+ e) ;!
              if contains "placeholder" e then
                send ("Screenshot functionality is available in the native Android app only." +:+ nl +:+
                      "Not available in web preview.")
              else send ("Screenshot error: " +:+ e)).

(** [deviceService.formatDeviceInfo(deviceInfo)]
    ([src/src/services/deviceService.js], lines 120-156) on the object
    of [useDeviceInfo], which has no [modelName], [manufacturer],
    [deviceYearClass], [totalMemory], [osBuildId], [osInternalBuildId],
    [appName], [appBuildVersion], [appInstallationTime] or [carrier]:
    those read [undefined]. *)
Definition formatDeviceInfo (deviceInfo : option Reply.DeviceInfo) : string :=
  match deviceInfo with
  | None => "No device info available"
  | Some d =>
      let u := "undefined" in
      let b := Reply.bullet in
      Reply.utf8_str [240; 159; 147; 177] +:+ " Device Information" +:+ nl +:+ nl +:+
      b +:+ " Hardware " +:+ nl +:+
      "  - Name: " +:+ Reply.deviceName d +:+ nl +:+
      "  - Model: " +:+ u +:+ nl +:+
      "  - Brand: " +:+ Reply.brand d +:+ nl +:+
      "  - Manufacturer: " +:+ u +:+ nl +:+
      "  - Year Class: " +:+ u +:+ nl +:+
      "  - Memory: " +:+ u +:+ nl +:+ nl +:+
      b +:+ " Operating System" +:+ nl +:+
      "  - OS: " +:+ Reply.osName d +:+ " " +:+ Reply.osVersion d +:+ nl +:+
      "  - Build ID: " +:+ u +:+ nl +:+
      "  - Internal Build: " +:+ u +:+ nl +:+ nl +:+
      b +:+ " Application" +:+ nl +:+
      "  - Name: " +:+ u +:+ nl +:+
      "  - Version: " +:+ Reply.appVersion d +:+ " (" +:+ u +:+ ")" +:+ nl +:+
      "  - Installed: " +:+ u +:+ nl +:+ nl +:+
      b +:+ " Network" +:+ nl +:+
      "  - IP: " +:+ Reply.ipAddress d +:+ nl +:+
      "  - Type: " +:+ Reply.networkType d +:+ nl +:+
      "  - Connected: " +:+ (if Reply.netConnected d then "Yes" else "No") +:+ nl +:+
      "  - Internet: " +:+ (if Reply.internetReachable d then "Reachable" else "Unreachable") +:+ nl +:+ nl +:+
      b +:+ " Status" +:+ nl +:+
      "  - Battery: " +:+ Reply.batteryLevel d +:+ nl +:+
      "  - Uptime: " +:+ Reply.uptime d +:+ nl +:+
      "  - Timestamp: " +:+ Reply.timestamp_text d +:+ nl +:+ nl +:+
      b +:+ " Cellular" +:+ nl +:+
      "  - Carrier: Unknown"
  end.

(** [handleDeviceInfo] (lines 490-507): the closure's [deviceInfo], read
    before the refresh completes. *)
Definition handleDeviceInfo (snap : AppState) : app unit :=
  aw_catch
    (app_log Info "Device info requested" ;!
     refreshDeviceInfo ;!
     send (formatDeviceInfo (deviceInfo snap)) ;!
     app_log Success "Device info sent")
    (fun e => app_log Error ("Device info error: " +:+ e) ;! send ("Error getting device info: " +:+ e)).

(** The second argument of a handler call, as a template literal shows it. *)
Definition second_arg (args : invocation) : string :=
  match args with
  | OnCallbackParam _ p => p
  | OnCommand _ ps => Js.join "," ps
  | OnCallback _ | OnMessage _ => "undefined"
  end.

(** The App handler a client [Invoke] event calls: the closure the last
    registration passed. *)
Definition run_handler (h : handler) (args : invocation) : app unit :=
  let! a := aw_get in
  let cs := registered a in
  let '(Handler name) := h in
  if String.eqb name "handleCallLogs" then handleCallLogs
  else if String.eqb name "handleSmsLogs" then handleSmsLogs (c_smsLogs cs)
  else if String.eqb name "handleContacts" then handleContacts
  else if String.eqb name "handleStorage" then handleStorage (c_storage cs)
  else if String.eqb name "handleDeviceInfo" then handleDeviceInfo (c_deviceInfo cs)
  else if String.eqb name "handleScreenshot" then handleScreenshot
  else if String.eqb name "handleFile" then handleFile (c_file cs) (second_arg args)
  else if String.eqb name "handleNavigateBack" then handleNavigateBack (c_back cs)
  else aw_ret tt.

End Ops.

(** ** A device used by the examples *)

Definition demo_dir : string := "file:///data/user/0/host.exp.exponent/files/".

Definition demo_info (p : string) : FileInfo :=
  if String.eqb p demo_dir then mkFileInfo true true 0
  else if String.eqb p (demo_dir +:+ "DCIM/") then mkFileInfo true true 0
  else if String.eqb p (demo_dir +:+ "notes.txt") then mkFileInfo true false 2048
  else mkFileInfo false false 0.

Definition demo_read_dir (p : string) : list string :=
  if String.eqb p demo_dir then ["notes.txt"; "DCIM"] else [].

Definition demo_compare (x y : string) : Z :=
  match String.compare x y with Lt => -1 | Eq => 0 | Gt => 1 end.

Definition demo_env : Env :=
  mkEnv 1762680000000 "11/9/2026, 10:00:00 AM" "active" demo_dir "file:///data/user/0/host.exp.exponent/cache/"
    (Some "tok") (Some "123") (Some Reply.demo_device) true true [] "granted" "granted" []
    demo_info demo_read_dir demo_compare ShotNotAllowed.

(** The App before mounting, beside a connected client. *)
Definition demo_app : AppWorld := app_init demo_env Reply.reply_world.

(** A snapshot one level down in [DCIM], with its parent in the history. *)
Definition dcim_snap : AppState :=
  set_pathHistory [demo_dir] (set_currentPath (demo_dir +:+ "DCIM/") (initial_state demo_env)).

(** ** Specifications *)

(** No file entry comes before a directory entry. *)
Definition dirs_first (l : list FileEntry) : bool := key_first fe_isDirectory l.

(** ** Frame lemmas *)

(** A property of the App's world that the client's code, the state
    hooks and the suspended tasks do not touch. *)
Definition plain (P : AppWorld -> Prop) : Prop :=
  (forall a w, P a -> P (with_core a w)) /\
  (forall a s, P a -> P (with_st a s)) /\
  (forall a ks, P a -> P (with_pending a ks)).

Section Frame.
Context (P : AppWorld -> Prop) (HP : plain P).

Lemma keeps_lift {A} (c : io A) : keeps P (lift c).
Proof. intros a o Ha. unfold lift. destruct (c (core a) o) as [[r w] o']. apply HP, Ha. Qed.

Lemma keeps_set_state f : keeps P (set_state f).
Proof. apply keeps_modify. intros a. apply HP. Qed.

Lemma keeps_app_park k : keeps P (app_park k).
Proof. apply keeps_modify. intros a. apply HP. Qed.

End Frame.

Ltac app_keeps :=
  repeat (solve_keeps; try (apply keeps_finally || apply keeps_lift || apply keeps_set_state
                             || apply keeps_app_park); try assumption).

Create HintDb app_code.
#[export] Hint Unfold app_log send createTempFile getSmsMessages formatSmsAsCSV getAllContacts takeScreenshot
  FileSystem_getInfoAsync listFiles navigateTo navigateBack refreshDeviceInfo : app_code.

Section Handlers.
Context (P : AppWorld -> Prop) (HP : plain P) (env : Env).

Lemma keeps_listFiles p : keeps P (listFiles env p).
Proof. unfold listFiles, app_log. app_keeps. Qed.

Lemma keeps_handleStorage snap : keeps P (handleStorage env snap).
Proof. unfold handleStorage, send, app_log. app_keeps; apply keeps_listFiles. Qed.

Lemma keeps_navigateBack snap : keeps P (navigateBack env snap).
Proof. unfold navigateBack, app_log. app_keeps; apply keeps_listFiles. Qed.

Lemma keeps_navigateTo snap p : keeps P (navigateTo env snap p).
Proof. unfold navigateTo. app_keeps; apply keeps_listFiles. Qed.

Lemma keeps_refreshDeviceInfo : keeps P (refreshDeviceInfo env).
Proof. unfold refreshDeviceInfo, app_log. app_keeps. Qed.

Lemma keeps_handlers snap p :
  keeps P handleCallLogs /\ keeps P (handleSmsLogs env snap) /\ keeps P (handleContacts env) /\
  keeps P (handleDeviceInfo env snap) /\ keeps P (handleScreenshot env) /\ keeps P (handleFile env snap p) /\
  keeps P (handleNavigateBack env snap).
Proof.
  unfold handleCallLogs, handleSmsLogs, handleContacts, handleDeviceInfo, handleScreenshot, handleFile,
    handleNavigateBack; autounfold with app_code.
  repeat split; app_keeps;
    try apply keeps_handleStorage; try apply keeps_navigateBack; try apply keeps_navigateTo;
    try apply keeps_listFiles; try apply keeps_refreshDeviceInfo.
Qed.

Lemma keeps_run_handler h args : keeps P (run_handler env h args).
Proof.
  unfold run_handler. apply keeps_bind; [apply keeps_get|intros a]. destruct h as [n].
  pose proof (keeps_handlers (c_smsLogs (registered a)) (second_arg args)) as (H1 & H2 & H3 & _ & H5 & _).
  pose proof (keeps_handlers (c_deviceInfo (registered a)) (second_arg args)) as (_ & _ & _ & H4 & _).
  pose proof (keeps_handlers (c_file (registered a)) (second_arg args)) as (_ & _ & _ & _ & _ & H6 & _).
  pose proof (keeps_handlers (c_back (registered a)) (second_arg args)) as (_ & _ & _ & _ & _ & _ & H7).
  repeat apply keeps_if; auto using keeps_handleStorage, keeps_ret.
Qed.

Lemma keeps_sendDeviceInfo_resume snap : keeps P (sendDeviceInfo_resume env snap).
Proof. unfold sendDeviceInfo_resume, app_log. app_keeps; apply keeps_refreshDeviceInfo. Qed.

Lemma keeps_sms_initialize : keeps P (sms_initialize env).
Proof. unfold sms_initialize, app_log. app_keeps. Qed.

End Handlers.


(** ** Completing normally *)

Lemma no_throw_lift {A} (c : io A) : no_throw c -> no_throw (lift c).
Proof. intros Hc a o. unfold lift. destruct (Hc (core a) o) as (v & w & o' & ->). eauto. Qed.

Lemma no_throw_set_state f : no_throw (set_state f).
Proof. apply no_throw_modify. Qed.

Lemma no_throw_app_park k : no_throw (app_park k).
Proof. apply no_throw_modify. Qed.

Lemma no_throw_app_log lv m : no_throw (app_log lv m).
Proof. apply no_throw_lift, no_throw_log. Qed.

Lemma no_throw_send m : no_throw (send m).
Proof. unfold send. apply no_throw_bind; [apply no_throw_lift, Reply.no_throw_sendMessage | auto with tah]. Qed.

#[export] Hint Resolve no_throw_lift no_throw_set_state no_throw_app_park no_throw_app_log no_throw_send : tah.

Lemma no_throw_startMonitoring c : no_throw (startMonitoring c).
Proof.
  destruct c as [[s chk] sdi]. unfold startMonitoring, app_setInterval, app_clearInterval, sendDeviceInfo_start, fresh_id.
  apply no_throw_bind; [case_match|intros _]; auto 20 with tah.
Qed.

Lemma no_throw_stopMonitoring s : no_throw (stopMonitoring s).
Proof. unfold stopMonitoring, app_clearInterval. apply no_throw_bind; [case_match|]; auto 20 with tah. Qed.

Lemma no_throw_handleConnectionChange b : no_throw (handleConnectionChange b).
Proof.
  unfold handleConnectionChange. apply no_throw_bind; [auto 20 with tah | intros a].
  repeat case_match; auto 20 using no_throw_startMonitoring, no_throw_stopMonitoring with tah.
Qed.

(** every command handler the App registers completes
    normally, whatever the device answers and however the client's
    requests settle: each one catches its errors, and its [catch] only
    logs and replies. *)
Theorem run_handler_no_throw env h args : no_throw (run_handler env h args).
Proof.
  unfold run_handler. apply no_throw_bind; [auto with tah | intros a]. destruct h as [n].
  unfold handleCallLogs, handleSmsLogs, handleContacts, handleStorage, handleDeviceInfo, handleScreenshot,
    handleFile, handleNavigateBack.
  repeat apply no_throw_if; try apply no_throw_catch; intros; try case_match; auto 20 with tah.
Qed.

(** ** The command handlers *)

(** C9: whatever the path, the snapshot and the device,
    [handleFile] logs the selection, then fails on the free identifier
    [FileSystem], logs the [ReferenceError] and replies with it: no file
    is ever sent and no directory is ever opened. *)
Theorem handleFile_reference_error env snap filePath a o :
  handleFile env snap filePath a o =
    (app_log Info ("File selected: " +:+ filePath) ;!
     app_log Error ("File handling error: " +:+ reference_error) ;!
     send ("Error accessing file: " +:+ reference_error)) a o.
Proof. reflexivity. Qed.

(** C10: [handleContacts] reads [status] from the array that
    [getAllContacts] resolves to, which has none: whatever the
    permissions and the contacts, it replies that the permission is not
    granted (or reports the rejection of [getAllContacts]) and never
    exports the contacts. *)
Theorem handleContacts_never_exports env a o :
  handleContacts env a o =
    aw_catch (app_log Info "Contacts requested" ;!
              getAllContacts env ;!
              send "Contacts permission not granted. Cannot access contacts." ;!
              app_log Warning "Contacts permission denied")
             (fun e => app_log Error ("Contacts error: " +:+ e) ;! send ("Error accessing contacts: " +:+ e)) a o.
Proof. reflexivity. Qed.


(** ** Sorting the directory *)

(** [listFiles] orders the entries it found with every
    directory before every file, whatever [localeCompare] answers, and
    loses or adds none. *)
Theorem sort_files_spec env l : dirs_first (sort_files env l) = true /\ (sort_files env l ≡ₚ l).
Proof.
  split; [|apply sort_by_perm]. apply sort_by_key_first; intros a b Ha Hb; unfold file_cmp; rewrite Ha, Hb; simpl; lia.
Qed.


(** ** Navigation *)

Lemma with_st_id a : with_st a (st a) = a.
Proof. by destruct a. Qed.

(** [listFiles] on an existing directory given with its slash. *)
Lemma listFiles_dir env p a o :
  Js.endsWith "/" p = true -> fi_exists (path_info env p) = true -> fi_isDirectory (path_info env p) = true ->
  let L := sort_files env (map (file_entry env p) (read_dir env p)) in
  exists w, listFiles env p a o = (Normal L, with_core (with_st a (set_fileList L (set_currentPath p (st a)))) w, o).
Proof. intros Hs He Hd. unfold listFiles. rewrite Hs, He, Hd. cbn. eexists. reflexivity. Qed.

(** Any [listFiles] completes, changing at most the directory and its
    entries. *)
Lemma listFiles_any env p a o :
  exists r w s, listFiles env p a o = (Normal r, with_core (with_st a s) w, o) /\
    (s = st a \/ exists L q, s = set_fileList L (set_currentPath q (st a))).
Proof.
  unfold listFiles.
  destruct (fi_exists _), (fi_isDirectory _); cbn;
    (do 3 eexists; split; [reflexivity|]); eauto; left; reflexivity.
Qed.

(** [handleNavigateBack] calls the [handleStorage] of its own
    render, which lists the directory the closure saw: Back pops the
    history, then lists the directory it was in again, which becomes the
    current one once more. *)
Theorem handleNavigateBack_same_directory env snap prev a o :
  last_elem (pathHistory snap) = Some prev ->
  Js.endsWith "/" (currentPath snap) = true ->
  fi_exists (path_info env (currentPath snap)) = true ->
  fi_isDirectory (path_info env (currentPath snap)) = true ->
  let s := st (snd (fst (handleNavigateBack env snap a o))) in
  currentPath s = currentPath snap /\
  fileList s = sort_files env (map (file_entry env (currentPath snap)) (read_dir env (currentPath snap))) /\
  pathHistory s = removelast (pathHistory (st a)).
Proof.
  intros Hl Hs He Hd. unfold handleNavigateBack, navigateBack. rewrite Hl.
  cbn -[listFiles handleStorage].
  set (a1 := with_st _ _).
  destruct (listFiles_any env prev a1 o) as (r & w & s & -> & Hs1). cbn -[handleStorage].
  unfold handleStorage. cbn -[listFiles].
  match goal with |- context [listFiles env ?p ?a0 o] => destruct (listFiles_dir env p a0 o Hs He Hd) as [w2 ->] end.
  cbn -[Reply.sendMessage].
  unfold lift. cbn -[Reply.sendMessage]. match goal with |- context [Reply.sendMessage ?t ?op ?w0 o] =>
    destruct (Reply.no_throw_sendMessage t op w0 o) as (v & w3 & o3 & ->) end.
  cbn. destruct Hs1 as [->|(L & q & ->)]; done.
Qed.
(** ** Reporting the device *)

(** The client's [sendDeviceInfo] on the initial [{}]: the text reads
    [location.latitude] of an undefined [location] and throws inside its
    [try]; the result is [false]. *)
Lemma sendDeviceInfo_empty w o :
  exists w', Reply.sendDeviceInfo (Some empty_device) w o = (Normal false, w', o).
Proof. unfold Reply.sendDeviceInfo, this. cbn. destruct (connected (self w)); eexists; reflexivity. Qed.

Lemma refreshDeviceInfo_run env a o :
  exists a', refreshDeviceInfo env a o = (Normal tt, a', o).
Proof. unfold refreshDeviceInfo. destruct (device_now env); eexists; reflexivity. Qed.

(** The App's [sendDeviceInfo] awaits [refreshDeviceInfo]
    and then sends the [deviceInfo] of its own render: a closure created
    before the first collection completed sends the initial [{}], whose
    report fails, whatever information the refresh collected. *)
Theorem sendDeviceInfo_resume_stale env snap a o :
  deviceInfo snap = Some empty_device ->
  exists a', sendDeviceInfo_resume env snap a o = (Normal tt, a', o) /\
    last_elem (out (core a')) = Some (Log Error "Failed to send device info").
Proof.
  intros Hd. unfold sendDeviceInfo_resume. rewrite Hd. cbn -[refreshDeviceInfo Reply.sendDeviceInfo].
  destruct (refreshDeviceInfo_run env a o) as [a1 ->]. unfold lift. cbn -[Reply.sendDeviceInfo].
  destruct (sendDeviceInfo_empty (core a1) o) as [w ->]. cbn.
  eexists. split; [reflexivity|]. apply last_elem_snoc.
Qed.
(** ** Examples *)

Lemma handleNavigateBack_same_directory_witness :
  let s := st (snd (fst (handleNavigateBack demo_env dcim_snap demo_app []))) in
  currentPath s = currentPath dcim_snap /\
  fileList s = sort_files demo_env (map (file_entry demo_env (currentPath dcim_snap)) (read_dir demo_env (currentPath dcim_snap))) /\
  pathHistory s = removelast (pathHistory (st demo_app)).
Proof. apply (handleNavigateBack_same_directory demo_env dcim_snap demo_dir); reflexivity. Defined.

Lemma sendDeviceInfo_resume_stale_witness :
  exists a', sendDeviceInfo_resume demo_env (initial_state demo_env) demo_app [] = (Normal tt, a', []) /\
    last_elem (out (core a')) = Some (Log Error "Failed to send device info").
Proof. apply sendDeviceInfo_resume_stale. reflexivity. Defined.

(** ** The buttons of the storage listing *)

Lemma file_data_split p : Js.head_and_rest "_" ("file_" +:+ p) = ("file", p).
Proof. apply Js.head_and_rest_first. rewrite !Js.str_app_cons, Js.str_app_nil_l. reflexivity. Qed.

Lemma file_data_includes p : Js.includes "_" ("file_" +:+ p) = true.
Proof. rewrite !Js.str_app_cons. reflexivity. Qed.

Lemma file_data_not_member p : ("file_" +:+ p) ∉ Registry.object_prototype_members.
Proof.
  rewrite !Js.str_app_cons. unfold Registry.object_prototype_members.
  intros Hin. repeat (apply elem_of_cons in Hin as [Hin|Hin]; [discriminate|]). by apply not_elem_of_nil in Hin.
Qed.

(** C12: the [callback_data] of an entry's button, [file_<path>],
    comes back to the [file] handler with the entry's path as its
    parameter, whatever the path contains (the dispatcher splits at the
    first underscore and joins the rest back). *)
Theorem file_button_routes i f q w o :
  cq_data q = callback_data (file_btn i f) ->
  commandHandlers (self w) !! "file" = Some (Handler "handleFile") ->
  commandHandlers (self w) !! ("file_" +:+ fe_path f) = None ->
  exec (Dispatcher.route_callback q) w o =
    push (Invoke (Own (Handler "handleFile")) (OnCallbackParam q (fe_path f))) w.
Proof.
  intros Hd Hf Hn. unfold exec, Dispatcher.route_callback, this. rewrite Hd. cbn -[String.append].
  unfold Registry.resolve. rewrite Hn, bool_decide_eq_false_2 by apply file_data_not_member.
  rewrite file_data_includes, file_data_split. cbn. rewrite Hf. cbn. by destruct o as [|[]].
Qed.


Lemma file_button_routes_witness :
  exec (Dispatcher.route_callback (mkCallback "cb7" ("file_" +:+ demo_dir +:+ "my_notes.txt") (Some (mkMessage 123 None))))
       (with_self new_World (with_handlers new_TelegramAPI {[ "file" := Handler "handleFile" ]})) [] =
    push (Invoke (Own (Handler "handleFile"))
            (OnCallbackParam (mkCallback "cb7" ("file_" +:+ demo_dir +:+ "my_notes.txt") (Some (mkMessage 123 None)))
               (demo_dir +:+ "my_notes.txt")))
         (with_self new_World (with_handlers new_TelegramAPI {[ "file" := Handler "handleFile" ]})).
Proof.
  apply (file_button_routes 0 (mkFileEntry "my_notes.txt" (demo_dir +:+ "my_notes.txt") false 2048));
    vm_compute; reflexivity.
Defined.

End App.
