(* ===== verification/AppRun.v ===== *)
(** * The App beside the client: mount, polling and the transition system

    The parts of [src/unnamed/part_002] that call into the client: the
    mount effects (lines 74-180), [checkTelegramUpdates] (lines 227-248)
    and the Connect button of the settings form
    ([src/unnamed/part_004], lines 59-96); then [app_step], the
    transitions of the App and the client together.

    The client calls the App's connection listener and, from
    [processUpdate], its command handlers: in the model those calls are
    the [Notify] and [Invoke] events the client's code records, and
    [lift_client] runs the App's code for each of them, in order, after
    the client's call returns.  How the client's [await] of a handler
    settles still comes from the oracle. *)

From S2P Require Import Prelude JsString Encryption Await Model Reply Registry Connection Dispatcher System Formats AppCore.

Module AppRun.
Import App.

Section Run.
Context (env : Env).

(** The identity of [handleConnectionChange] for the client. *)
Definition app_listener : listener := 1.

(** What the App does for an event of the client. *)
Definition react (e : event) : app unit :=
  match e with
  | Notify l b => if decide (l = app_listener) then handleConnectionChange b else aw_ret tt
  | Invoke (Own h) args => run_handler env h args
  | _ => aw_ret tt
  end.

(** A call of the client's code, then the App's code for the calls the
    client made into it, even when the call throws afterwards. *)
Definition lift_client {A} (c : io A) : app A :=
  let! a0 := aw_get in
  aw_finally (lift c)
    (let! a1 := aw_get in
     for_each (drop (List.length (out (core a0))) (out (core a1))) react).

(** The effects of the first commit, in declaration order: those of
    [useDeviceInfo] and [useMessageService] (each suspended at its first
    await), the [initialize] effect (suspended at
    [storage.getBotToken()]), the connection listener with the closures
    of this render (the client calls it at once with its status), the
    registration of the handlers. *)
Definition mount : app unit :=
  app_park AppCollectDevice ;!
  app_park AppSmsInit ;!
  app_log Info "Application starting..." ;!
  app_park AppInit ;!
  aw_modify (fun a => let '(s, chk, sdi) := c_start (cells a) in
                      with_listener a (Some (s, chk, sdi, c_stop (cells a)))) ;!
  lift_client (Connection.addConnectionListener (JsFunction app_listener)) ;!
  register_all ;!
  commit.

(** The [initialize] effect once the stored credentials are read (lines
    101-118); [requestAllPermissions] is not modelled. *)
Definition initialize_resume : app unit :=
  if truthy (saved_token env) && truthy (saved_chat env) then
    app_log Info "Found saved credentials, initializing connection..." ;!
    let! success := lift_client (Connection.initialize (saved_token env) (saved_chat env)) in
    if success then
      set_state (set_isConnected true) ;!
      set_state (set_showSettings false) ;!
      app_log Success "Connected to Telegram with saved credentials"
    else app_log Warning "Could not connect with saved credentials"
  else app_log Info "No saved credentials found".

(** [checkTelegramUpdates] up to [await telegramAPI.getUpdates()]: the
    guard reads the closure's snapshot. *)
Definition checkTelegramUpdates (snap : AppState) : app unit :=
  if processing snap || negb (isConnected snap) then aw_ret tt
  else
    set_state (set_processing true) ;!
    let! off := lift_client Dispatcher.getUpdates_begin in
    app_park (AppCheck snap off).

(** The rest, once [getUpdates] settles with [r]; a [getUpdates] that
    returned [[]] without sending a request ([off = None]) ignores [r]. *)
Definition checkTelegramUpdates_resume (off : option Z) (r : Dispatcher.poll_reply) : app unit :=
  aw_finally
    (aw_catch
       (let! updates := match off with
                        | Some _ => lift_client (Dispatcher.getUpdates_resume r)
                        | None => aw_ret []
                        end in
        if Nat.ltb 0 (List.length updates) then
          set_state (set_lastUpdateTime (Some (now env))) ;!
          app_log Info ("Received " +:+ pretty (List.length updates) +:+ " updates from Telegram") ;!
          for_each updates (fun u => lift_client (Dispatcher.processUpdate u))
        else aw_ret tt)
       (fun e => app_log Error ("Update error: " +:+ e)))
    (set_state (set_processing false)).

(** A suspended function of the App resumes; [r] is the settlement of
    [getUpdates] for [AppCheck]. *)
Definition resume_app_task (k : app_task) (r : Dispatcher.poll_reply) : app unit :=
  match k with
  | AppCheck _ off => checkTelegramUpdates_resume off r
  | AppSendInfo snap => sendDeviceInfo_resume env snap
  | AppInit => initialize_resume
  | AppCollectDevice => refreshDeviceInfo env
  | AppSmsInit => sms_initialize env
  end.

(** The Connect button of [SettingsForm] (part_004, lines 59-96), whose
    [onConnect] is the App's [handleConnect]; saving the credentials and
    the alerts are not modelled. *)
Definition settings_connect (botToken chatId : string) : app unit :=
  if negb (truthy (Some botToken)) || negb (truthy (Some chatId)) then aw_ret tt
  else
    aw_catch
      (let! success := lift_client (Connection.initialize (Some botToken) (Some chatId)) in
       if success then app_log Success "Connected to Telegram API" ;! handleConnect
       else app_log Error "Failed to connect to Telegram API")
      (fun e => app_log Error ("Connection error: " +:+ e)).

(** [appState.match(/inactive|background/)]. *)
Definition inactive_or_background (state : string) : bool :=
  contains "inactive" state || contains "background" state.

(** [handleAppStateChange(nextAppState)] (lines 128-135), the listener
    the mount effect gives [AppState.addEventListener]: it reads the
    [appState] of the render [snap] that ran the effect; the call of
    [refreshDeviceInfo()] is not awaited. *)
Definition handleAppStateChange (snap : AppState) (nextAppState : string) : app unit :=
  (if inactive_or_background (appState snap) && String.eqb nextAppState "active" then
     app_log Info "App has come to the foreground!" ;! app_park AppCollectDevice
   else aw_ret tt) ;!
  set_state (set_appState nextAppState).

(** The Send Device Info button (lines 622-629): the [sendDeviceInfo] of
    the current render, disabled when not connected. *)
Definition press_send_info_button : app unit :=
  let! a := aw_get in
  if isConnected (st a) then sendDeviceInfo_start (c_sendDeviceInfo (cells a)) else aw_ret tt.

(** The settings toggle (line 581): [setShowSettings(!showSettings)]. *)
Definition press_settings_toggle : app unit :=
  let! a := aw_get in
  set_state (set_showSettings (negb (showSettings (st a)))).

(** ** Transitions *)

Definition exec_app {A} (c : app A) (a : AppWorld) (o : list settlement) : AppWorld := snd (fst (c a o)).

(** Each step is a task of the event loop, followed by a commit; the
    steps that are user actions (the Connect button of the settings
    form, the Start/Stop, Send Device Info and settings buttons) are
    possible when [ui] is [true].  The operating system may move the App
    between the foreground and the background at any time: the listener
    of the mount effect, with the first render's closure, runs. *)
Inductive app_step (ui : bool) : AppWorld -> AppWorld -> Prop :=
  | as_interval a id chk o :
      (id, chk) ∈ app_intervals a ->
      app_step ui a (exec_app (checkTelegramUpdates chk ;! commit) a o)
  | as_resume a pre k post r o :
      app_pending a = pre ++ k :: post ->
      app_step ui a (exec_app (resume_app_task k r ;! commit) (with_pending a (pre ++ post)) o)
  | as_connect a tk cid o :
      ui = true ->
      app_step ui a (exec_app (settings_connect tk cid ;! commit) a o)
  | as_button a o :
      ui = true ->
      app_step ui a (exec_app (press_monitor_button ;! commit) a o)
  | as_send_info a o :
      ui = true ->
      app_step ui a (exec_app (press_send_info_button ;! commit) a o)
  | as_settings_toggle a o :
      ui = true ->
      app_step ui a (exec_app (press_settings_toggle ;! commit) a o)
  | as_app_state a next o :
      app_step ui a (exec_app (handleAppStateChange (initial_state env) next ;! commit) a o)
  | as_client_tick a id o :
      (id, PollInterval) ∈ timers (core a) ->
      app_step ui a (exec_app (lift_client Dispatcher.poll_tick ;! commit) a o)
  | as_client_poll a pre off post r o :
      pending (core a) = pre ++ KPoll off :: post ->
      app_step ui a (exec_app (lift_client (Dispatcher.poll_resume r) ;! commit)
                           (with_core a (System.resume_task pre post (core a))) o)
  | as_client_test a pre b post r o :
      pending (core a) = pre ++ KTestConnection b :: post ->
      app_step ui a (exec_app (lift_client (Connection.testConnection_resume b r) ;! commit)
                           (with_core a (System.resume_task pre post (core a))) o)
  | as_client_reconnect a id d o :
      (id, ReconnectTimeout d) ∈ timers (core a) ->
      app_step ui a (exec_app (lift_client Connection.reconnect_callback ;! commit)
                           (with_core a (fire id (core a))) o).

(** The App mounted beside the client [w]. *)
Definition app_start (w : World) : AppWorld := exec_app mount (app_init env w) [].

(** The closures of the first render, as the listener effect captures
    them. *)
Definition first_listener : option (AppState * AppState * AppState * AppState) :=
  Some (initial_state env, initial_state env, initial_state env, initial_state env).

(** The listener holds the closures of the first render, and the App's
    intervals are [I]; [idle] when nothing is armed. *)
Definition frozen (I : list (nat * AppState)) (a : AppWorld) : Prop :=
  listener_cells a = first_listener /\ app_intervals a = I.

Definition idle (a : AppWorld) : Prop := frozen [] a.

(** A step that lists no directory: the path and the array of entries
    are the ones the last render saw, so the registration effect does not
    run again.  Any listing that succeeds stores a new array and makes
    the step not quiet. *)
Definition quiet (a b : AppWorld) : Prop :=
  app_step true a b /\ registration_deps (st b) = registration_deps (st a).

(** The registered [handleSmsLogs] is the first render's, and the last
    registration saw the current directory and entries. *)
Definition sms_closure_fixed (a : AppWorld) : Prop :=
  c_smsLogs (registered a) = initial_state env /\ registration_deps (reg_state a) = registration_deps (st a).

(** The offsets of the [getUpdates] calls of the App still in flight. *)
Definition checks_in_flight (a : AppWorld) : list (option Z) :=
  omap (fun k => match k with AppCheck _ off => Some off | _ => None end) (app_pending a).

(** ** Frame lemmas *)

Section Frame.
Context (P : AppWorld -> Prop) (HP : plain P).
Hypothesis Hhcc : forall b, keeps P (handleConnectionChange b).

Lemma keeps_react e : keeps P (react e).
Proof.
  unfold react. destruct e as [| | [] |]; try apply keeps_ret.
  - case_match; [apply Hhcc | apply keeps_ret].
  - apply (keeps_run_handler P HP).
Qed.

Lemma keeps_lift_client {A} (c : io A) : keeps P (lift_client c).
Proof.
  unfold lift_client. apply keeps_bind; [apply keeps_get | intros a0].
  apply keeps_finally; [apply (keeps_lift P HP)|].
  apply keeps_bind; [apply keeps_get | intros a1]. apply keeps_for_each, keeps_react.
Qed.

Lemma keeps_checkTelegramUpdates snap : keeps P (checkTelegramUpdates snap).
Proof. unfold checkTelegramUpdates. app_keeps; apply keeps_lift_client. Qed.

Lemma keeps_handleAppStateChange snap next : keeps P (handleAppStateChange snap next).
Proof. unfold handleAppStateChange, app_log. app_keeps. Qed.

Lemma keeps_press_send_info_button : keeps P press_send_info_button.
Proof. unfold press_send_info_button, sendDeviceInfo_start. apply keeps_bind; [apply keeps_get|intros a]. app_keeps. Qed.

Lemma keeps_press_settings_toggle : keeps P press_settings_toggle.
Proof. unfold press_settings_toggle. apply keeps_bind; [apply keeps_get|intros a]. app_keeps. Qed.

Lemma keeps_resume_app_task k r : keeps P (resume_app_task k r).
Proof.
  destruct k; simpl.
  - unfold checkTelegramUpdates_resume, app_log. app_keeps; apply keeps_lift_client.
  - by apply keeps_sendDeviceInfo_resume.
  - unfold initialize_resume, app_log. app_keeps; apply keeps_lift_client.
  - by apply keeps_refreshDeviceInfo.
  - by apply keeps_sms_initialize.
Qed.

End Frame.

(** The closures the listener holds and the App's intervals: untouched
    by the client, the hooks and the suspended tasks. *)
Lemma plain_listener_intervals L I : plain (fun a => listener_cells a = L /\ app_intervals a = I).
Proof. split; [|split]; intros ? ? Hx; exact Hx. Qed.

Lemma plain_registered R S : plain (fun a => registered a = R /\ reg_state a = S).
Proof. split; [|split]; intros ? ? Hx; exact Hx. Qed.

Section Commit.
Context (P : AppWorld -> Prop) (HP : plain P).
Hypothesis Hc : forall a cs, P a -> P (with_cells a cs).
Hypothesis Hr : forall a cs s, P a -> P (with_registered a cs s).

Lemma keeps_register_all : keeps P register_all.
Proof.
  unfold register_all. apply keeps_bind; [apply (keeps_lift P HP) | intros _].
  apply keeps_modify. intros; by apply Hr.
Qed.

Lemma keeps_commit : keeps P commit.
Proof.
  unfold commit. apply keeps_bind; [apply keeps_modify; intros; by apply Hc | intros _].
  apply keeps_bind; [apply keeps_get | intros a]. case_match; [apply keeps_ret | apply keeps_register_all].
Qed.
End Commit.

(** The App's code for the events a client call appended. *)
Lemma lift_client_run {A} (c : io A) a o r w o' :
  c (core a) o = (r, w, o') ->
  lift_client c a o = aw_finally (fun a' o'' => (r, a', o''))
    (for_each (drop (List.length (out (core a))) (out w)) react) (with_core a w) o'.
Proof. intros Hc. unfold lift_client, lift, aw_finally. cbn. by rewrite Hc. Qed.

Section Frozen.
Context (I : list (nat * AppState)).

Lemma plain_frozen : plain (frozen I).
Proof. apply plain_listener_intervals. Qed.

Lemma frozen_with_cells a cs : frozen I a -> frozen I (with_cells a cs).
Proof. intros Hx; exact Hx. Qed.

Lemma frozen_with_registered a cs s : frozen I a -> frozen I (with_registered a cs s).
Proof. intros Hx; exact Hx. Qed.

Lemma keeps_frozen_commit : keeps (frozen I) commit.
Proof. exact (keeps_commit (frozen I) plain_frozen frozen_with_cells frozen_with_registered). Qed.

(** Whether the listener's closures arm nothing is what the theorems
    settle; the steps are proved under that hypothesis. *)
Hypothesis keeps_frozen_hcc : forall b, keeps (frozen I) (handleConnectionChange b).

Lemma keeps_frozen_step {A} (c : app A) a o : keeps (frozen I) c -> frozen I a -> frozen I (exec_app (c ;! commit) a o).
Proof. intros Hc Ha. exact (keeps_bind (frozen I) c (fun _ => commit) Hc (fun _ => keeps_frozen_commit) a o Ha). Qed.

(** Without a press of a button, no step arms or clears an interval. *)
Lemma frozen_step a b : app_step false a b -> frozen I a -> frozen I b.
Proof.
  pose proof (fun A => @keeps_lift_client (frozen I) plain_frozen keeps_frozen_hcc A) as Hl.
  intros Hs Ha. destruct Hs as [a id chk o Hin|a pre k post r o _|a tk cid o Hui|a o Hui|a o Hui|a o Hui|a next o
                               |a id o _|a pre off post r o _|a pre b post r o _|a id d o _];
    try discriminate; apply keeps_frozen_step; auto; try exact Ha.
  - apply (keeps_checkTelegramUpdates (frozen I) plain_frozen keeps_frozen_hcc).
  - apply (keeps_resume_app_task (frozen I) plain_frozen keeps_frozen_hcc).
  - apply (keeps_handleAppStateChange (frozen I) plain_frozen).
Qed.

Lemma frozen_rtc a b : rtc (app_step false) a b -> frozen I a -> frozen I b.
Proof. induction 1 as [|a c b Hs _ IH]; [done|]. intros Ha. apply IH, (frozen_step a c Hs Ha). Qed.

End Frozen.

Lemma idle_app_start (Hhcc : forall b, keeps idle (handleConnectionChange b)) w : idle (app_start w).
Proof.
  unfold app_start, exec_app, mount. do 5 (erewrite bind_step; [|reflexivity]).
  apply (keeps_bind idle _ _ (keeps_lift_client idle (plain_frozen []) Hhcc _)); [|split; reflexivity].
  intros _. apply keeps_bind; [apply (keeps_register_all idle (plain_frozen []) (frozen_with_registered [])) | intros _; apply (keeps_frozen_commit [])].
Qed.

(** C5: without a press of a button, the App never arms its
    own polling interval.  The connection listener registered at mount
    holds the [startMonitoring] of the first render, where [isConnected]
    is [false]; whenever the client reports a connection (the saved
    credentials at start, a reconnection), that closure does nothing. *)
Theorem unattended_never_monitors w a : rtc (app_step false) (app_start w) a -> app_intervals a = [].
Proof.
  assert (Hhcc : forall b, keeps idle (handleConnectionChange b)).
  { intros b a0 o [HL HI]. unfold handleConnectionChange. cbn. rewrite HL. by destruct b. }
  intros Hr. cut (idle a); [by intros [_ H]|].
  exact (frozen_rtc [] Hhcc _ _ Hr (idle_app_start Hhcc w)).
Qed.

(** ** The timers of the App *)

Section Frame2.
Context (P : AppWorld -> Prop) (HP : plain P).
Hypothesis Hiv : forall a ivs, P a -> P (with_intervals a ivs).

Lemma keeps_intervals_modify (f : AppWorld -> list (nat * AppState)) :
  keeps P (aw_modify (fun a => with_intervals a (f a))).
Proof. apply keeps_modify. intros; by apply Hiv. Qed.

Ltac timers_keeps :=
  app_keeps; try apply keeps_intervals_modify; try apply (keeps_lift P HP).

Lemma keeps_startMonitoring c : keeps P (startMonitoring c).
Proof.
  destruct c as [[s chk] sdi].
  unfold startMonitoring, app_setInterval, app_clearInterval, sendDeviceInfo_start, app_log. timers_keeps.
Qed.

Lemma keeps_stopMonitoring s : keeps P (stopMonitoring s).
Proof. unfold stopMonitoring, app_clearInterval, app_log. timers_keeps. Qed.

Lemma keeps_hcc b : keeps P (handleConnectionChange b).
Proof.
  unfold handleConnectionChange. apply keeps_bind; [apply keeps_get|intros a].
  repeat case_match; app_keeps; [apply keeps_startMonitoring | apply keeps_stopMonitoring].
Qed.

Lemma keeps_settings_connect tk cid : keeps P (settings_connect tk cid).
Proof.
  unfold settings_connect, handleConnect, app_log. app_keeps;
    try apply (keeps_lift_client P HP keeps_hcc); apply keeps_startMonitoring.
Qed.

Lemma keeps_press_monitor_button : keeps P press_monitor_button.
Proof.
  unfold press_monitor_button. apply keeps_bind; [apply keeps_get|intros a].
  app_keeps; [apply keeps_stopMonitoring | apply keeps_startMonitoring].
Qed.

End Frame2.

(** ** The registered closures *)

Lemma commit_st a o : st (exec_app commit a o) = st a.
Proof. unfold exec_app, commit, register_all. cbn. by case_match. Qed.

Lemma commit_registers a o :
  registration_deps (reg_state (exec_app commit a o)) = registration_deps (st (exec_app commit a o)).
Proof. unfold exec_app, commit, register_all. cbn. by case_match. Qed.

Lemma commit_keeps_registered a o :
  registration_deps (reg_state a) = registration_deps (st a) -> registered (exec_app commit a o) = registered a.
Proof. intros He. unfold exec_app, commit. cbn. by rewrite decide_True by exact He. Qed.

Lemma plain_registered_iv R S a ivs :
  registered a = R /\ reg_state a = S -> registered (with_intervals a ivs) = R /\ reg_state (with_intervals a ivs) = S.
Proof. intros Hx; exact Hx. Qed.

Lemma exec_bind {A B} (c : app A) (k : app B) a o :
  exec_app (c ;! k) a o =
    match c a o with (Normal _, a1, o1) => exec_app k a1 o1 | (Abrupt _, a1, _) => a1 end.
Proof. unfold exec_app. cbn. by destruct (c a o) as [[[]]]. Qed.

(** A step whose body keeps the registration keeps [sms_closure_fixed]
    when the directory and its entries do not change. *)
Lemma sms_closure_body {A} (c : app A) a o :
  (forall R S, keeps (fun a => registered a = R /\ reg_state a = S) c) ->
  sms_closure_fixed a ->
  registration_deps (st (exec_app (c ;! commit) a o)) = registration_deps (st a) ->
  sms_closure_fixed (exec_app (c ;! commit) a o).
Proof.
  intros Hc [Hs Hd] Hq. rewrite exec_bind in *.
  pose proof (Hc (registered a) (reg_state a) a o (conj eq_refl eq_refl)) as [HR HS].
  destruct (c a o) as [[[v|e] a1] o1]; cbn in *.
  - rewrite commit_st in Hq.
    split; [|apply commit_registers].
    rewrite (commit_keeps_registered a1 o1); [by rewrite HR|]. by rewrite HS, Hq.
  - split; [by rewrite HR | by rewrite HS, Hq].
Qed.

(** ** Polling of the App *)

Lemma no_throw_react e : no_throw (react e).
Proof.
  unfold react. destruct e as [| | [] |]; auto with tah.
  case_match; auto using no_throw_handleConnectionChange with tah. apply run_handler_no_throw.
Qed.

Lemma no_throw_lift_client {A} (c : io A) : no_throw c -> no_throw (lift_client c).
Proof.
  intros Hc. unfold lift_client. apply no_throw_bind; [auto with tah | intros a0].
  apply no_throw_finally; [auto with tah|]. apply no_throw_bind; [auto with tah | intros a1].
  apply no_throw_for_each, no_throw_react.
Qed.

Lemma no_throw_addConnectionListener v : no_throw (Connection.addConnectionListener v).
Proof. unfold Connection.addConnectionListener. case_match; auto 10 with tah. Qed.

Lemma no_throw_register_handlers :
  no_throw (for_each command_handlers (fun p => Registry.registerCommandHandler (fst p) (JsFunction (Handler (snd p))))).
Proof. apply no_throw_for_each. intros p. unfold Registry.registerCommandHandler. auto with tah. Qed.

Lemma register_all_run a o :
  exists w o', register_all a o = (Normal tt, with_registered (with_core a w) (cells a) (st a), o').
Proof.
  destruct (no_throw_register_handlers (core a) o) as ([] & w & o' & E).
  unfold register_all. erewrite bind_step; [|unfold lift; rewrite E; reflexivity]. eauto.
Qed.

Lemma plain_cells C : plain (fun a => cells a = C).
Proof. split; [|split]; intros ? ? Hx; exact Hx. Qed.

Lemma sms_closure_app_start w : sms_closure_fixed (app_start w).
Proof.
  unfold app_start, exec_app, mount. do 5 (erewrite bind_step; [|reflexivity]).
  match goal with |- context [aw_bind (lift_client ?c) _ ?a5 []] =>
    destruct (no_throw_lift_client c (no_throw_addConnectionListener _) a5 []) as (v & a6 & o6 & E);
    pose proof (keeps_lift_client _ (plain_cells (cells a5)) (keeps_hcc _ (plain_cells (cells a5)) (fun _ _ Hx => Hx))
                  c a5 [] eq_refl) as Hc6
  end.
  rewrite E in Hc6. erewrite bind_step; [|exact E]. cbn in Hc6.
  destruct (register_all_run a6 o6) as (w' & o7 & E2). erewrite bind_step; [|exact E2].
  pose proof (commit_keeps_registered (with_registered (with_core a6 w') (cells a6) (st a6)) o7 eq_refl) as Hr.
  pose proof (commit_registers (with_registered (with_core a6 w') (cells a6) (st a6)) o7) as Hd.
  unfold exec_app in Hr, Hd. split; [|exact Hd]. rewrite Hr. cbn. by rewrite Hc6.
Qed.

Lemma reg_hcc R S b : keeps (fun a => registered a = R /\ reg_state a = S) (handleConnectionChange b).
Proof. apply keeps_hcc; [apply plain_registered | intros ? ? Hx; exact Hx]. Qed.

Lemma sms_closure_step a b : quiet a b -> sms_closure_fixed a -> sms_closure_fixed b.
Proof.
  intros [Hs Hq] HJ.
  destruct Hs as [a id chk o _|a pre k post r o _|a tk cid o _|a o _|a o _|a o _|a next o|a id o _|a pre off post r o _
                 |a pre b post r o _|a id d o _];
    apply sms_closure_body; try exact HJ; try exact Hq; intros R S.
  - exact (keeps_checkTelegramUpdates _ (plain_registered R S) (reg_hcc R S) chk).
  - exact (keeps_resume_app_task _ (plain_registered R S) (reg_hcc R S) k r).
  - exact (keeps_settings_connect _ (plain_registered R S) (fun _ _ Hx => Hx) tk cid).
  - exact (keeps_press_monitor_button _ (plain_registered R S) (fun _ _ Hx => Hx)).
  - exact (keeps_press_send_info_button _ (plain_registered R S)).
  - exact (keeps_press_settings_toggle _ (plain_registered R S)).
  - exact (keeps_handleAppStateChange _ (plain_registered R S) _ next).
  - exact (keeps_lift_client _ (plain_registered R S) (reg_hcc R S) _).
  - exact (keeps_lift_client _ (plain_registered R S) (reg_hcc R S) _).
  - exact (keeps_lift_client _ (plain_registered R S) (reg_hcc R S) _).
  - exact (keeps_lift_client _ (plain_registered R S) (reg_hcc R S) _).
Qed.

(** The [AppState] listener holds the first render, whose [appState]
    is the state the App started in: when it started in the foreground,
    no later change, from the background back to [active] included,
    takes the branch that logs the return and refreshes the device
    information; the listener only records the new state. *)
Lemma app_state_change_inert a next o :
  currentAppState env = "active" ->
  handleAppStateChange (initial_state env) next a o = (Normal tt, with_st a (set_appState next (st a)), o).
Proof. intros H. unfold handleAppStateChange, initial_state. cbn [appState]. rewrite H. reflexivity. Qed.

(** C16: the handlers are registered again only when the
    path changes or a listing stores a new array of entries; until the
    first listing (the [/storage] command, a file or a Back button) the
    [sms_logs] command runs the [handleSmsLogs] of the first render,
    where [smsAvailable] is still [false]: it answers that SMS is not
    available, even once [useMessageService] has found SMS available and
    permitted. *)
Theorem sms_handler_stale w a args o :
  rtc quiet (app_start w) a ->
  last_elem (out (core (exec_app (run_handler env (Handler "handleSmsLogs") args) a o))) =
    Some (Log Warning "SMS not available on this device").
Proof.
  intros Hr. assert (HJ : sms_closure_fixed a).
  { revert a Hr. apply rtc_ind_r; [apply sms_closure_app_start|].
    intros b c _ Hbc IH. by apply (sms_closure_step b c). }
  destruct HJ as [Hs _]. unfold exec_app, run_handler. cbn -[handleSmsLogs]. rewrite Hs.
  unfold handleSmsLogs, send, lift. cbn -[Reply.sendMessage].
  match goal with |- context [Reply.sendMessage ?t ?op ?w0 ?o0] =>
    destruct (Reply.no_throw_sendMessage t op w0 o0) as (v & w1 & o1 & ->) end.
  cbn. apply last_elem_snoc.
Qed.

End Run.

(** ** The App's polling interval *)

(** The listener of the first render arms and clears nothing. *)
Lemma first_listener_inert I b : keeps (frozen demo_env I) (handleConnectionChange b).
Proof. intros a0 o [HL HI]. unfold handleConnectionChange. cbn. rewrite HL. by destruct b. Qed.

(** C3: the guard of [checkTelegramUpdates] reads the closure the
    interval was given, not the current state.  In a run of the App (the
    stored credentials found at mount, Start pressed, one tick of the
    interval), the App is processing the answer of a [getUpdates] for
    offset 1, and the next tick of the same interval passes the guard
    anyway: it sends a second [getUpdates] for offset 1, and two calls
    of the App for the same updates are in flight. *)
Theorem interval_guard_stale :
  exists a id chk,
    rtc (app_step demo_env true) (app_start demo_env new_World) a /\
    (id, chk) ∈ app_intervals a /\ processing (st a) = true /\ checks_in_flight a = [Some 1%Z] /\
    let b := exec_app (checkTelegramUpdates demo_env chk ;! commit) a [] in
    app_step demo_env true a b /\ checks_in_flight b = [Some 1%Z; Some 1%Z] /\
    last_elem (out (core b)) = Some (Request (GetUpdates 1)).
Proof.
  pose (a1 := exec_app (resume_app_task demo_env AppInit (Dispatcher.UpdatesOk None) ;! commit)
                (with_pending (app_start demo_env new_World) ([AppCollectDevice; AppSmsInit] ++ [])) []).
  pose (a2 := exec_app (press_monitor_button ;! commit) a1 []).
  pose (chk := snd (hd (0, initial_state demo_env) (app_intervals a2))).
  pose (a3 := exec_app (checkTelegramUpdates demo_env chk ;! commit) a2 []).
  assert (E2 : app_intervals a2 = [(2, chk)]) by (vm_compute; reflexivity).
  assert (E3 : app_intervals a3 = [(2, chk)]) by (vm_compute; reflexivity).
  exists a3, 2, chk. split; [|split; [|split; [|split]]].
  - eapply rtc_l; [apply (as_resume demo_env true _ [AppCollectDevice; AppSmsInit] AppInit [] (Dispatcher.UpdatesOk None) []); vm_compute; reflexivity|].
    eapply rtc_l; [exact (as_button demo_env true a1 [] eq_refl)|].
    eapply rtc_l; [apply (as_interval demo_env true a2 2 chk []); rewrite E2; apply list_elem_of_singleton; reflexivity|].
    apply rtc_refl.
  - rewrite E3. by apply list_elem_of_singleton.
  - vm_compute. reflexivity.
  - vm_compute. reflexivity.
  - cbv zeta. split; [apply (as_interval demo_env true a3 2 chk []); rewrite E3; by apply list_elem_of_singleton|].
    split; vm_compute; reflexivity.
Qed.

(** C6: A press of Stop while a [getUpdates] is in flight renders a
    [startMonitoring] whose [checkTelegramUpdates] saw [processing] true;
    Start then arms an interval with that closure.  Once the answer is
    processed, the App shows monitoring as active and is idle, yet every
    tick of its interval returns at the guard, and until a button is
    pressed no step arms another interval: the App never polls again. *)
Theorem monitoring_stalls :
  exists a,
    rtc (app_step demo_env true) (app_start demo_env new_World) a /\
    monitoringActive (st a) = true /\ processing (st a) = false /\ checks_in_flight a = [] /\ app_intervals a <> [] /\
    forall b, rtc (app_step demo_env false) a b ->
      app_intervals b = app_intervals a /\
      forall id chk o, (id, chk) ∈ app_intervals b -> exec_app (checkTelegramUpdates demo_env chk) b o = b.
Proof.
  pose (a1 := exec_app (resume_app_task demo_env AppInit (Dispatcher.UpdatesOk None) ;! commit)
                (with_pending (app_start demo_env new_World) ([AppCollectDevice; AppSmsInit] ++ [])) []).
  pose (a2 := exec_app (press_monitor_button ;! commit) a1 []).
  pose (chk := snd (hd (0, initial_state demo_env) (app_intervals a2))).
  pose (a3 := exec_app (checkTelegramUpdates demo_env chk ;! commit) a2 []).
  pose (a4 := exec_app (press_monitor_button ;! commit) a3 []).
  pose (a5 := exec_app (press_monitor_button ;! commit) a4 []).
  pose (pre := firstn 3 (app_pending a5)). pose (post := skipn 4 (app_pending a5)).
  pose (a6 := exec_app (resume_app_task demo_env (AppCheck chk (Some 1%Z)) (Dispatcher.UpdatesOk (Some [])) ;! commit)
                (with_pending a5 (pre ++ post)) []).
  pose (chk' := snd (hd (0, initial_state demo_env) (app_intervals a5))).
  assert (E2 : app_intervals a2 = [(2, chk)]) by (vm_compute; reflexivity).
  assert (E6 : app_intervals a6 = [(3, chk')]) by (vm_compute; reflexivity).
  assert (HF : frozen demo_env (app_intervals a6) a6) by (split; [vm_compute; reflexivity | reflexivity]).
  exists a6. split; [|split; [|split; [|split; [|split]]]].
  - eapply rtc_l; [apply (as_resume demo_env true _ [AppCollectDevice; AppSmsInit] AppInit [] (Dispatcher.UpdatesOk None) []); vm_compute; reflexivity|].
    eapply rtc_l; [exact (as_button demo_env true a1 [] eq_refl)|].
    eapply rtc_l; [apply (as_interval demo_env true a2 2 chk []); rewrite E2; apply list_elem_of_singleton; reflexivity|].
    eapply rtc_l; [exact (as_button demo_env true a3 [] eq_refl)|]. eapply rtc_l; [exact (as_button demo_env true a4 [] eq_refl)|].
    eapply rtc_l; [apply (as_resume demo_env true a5 pre (AppCheck chk (Some 1%Z)) post (Dispatcher.UpdatesOk (Some [])) []); vm_compute; reflexivity|].
    apply rtc_refl.
  - vm_compute. reflexivity.
  - vm_compute. reflexivity.
  - vm_compute. reflexivity.
  - rewrite E6. discriminate.
  - intros b Hb. destruct (frozen_rtc demo_env _ (first_listener_inert _) a6 b Hb HF) as [_ HI].
    assert (Hp : processing chk' = true) by (vm_compute; reflexivity). clearbody chk'.
    split; [exact HI|]. intros id c o Hin. rewrite HI, E6 in Hin. apply list_elem_of_singleton in Hin.
    injection Hin as -> ->. unfold exec_app, checkTelegramUpdates. by rewrite Hp.
Qed.

(** ** Examples *)

Lemma unattended_never_monitors_witness :
  connected (self (core (exec_app (resume_app_task demo_env AppInit (Dispatcher.UpdatesOk None) ;! commit)
                           (with_pending (app_start demo_env new_World) ([AppCollectDevice; AppSmsInit] ++ [])) []))) = true /\
  app_intervals (exec_app (resume_app_task demo_env AppInit (Dispatcher.UpdatesOk None) ;! commit)
                   (with_pending (app_start demo_env new_World) ([AppCollectDevice; AppSmsInit] ++ [])) []) = [].
Proof.
  split; [vm_compute; reflexivity|].
  apply (unattended_never_monitors demo_env new_World).
  eapply rtc_l; [|apply rtc_refl].
  apply (as_resume demo_env false _ [AppCollectDevice; AppSmsInit] AppInit [] (Dispatcher.UpdatesOk None) []).
  vm_compute. reflexivity.
Defined.

Lemma sms_handler_stale_witness :
  smsAvailable (st (exec_app (resume_app_task demo_env AppSmsInit (Dispatcher.UpdatesOk None) ;! commit)
                      (with_pending (app_start demo_env new_World) ([AppCollectDevice] ++ [AppInit])) [])) = true /\
  last_elem (out (core (exec_app (run_handler demo_env (Handler "handleSmsLogs") (OnMessage (mkMessage 123 (Some "/sms_logs"))))
                         (exec_app (resume_app_task demo_env AppSmsInit (Dispatcher.UpdatesOk None) ;! commit)
                            (with_pending (app_start demo_env new_World) ([AppCollectDevice] ++ [AppInit])) []) []))) =
    Some (Log Warning "SMS not available on this device").
Proof.
  split; [vm_compute; reflexivity|].
  apply (sms_handler_stale demo_env new_World).
  eapply rtc_l; [|apply rtc_refl]. split.
  - apply (as_resume demo_env true _ [AppCollectDevice] AppSmsInit [AppInit] (Dispatcher.UpdatesOk None) []).
    vm_compute. reflexivity.
  - vm_compute. reflexivity.
Defined.


End AppRun.
