(* ===== verification/Legacy.v ===== *)
(** * The legacy client class

    [src/unnamed/part_003] is the first version of the [TelegramAPI]
    singleton: the same seven fields as the first seven of the newer
    class, no reconnection, no poll loop of its own and no chat-id
    check.  Its methods run on the heap of [Model]: the fields the legacy
    class lacks keep the values of [new_TelegramAPI] and none of its
    methods reads or writes them.

    The axios instance has a single response interceptor that logs
    [Telegram API error: <message>] and rejects again; there are no
    retries, so the oracle settles the request itself.  [getUpdates]
    takes the response's [result] (missing or a list) as an argument:
    the body of the answer, whereas the oracle says whether the request
    is fulfilled.  A rejection's reason stands for both the
    [response.data.description] the interceptor prefers and the
    [error.message] of the [catch] blocks. *)

From S2P Require Import Prelude JsString Encryption Await Model Registry Reply Connection Dispatcher.

Module Legacy.

(** [createTelegramAPI(token)] (lines 11-36): [null] for a falsy token. *)
Definition createTelegramAPI (tk : option string) : option string :=
  if truthy tk then tk else None.

(** [new TelegramAPI()] (lines 42-50). *)
Definition new_TelegramAPI : TelegramAPI := {|
  api := None; token := None; chatId := None; lastUpdateId := 0;
  connected := false; connectionListeners := []; commandHandlers := ∅;
  reconnectTimer := None; reconnectAttempts := 0; maxReconnectAttempts := 10;
  updatePollingInterval := None; isPolling := false |}.

(** [await this.api.get(...)] / [await this.api.post(...)] through the
    response interceptor of lines 26-33. *)
Definition call_api (r : request) : io unit :=
  let! t := this in
  match api t with
  | None => aw_throw type_error_null
  | Some _ =>
      aw_catch (aw_await (push (Request r)))
               (fun e => log Error ("Telegram API error: " +:+ e) ;! aw_throw e)
  end.

(** [setConnected(status)] (lines 75-78): no comparison with the old
    status, every listener is called every time. *)
Definition setConnected (status : bool) : io unit :=
  update_self (fun t => with_connected t status) ;!
  let! t := this in
  Connection.notify_all (connectionListeners t) status.

(** [initialize(token, chatId)] (lines 57-69). *)
Definition initialize (tk cid : option string) : io bool :=
  update_self (fun t => with_credentials t tk cid) ;!
  update_self (fun t => with_api t (createTelegramAPI tk)) ;!
  let! t := this in
  (if match api t with Some _ => truthy (chatId t) | None => false end
   then setConnected true else setConnected false) ;!
  let! t := this in
  aw_ret (connected t).

(** [addConnectionListener(listener)] (lines 84-88): no call on
    registration. *)
Definition addConnectionListener (v : jsval listener) : io unit :=
  match v with
  | JsFunction l => update_self (fun t => with_listeners t (connectionListeners t ++ [l]))
  | JsOther => aw_ret tt
  end.

(** [removeConnectionListener(listener)] (lines 94-96). *)
Definition removeConnectionListener (l : listener) : io unit :=
  update_self (fun t => with_listeners t (filter (fun l' => l' <> l) (connectionListeners t))).

(** [registerCommandHandler(command, handler)] (lines 103-107). *)
Definition registerCommandHandler (command : string) (v : jsval handler) : io unit :=
  match v with
  | JsFunction h => update_self (fun t => with_handlers t (<[command := h]> (commandHandlers t)))
  | JsOther => aw_ret tt
  end.

(** [getUpdates()] (lines 113-138); [result] is [response.data.result]. *)
Definition getUpdates (result : option (list Update)) : io (list Update) :=
  let! t := this in
  if negb (connected t) then aw_ret []
  else
    aw_catch
      (call_api (GetUpdates (lastUpdateId t + 1)) ;!
       let updates := default [] result in
       match last_elem updates with
       | Some u => update_self (fun t => with_lastUpdateId t (update_id u))
       | None => aw_ret tt
       end ;!
       aw_ret updates)
      (fun e => log Error ("Failed to get updates: " +:+ e) ;! setConnected false ;! aw_ret []).

(** Lines 147-165: acknowledge, then the exact key, then the
    [command_params] form; a missing handler of that form is silent. *)
Definition handle_callback (q : CallbackQuery) : io unit :=
  call_api (AnswerCallbackQuery (cq_id q)) ;!
  let data := cq_data q in
  let! t := this in
  match Registry.resolve (commandHandlers t) data with
  | Some s => Registry.invoke s (OnCallback q)
  | None =>
      if Js.includes "_" data then
        let '(command, params) := Js.head_and_rest "_" data in
        match Registry.resolve (commandHandlers t) command with
        | Some s => Registry.invoke s (OnCallbackParam q params)
        | None => aw_ret tt
        end
      else log Warning ("No handler for command: " +:+ data)
  end.

(** Lines 168-173: [text.split(' ')[0].substring(1)], case kept, the
    handler called with the message alone. *)
Definition handle_command (m : Message) (txt : string) : io unit :=
  match Js.split " " txt with
  | [] => aw_throw type_error_null
  | first :: _ =>
      let! t := this in
      match Registry.resolve (commandHandlers t) (Js.substring1 first) with
      | Some s => Registry.invoke s (OnMessage m)
      | None => aw_ret tt
      end
  end.

(** [processUpdate(update)] (lines 144-177): no chat-id guard. *)
Definition processUpdate (u : Update) : io unit :=
  aw_catch
    (match callback_query u with
     | Some q => handle_callback q
     | None => aw_ret tt
     end ;!
     match message u with
     | Some m =>
         match text m with
         | Some txt => if truthy (Some txt) && Js.startsWith "/" txt then handle_command m txt else aw_ret tt
         | None => aw_ret tt
         end
     | None => aw_ret tt
     end)
    (fun e => log Error ("Error processing update: " +:+ e)).

(** [sendMessage(text, options = {})] (lines 185-202). *)
Definition sendMessage (txt : string) (options : Reply.send_options) : io bool :=
  let! t := this in
  if negb (connected t) then aw_ret false
  else
    aw_catch (call_api (SendMessage (chatId t) txt (Reply.parse_mode_or_default options)
                          (Reply.reply_markup options)) ;! aw_ret true)
             (fun e => log Error ("Failed to send message: " +:+ e) ;! aw_ret false).

(** [sendFile(filePath, caption = '')] (lines 210-240). *)
Definition sendFile (filePath caption : string) : io bool :=
  let! t := this in
  if negb (connected t) then aw_ret false
  else
    aw_catch (call_api (SendDocument (chatId t) (if truthy (Some caption) then Some caption else None)
                          filePath (Reply.file_name filePath)) ;! aw_ret true)
             (fun e => log Error ("Failed to send file: " +:+ e) ;! aw_ret false).

(** [sendDeviceInfo(deviceInfo)] (lines 247-285): the text and the menu
    of the newer class. *)
Definition sendDeviceInfo (deviceInfo : option Reply.DeviceInfo) : io bool :=
  let! t := this in
  match deviceInfo with
  | Some d =>
      if negb (connected t) then aw_ret false
      else
        aw_catch (let! loc := Reply.location_text d in
                  sendMessage (Reply.device_message d loc) Reply.no_options ;!
                  sendMessage "Choose an option:" (Reply.mkOptions None (Some Reply.device_menu)) ;!
                  aw_ret true)
                 (fun e => log Error ("Failed to send device info: " +:+ e) ;! aw_ret false)
  | None => aw_ret false
  end.

(** ** Run lemmas *)

Lemma legacy_setConnected_run status w o :
  setConnected status w o =
  (Normal tt, mkWorld (with_connected (self w) status) (timers w) (next_timer w) (pending w)
                (out w ++ map (fun l => Notify l status) (connectionListeners (self w))), o).
Proof. unfold setConnected. cbn -[Connection.notify_all]. by rewrite Connection.notify_all_run. Qed.

(** A slash command with no space: its name is the text after the slash. *)
Lemma handle_command_run w o m cmd h :
  Js.includes " " cmd = false ->
  commandHandlers (self w) !! cmd = Some h ->
  handle_command m (String "/" cmd) w o = Registry.invoke (Own h) (OnMessage m) w o.
Proof.
  intros Hsp Hh. unfold handle_command.
  rewrite Js.split_no_sep by (simpl; exact Hsp).
  cbn. by rewrite (Registry.resolve_own _ _ _ Hh).
Qed.

(** ** Properties *)

(** C8: The legacy [processUpdate] has no chat-id check: a slash
    command from any chat whatsoever runs its registered handler with
    the message, and a rejection of the handler is only logged. *)
Theorem legacy_any_chat_runs_command w o uid m cmd h :
  text m = Some (String "/" cmd) ->
  Js.includes " " cmd = false ->
  commandHandlers (self w) !! cmd = Some h ->
  out (exec (processUpdate (mkUpdate uid (Some m) None)) w o) =
  out w ++ [Invoke (Own h) (OnMessage m)] ++
  match o with
  | Rejected r :: _ => [Log Error ("Error processing update: " +:+ r)]
  | _ => []
  end.
Proof.
  intros Ht Hsp Hh. unfold exec, processUpdate, aw_catch, aw_bind. cbn [callback_query message aw_ret].
  rewrite Ht. cbn [truthy String.eqb andb]. rewrite Js.startsWith_cons. cbn [negb andb].
  rewrite (handle_command_run w o m cmd h Hsp Hh).
  destruct o as [|[|r] o]; cbn; by rewrite ?app_nil_r, <- ?app_assoc.
Qed.

(** A failed [getUpdates] of the legacy class returns no update,
    keeps the cursor, and disconnects: the interceptor's log line, the
    method's own, then every listener called with [false], whatever its
    connection status was. *)
Theorem legacy_getUpdates_failure w r result o :
  connected (self w) = true ->
  is_Some (api (self w)) ->
  let '(c, w', _) := getUpdates result w (Rejected r :: o) in
  c = Normal [] /\ connected (self w') = false /\
  lastUpdateId (self w') = lastUpdateId (self w) /\
  out w' = out w ++ [Request (GetUpdates (lastUpdateId (self w) + 1));
                     Log Error ("Telegram API error: " +:+ r);
                     Log Error ("Failed to get updates: " +:+ r)] ++
           map (fun l => Notify l false) (connectionListeners (self w)).
Proof.
  intros Hc [a Ha]. unfold getUpdates, call_api.
  cbn -[setConnected]. rewrite Hc. cbn -[setConnected]. rewrite Ha. cbn -[setConnected].
  rewrite legacy_setConnected_run. cbn. by rewrite <- !app_assoc.
Qed.

(** The requests and handler calls of a run that adds [evs] to the trace. *)
Lemma calls_of_push_all (l evs : list event) :
  Dispatcher.calls_of (l ++ evs) = Dispatcher.calls_of l ++ Dispatcher.calls_of evs.
Proof. apply List.filter_app. Qed.

(** C22: On an update from the configured chat that carries only a
    callback query whose data is a registered key, the legacy and the
    current [processUpdate] send the same requests and make the same
    handler call when the acknowledgement and the handler are
    fulfilled: the two versions differ only in their log lines. *)
Theorem legacy_current_agree_on_callbacks w c tok u q m h o :
  chatId (self w) = Some c -> api (self w) = Some tok ->
  message u = None -> callback_query u = Some q -> cq_message q = Some m -> Js.numToString (chat_id m) = c ->
  commandHandlers (self w) !! cq_data q = Some h ->
  Dispatcher.calls_of (out (exec (processUpdate u) w (Fulfilled :: Fulfilled :: o))) =
  Dispatcher.calls_of (out (exec (Dispatcher.processUpdate u) w (Fulfilled :: Fulfilled :: o))).
Proof.
  intros Hc Ha Hmsg Hcb Hcm Hchat Hh. unfold exec.
  rewrite (Dispatcher.process_callback_run w c Hc u q m) by done.
  cbn -[Dispatcher.handle_callback Dispatcher.calls_of]. rewrite (Dispatcher.handle_callback_ack w tok Ha).
  unfold Dispatcher.route_callback, processUpdate, handle_callback, call_api.
  cbn -[Registry.resolve Dispatcher.calls_of]. rewrite Hcb, Hmsg. unfold this. cbn -[Registry.resolve Dispatcher.calls_of]. rewrite Ha.
  cbn -[Registry.resolve Dispatcher.calls_of]. rewrite (Registry.resolve_own _ _ _ Hh).
  cbn -[Dispatcher.calls_of]. rewrite <- !app_assoc, !calls_of_push_all. reflexivity.
Qed.

(** ** Witnesses *)

Definition legacy_world : World :=
  with_self new_World
    (with_handlers (with_connected (with_api (with_credentials new_TelegramAPI (Some "tok") (Some "123")) (Some "tok")) true)
       (<["storage" := Handler "handleStorage"]> ∅)).

Lemma legacy_any_chat_runs_command_witness :
  out (exec (processUpdate (mkUpdate 7 (Some (mkMessage 666 (Some "/storage"))) None)) legacy_world []) =
  out legacy_world ++ [Invoke (Own (Handler "handleStorage")) (OnMessage (mkMessage 666 (Some "/storage")))] ++ [].
Proof.
  exact (legacy_any_chat_runs_command legacy_world [] 7 (mkMessage 666 (Some "/storage")) "storage"
           (Handler "handleStorage") eq_refl eq_refl eq_refl).
Defined.

Definition legacy_query : CallbackQuery := mkCallback "cb1" "storage" (Some (mkMessage 123 None)).

Lemma legacy_current_agree_on_callbacks_witness :
  chatId (self legacy_world) = Some "123" /\ api (self legacy_world) = Some "tok" /\
  message (mkUpdate 8 None (Some legacy_query)) = None /\
  callback_query (mkUpdate 8 None (Some legacy_query)) = Some legacy_query /\
  cq_message legacy_query = Some (mkMessage 123 None) /\ Js.numToString (chat_id (mkMessage 123 None)) = "123" /\
  commandHandlers (self legacy_world) !! cq_data legacy_query = Some (Handler "handleStorage") /\
  Dispatcher.calls_of (out (exec (processUpdate (mkUpdate 8 None (Some legacy_query))) legacy_world [Fulfilled; Fulfilled])) =
  Dispatcher.calls_of (out (exec (Dispatcher.processUpdate (mkUpdate 8 None (Some legacy_query))) legacy_world
                              [Fulfilled; Fulfilled])).
Proof.
  assert (H1 : chatId (self legacy_world) = Some "123") by reflexivity.
  assert (H2 : api (self legacy_world) = Some "tok") by reflexivity.
  assert (H3 : message (mkUpdate 8 None (Some legacy_query)) = None) by reflexivity.
  assert (H4 : callback_query (mkUpdate 8 None (Some legacy_query)) = Some legacy_query) by reflexivity.
  assert (H5 : cq_message legacy_query = Some (mkMessage 123 None)) by reflexivity.
  assert (H6 : Js.numToString (chat_id (mkMessage 123 None)) = "123") by (vm_compute; reflexivity).
  assert (H7 : commandHandlers (self legacy_world) !! cq_data legacy_query = Some (Handler "handleStorage"))
    by (vm_compute; reflexivity).
  do 7 (split; [assumption|]).
  exact (legacy_current_agree_on_callbacks legacy_world "123" "tok" _ legacy_query (mkMessage 123 None)
           (Handler "handleStorage") [] H1 H2 H3 H4 H5 H6 H7).
Defined.

Lemma legacy_getUpdates_failure_witness :
  let '(c, w', _) := getUpdates None (with_self legacy_world (with_listeners (self legacy_world) [1; 2]))
                       [Rejected "Network Error"] in
  c = Normal [] /\ connected (self w') = false /\ lastUpdateId (self w') = 0%Z /\
  out w' = [Request (GetUpdates 1); Log Error ("Telegram API error: " +:+ "Network Error");
            Log Error ("Failed to get updates: " +:+ "Network Error"); Notify 1 false; Notify 2 false].
Proof.
  exact (legacy_getUpdates_failure (with_self legacy_world (with_listeners (self legacy_world) [1; 2]))
           "Network Error" None [] eq_refl (ex_intro _ "tok" eq_refl)).
Defined.

End Legacy.
