(* ===== verification/Original.v ===== *)
(** * The original App component

    [src/unnamed/part_000] is the first version of [App]: a single
    component that calls the Bot API with axios itself, at
    [https://api.telegram.org/bot<botToken>/<method>], with no client
    class.  Its state is [OState] (the [useState] hooks of lines 14-23).
    Every function of the component is a closure of the render that
    created it and reads the state of that render, its snapshot; the
    [setX] calls change the current state [ost].  [commit] is the render
    that follows a batch of updates together with the effect of lines
    31-59, which, whenever [isConnected] changes, clears the interval of
    the previous render and, when connected, arms [setInterval] with the
    [checkTelegramUpdates] of the new render; the armed interval is kept
    as the snapshot its callback reads.

    The world also has the Bot API server's queue of unconfirmed updates
    ([System.answer] drops those below the offset of a [getUpdates]) and
    the trace of HTTP calls and file writes.  The native modules are the
    record [OEnv]: each asynchronous call yields its value, or the
    rendering of the error it rejects with ([inl]).  HTTP calls settle as
    the oracle says.

    [ostep] is the event loop: typing in the two inputs, pressing the
    button, a tick of the interval, an update arriving at the server.
    A tick runs its [async] callback to completion; the ticks of the
    stale closure may overlap in JavaScript, and every overlapping
    schedule sends the same requests as the sequential one.  The
    animations, the styles and the scroll timeout are UI and are not
    modelled; a log entry is its type and message, without the time of
    [toLocaleTimeString]. *)

From S2P Require Import Prelude JsString Await Model Formats Reply System.

Module Original.

(** ** Data *)

(** [collectDeviceInfo]'s [info] object (lines 113-124);
    [location] is [location.coords], in ten-thousandths of a degree, or
    [None] for the string ['Not available']. *)
Record DeviceData := mkDeviceData {
  i_deviceName : string;
  i_brand : string;
  i_model : string;
  i_osVersion : string;
  i_osBuild : string;
  i_appVersion : string;
  i_ipAddress : string;
  i_location : option (Z * Z);
  i_deviceId : string;
  i_uptime : string
}.

(** The [useState] hooks (lines 14-23); [deviceInfo] is [None] for [{}]. *)
Record OState := mkOState {
  currentPath : string;
  fileList : list string;
  historyStack : list string;
  botToken : string;
  chatId : string;
  isConnected : bool;
  logs : list (level * string);
  processing : bool;
  lastUpdateId : Z;
  deviceInfo : option DeviceData
}.

(** The Bot API calls of the component, with their payloads. *)
Inductive orequest :=
  | OGetUpdates (offset : Z)
  | OAnswerCallbackQuery (callback_query_id : string)
  | OSendMessage (chat_id : string) (text : string) (parse_mode : option string) (reply_markup : option keyboard)
  | OSendDocument (chat_id : string) (uri : string) (name : string).

Inductive oevent :=
  | OPost (token : string) (r : orequest)   (** an axios call to [API_URL/<method>] *)
  | OWrite (path content : string).         (** [FileSystem.writeAsStringAsync] *)

#[export] Instance orequest_eq_dec : EqDecision orequest.
Proof. solve_decision. Defined.
#[export] Instance oevent_eq_dec : EqDecision oevent.
Proof. solve_decision. Defined.

(** An SMS of [SMS.getSmsAsync]'s [result]. *)
Record OSms := mkOSms { sms_address : option string; sms_body : option string; date_sent : option string }.

(** The values the native modules give; [inl e] is a rejection whose
    rendering is [e]. *)
Record OEnv := mkOEnv {
  documentDirectory : string;
  cacheDirectory : string;
  permissions_result : string + string;     (** [JSON.stringify] of [requestMultiple]'s result *)
  location_status : string + string;        (** [Location.requestPermissionsAsync()] *)
  position : string + (Z * Z);              (** [Location.getCurrentPositionAsync({})]'s coords *)
  ip_address : string + option string;      (** [Network.getIpAddressAsync()] *)
  dev_deviceName : option string;
  dev_brand : option string;
  dev_modelName : option string;
  dev_modelId : option string;
  dev_osVersion : option string;
  dev_osBuildId : option string;
  app_version : option string;              (** [Application.nativeApplicationVersion] *)
  osInternalBuildId : option string;
  dev_uptime : option Z;                    (** [Device.uptime]; [None] when undefined *)
  sms_available : bool;                     (** [SMS.isAvailableAsync()] *)
  contacts_status : string;                 (** [Contacts.requestPermissionsAsync()] *)
  contacts_data : list Formats.Contact;             (** [Contacts.getContactsAsync] *)
  read_dir : string -> string + list string;  (** [FileSystem.readDirectoryAsync] *)
  path_isdir : string -> string + bool;       (** [FileSystem.getInfoAsync(p)].isDirectory *)
  read_file : string -> string + string       (** [FileSystem.readAsStringAsync] *)
}.

Record OWorld := mkOWorld {
  ost : OState;                 (** the state the [setX] calls wrote last *)
  rendered : OState;            (** the state of the last render *)
  interval : option OState;     (** the armed interval's [checkTelegramUpdates], by its render *)
  queue : list Update;          (** the server's unconfirmed updates *)
  oout : list oevent
}.

Abbreviation oapp := (aw OWorld).

(** ** Setters *)

Definition set_currentPath v s := mkOState v (fileList s) (historyStack s) (botToken s) (chatId s) (isConnected s) (logs s) (processing s) (lastUpdateId s) (deviceInfo s).
Definition set_fileList v s := mkOState (currentPath s) v (historyStack s) (botToken s) (chatId s) (isConnected s) (logs s) (processing s) (lastUpdateId s) (deviceInfo s).
Definition set_historyStack v s := mkOState (currentPath s) (fileList s) v (botToken s) (chatId s) (isConnected s) (logs s) (processing s) (lastUpdateId s) (deviceInfo s).
Definition set_botToken v s := mkOState (currentPath s) (fileList s) (historyStack s) v (chatId s) (isConnected s) (logs s) (processing s) (lastUpdateId s) (deviceInfo s).
Definition set_chatId v s := mkOState (currentPath s) (fileList s) (historyStack s) (botToken s) v (isConnected s) (logs s) (processing s) (lastUpdateId s) (deviceInfo s).
Definition set_isConnected v s := mkOState (currentPath s) (fileList s) (historyStack s) (botToken s) (chatId s) v (logs s) (processing s) (lastUpdateId s) (deviceInfo s).
Definition set_logs v s := mkOState (currentPath s) (fileList s) (historyStack s) (botToken s) (chatId s) (isConnected s) v (processing s) (lastUpdateId s) (deviceInfo s).
Definition set_processing v s := mkOState (currentPath s) (fileList s) (historyStack s) (botToken s) (chatId s) (isConnected s) (logs s) v (lastUpdateId s) (deviceInfo s).
Definition set_lastUpdateId v s := mkOState (currentPath s) (fileList s) (historyStack s) (botToken s) (chatId s) (isConnected s) (logs s) (processing s) v (deviceInfo s).
Definition set_deviceInfo v s := mkOState (currentPath s) (fileList s) (historyStack s) (botToken s) (chatId s) (isConnected s) (logs s) (processing s) (lastUpdateId s) v.

Definition with_ost (w : OWorld) s := mkOWorld s (rendered w) (interval w) (queue w) (oout w).
Definition with_rendered (w : OWorld) s := mkOWorld (ost w) s (interval w) (queue w) (oout w).
Definition with_interval (w : OWorld) i := mkOWorld (ost w) (rendered w) i (queue w) (oout w).
Definition with_queue (w : OWorld) q := mkOWorld (ost w) (rendered w) (interval w) q (oout w).

(** ** Runtime *)

(** [setX(...)]. *)
Definition set_state (f : OState -> OState) : oapp unit := aw_modify (fun w => with_ost w (f (ost w))).

Definition record_event (e : oevent) (w : OWorld) : OWorld :=
  mkOWorld (ost w) (rendered w) (interval w) (queue w) (oout w ++ [e]).

(** [await axios.post(`${API_URL}/<method>`, ...)] with [API_URL] built
    from the closure's [botToken]; [getUpdates] at the server drops the
    updates below its offset. *)
Definition post (tok : string) (r : orequest) : oapp unit :=
  aw_await (fun w =>
    let w' := record_event (OPost tok r) w in
    match r with
    | OGetUpdates off => with_queue w' (System.answer (queue w) off)
    | _ => w'
    end).

(** The [result] of the last [getUpdates] answer. *)
Definition server_result : oapp (list Update) := let! w := aw_get in aw_ret (queue w).

(** [await] of a native call. *)
Definition native {A} (r : string + A) : oapp A :=
  match r with
  | inl e => aw_throw e
  | inr v => aw_ret v
  end.

(** The render after a batch of updates, and the effect on
    [isConnected] (lines 55-58). *)
Definition commit (w : OWorld) : OWorld :=
  let s := ost w in
  if Bool.eqb (isConnected (rendered w)) (isConnected s) then with_rendered w s
  else with_interval (with_rendered w s) (if isConnected s then Some s else None).

(** ** Text helpers *)

(** [x || 'Unknown']. *)
Definition or_unknown (o : option string) : string :=
  match o with Some v => if truthy (Some v) then v else "Unknown" | None => "Unknown" end.

(** The value of a decimal or hexadecimal digit. *)
Definition digit_value (hex : bool) (a : ascii) : option nat :=
  let n := nat_of_ascii a in
  if (48 <=? n) && (n <=? 57) then Some (n - 48)
  else if hex && (97 <=? n) && (n <=? 102) then Some (n - 87)
  else if hex && (65 <=? n) && (n <=? 70) then Some (n - 55)
  else None.

(** The value of the longest prefix of digits, [None] when empty. *)
Fixpoint digits_from (hex : bool) (acc : option nat) (s : string) : option nat :=
  match s with
  | String a s' =>
      match digit_value hex a with
      | Some d => digits_from hex (Some (default 0 acc * (if hex then 16 else 10) + d)) s'
      | None => acc
      end
  | EmptyString => acc
  end.

(** [parseInt(s)] with no radix: leading white space, a sign, a [0x]
    prefix for hexadecimal, then the longest run of digits; [None] is
    [NaN]. *)
Definition parseInt (s : string) : option Z :=
  let t := Js.trim_start s in
  let '(sign, body) :=
    match t with
    | String "-" r => ((-1)%Z, r)
    | String "+" r => (1%Z, r)
    | _ => (1%Z, t)
    end in
  let digits :=
    match body with
    | String "0" (String x r) =>
        if Ascii.eqb x "x" || Ascii.eqb x "X" then digits_from true None r else digits_from false None body
    | _ => digits_from false None body
    end in
  option_map (fun n => (sign * Z.of_nat n)%Z) digits.

(** [arr[i]] of a list of strings, rendered in a template literal:
    ["undefined"] out of range or for [NaN]. *)
Definition index_or_undefined (xs : list string) (i : option Z) : string :=
  match i with
  | Some z => if (0 <=? z)%Z then default "undefined" (xs !! Z.to_nat z) else "undefined"
  | None => "undefined"
  end.

(** A CSV cell of the component: in double quotes, nothing escaped. *)
Definition cell (s : string) : string := Formats.quote_str +:+ s +:+ Formats.quote_str.

(** Lines 279-281: [c.name] and the first phone number. *)
Definition contact_line (c : Formats.Contact) : string :=
  cell (Formats.or_empty (Formats.name c)) +:+ "," +:+
  cell (match Formats.phoneNumbers c with Some (p :: _) => Formats.or_empty (Formats.number p) | _ => "" end) +:+ Formats.nl.

(** Lines 257-259: the body's quotes doubled. *)
Definition sms_line (m : OSms) : string :=
  cell (Formats.or_empty (sms_address m)) +:+ "," +:+
  cell (let b := Formats.csv_escape (Formats.or_empty (sms_body m)) in if truthy (Some b) then b else "") +:+ "," +:+
  cell (Formats.or_empty (date_sent m)) +:+ Formats.nl.

(** The [inline_keyboard] of [listFiles] (lines 298-306). *)
Definition file_keyboard (files : list string) : keyboard :=
  imap (fun i f => [mkButton (pretty (Z.of_nat i + 1)%Z +:+ ". " +:+ f) ("file_" +:+ pretty (Z.of_nat i))]) files ++
  [[mkButton (Reply.utf8_str [240; 159; 148; 153] +:+ " Back") "back"]].

(** The menu of [sendPing] (lines 157-164): one button per row. *)
Definition ping_menu : keyboard :=
  [[mkButton (Reply.utf8_str [240; 159; 147; 158] +:+ " Call Logs") "call_logs"];
   [mkButton (Reply.utf8_str [240; 159; 146; 172] +:+ " SMS Logs") "sms_logs"];
   [mkButton (Reply.utf8_str [240; 159; 145; 165] +:+ " Contacts") "contacts"];
   [mkButton (Reply.utf8_str [240; 159; 147; 129] +:+ " Storage") "storage"]].

(** [deviceData.location.latitude ? ... : 'N/A'] (lines 145-146);
    [{}] has no [location] and reading [.latitude] of it throws. *)
Definition ping_location (d : option DeviceData) : oapp string :=
  match d with
  | None => aw_throw "Cannot read properties of undefined (reading 'latitude')"
  | Some i =>
      match i_location i with
      | Some (la, lo) => if (la =? 0)%Z then aw_ret "N/A" else aw_ret (Reply.toFixed4 la +:+ ", " +:+ Reply.toFixed4 lo)
      | None => aw_ret "N/A"
      end
  end.

(** A field of [deviceData] in a template literal. *)
Definition field (d : option DeviceData) (f : DeviceData -> string) : string :=
  match d with Some i => f i | None => "undefined" end.

(** The text of lines 139-149: the device id in clear. *)
Definition ping_message (d : option DeviceData) (loc : string) : string :=
  let b := Reply.bullet in
  Reply.utf8_str [240; 159; 147; 177] +:+ " *Device Connected!*" +:+ Reply.newline +:+ Reply.newline +:+
  b +:+ " Device: " +:+ field d i_deviceName +:+ Reply.newline +:+
  b +:+ " Model: " +:+ field d i_model +:+ Reply.newline +:+
  b +:+ " OS: Android " +:+ field d i_osVersion +:+ Reply.newline +:+
  b +:+ " Build: " +:+ field d i_osBuild +:+ Reply.newline +:+
  b +:+ " IP: " +:+ field d i_ipAddress +:+ Reply.newline +:+
  b +:+ " Location: " +:+ loc +:+ Reply.newline +:+
  b +:+ " Uptime: " +:+ field d i_uptime +:+ Reply.newline +:+
  b +:+ " App Version: " +:+ field d i_appVersion +:+ Reply.newline +:+
  b +:+ " Device ID: " +:+ field d i_deviceId.

(** ** The component's functions, closures of the render [s] *)

Section Component.
Context (env : OEnv).

(** [addLog(message, type)] (lines 61-77): a functional update. *)
Definition addLog (ty : level) (message : string) : oapp unit :=
  set_state (fun st => set_logs (logs st ++ [(ty, message)]) st).

(** [requestPermissions()] (lines 79-96). *)
Definition requestPermissions : oapp unit :=
  aw_catch (let! granted := native (permissions_result env) in
            addLog Info ("Permissions granted: " +:+ granted))
           (fun err => addLog Error ("Permission error: " +:+ err)).

(** [collectDeviceInfo()] (lines 98-132); [None] is the [{}] of its
    [catch]. *)
Definition collectDeviceInfo : oapp (option DeviceData) :=
  aw_catch
    (let! location :=
       aw_catch (let! status := native (location_status env) in
                 if String.eqb status "granted" then
                   let! coords := native (position env) in aw_ret (Some coords)
                 else aw_ret None)
                (fun e => addLog Warning ("Location error: " +:+ e) ;! aw_ret None) in
     let! ipAddress := native (ip_address env) in
     let info := mkDeviceData (or_unknown (dev_deviceName env)) (or_unknown (dev_brand env))
                   (if truthy (dev_modelName env) then or_unknown (dev_modelName env) else or_unknown (dev_modelId env))
                   (or_unknown (dev_osVersion env)) (or_unknown (dev_osBuildId env))
                   (or_unknown (app_version env)) (or_unknown ipAddress) location
                   (or_unknown (osInternalBuildId env))
                   (match dev_uptime env with Some u => pretty (u / 60)%Z | None => "NaN" end +:+ " minutes") in
     set_state (set_deviceInfo (Some info)) ;!
     aw_ret (Some info))
    (fun e => addLog Error ("Device info error: " +:+ e) ;! aw_ret None).

(** [sendPing()] (lines 134-176) of the render [s]. *)
Definition sendPing (s : OState) : oapp unit :=
  if negb (truthy (Some (botToken s))) || negb (truthy (Some (chatId s))) then aw_ret tt
  else
    aw_catch
      (let! deviceData := collectDeviceInfo in
       let! loc := ping_location deviceData in
       post (botToken s) (OSendMessage (chatId s) (ping_message deviceData loc) (Some "Markdown") None) ;!
       post (botToken s) (OSendMessage (chatId s) "Choose an option:" None (Some ping_menu)) ;!
       addLog Success "Initial messages sent successfully")
      (fun e => addLog Error ("Initial message failed: " +:+ e)).

(** [sendFile(content, filename)] (lines 350-373). *)
Definition sendFile (s : OState) (content filename : string) : oapp unit :=
  aw_catch
    (let path := cacheDirectory env +:+ filename in
     aw_modify (record_event (OWrite path content)) ;!
     post (botToken s) (OSendDocument (chatId s) path filename) ;!
     addLog Success ("File " +:+ filename +:+ " sent successfully"))
    (fun e => addLog Error ("File send error: " +:+ e)).

(** [getCallLogs()] (lines 236-246). *)
Definition getCallLogs (s : OState) : oapp unit :=
  aw_catch
    (addLog Warning "Call log access not available in Expo" ;!
     post (botToken s) (OSendMessage (chatId s) "Call log access requires native Android development" None None))
    (fun e => addLog Error ("Call logs error: " +:+ e)).

(** [SMS.getSmsAsync]: [expo-sms] exports [isAvailableAsync] and
    [sendSMSAsync] only, so the call throws a [TypeError]. *)
Definition SMS_getSmsAsync : oapp (list OSms) := aw_throw "SMS.getSmsAsync is not a function".

(** [getSmsLogs()] (lines 248-269). *)
Definition getSmsLogs (s : OState) : oapp unit :=
  aw_catch
    (if sms_available env then
       let! result := SMS_getSmsAsync in
       let csv := Js.concat_all (map sms_line result) in
       sendFile s csv "sms_logs.csv" ;!
       addLog Success "SMS logs sent successfully"
     else addLog Warning "SMS not available on this device")
    (fun e => addLog Error ("SMS logs error: " +:+ e)).

(** [getContacts()] (lines 271-291). *)
Definition getContacts (s : OState) : oapp unit :=
  aw_catch
    (if String.eqb (contacts_status env) "granted" then
       let csv := Js.concat_all (map contact_line (contacts_data env)) in
       sendFile s csv "contacts.csv" ;!
       addLog Success "Contacts sent successfully"
     else addLog Warning "Contacts permission denied")
    (fun e => addLog Error ("Contacts error: " +:+ e)).

(** [listFiles(path)] (lines 293-318). *)
Definition listFiles (s : OState) (path : string) : oapp unit :=
  aw_catch
    (let! files := native (read_dir env path) in
     set_state (set_fileList files) ;!
     post (botToken s) (OSendMessage (chatId s)
       (Reply.utf8_str [240; 159; 147; 130] +:+ " Current path: " +:+ path +:+ Reply.newline +:+ "Select a file:")
       None (Some (file_keyboard files))) ;!
     addLog Info ("File list sent for path: " +:+ path))
    (fun e => addLog Error ("File list error: " +:+ e)).

(** [handleFileSelection(index)] (lines 320-339): the index after the
    first [_], looked up in the render's [fileList]. *)
Definition handleFileSelection (s : OState) (index : string) : oapp unit :=
  let fileIndex := match Js.split "_" index with _ :: i :: _ => parseInt i | _ => None end in
  let selectedFile := index_or_undefined (fileList s) fileIndex in
  let newPath := currentPath s +:+ selectedFile in
  aw_catch
    (let! isDirectory := native (path_isdir env newPath) in
     if isDirectory then
       set_state (set_historyStack (historyStack s ++ [currentPath s])) ;!
       set_state (set_currentPath (newPath +:+ "/")) ;!
       listFiles s (newPath +:+ "/")
     else
       let! content := native (read_file env newPath) in
       sendFile s content selectedFile ;!
       addLog Success ("File sent: " +:+ selectedFile))
    (fun e => addLog Error ("File error: " +:+ e)).

(** [navigateBack()] (lines 341-348). *)
Definition navigateBack (s : OState) : oapp unit :=
  match last_elem (historyStack s) with
  | Some newPath =>
      set_state (set_currentPath newPath) ;!
      set_state (set_historyStack (removelast (historyStack s))) ;!
      listFiles s newPath
  | None => aw_ret tt
  end.

(** [handleUpdate(update)] (lines 200-234). *)
Definition handleUpdate (s : OState) (u : Update) : oapp unit :=
  match callback_query u with
  | None => aw_ret tt
  | Some q =>
      let data := cq_data q in
      aw_catch
        (post (botToken s) (OAnswerCallbackQuery (cq_id q)) ;!
         addLog Info ("Received command: " +:+ data) ;!
         if String.eqb data "call_logs" then getCallLogs s
         else if String.eqb data "sms_logs" then getSmsLogs s
         else if String.eqb data "contacts" then getContacts s
         else if String.eqb data "storage" then listFiles s (currentPath s)
         else
           (if Js.startsWith "file_" data then handleFileSelection s data else aw_ret tt) ;!
           (if String.eqb data "back" then navigateBack s else aw_ret tt))
        (fun e => addLog Error ("Update handling error: " +:+ e))
  end.

(** [checkTelegramUpdates()] (lines 178-198) of the render [s]. *)
Definition checkTelegramUpdates (s : OState) : oapp unit :=
  if processing s || negb (isConnected s) then aw_ret tt
  else
    aw_finally
      (aw_catch
         (set_state (set_processing true) ;!
          post (botToken s) (OGetUpdates (lastUpdateId s + 1)) ;!
          let! result := server_result in
          match last_elem result with
          | Some u =>
              set_state (set_lastUpdateId (update_id u)) ;!
              for_each result (handleUpdate s)
          | None => aw_ret tt
          end)
         (fun e => addLog Error ("Update error: " +:+ e)))
      (set_state (set_processing false)).

(** The [onPress] of the button (lines 426-430), of the render [s]: the
    two [async] calls are not awaited; they run after the render that
    [setIsConnected(true)] causes. *)
Definition onPress (s : OState) (o : list settlement) (w : OWorld) : OWorld :=
  let w1 := commit (with_ost w (set_isConnected true (ost w))) in
  commit (snd (fst ((requestPermissions ;! sendPing s) w1 o))).

(** The first render: [useState]'s initial values. *)
Definition initial_state : OState :=
  mkOState (documentDirectory env) [] [] "" "" false [] false 0 None.

Definition init : OWorld := mkOWorld initial_state initial_state None [] [].

(** The event loop; [o] is the oracle of the HTTP calls. *)
Inductive ostep : OWorld -> OWorld -> Prop :=
  | os_type_token w tok :
      ostep w (commit (with_ost w (set_botToken tok (ost w))))
  | os_type_chat w cid :
      ostep w (commit (with_ost w (set_chatId cid (ost w))))
  | os_press w o :
      truthy (Some (botToken (rendered w))) && truthy (Some (chatId (rendered w))) = true ->
      ostep w (onPress (rendered w) o w)
  | os_tick w snap o :
      interval w = Some snap ->
      ostep w (commit (snd (fst (checkTelegramUpdates snap w o))))
  | os_update w u :
      (forall v, v ∈ queue w -> update_id v < update_id u)%Z ->
      (1 <= update_id u)%Z ->
      ostep w (with_queue w (queue w ++ [u])).

End Component.

(** ** Specifications *)

(** The state of the first render, as far as the poll reads it. *)
Definition fresh (docs : string) (s : OState) : Prop :=
  lastUpdateId s = 0%Z /\ processing s = false /\ fileList s = [] /\ historyStack s = [] /\
  currentPath s = docs.

(** Every [getUpdates] call sent so far asked for [offset = 1]. *)
Definition polls_from_one (w : OWorld) : Prop :=
  forall tok off, OPost tok (OGetUpdates off) ∈ oout w -> off = 1%Z.

(** The reachable worlds: rendered, the interval armed exactly when
    connected, with the state of the render that connected. *)
Definition inv (docs : string) (w : OWorld) : Prop :=
  rendered w = ost w /\ polls_from_one w /\ Forall (fun u => 1 <= update_id u)%Z (queue w) /\
  match interval w with
  | None => isConnected (ost w) = false /\ fresh docs (ost w)
  | Some snap => isConnected (ost w) = true /\ isConnected snap = true /\ fresh docs snap
  end.

(** A property of the world that the component's writes other than
    [setIsConnected] and its calls other than [getUpdates] keep. *)
Definition quiet (P : OWorld -> Prop) : Prop :=
  (forall w f, (forall s, isConnected (f s) = isConnected s) -> P w -> P (with_ost w (f (ost w)))) /\
  (forall w e, (forall tok off, e <> OPost tok (OGetUpdates off)) -> P w -> P (record_event e w)).

(** ** Frame lemmas *)

Section Frame.
Context (env : OEnv) (P : OWorld -> Prop) (HP : quiet P).

Lemma keeps_orig_set_state f : (forall s, isConnected (f s) = isConnected s) -> keeps P (set_state f).
Proof. intros Hf. apply keeps_modify. intros w. by apply HP. Qed.

Lemma keeps_record e : (forall tok off, e <> OPost tok (OGetUpdates off)) -> keeps P (aw_modify (record_event e)).
Proof. intros He. apply keeps_modify. intros w. by apply HP. Qed.

Lemma keeps_post tok r : (forall off, r <> OGetUpdates off) -> keeps P (post tok r).
Proof.
  intros Hr. apply keeps_await. intros w Hw.
  destruct r; [by destruct (Hr offset)| | |]; apply HP; [congruence..|exact Hw].
Qed.

Lemma keeps_native {A} (r : string + A) : keeps P (native r).
Proof. destruct r; [apply keeps_throw | apply keeps_ret]. Qed.

Ltac o_keeps :=
  repeat (solve_keeps; try (apply keeps_finally || apply keeps_native
                            || (apply keeps_orig_set_state; intros ?; reflexivity)
                            || (apply keeps_post; intros ?; discriminate)
                            || (apply keeps_record; intros ??; discriminate))).

Lemma keeps_addLog ty m : keeps P (addLog ty m).
Proof. unfold addLog. o_keeps. Qed.

#[local] Hint Resolve keeps_addLog : core.

Lemma keeps_sendFile s c f : keeps P (sendFile env s c f).
Proof. unfold sendFile. o_keeps; auto. Qed.

Lemma keeps_orig_listFiles s p : keeps P (listFiles env s p).
Proof. unfold listFiles. o_keeps; auto. Qed.

#[local] Hint Resolve keeps_sendFile keeps_orig_listFiles : core.

Lemma keeps_sendPing s : keeps P (sendPing env s).
Proof.
  unfold sendPing, collectDeviceInfo. o_keeps; auto.
  unfold ping_location. repeat case_match; o_keeps.
Qed.

Lemma keeps_requestPermissions : keeps P (requestPermissions env).
Proof. unfold requestPermissions. o_keeps; auto. Qed.

Lemma keeps_handleUpdate s u : keeps P (handleUpdate env s u).
Proof.
  unfold handleUpdate, getCallLogs, getSmsLogs, SMS_getSmsAsync, getContacts, handleFileSelection, navigateBack.
  destruct (callback_query u) as [q|]; o_keeps; auto.
Qed.

Lemma no_throw_handleUpdate s u : no_throw (handleUpdate env s u).
Proof.
  unfold handleUpdate. destruct (callback_query u); [|apply no_throw_ret].
  apply no_throw_catch. intros r. unfold addLog, set_state. auto with tah.
Qed.

(** The first thing [handleUpdate] does for a callback query is to
    answer it; whatever follows keeps [P]. *)
Lemma ensures_handleUpdate s u q :
  callback_query u = Some q ->
  (forall w, P (record_event (OPost (botToken s) (OAnswerCallbackQuery (cq_id q))) w)) ->
  ensures P (handleUpdate env s u).
Proof.
  intros Hq HR. unfold handleUpdate. rewrite Hq.
  apply ensures_catch; [|intros; apply keeps_addLog].
  apply ensures_bind_l; [apply ensures_await; exact HR|intros _].
  unfold getCallLogs, getSmsLogs, SMS_getSmsAsync, getContacts, handleFileSelection, navigateBack.
  o_keeps; auto.
Qed.

End Frame.

(** ** The poll callback *)

Section Poll.
Context (env : OEnv) (P : OWorld -> Prop) (HP : quiet P).
Hypothesis HPoll :
  forall w tok, P w -> P (with_queue (record_event (OPost tok (OGetUpdates 1)) w) (System.answer (queue w) 1)).

Lemma keeps_orig_checkTelegramUpdates snap : lastUpdateId snap = 0%Z -> keeps P (checkTelegramUpdates env snap).
Proof.
  intros H0. unfold checkTelegramUpdates, server_result.
  apply keeps_if; [apply keeps_ret|].
  apply keeps_finally; [|apply keeps_orig_set_state; done].
  apply keeps_catch; [|intros; apply keeps_addLog, HP].
  apply keeps_bind; [apply keeps_orig_set_state; done|intros _].
  apply keeps_bind; [apply keeps_await; intros w Hw; rewrite H0; by apply HPoll|intros _].
  apply keeps_bind; [solve_keeps|intros result].
  destruct (last_elem result); [|apply keeps_ret].
  apply keeps_bind; [apply keeps_orig_set_state; done|intros _].
  apply keeps_for_each. intros upd. by apply keeps_handleUpdate.
Qed.

End Poll.

(** ** The reachable worlds *)

(** What a callback run from a connected, rendered world keeps. *)
Definition framed (r : OState) (i : option OState) (q : list Update) (w : OWorld) : Prop :=
  rendered w = r /\ interval w = i /\ isConnected (ost w) = true /\ queue w = q /\ polls_from_one w.

Lemma polls_from_one_record w e :
  polls_from_one w -> (forall tok off, e <> OPost tok (OGetUpdates off)) -> polls_from_one (record_event e w).
Proof.
  intros Hp He tok off Hin. apply elem_of_app in Hin as [Hin|Hin]; [by apply (Hp tok)|].
  apply list_elem_of_singleton in Hin. by destruct (He tok off).
Qed.

Lemma quiet_framed r i q : quiet (framed r i q).
Proof.
  split.
  - intros w f Hf (? & ? & Hc & ? & ?). repeat split; try done. cbn. by rewrite Hf.
  - intros w e He (? & ? & ? & ? & ?). repeat split; try done. by apply polls_from_one_record.
Qed.

Lemma answer_from_one (q : list Update) : Forall (fun u => 1 <= update_id u)%Z q -> System.answer q 1 = q.
Proof.
  unfold System.answer. induction 1 as [|u q Hu _ IH]; [done|].
  by rewrite filter_cons_True, IH.
Qed.

Lemma framed_poll r i q w tok :
  Forall (fun u => 1 <= update_id u)%Z q -> framed r i q w ->
  framed r i q (with_queue (record_event (OPost tok (OGetUpdates 1)) w) (System.answer (queue w) 1)).
Proof.
  intros Hq (Hr & Hi & Hc & Hqw & Hp). repeat split; try done.
  - cbn. rewrite Hqw. by apply answer_from_one.
  - intros tok' off Hin. apply elem_of_app in Hin as [Hin|Hin]; [by apply (Hp tok')|].
    apply list_elem_of_singleton in Hin. by simplify_eq.
Qed.

(** The event [e] has been sent. *)
Definition sent (e : oevent) (w : OWorld) : Prop := e ∈ oout w.

Lemma quiet_sent e : quiet (sent e).
Proof.
  split; [done|]. intros w e' _ Hin. unfold sent. cbn. apply elem_of_app. by left.
Qed.

Lemma sent_record e w : sent e (record_event e w).
Proof. unfold sent. cbn. apply elem_of_app. right. by apply list_elem_of_singleton. Qed.

(** A tick of a connected closure whose cursor is [0] answers every
    callback query of the server's queue. *)
Lemma tick_answers env s w u q :
  processing s = false -> isConnected s = true -> lastUpdateId s = 0%Z ->
  Forall (fun u => 1 <= update_id u)%Z (queue w) -> u ∈ queue w -> callback_query u = Some q ->
  sent (OPost (botToken s) (OAnswerCallbackQuery (cq_id q))) (snd (fst (checkTelegramUpdates env s w []))).
Proof.
  intros Hp Hc H0 Hq Hu Hcb. unfold checkTelegramUpdates. rewrite Hp, Hc, H0.
  unfold aw_finally, aw_catch, server_result. cbn -[for_each handleUpdate addLog System.answer].
  rewrite answer_from_one by done.
  destruct (last_elem (queue w)) eqn:Hl; [|apply last_elem_None in Hl; rewrite Hl in Hu; by apply elem_of_nil in Hu].
  cbn -[for_each handleUpdate addLog].
  match goal with |- context [for_each (queue w) (handleUpdate env s) ?w3 []] =>
    pose proof (ensures_for_each _ (queue w) (handleUpdate env s) u Hu (no_throw_handleUpdate env s)
                  (keeps_handleUpdate env _ (quiet_sent _) s)
                  (ensures_handleUpdate env _ (quiet_sent _) s u q Hcb (sent_record _)) w3 []) as He;
    destruct (for_each (queue w) (handleUpdate env s) w3 []) as [[c4 w4] o4]
  end.
  destruct c4; unfold sent in *; cbn in *; exact He.
Qed.

Lemma commit_same w : isConnected (rendered w) = isConnected (ost w) -> commit w = with_rendered w (ost w).
Proof. unfold commit. intros ->. by rewrite Bool.eqb_reflx. Qed.

Section Reach.
Context (env : OEnv).
Let docs := documentDirectory env.

(** A run that keeps [framed] from a connected reachable world, then
    the render, gives a reachable world. *)
Lemma inv_run {A} (c : oapp A) w o :
  inv docs w -> isConnected (ost w) = true ->
  keeps (framed (rendered w) (interval w) (queue w)) c ->
  inv docs (commit (snd (fst (c w o)))) /\ queue (commit (snd (fst (c w o)))) = queue w.
Proof.
  intros (Hr & Hp & Hq & Hi) Hc Hk.
  destruct (Hk w o) as (Hr' & Hi' & Hc' & Hq' & Hp'); [repeat split; done|].
  set (w' := snd (fst (c w o))) in *.
  rewrite commit_same by (rewrite Hr', Hr; congruence).
  unfold inv; cbn. rewrite Hq', Hi'. split; [|done]. split; [done|]. split; [done|]. split; [done|].
  destruct (interval w) as [snap|]; destruct Hi as [Hc0 Hf]; [|congruence].
  destruct Hf as [Hcs Hf]. done.
Qed.

Lemma inv_init : inv docs (init env).
Proof. repeat split; try done. intros ?? Hin. by apply elem_of_nil in Hin. Qed.

Lemma inv_press w o :
  inv docs w -> inv docs (onPress env (rendered w) o w) /\ queue (onPress env (rendered w) o w) = queue w.
Proof.
  intros Hinv. unfold onPress.
  set (w1 := commit (with_ost w (set_isConnected true (ost w)))).
  assert (Hw1 : inv docs w1 /\ isConnected (ost w1) = true /\ queue w1 = queue w).
  { destruct w as [st r i q out]. destruct Hinv as (Hr & Hp & Hq & Hi). cbn in Hr, Hi. subst w1 r.
    unfold commit, inv. cbn.
    destruct i as [snap|]; destruct Hi as [Hc Hf]; rewrite Hc; cbn; repeat split; try done; apply Hf. }
  destruct Hw1 as (Hw1 & Hc1 & Hq1). rewrite <- Hq1. apply inv_run; [done|done|].
  apply keeps_bind; [apply keeps_requestPermissions, quiet_framed|intros _].
  apply keeps_sendPing, quiet_framed.
Qed.

(** Every step keeps the invariant and only appends to the server's queue. *)
Lemma inv_step w w' : inv docs w -> ostep env w w' -> inv docs w' /\ queue w `prefix_of` queue w'.
Proof.
  intros Hinv Hs. destruct Hs as [w tok|w cid|w o _|w snap o Hsnap|w u Hlt Hpos].
  - destruct Hinv as (Hr & Hp & Hq & Hi).
    rewrite commit_same by (cbn; by rewrite Hr). by repeat split.
  - destruct Hinv as (Hr & Hp & Hq & Hi).
    rewrite commit_same by (cbn; by rewrite Hr). by repeat split.
  - destruct (inv_press w o Hinv) as [Hi ->]. done.
  - pose proof Hinv as (Hr & Hp & Hq & Hi). rewrite Hsnap in Hi. destruct Hi as (Hc & Hcs & H0 & Hf).
    edestruct (inv_run (checkTelegramUpdates env snap) w o) as [Hi' ->]; [done|done| |done].
    apply keeps_orig_checkTelegramUpdates; [apply quiet_framed| |done].
    intros w1 tok. by apply framed_poll.
  - destruct Hinv as (Hr & Hp & Hq & Hi). split; [|by apply prefix_app_r]. repeat split; try done. cbn.
    apply Forall_app; split; [done|]. by apply Forall_singleton.
Qed.

Lemma inv_reachable w : rtc (ostep env) (init env) w -> inv docs w.
Proof.
  intros Hr. revert w Hr. apply rtc_ind_r; [apply inv_init|].
  intros w w' _ Hs Hi. by apply (inv_step w w').
Qed.

End Reach.

(** ** A run of the component

    A device whose location permission is denied and whose storage
    lists two entries; the user types a token and a chat id and presses
    the button, a [storage] button press arrives at the server, and the
    interval fires twice. *)

Definition demo_env : OEnv :=
  mkOEnv "file:///data/" "file:///cache/" (inr "{}") (inr "denied") (inl "denied")
    (inr (Some "10.0.0.2")) (Some "Pixel") (Some "google") (Some "Pixel 7") None (Some "14")
    (Some "UQ1A") (Some "1.0") (Some "abc") None true "granted" []
    (fun _ => inr ["a.txt"; "b"]) (fun _ => inr false) (fun _ => inr "hello").

Definition demo_query : CallbackQuery := mkCallback "cb1" "storage" (Some (mkMessage 123 None)).

Definition demo_w1 : OWorld := commit (with_ost (init demo_env) (set_botToken "tok" (ost (init demo_env)))).
Definition demo_w2 : OWorld := commit (with_ost demo_w1 (set_chatId "123" (ost demo_w1))).
Definition demo_w3 : OWorld := onPress demo_env (rendered demo_w2) [] demo_w2.
Definition demo_w4 : OWorld := with_queue demo_w3 (queue demo_w3 ++ [mkUpdate 5 None (Some demo_query)]).
(** The render that connected. *)
Definition demo_snap : OState := set_isConnected true (ost demo_w2).
Definition demo_w5 : OWorld := commit (snd (fst (checkTelegramUpdates demo_env demo_snap demo_w4 []))).
Definition demo_w6 : OWorld := commit (snd (fst (checkTelegramUpdates demo_env demo_snap demo_w5 []))).

Lemma demo_steps :
  rtc (ostep demo_env) (init demo_env) demo_w4 /\ ostep demo_env demo_w4 demo_w5 /\ ostep demo_env demo_w5 demo_w6.
Proof.
  split; [|split; apply os_tick; vm_compute; reflexivity].
  apply (rtc_l _ _ demo_w1); [apply os_type_token|].
  apply (rtc_l _ _ demo_w2); [apply os_type_chat|].
  apply (rtc_l _ _ demo_w3); [apply os_press; vm_compute; reflexivity|].
  apply (rtc_l _ _ demo_w4); [|apply rtc_refl].
  apply os_update; [|vm_compute; congruence].
  intros v Hv. vm_compute in Hv. by apply elem_of_nil in Hv.
Qed.

(** The same button press is acknowledged and handled at both ticks. *)
Example demo_callback_replayed :
  List.length (filter (fun e => e = OPost "tok" (OAnswerCallbackQuery "cb1")) (oout demo_w6)) = 2.
Proof. vm_compute. reflexivity. Qed.

(** ** Properties *)

(** C4: In the original App every [getUpdates] request of every
    reachable run asks for [offset = 1]: the interval calls the
    [checkTelegramUpdates] of the render that connected, whose
    [lastUpdateId] is [0], so the offset never advances, against the
    cursor contract of the specification. *)
Theorem original_poll_offset_frozen env w tok off :
  rtc (ostep env) (init env) w -> OPost tok (OGetUpdates off) ∈ oout w -> off = 1%Z.
Proof. intros Hr. apply (inv_reachable env w Hr). Qed.

(** C7: In the original App no update ever leaves the server's queue:
    every step only appends to it, so every callback ever received is
    answered and handled again at every tick. *)
Theorem original_updates_never_confirmed env w w' :
  rtc (ostep env) (init env) w -> ostep env w w' -> queue w `prefix_of` queue w'.
Proof. intros Hr Hs. apply (inv_step env w w'); [by apply inv_reachable|done]. Qed.

(** C20: Whenever the interval of the original App is armed, the state
    its callback reads is that of the render that connected: cursor [0],
    [processing] false, no file list, no history and the documents
    directory, whatever the callbacks have written since. *)
Theorem original_interval_snapshot env w snap :
  rtc (ostep env) (init env) w -> interval w = Some snap ->
  lastUpdateId snap = 0%Z /\ processing snap = false /\ fileList snap = [] /\
  historyStack snap = [] /\ currentPath snap = documentDirectory env.
Proof. intros Hr Hs. destruct (inv_reachable env w Hr) as (_ & _ & _ & Hi). rewrite Hs in Hi. apply Hi. Qed.

(** On a device where SMS is available, [getSmsLogs] of the
    original App calls [SMS.getSmsAsync], which [expo-sms] does not
    export: it only logs the [TypeError]; no file is written or sent. *)
Theorem original_sms_never_exported env s w o :
  sms_available env = true ->
  getSmsLogs env s w o =
  (Normal tt, with_ost w (set_logs (logs (ost w) ++ [(Error, "SMS logs error: SMS.getSmsAsync is not a function")]) (ost w)), o).
Proof. intros H. unfold getSmsLogs. rewrite H. reflexivity. Qed.

(** C21: Liveness of the original App: in every reachable world whose
    interval is armed, the next tick answers every callback query
    waiting at the server. *)
Theorem original_tick_answers_callbacks env w snap u q :
  rtc (ostep env) (init env) w -> interval w = Some snap -> u ∈ queue w -> callback_query u = Some q ->
  exists w', ostep env w w' /\ OPost (botToken snap) (OAnswerCallbackQuery (cq_id q)) ∈ oout w'.
Proof.
  intros Hr Hi Hu Hq. destruct (inv_reachable env w Hr) as (_ & _ & Hf & Hinv).
  rewrite Hi in Hinv. destruct Hinv as (_ & Hc & H0 & Hp & _).
  eexists. split; [apply (os_tick env w snap []); exact Hi|].
  unfold commit. case_match; by apply (tick_answers env snap w u q).
Qed.

(** ** Witnesses *)

Lemma original_poll_offset_frozen_witness :
  rtc (ostep demo_env) (init demo_env) demo_w6 /\ OPost "tok" (OGetUpdates 1) ∈ oout demo_w6 /\ 1%Z = 1%Z.
Proof.
  assert (Hr : rtc (ostep demo_env) (init demo_env) demo_w6)
    by (destruct demo_steps as (H4 & H5 & H6); exact (rtc_r _ _ _ (rtc_r _ _ _ H4 H5) H6)).
  assert (Hin : OPost "tok" (OGetUpdates 1) ∈ oout demo_w6) by (apply (bool_decide_unpack _); vm_compute; exact I).
  exact (conj Hr (conj Hin (original_poll_offset_frozen demo_env demo_w6 "tok" 1 Hr Hin))).
Defined.

Lemma original_updates_never_confirmed_witness :
  rtc (ostep demo_env) (init demo_env) demo_w4 /\ ostep demo_env demo_w4 demo_w5 /\
  queue demo_w4 `prefix_of` queue demo_w5.
Proof.
  destruct demo_steps as (Hr & Hs & _).
  exact (conj Hr (conj Hs (original_updates_never_confirmed demo_env demo_w4 demo_w5 Hr Hs))).
Defined.

Lemma original_interval_snapshot_witness :
  rtc (ostep demo_env) (init demo_env) demo_w4 /\ interval demo_w4 = Some demo_snap /\
  lastUpdateId demo_snap = 0%Z /\ processing demo_snap = false /\ fileList demo_snap = [] /\
  historyStack demo_snap = [] /\ currentPath demo_snap = documentDirectory demo_env.
Proof.
  assert (Hr : rtc (ostep demo_env) (init demo_env) demo_w4) by apply demo_steps.
  assert (Hi : interval demo_w4 = Some demo_snap) by (vm_compute; reflexivity).
  exact (conj Hr (conj Hi (original_interval_snapshot demo_env demo_w4 demo_snap Hr Hi))).
Defined.

Lemma original_tick_answers_callbacks_witness :
  rtc (ostep demo_env) (init demo_env) demo_w4 /\ interval demo_w4 = Some demo_snap /\
  mkUpdate 5 None (Some demo_query) ∈ queue demo_w4 /\ callback_query (mkUpdate 5 None (Some demo_query)) = Some demo_query /\
  exists w', ostep demo_env demo_w4 w' /\ OPost (botToken demo_snap) (OAnswerCallbackQuery (cq_id demo_query)) ∈ oout w'.
Proof.
  assert (Hr : rtc (ostep demo_env) (init demo_env) demo_w4) by apply demo_steps.
  assert (Hi : interval demo_w4 = Some demo_snap) by (vm_compute; reflexivity).
  assert (Hu : mkUpdate 5 None (Some demo_query) ∈ queue demo_w4) by (apply (bool_decide_unpack _); vm_compute; exact I).
  assert (Hq : callback_query (mkUpdate 5 None (Some demo_query)) = Some demo_query) by reflexivity.
  exact (conj Hr (conj Hi (conj Hu (conj Hq
           (original_tick_answers_callbacks demo_env demo_w4 demo_snap _ demo_query Hr Hi Hu Hq))))).
Defined.

Lemma original_sms_never_exported_witness :
  sms_available demo_env = true /\
  getSmsLogs demo_env demo_snap demo_w4 [] =
  (Normal tt, with_ost demo_w4 (set_logs (logs (ost demo_w4) ++ [(Error, "SMS logs error: SMS.getSmsAsync is not a function")]) (ost demo_w4)), []).
Proof.
  assert (H : sms_available demo_env = true) by reflexivity.
  exact (conj H (original_sms_never_exported demo_env demo_snap demo_w4 [] H)).
Defined.

End Original.
