(* ===== verification/Storage.v ===== *)
(** * Persistent storage

    The storage utilities of [src/unnamed/part_007], lines 461-614
    ([src/utils/storage.js]).  [saveSecure] and [getSecure] use
    [expo-secure-store] when its function exists and fall back to
    [AsyncStorage] when it does not or when the secure call throws;
    [saveToStorage] and [getFromStorage] wrap [AsyncStorage] with
    [JSON.stringify] and [JSON.parse]; the token, chat id and settings
    accessors apply them to the keys of [KEYS].  The App reads the saved
    credentials at mount.

    The heap holds the two stores as maps from keys to strings and the
    application [Logger] with the events it emits; every native call is
    an [await] whose settlement comes from the oracle, and a write takes
    effect when it is fulfilled.  [JSON.parse] and [JSON.stringify] are
    the section's parameters over an abstract type [J] of JSON values:
    the functions are correct for any of them. *)

From S2P Require Import Prelude JsString Await Logger.

Module Storage.

(** [KEYS] (lines 469-473). *)
Definition BOT_TOKEN : string := "telegramBotToken".
Definition CHAT_ID : string := "telegramChatId".
Definition APP_SETTINGS : string := "appSettings".

(** What the native modules offer: [typeof SecureStore.setItemAsync]
    and [typeof SecureStore.getItemAsync] are ['function'], and the
    clock of the log entries. *)
Record SEnv := mkSEnv {
  has_setItemAsync : bool;
  has_getItemAsync : bool;
  clock : Z
}.

Record SHeap := mkSHeap {
  secure : gmap string string;          (** [SecureStore] *)
  async_store : gmap string string;     (** [AsyncStorage] *)
  lg : Logger.Logger;
  lg_events : list Logger.log_event
}.

Abbreviation sio := (aw SHeap).

(** A value handed to [saveToStorage]: a string, or another JSON value. *)
Inductive jsin (J : Type) := InStr (s : string) | InJson (j : J).
Arguments InStr {J} s.
Arguments InJson {J} j.

(** What a getter resolves to: a string, a parsed JSON value, or [null]. *)
Inductive stored (J : Type) := VStr (s : string) | VJson (j : J) | VNull.
Arguments VStr {J} s.
Arguments VJson {J} j.
Arguments VNull {J}.

Definition with_secure (h : SHeap) m := mkSHeap m (async_store h) (lg h) (lg_events h).
Definition with_async (h : SHeap) m := mkSHeap (secure h) m (lg h) (lg_events h).

Section Ops.
Context {J : Type} (JSON_parse : string -> option J) (JSON_stringify : J -> string) (env : SEnv).

(** [logger.<level>(message)]. *)
Definition slog (shorthand : Logger.Logger -> Z -> string -> Logger.Logger * list Logger.log_event * Logger.LogEntry)
    (message : string) : sio unit :=
  aw_modify (fun h => let '(lg', evs, _) := shorthand (lg h) (clock env) message in
                      mkSHeap (secure h) (async_store h) lg' (lg_events h ++ evs)).

(** [saveToStorage(key, value)] (lines 529-539). *)
Definition saveToStorage (key : string) (value : jsin J) : sio bool :=
  aw_catch
    (let jsonValue := match value with InStr s => s | InJson j => JSON_stringify j end in
     aw_await id ;!
     aw_modify (fun h => with_async h (<[key := jsonValue]> (async_store h))) ;!
     slog Logger.debug ("Saved to storage: " +:+ key) ;!
     aw_ret true)
    (fun e => slog Logger.error ("AsyncStorage save error (" +:+ key +:+ "): " +:+ e) ;! aw_ret false).

(** [getFromStorage(key, parse = true)] (lines 547-562); a [SyntaxError]
    of [JSON.parse] gives the raw string back. *)
Definition getFromStorage (key : string) (parse : bool) : sio (stored J) :=
  aw_catch
    (aw_await id ;!
     let! h := aw_get in
     match async_store h !! key with
     | Some v =>
         if parse then match JSON_parse v with Some j => aw_ret (VJson j) | None => aw_ret (VStr v) end
         else aw_ret (VStr v)
     | None => aw_ret VNull
     end)
    (fun e => slog Logger.error ("AsyncStorage get error (" +:+ key +:+ "): " +:+ e) ;! aw_ret VNull).

(** [saveSecure(key, value)] (lines 481-498). *)
Definition saveSecure (key value : string) : sio bool :=
  aw_catch
    (if has_setItemAsync env then
       aw_await id ;!
       aw_modify (fun h => with_secure h (<[key := value]> (secure h))) ;!
       slog Logger.debug ("Securely saved: " +:+ key) ;!
       aw_ret true
     else
       slog Logger.warning ("SecureStore not available, using fallback for " +:+ key) ;!
       saveToStorage key (InStr value))
    (fun e => slog Logger.error ("SecureStore save error (" +:+ key +:+ "): " +:+ e) ;!
              saveToStorage key (InStr value)).

(** [getSecure(key)] (lines 505-521). *)
Definition getSecure (key : string) : sio (stored J) :=
  aw_catch
    (if has_getItemAsync env then
       aw_await id ;!
       let! h := aw_get in
       aw_ret (match secure h !! key with Some v => VStr v | None => VNull end)
     else
       slog Logger.warning ("SecureStore not available, using fallback for " +:+ key) ;!
       getFromStorage key true)
    (fun e => slog Logger.error ("SecureStore get error (" +:+ key +:+ "): " +:+ e) ;!
              getFromStorage key true).

(** The accessors of lines 569-601. *)
Definition saveBotToken (token : string) : sio bool := saveSecure BOT_TOKEN token.
Definition getBotToken : sio (stored J) := getSecure BOT_TOKEN.
Definition saveChatId (chatId : string) : sio bool := saveSecure CHAT_ID chatId.
Definition getChatId : sio (stored J) := getSecure CHAT_ID.
Definition saveAppSettings (settings : jsin J) : sio bool := saveToStorage APP_SETTINGS settings.
Definition getAppSettings : sio (stored J) := getFromStorage APP_SETTINGS true.

End Ops.

(** ** Properties *)

Section Props.
Context {J : Type} (JSON_parse : string -> option J) (JSON_stringify : J -> string) (env : SEnv).

Lemma no_throw_slog f m : no_throw (slog env f m).
Proof. unfold slog. auto with tah. Qed.

#[local] Hint Resolve no_throw_slog : tah.

Lemma no_throw_saveToStorage key v : no_throw (saveToStorage JSON_stringify env key v).
Proof. unfold saveToStorage. auto with tah. Qed.

Lemma no_throw_getFromStorage key parse : no_throw (getFromStorage JSON_parse env key parse).
Proof. unfold getFromStorage. auto with tah. Qed.

#[local] Hint Resolve no_throw_saveToStorage no_throw_getFromStorage : tah.

(** None of the storage functions rejects: each catches its native
    call's failure, logs it and falls back or resolves [false]/[null]. *)
Lemma storage_no_throw key v :
  no_throw (saveSecure JSON_stringify env key v) /\ no_throw (getSecure JSON_parse env key).
Proof. unfold saveSecure, getSecure. split; auto with tah. Qed.

(** C14: With [SecureStore] present and its calls fulfilled, what
    [saveSecure] stores under a key is what [getSecure] reads back. *)
Theorem secure_roundtrip h key v o :
  has_setItemAsync env = true -> has_getItemAsync env = true ->
  fst (fst ((saveSecure JSON_stringify env key v ;! getSecure JSON_parse env key) h
              (Fulfilled :: Fulfilled :: o))) = Normal (VStr v).
Proof.
  intros Hs Hg. unfold saveSecure, getSecure, slog. rewrite Hs, Hg. cbn -[Logger.debug Logger.error Logger.warning].
  destruct (Logger.debug _ _ _) as [[? ?] ?]. cbn -[Logger.debug Logger.error Logger.warning]. by rewrite lookup_insert_eq.
Qed.

(** C23: When [SecureStore] is present but [setItemAsync] rejects,
    [saveSecure] falls back to [AsyncStorage], where [getSecure] never
    looks while [SecureStore] is present: the value is stored and the
    getter resolves [null]. *)
Theorem secure_save_failure_unread h key v e o :
  has_setItemAsync env = true -> has_getItemAsync env = true -> secure h !! key = None ->
  let '(r, h1, _) := (saveSecure JSON_stringify env key v ;! getSecure JSON_parse env key) h
                       (Rejected e :: Fulfilled :: Fulfilled :: o) in
  r = Normal VNull /\ async_store h1 !! key = Some v.
Proof.
  intros Hs Hg Hn. unfold saveSecure, getSecure, saveToStorage, slog. rewrite Hs, Hg. cbn -[Logger.debug Logger.error Logger.warning].
  destruct (Logger.error _ _ _) as [[? ?] ?]. cbn -[Logger.debug Logger.error Logger.warning].
  destruct (Logger.debug _ _ _) as [[? ?] ?]. cbn -[Logger.debug Logger.error Logger.warning].
  rewrite Hn. split; [done|]. by rewrite lookup_insert_eq.
Qed.

(** Without [SecureStore] both functions use [AsyncStorage], and the
    getter parses the stored text as JSON: a numeric chat id comes back
    as a number, the string ["null"] as [null]. *)
Lemma fallback_roundtrip_parses h key v o :
  has_setItemAsync env = false -> has_getItemAsync env = false ->
  fst (fst ((saveSecure JSON_stringify env key v ;! getSecure JSON_parse env key) h
              (Fulfilled :: Fulfilled :: o))) =
  Normal (match JSON_parse v with Some j => VJson j | None => VStr v end).
Proof.
  intros Hs Hg. unfold saveSecure, getSecure, saveToStorage, getFromStorage, slog. rewrite Hs, Hg. cbn -[Logger.debug Logger.error Logger.warning].
  repeat (destruct (Logger.warning _ _ _) as [[? ?] ?] || destruct (Logger.debug _ _ _) as [[? ?] ?];
          cbn -[Logger.debug Logger.error Logger.warning]).
  rewrite lookup_insert_eq. by destruct (JSON_parse v).
Qed.

End Props.

(** ** Witnesses *)

Definition demo_senv : SEnv := mkSEnv true true 1700000000000.
Definition demo_sheap : SHeap := mkSHeap ∅ ∅ Logger.new_Logger [].

Lemma secure_roundtrip_witness :
  has_setItemAsync demo_senv = true /\ has_getItemAsync demo_senv = true /\
  fst (fst ((saveSecure (fun _ : unit => "") demo_senv BOT_TOKEN "123:ABC" ;!
             getSecure (fun _ : string => @None unit) demo_senv BOT_TOKEN) demo_sheap [Fulfilled; Fulfilled])) = Normal (VStr "123:ABC").
Proof.
  split; [reflexivity|]. split; [reflexivity|].
  exact (secure_roundtrip (fun _ : string => @None unit) (fun _ => "") demo_senv demo_sheap BOT_TOKEN "123:ABC" [] eq_refl eq_refl).
Defined.

Lemma secure_save_failure_unread_witness :
  has_setItemAsync demo_senv = true /\ has_getItemAsync demo_senv = true /\ secure demo_sheap !! CHAT_ID = None /\
  let '(r, h1, _) := (saveSecure (fun _ : unit => "") demo_senv CHAT_ID "-100123" ;!
                      getSecure (fun _ : string => @None unit) demo_senv CHAT_ID) demo_sheap
                       [Rejected "User interaction is not allowed"; Fulfilled; Fulfilled] in
  r = Normal VNull /\ async_store h1 !! CHAT_ID = Some "-100123".
Proof.
  split; [reflexivity|]. split; [reflexivity|]. split; [reflexivity|].
  exact (secure_save_failure_unread (fun _ : string => @None unit) (fun _ => "") demo_senv demo_sheap CHAT_ID "-100123"
           "User interaction is not allowed" [] eq_refl eq_refl eq_refl).
Defined.

End Storage.
