(* ===== verification/FileService.v ===== *)
(** * The file service

    [src/src/services/fileService.js]: [getDirectoryContents],
    [readFileContent], [createFile], [createDirectory],
    [createTempFile], [generateCSV], [shareFile] and
    [saveToMediaLibrary].  Each function logs a failure with the
    application [Logger] and throws it again.

    The device's storage, as [expo-file-system] shows it, is a map from
    canonical paths (no trailing slash) to nodes, a file with its text
    or a directory; [getInfoAsync], [readDirectoryAsync],
    [readAsStringAsync], [writeAsStringAsync] and [makeDirectoryAsync]
    are written from the library's documentation, not from code of the
    repository.  Each native call is an [await] whose settlement comes
    from the oracle; a write takes effect when it is fulfilled.  A file's
    size is the length of its text. *)

From S2P Require Import Prelude JsString Await Logger Formats.

Module FileService.

(** A file has its text and its size in bytes (a file written by the
    app has the length of its text as size; the others come with the
    device). *)
Inductive node := FileNode (content : string) (size : Z) | DirNode.

Record FHeap := mkFHeap {
  nodes : gmap string node;
  lg : Logger.Logger;
  lg_events : list Logger.log_event;
  shared : list (string * string);      (** [Sharing.shareAsync(uri, { mimeType })] *)
  assets : list string                  (** [MediaLibrary.createAssetAsync(uri)] *)
}.

Abbreviation fio := (aw FHeap).

(** The services of the device the functions ask. *)
Record FEnv := mkFEnv {
  cacheDirectory : string;
  sharing_available : bool;             (** [Sharing.isAvailableAsync()] *)
  media_status : string;                (** [MediaLibrary.requestPermissionsAsync()] *)
  fclock : Z;
  locale_compare : string -> string -> Z  (** the sign of [a.localeCompare(b)] *)
}.

(** What [getInfoAsync] resolves to. *)
Record FileInfo := mkFileInfo {
  fi_exists : bool;
  fi_isDirectory : bool;
  fi_size : option Z;
  fi_uri : string
}.

(** A [fileObjects] entry of [getDirectoryContents]: the details, or the
    message of a failed [getInfoAsync]. *)
Record FileObject := mkFileObject {
  fo_name : string;
  fo_path : string;
  fo_details : string + FileInfo
}.

Definition with_nodes (h : FHeap) m := mkFHeap m (lg h) (lg_events h) (shared h) (assets h).

(** ** Paths *)

Definition slash : ascii := "/".

(** The canonical form of a path: without a trailing slash. *)
Definition canon (p : string) : string :=
  if Js.endsWith slash p then String.substring 0 (String.length p - 1) p else p.

(** [s] without the prefix [pre], when it has it. *)
Fixpoint strip_prefix (pre s : string) : option string :=
  match pre, s with
  | EmptyString, _ => Some s
  | String a pre', String b s' => if Ascii.eqb a b then strip_prefix pre' s' else None
  | String _ _, EmptyString => None
  end.

(** The name of [k] when it is an entry of the directory [d]. *)
Definition child_name (d k : string) : option string :=
  match strip_prefix (d +:+ "/") k with
  | Some n => if negb (String.eqb n "") && negb (Js.includes slash n) then Some n else None
  | None => None
  end.

(** The directory part of a path: before its last slash. *)
Definition parent (p : string) : option string :=
  match rev (Js.split slash p) with
  | _ :: (_ :: _) as ds => Some (Js.join "/" (rev ds))
  | _ => None
  end.

(** [makeDirectoryAsync(p, { intermediates: true })]: the missing
    ancestors too; [None] when one of them is a file. *)
Fixpoint mkdirs (fuel : nat) (p : string) (m : gmap string node) : option (gmap string node) :=
  match m !! p with
  | Some DirNode => Some m
  | Some (FileNode _ _) => None
  | None =>
      match fuel, parent p with
      | S f, Some q => option_map (fun m' => <[p := DirNode]> m') (mkdirs f q m)
      | _, _ => Some (<[p := DirNode]> m)
      end
  end.

(** ** The native calls *)

Section Native.
Context (env : FEnv).

Definition info_of (h : FHeap) (p : string) : FileInfo :=
  match nodes h !! canon p with
  | Some (FileNode _ size) => mkFileInfo true false (Some size) p
  | Some DirNode => mkFileInfo true true None p
  | None => mkFileInfo false false None p
  end.

Definition getInfoAsync (p : string) : fio FileInfo :=
  aw_await id ;! let! h := aw_get in aw_ret (info_of h p).

Definition readDirectoryAsync (d : string) : fio (list string) :=
  aw_await id ;!
  let! h := aw_get in
  match nodes h !! canon d with
  | Some DirNode => aw_ret (omap (fun kv => child_name (canon d) kv.1) (map_to_list (nodes h)))
  | _ => aw_throw ("Directory '" +:+ d +:+ "' could not be read.")
  end.

Definition readAsStringAsync (p : string) : fio string :=
  aw_await id ;!
  let! h := aw_get in
  match nodes h !! canon p with
  | Some (FileNode c _) => aw_ret c
  | _ => aw_throw ("File '" +:+ p +:+ "' could not be read.")
  end.

(** A file is written where its directory exists and no directory is. *)
Definition writeAsStringAsync (p c : string) : fio unit :=
  aw_await id ;!
  let! h := aw_get in
  match nodes h !! canon p, option_map (fun q => nodes h !! q) (parent (canon p)) with
  | Some DirNode, _ => aw_throw ("Location '" +:+ p +:+ "' isn't writable.")
  | _, Some (Some DirNode) =>
      aw_modify (fun h => with_nodes h (<[canon p := FileNode c (Z.of_nat (String.length c))]> (nodes h)))
  | _, _ => aw_throw ("Directory for '" +:+ p +:+ "' doesn't exist.")
  end.

Definition makeDirectoryAsync (p : string) : fio unit :=
  aw_await id ;!
  let! h := aw_get in
  match mkdirs (String.length p) (canon p) (nodes h) with
  | Some m => aw_modify (fun h => with_nodes h m)
  | None => aw_throw ("Directory '" +:+ p +:+ "' could not be created.")
  end.

(** [logger.<level>(message)]. *)
Definition flog (shorthand : Logger.Logger -> Z -> string -> Logger.Logger * list Logger.log_event * Logger.LogEntry)
    (message : string) : fio unit :=
  aw_modify (fun h => let '(lg', evs, _) := shorthand (lg h) (fclock env) message in
                      mkFHeap (nodes h) lg' (lg_events h ++ evs) (shared h) (assets h)).

End Native.

(** [(size / 1024 / 1024).toFixed(2)]: the nearest hundredth of a
    mebibyte, halves up ([toFixed] picks the larger of two nearest). *)
Definition mb_text (size : Z) : string :=
  let n := ((100 * size + 524288) / 1048576)%Z in
  pretty (n / 100)%Z +:+ "." +:+ (if (n mod 100 <? 10)%Z then "0" else "") +:+ pretty (n mod 100)%Z.

(** [`${path}/`] unless it ends with a slash. *)
Definition normalized (path : string) : string := if Js.endsWith slash path then path else path +:+ "/".

(** The [isDirectory] the comparator reads: [fileInfo.isDirectory ||
    false], absent for a failed entry. *)
Definition fo_isDirectory (f : FileObject) : bool :=
  match fo_details f with inr i => fi_isDirectory i | inl _ => false end.

(** [fileName.split('/').pop()]. *)
Definition base_name (uri : string) : string := default "" (last_elem (Js.split slash uri)).

Section Service.
Context (env : FEnv).

(** The comparator of lines 57-61. *)
Definition fo_cmp (a b : FileObject) : Z :=
  if fo_isDirectory a && negb (fo_isDirectory b) then (-1)%Z
  else if negb (fo_isDirectory a) && fo_isDirectory b then 1%Z
  else locale_compare env (fo_name a) (fo_name b).

(** [fileObjects.sort(...)] (lines 57-61). *)
Definition sort_objects (l : list FileObject) : list FileObject := sort_by fo_cmp l.

(** [getDirectoryContents(path)] (lines 14-66). *)
Definition getDirectoryContents (path : string) : fio (list FileObject) :=
  aw_catch
    (let normalizedPath := normalized path in
     let! info := getInfoAsync normalizedPath in
     if negb (fi_exists info) then aw_throw ("Path doesn't exist: " +:+ normalizedPath)
     else if negb (fi_isDirectory info) then aw_throw ("Path is not a directory: " +:+ normalizedPath)
     else
       let! files := readDirectoryAsync normalizedPath in
       let! fileObjects :=
         map_all files (fun fileName =>
           let filePath := normalizedPath +:+ fileName in
           aw_catch (let! fileInfo := getInfoAsync filePath in aw_ret (mkFileObject fileName filePath (inr fileInfo)))
                    (fun e => aw_ret (mkFileObject fileName filePath (inl e)))) in
       aw_ret (sort_objects fileObjects))
    (fun e => flog env Logger.error ("Failed to get directory contents: " +:+ e) ;! aw_throw e).

(** [readFileContent(path)] (lines 73-96): at most 5 MiB. *)
Definition readFileContent (path : string) : fio string :=
  aw_catch
    (let! fileInfo := getInfoAsync path in
     if negb (fi_exists fileInfo) then aw_throw ("File doesn't exist: " +:+ path)
     else if fi_isDirectory fileInfo then aw_throw ("Path is a directory, not a file: " +:+ path)
     else match fi_size fileInfo with
          | Some size =>
              if (5242880 <? size)%Z then aw_throw ("File too large (" +:+ mb_text size +:+ " MB): " +:+ path)
              else readAsStringAsync path
          | None => readAsStringAsync path
          end)
    (fun e => flog env Logger.error ("Failed to read file: " +:+ e) ;! aw_throw e).

(** [createFile(path, content)] (lines 103-115). *)
Definition createFile (path content : string) : fio FileInfo :=
  aw_catch
    (writeAsStringAsync path content ;!
     let! fileInfo := getInfoAsync path in
     flog env Logger.info ("Created file: " +:+ path +:+ " (" +:+
                           match fi_size fileInfo with Some s => pretty s | None => "undefined" end +:+ " bytes)") ;!
     aw_ret fileInfo)
    (fun e => flog env Logger.error ("Failed to create file: " +:+ e) ;! aw_throw e).

(** [createDirectory(path)] (lines 121-146). *)
Definition createDirectory (path : string) : fio FileInfo :=
  aw_catch
    (let normalizedPath := normalized path in
     let! info := getInfoAsync normalizedPath in
     if fi_exists info then
       if fi_isDirectory info then aw_ret info
       else aw_throw ("Path exists but is not a directory: " +:+ normalizedPath)
     else
       makeDirectoryAsync normalizedPath ;!
       let! dirInfo := getInfoAsync normalizedPath in
       flog env Logger.info ("Created directory: " +:+ normalizedPath) ;!
       aw_ret dirInfo)
    (fun e => flog env Logger.error ("Failed to create directory: " +:+ e) ;! aw_throw e).

(** [createTempFile(content, filename)] (lines 153-166). *)
Definition createTempFile (content filename : string) : fio string :=
  aw_catch
    (let path := cacheDirectory env +:+ filename in
     writeAsStringAsync path content ;!
     flog env Logger.info ("Created temporary file: " +:+ path) ;!
     aw_ret path)
    (fun e => flog env Logger.error ("Failed to create temp file: " +:+ e) ;! aw_throw e).

(** [generateCSV(data, headers, filename)] (lines 173-202). *)
Definition generateCSV (data : list Formats.jsobject) (headers : option (list string)) (filename : option string) :
    fio string :=
  aw_catch
    (match Formats.generateCSV_content data headers with
     | None => aw_throw "Invalid data for CSV generation"
     | Some csv => createTempFile csv (if truthy filename then default "" filename else "data.csv")
     end)
    (fun e => flog env Logger.error ("Failed to generate CSV: " +:+ e) ;! aw_throw e).

(** [shareFile(fileUri, contentType = 'text/plain')] (lines 210-226). *)
Definition shareFile (fileUri contentType : string) : fio unit :=
  aw_catch
    (aw_await id ;!
     if sharing_available env then
       aw_await (fun h => mkFHeap (nodes h) (lg h) (lg_events h) (shared h ++ [(fileUri, contentType)]) (assets h))
     else aw_throw "Sharing is not available on this device")
    (fun e => flog env Logger.error ("Failed to share file: " +:+ e) ;! aw_throw e).

(** [saveToMediaLibrary(fileUri)] (lines 233-249): the asset's
    [filename]. *)
Definition saveToMediaLibrary (fileUri : string) : fio string :=
  aw_catch
    (aw_await id ;!
     if String.eqb (media_status env) "granted" then
       aw_await (fun h => mkFHeap (nodes h) (lg h) (lg_events h) (shared h) (assets h ++ [fileUri])) ;!
       flog env Logger.info ("Saved file to media library: " +:+ base_name fileUri) ;!
       aw_ret (base_name fileUri)
     else aw_throw "Media library permission not granted")
    (fun e => flog env Logger.error ("Failed to save to media library: " +:+ e) ;! aw_throw e).

End Service.

(** ** Properties *)

Lemma canon_snoc x : canon (x +:+ "/") = x.
Proof.
  unfold canon. rewrite Js.endsWith_snoc, Js.str_length_app. simpl.
  rewrite Nat.add_sub. apply Js.substring_prefix.
Qed.

Lemma normalized_slash p : Js.endsWith slash p = true -> normalized p = p.
Proof. unfold normalized. by intros ->. Qed.

(** A path ending with a name gains its slash. *)
Lemma normalized_name d n :
  n <> EmptyString -> Js.includes slash n = false -> normalized (d +:+ n) = d +:+ n +:+ "/".
Proof.
  intros Hn Hs. unfold normalized. rewrite Js.endsWith_app_r by done.
  destruct (Js.endsWith slash n) eqn:E; [|by rewrite Js.str_app_assoc].
  apply Js.endsWith_includes in E. congruence.
Qed.


Lemma mkdirs_dir fuel p m m' : mkdirs fuel p m = Some m' -> m' !! p = Some DirNode.
Proof.
  revert p m m'. induction fuel as [|f IH]; intros p m m'; cbn;
    destruct (m !! p) as [[c s|]|] eqn:Hp; try congruence.
  - intros [= <-]. apply lookup_insert_eq.
  - destruct (parent p) as [q|].
    + destruct (mkdirs f q m) as [m''|] eqn:Hm; cbn; [intros [= <-]; apply lookup_insert_eq|done].
    + intros [= <-]. apply lookup_insert_eq.
Qed.

Section Props.
Context (env : FEnv).

Lemma flog_run f m h o : exists h', flog env f m h o = (Normal tt, h', o) /\ nodes h' = nodes h.
Proof. unfold flog. cbn. destruct (f _ _ _) as [[? ?] ?]. by eexists. Qed.

(** A [catch] that logs and throws again completes normally only when
    its body does. *)
Lemma catch_rethrow_normal {A} (c : fio A) f h o v h2 o2 :
  aw_catch c (fun e => flog env Logger.error (f e) ;! aw_throw e) h o = (Normal v, h2, o2) ->
  c h o = (Normal v, h2, o2).
Proof.
  unfold aw_catch. destruct (c h o) as [[[v1|r] h1] o1]; [done|].
  unfold aw_bind. destruct (flog_run Logger.error (f r) h1 o1) as (h' & -> & _). cbn. congruence.
Qed.

Lemma getInfoAsync_normal p h o i h1 o1 :
  getInfoAsync p h o = (Normal i, h1, o1) -> i = info_of h p /\ h1 = h.
Proof.
  unfold getInfoAsync. intros (u & h' & o' & Ha & Hk)%bind_normal.
  destruct u. apply await_normal in Ha. subst h'. cbn in Hk. split; congruence.
Qed.

Lemma makeDirectoryAsync_normal p h o h1 o1 :
  makeDirectoryAsync p h o = (Normal tt, h1, o1) ->
  exists m, mkdirs (String.length p) (canon p) (nodes h) = Some m /\ nodes h1 = m.
Proof.
  unfold makeDirectoryAsync. intros (u & h' & o' & Ha & Hk)%bind_normal.
  destruct u. apply await_normal in Ha. subst h'. cbn in Hk.
  destruct (mkdirs _ _ _) as [m|]; cbn in Hk; [|congruence]. exists m. split; [done|]. by injection Hk as <- _.
Qed.

(** A successful [createDirectory] leaves a directory at the path. *)
Lemma createDirectory_dir p h o i h1 o1 :
  createDirectory env p h o = (Normal i, h1, o1) -> nodes h1 !! canon (normalized p) = Some DirNode.
Proof.
  unfold createDirectory. intros Hc%catch_rethrow_normal.
  apply bind_normal in Hc as (info & h' & o' & Hi & Hk). apply getInfoAsync_normal in Hi as [-> ->].
  unfold info_of in Hk. destruct (nodes h !! canon (normalized p)) as [[c sz|]|] eqn:Hn; cbn [fi_exists fi_isDirectory] in Hk.
  - cbn in Hk. congruence.
  - cbn in Hk. injection Hk as _ <- _. exact Hn.
  - apply bind_normal in Hk as (u & h2 & o2 & Hm & Hk). destruct u.
    apply makeDirectoryAsync_normal in Hm as (m & Hm & Hnodes).
    apply bind_normal in Hk as (i2 & h3 & o3 & Hi & Hk). apply getInfoAsync_normal in Hi as [-> ->].
    apply bind_normal in Hk as (u & h4 & o4 & Hf & Hk). destruct u.
    destruct (flog_run Logger.info ("Created directory: " +:+ normalized p) h2 o3) as (h5 & Hf' & Hn5).
    rewrite Hf' in Hf. injection Hf as <- <-. cbn in Hk. injection Hk as _ <- _.
    rewrite Hn5, Hnodes. by apply (mkdirs_dir _ _ _ _ Hm).
Qed.

(** [createDirectory] is idempotent: once it has succeeded, a
    second call finds the directory, resolves its information and
    changes nothing. *)
Theorem createDirectory_idempotent h p o o' i h1 o1 :
  createDirectory env p h o = (Normal i, h1, o1) ->
  createDirectory env p h1 (Fulfilled :: o') = (Normal (info_of h1 (normalized p)), h1, o').
Proof.
  intros Hc. pose proof (createDirectory_dir _ _ _ _ _ _ Hc) as Hd.
  unfold createDirectory, getInfoAsync. cbn. unfold info_of at 1 2. by rewrite Hd.
Qed.

(** Run the next log line of the goal: it only changes the log. *)
Ltac step_flog :=
  match goal with
  | |- context [flog ?e ?f ?m ?h0 ?o0] =>
      let h' := fresh "h" in let Hn := fresh "Hn" in
      destruct (flog_run f m h0 o0) as (h' & -> & Hn); cbn -[flog mb_text]; rewrite ?Hn
  end.

(** [readFileContent] refuses a file above 5 MiB: it rejects
    with its size in mebibytes to two decimals, reads nothing and
    only logs. *)
Theorem readFileContent_too_large h p c size o :
  nodes h !! canon p = Some (FileNode c size) -> (5242880 < size)%Z ->
  exists h', readFileContent env p h (Fulfilled :: o) =
    (Abrupt ("File too large (" +:+ mb_text size +:+ " MB): " +:+ p), h', o) /\ nodes h' = nodes h.
Proof.
  intros Hn Hs. unfold readFileContent, getInfoAsync, info_of. cbn -[flog mb_text].
  rewrite Hn. cbn -[flog mb_text]. apply Z.ltb_lt in Hs. rewrite Hs. cbn -[flog mb_text].
  step_flog. by eexists.
Qed.

(** C24: What [createFile] writes, [readFileContent] reads back, for a
    text of at most 5 MiB in an existing directory. *)
Theorem createFile_readFileContent h p d c o :
  parent (canon p) = Some d -> nodes h !! d = Some DirNode -> nodes h !! canon p <> Some DirNode ->
  (Z.of_nat (String.length c) <= 5242880)%Z ->
  fst (fst ((createFile env p c ;! readFileContent env p) h
              (Fulfilled :: Fulfilled :: Fulfilled :: Fulfilled :: o))) = Normal c.
Proof.
  intros Hpar Hd Hp Hc.
  unfold createFile, readFileContent, writeAsStringAsync, getInfoAsync, readAsStringAsync, info_of.
  cbn -[flog mb_text]. rewrite Hpar. cbn -[flog mb_text]. rewrite Hd.
  destruct (nodes h !! canon p) as [[c0 s0|]|]; [|congruence|]; cbn -[flog mb_text].
  all: rewrite lookup_insert_eq; cbn -[flog mb_text]; step_flog.
  all: cbn [nodes with_nodes]; rewrite lookup_insert_eq; cbn -[flog mb_text].
  all: apply Z.ltb_ge in Hc; rewrite Hc; cbn -[flog mb_text]; rewrite Hn; cbn; by rewrite lookup_insert_eq.
Qed.

End Props.

(** ** Witnesses *)

Definition demo_fenv : FEnv :=
  mkFEnv "file:///cache/" true "granted" 1700000000000
    (fun a b => match String.compare a b with Lt => (-1)%Z | Eq => 0%Z | Gt => 1%Z end).

Definition demo_disk : FHeap :=
  mkFHeap (<["file:///cache" := DirNode]> (<["file:///data" := DirNode]> (<["file://" := DirNode]> ∅)))
    Logger.new_Logger [] [] [].

Definition demo_mkdir := createDirectory demo_fenv "file:///data/docs" demo_disk [].

Lemma createDirectory_idempotent_witness :
  createDirectory demo_fenv "file:///data/docs" demo_disk [] =
    (Normal (info_of (snd (fst demo_mkdir)) "file:///data/docs/"), snd (fst demo_mkdir), []) /\
  createDirectory demo_fenv "file:///data/docs" (snd (fst demo_mkdir)) [Fulfilled] =
    (Normal (info_of (snd (fst demo_mkdir)) (normalized "file:///data/docs")), snd (fst demo_mkdir), []).
Proof.
  assert (H : createDirectory demo_fenv "file:///data/docs" demo_disk [] =
              (Normal (info_of (snd (fst demo_mkdir)) "file:///data/docs/"), snd (fst demo_mkdir), []))
    by (vm_compute; reflexivity).
  exact (conj H (createDirectory_idempotent demo_fenv demo_disk "file:///data/docs" [] [] _ _ _ H)).
Defined.

Lemma readFileContent_too_large_witness :
  nodes (with_nodes demo_disk (<["file:///data/video.bin" := FileNode "" 6000000]> (nodes demo_disk)))
    !! canon "file:///data/video.bin" = Some (FileNode "" 6000000) /\
  (5242880 < 6000000)%Z /\
  exists h', readFileContent demo_fenv "file:///data/video.bin"
               (with_nodes demo_disk (<["file:///data/video.bin" := FileNode "" 6000000]> (nodes demo_disk))) [Fulfilled] =
    (Abrupt ("File too large (" +:+ mb_text 6000000 +:+ " MB): " +:+ "file:///data/video.bin"), h', []) /\
    nodes h' = nodes (with_nodes demo_disk (<["file:///data/video.bin" := FileNode "" 6000000]> (nodes demo_disk))).
Proof.
  assert (Hn : nodes (with_nodes demo_disk (<["file:///data/video.bin" := FileNode "" 6000000]> (nodes demo_disk)))
                 !! canon "file:///data/video.bin" = Some (FileNode "" 6000000)) by (vm_compute; reflexivity).
  assert (Hs : (5242880 < 6000000)%Z) by lia.
  exact (conj Hn (conj Hs (readFileContent_too_large demo_fenv _ "file:///data/video.bin" "" 6000000 [] Hn Hs))).
Defined.

Lemma createFile_readFileContent_witness :
  parent (canon "file:///data/note.txt") = Some "file:///data" /\ nodes demo_disk !! "file:///data" = Some DirNode /\
  nodes demo_disk !! canon "file:///data/note.txt" <> Some DirNode /\ (Z.of_nat (String.length "hello") <= 5242880)%Z /\
  fst (fst ((createFile demo_fenv "file:///data/note.txt" "hello" ;! readFileContent demo_fenv "file:///data/note.txt")
              demo_disk [Fulfilled; Fulfilled; Fulfilled; Fulfilled])) = Normal "hello".
Proof.
  assert (H1 : parent (canon "file:///data/note.txt") = Some "file:///data") by (vm_compute; reflexivity).
  assert (H2 : nodes demo_disk !! "file:///data" = Some DirNode) by (vm_compute; reflexivity).
  assert (H3 : nodes demo_disk !! canon "file:///data/note.txt" <> Some DirNode) by (vm_compute; congruence).
  assert (H4 : (Z.of_nat (String.length "hello") <= 5242880)%Z) by (vm_compute; congruence).
  exact (conj H1 (conj H2 (conj H3 (conj H4
           (createFile_readFileContent demo_fenv demo_disk "file:///data/note.txt" "file:///data" "hello" [] H1 H2 H3 H4))))).
Defined.

End FileService.
