(* ===== verification/FsHook.v ===== *)
(** * The enhanced file-system hook

    [useFileSystem] of [src/unnamed/part_007], lines 1-459: the React
    hook behind the file browser, with the native storage access of
    [NativeFileSystem].  Its state is seven [useState] cells; each
    operation is a [useCallback] closure that reads the cells of the
    render it was created in (its snapshot) and writes them through
    their setters; [listFiles], [listSystemFiles] and [getMediaFiles]
    raise [isLoading] and lower it again in a [finally].  The hook of
    [src/src/hooks/useFileSystem.js] is the same code without the native
    parts.

    The world is the device's storage of [FileService] (files,
    directories, the log, the media library's assets), the albums of the
    media library, and the committed state of the hook.  The native
    module and [expo-media-library] answer from the record [NEnv]; each
    of their promises is an [await] of the oracle.  [hstep] is the hook
    in use: the mount effect [initializeNative] has run, and any
    operation of the latest render may run.

    The theorems: every listing operation completes normally and leaves
    [isLoading] false; [navigateUp] after [navigateTo] into a
    subdirectory lists the directory it started from; a failed
    [navigateTo] still records the directory it left, so the history
    grows while the path stays; a saved file ends up in its album
    whether the album existed or not; and on a device that refuses the
    storage permission no reachable state has native access, so
    [listSystemFiles] never reaches the native module. *)

From S2P Require Import Prelude JsString Await Logger FileService.

Module FsHook.
Import FileService.

(** An entry of [fileList]: [{ name, path, size, isDirectory, uri }]
    or, when [getInfoAsync] failed, [{ name, path, size: 0,
    isDirectory: false, error }] (lines 78-94); [modificationTime] is
    not modelled. *)
Record HFile := mkHFile {
  hf_name : string;
  hf_path : string;
  hf_size : Z;
  hf_isDirectory : bool;
  hf_uri : option string;
  hf_error : option string
}.

(** The seven [useState] cells (lines 12-18). *)
Record HookState := mkHookState {
  currentPath : string;
  fileList : list HFile;
  isLoading : bool;
  error : option string;
  pathHistory : list string;
  systemDirectories : option (gmap string string);
  hasNativeAccess : bool
}.

Definition set_currentPath v (s : HookState) :=
  mkHookState v (fileList s) (isLoading s) (error s) (pathHistory s) (systemDirectories s) (hasNativeAccess s).
Definition set_fileList v (s : HookState) :=
  mkHookState (currentPath s) v (isLoading s) (error s) (pathHistory s) (systemDirectories s) (hasNativeAccess s).
Definition set_isLoading v (s : HookState) :=
  mkHookState (currentPath s) (fileList s) v (error s) (pathHistory s) (systemDirectories s) (hasNativeAccess s).
Definition set_error v (s : HookState) :=
  mkHookState (currentPath s) (fileList s) (isLoading s) v (pathHistory s) (systemDirectories s) (hasNativeAccess s).
Definition set_pathHistory v (s : HookState) :=
  mkHookState (currentPath s) (fileList s) (isLoading s) (error s) v (systemDirectories s) (hasNativeAccess s).
Definition set_systemDirectories v (s : HookState) :=
  mkHookState (currentPath s) (fileList s) (isLoading s) (error s) (pathHistory s) v (hasNativeAccess s).
Definition set_hasNativeAccess v (s : HookState) :=
  mkHookState (currentPath s) (fileList s) (isLoading s) (error s) (pathHistory s) (systemDirectories s) v.

(** A media-library asset, as [getAssetsAsync] lists it. *)
Record Asset := mkAsset {
  a_filename : string;
  a_uri : string;
  a_fileSize : Z;
  a_mediaType : string;                 (** ['photo'], ['video'], ['audio'] or ['unknown'] *)
  a_width : Z;
  a_height : Z;
  a_duration : Z;
  a_creationTime : Z
}.

(** An entry of [getMediaFiles] (lines 387-397). *)
Record MediaFile := mkMediaFile {
  mf_name : string;
  mf_uri : string;
  mf_path : string;
  mf_size : Z;
  mf_type : string;
  mf_width : Z;
  mf_height : Z;
  mf_duration : Z;
  mf_creationTime : Z
}.

(** What the platform, [NativeFileSystem] and [expo-media-library]
    answer. *)
Record NEnv := mkNEnv {
  fenv : FEnv;                                   (** [cacheDirectory], media permission, clock, [localeCompare] *)
  documentDirectory : string;
  is_android : bool;                             (** [Platform.OS === 'android'] *)
  storage_permission : bool;                     (** [requestStoragePermission()] *)
  storage_directories : gmap string string;      (** [getStorageDirectories()] *)
  system_files : string -> list HFile;           (** [listSystemDirectoryFiles(dirPath)] *)
  external_storage : bool;                       (** [isExternalStorageAvailable()] *)
  media_library : list Asset;
  remote : string -> string                      (** the body served at a URL *)
}.

Record HWorld := mkHWorld {
  fs : FHeap;
  albums : gmap string (list string);            (** album name to asset URIs *)
  hook : HookState
}.

Abbreviation hio := (aw HWorld).

Definition with_fs (w : HWorld) h := mkHWorld h (albums w) (hook w).
Definition with_albums (w : HWorld) a := mkHWorld (fs w) a (hook w).
Definition with_hook (w : HWorld) s := mkHWorld (fs w) (albums w) s.

(** A native call of [FileService] on the storage part of the world. *)
Definition lift {A} (c : fio A) : hio A :=
  fun w o => let '(r, h, o') := c (fs w) o in (r, with_fs w h, o').

(** [setX(v)] or [setX(prev => f(prev))]. *)
Definition set_hook (f : HookState -> HookState) : hio unit := aw_modify (fun w => with_hook w (f (hook w))).

(** [path.slice(0, -1)] of a path ending with a slash, then everything
    before its last slash, and a slash (lines 145-152). *)
Definition up_path (p : string) : string :=
  let q := canon p in
  match Js.lastIndexOf slash q with
  | Some i => String.substring 0 i q
  | None => ""
  end +:+ "/".

(** [mediaType === 'images' ? 'photo' : mediaType === 'videos' ? 'video' : 'unknown']. *)
Definition expo_media_type (mediaType : string) : string :=
  if String.eqb mediaType "images" then "photo"
  else if String.eqb mediaType "videos" then "video"
  else "unknown".

Definition to_media_file (mediaType : string) (a : Asset) : MediaFile :=
  mkMediaFile (a_filename a) (a_uri a) (a_uri a) (a_fileSize a) mediaType
    (a_width a) (a_height a) (a_duration a) (a_creationTime a).

(** [getAssetsAsync({ mediaType, first, sortBy: creationTime })]: the
    assets of the type, newest first, at most [first]. *)
Definition getAssets (mediaType : string) (first : Z) (lib : list Asset) : list Asset :=
  take (Z.to_nat first)
    (sort_by (fun a b => (a_creationTime b - a_creationTime a)%Z)
       (filter (fun a => String.eqb (a_mediaType a) mediaType) lib)).

Section Hook.
Context (env : NEnv).

Definition hlog (shorthand : Logger.Logger -> Z -> string -> Logger.Logger * list Logger.log_event * Logger.LogEntry)
    (message : string) : hio unit :=
  lift (flog (fenv env) shorthand message).

(** The comparator of lines 100-104. *)
Definition hfile_cmp (a b : HFile) : Z :=
  if hf_isDirectory a && negb (hf_isDirectory b) then (-1)%Z
  else if negb (hf_isDirectory a) && hf_isDirectory b then 1%Z
  else locale_compare (fenv env) (hf_name a) (hf_name b).

(** The callback of [files.map] (lines 74-95). *)
Definition file_detail (normalizedPath filename : string) : hio HFile :=
  let filePath := normalizedPath +:+ filename in
  aw_catch
    (let! info := lift (getInfoAsync filePath) in
     aw_ret (mkHFile filename filePath (default 0%Z (fi_size info)) (fi_isDirectory info) (Some (fi_uri info)) None))
    (fun e => aw_ret (mkHFile filename filePath 0 false None (Some e))).

(** [listFiles(path)] (lines 51-118), no dependencies. *)
Definition listFiles (path : string) : hio (list HFile) :=
  set_hook (set_isLoading true) ;!
  set_hook (set_error None) ;!
  aw_finally
    (aw_catch
       (let normalizedPath := normalized path in
        let! pathInfo := lift (getInfoAsync normalizedPath) in
        if negb (fi_exists pathInfo) then aw_throw ("Path does not exist: " +:+ normalizedPath)
        else if negb (fi_isDirectory pathInfo) then aw_throw ("Path is not a directory: " +:+ normalizedPath)
        else
          let! files := lift (readDirectoryAsync normalizedPath) in
          let! fileDetails := map_all files (file_detail normalizedPath) in
          let sortedFiles := sort_by hfile_cmp fileDetails in
          set_hook (set_currentPath normalizedPath) ;!
          set_hook (set_fileList sortedFiles) ;!
          hlog Logger.info ("Listed " +:+ pretty (List.length sortedFiles) +:+ " files in " +:+ normalizedPath) ;!
          aw_ret sortedFiles)
       (fun e =>
          let errorMsg := "Failed to list files: " +:+ e in
          hlog Logger.error errorMsg ;!
          set_hook (set_error (Some errorMsg)) ;!
          aw_ret []))
    (set_hook (set_isLoading false)).

(** [navigateTo(path)] (lines 124-132), over [currentPath]. *)
Definition navigateTo (s : HookState) (path : string) : hio unit :=
  aw_catch
    (set_hook (fun h => set_pathHistory (pathHistory h ++ [currentPath s]) h) ;!
     listFiles path ;!
     aw_ret tt)
    (fun e => hlog Logger.error ("Navigation error: " +:+ e)).

(** [navigateUp()] (lines 137-158), over [currentPath]. *)
Definition navigateUp (s : HookState) : hio unit :=
  aw_catch
    (if String.eqb (currentPath s) (documentDirectory env) then hlog Logger.warning "Already at root directory"
     else listFiles (up_path (currentPath s)) ;! aw_ret tt)
    (fun e => hlog Logger.error ("Navigate up error: " +:+ e)).

(** [navigateBack()] (lines 163-178), over [pathHistory]. *)
Definition navigateBack (s : HookState) : hio unit :=
  aw_catch
    (match last_elem (pathHistory s) with
     | None => hlog Logger.warning "No navigation history"
     | Some previousPath =>
         set_hook (fun h => set_pathHistory (removelast (pathHistory h)) h) ;!
         listFiles previousPath ;!
         aw_ret tt
     end)
    (fun e => hlog Logger.error ("Navigate back error: " +:+ e)).

(** [readFile(path)] (lines 185-194). *)
Definition readFile (path : string) : hio string :=
  aw_catch
    (let! content := lift (readAsStringAsync path) in
     hlog Logger.info ("Read file: " +:+ path) ;!
     aw_ret content)
    (fun e => hlog Logger.error ("Read file error: " +:+ e) ;! aw_throw e).

(** [createFile(path, content)] (lines 202-215), over [currentPath]. *)
Definition createFile (s : HookState) (path content : string) : hio string :=
  aw_catch
    (lift (writeAsStringAsync path content) ;!
     hlog Logger.info ("Created file: " +:+ path) ;!
     listFiles (currentPath s) ;!
     aw_ret path)
    (fun e => hlog Logger.error ("Create file error: " +:+ e) ;! aw_throw e).

(** [createTempFile(content, filename)] (lines 223-233). *)
Definition createTempFile (content filename : string) : hio string :=
  aw_catch
    (let path := cacheDirectory (fenv env) +:+ filename in
     lift (writeAsStringAsync path content) ;!
     hlog Logger.info ("Created temp file: " +:+ path) ;!
     aw_ret path)
    (fun e => hlog Logger.error ("Create temp file error: " +:+ e) ;! aw_throw e).

(** [downloadFile(url, filename)] (lines 241-263): [downloadAsync]
    stores the body at [fileUri] and resolves [{ uri: fileUri }]; the
    progress callback's debug lines are not modelled. *)
Definition downloadFile (url filename : string) : hio string :=
  aw_catch
    (let fileUri := cacheDirectory (fenv env) +:+ filename in
     let body := remote env url in
     aw_await (fun w => with_fs w (with_nodes (fs w)
                 (<[canon fileUri := FileNode body (Z.of_nat (String.length body))]> (nodes (fs w))))) ;!
     hlog Logger.info ("Downloaded file: " +:+ fileUri) ;!
     aw_ret fileUri)
    (fun e => hlog Logger.error ("Download error: " +:+ e) ;! aw_throw e).

(** [saveToMediaLibrary(fileUri, album)] (lines 271-296): the asset is
    named by its URI. *)
Definition saveToMediaLibrary (fileUri : string) (album : option string) : hio string :=
  aw_catch
    (aw_await id ;!
     if negb (String.eqb (media_status (fenv env)) "granted") then aw_throw "Media library permission not granted"
     else
       aw_await (fun w => with_fs w (mkFHeap (nodes (fs w)) (lg (fs w)) (lg_events (fs w)) (shared (fs w))
                                              (assets (fs w) ++ [fileUri]))) ;!
       (if truthy album then
          let name := default "" album in
          aw_await id ;!
          let! w := aw_get in
          match albums w !! name with
          | None => aw_await (fun w => with_albums w (<[name := [fileUri]]> (albums w)))
          | Some l => aw_await (fun w => with_albums w (<[name := l ++ [fileUri]]> (albums w)))
          end
        else aw_ret tt) ;!
       hlog Logger.info ("Saved to media library: " +:+ fileUri) ;!
       aw_ret fileUri)
    (fun e => hlog Logger.error ("Save to media library error: " +:+ e) ;! aw_throw e).

(** [listSystemFiles(dirType)] (lines 303-333), over [hasNativeAccess]
    and [systemDirectories]; [systemDirectories[dirType]] reads the
    object's own keys. *)
Definition listSystemFiles (s : HookState) (dirType : string) : hio (list HFile) :=
  set_hook (set_isLoading true) ;!
  set_hook (set_error None) ;!
  aw_finally
    (aw_catch
       (match (if hasNativeAccess s then systemDirectories s else None) with
        | None => aw_throw "Native file system access not available"
        | Some dirs =>
            let dirPath := dirs !! dirType in
            if negb (truthy dirPath) then aw_throw ("System directory not found: " +:+ dirType)
            else
              let dirPath := default "" dirPath in
              aw_await id ;!
              let files := system_files env dirPath in
              set_hook (set_currentPath dirPath) ;!
              set_hook (set_fileList files) ;!
              hlog Logger.info ("Listed " +:+ pretty (List.length files) +:+ " files in system directory: " +:+ dirType) ;!
              aw_ret files
        end)
       (fun e =>
          let errorMsg := "Failed to list system files: " +:+ e in
          hlog Logger.error errorMsg ;!
          set_hook (set_error (Some errorMsg)) ;!
          aw_ret []))
    (set_hook (set_isLoading false)).

(** [getSystemDirectories()] (lines 339-341). *)
Definition getSystemDirectories (s : HookState) : gmap string string := default ∅ (systemDirectories s).

(** [checkExternalStorage()] (lines 347-358), over [hasNativeAccess]. *)
Definition checkExternalStorage (s : HookState) : hio bool :=
  aw_catch
    (if negb (hasNativeAccess s) then aw_ret false
     else aw_await id ;! aw_ret (external_storage env))
    (fun e => hlog Logger.error ("Failed to check external storage: " +:+ e) ;! aw_ret false).

(** The permission request and the query of lines 373-397, written twice
    in the code. *)
Definition media_query (mediaType : string) (limit : Z) : hio (list MediaFile) :=
  aw_await id ;!
  if negb (String.eqb (media_status (fenv env)) "granted") then aw_throw "Media library permission not granted"
  else
    aw_await id ;!
    aw_ret (map (to_media_file mediaType) (getAssets (expo_media_type mediaType) limit (media_library env))).

(** [getMediaFiles(mediaType, limit = 50)] (lines 366-435), over
    [hasNativeAccess]: both branches run the same query. *)
Definition getMediaFiles (s : HookState) (mediaType : string) (limit : Z) : hio (list MediaFile) :=
  set_hook (set_isLoading true) ;!
  set_hook (set_error None) ;!
  aw_finally
    (aw_catch
       (if negb (hasNativeAccess s) then media_query mediaType limit
        else media_query mediaType limit)
       (fun e =>
          let errorMsg := "Failed to get media files: " +:+ e in
          hlog Logger.error errorMsg ;!
          set_hook (set_error (Some errorMsg)) ;!
          aw_ret []))
    (set_hook (set_isLoading false)).

(** [initializeNative()], the mount effect (lines 21-44). *)
Definition initializeNative : hio unit :=
  aw_catch
    (if is_android env then
       aw_await id ;!
       let permissionGranted := storage_permission env in
       set_hook (set_hasNativeAccess permissionGranted) ;!
       if permissionGranted then
         aw_await id ;!
         set_hook (set_systemDirectories (Some (storage_directories env))) ;!
         hlog Logger.success "Native file system access enabled"
       else hlog Logger.warning "Storage permission not granted"
     else aw_ret tt)
    (fun e => hlog Logger.error ("Failed to initialize native file system: " +:+ e)).

(** The first render's state. *)
Definition initial_state : HookState :=
  mkHookState (documentDirectory env) [] false None [] None false.

(** The operations the hook returns (lines 437-458), called from the
    latest render. *)
Inductive hop :=
  | OpListFiles (path : string)
  | OpNavigateTo (path : string)
  | OpNavigateUp
  | OpNavigateBack
  | OpReadFile (path : string)
  | OpCreateFile (path content : string)
  | OpCreateTempFile (content filename : string)
  | OpDownloadFile (url filename : string)
  | OpSaveToMediaLibrary (fileUri : string) (album : option string)
  | OpListSystemFiles (dirType : string)
  | OpCheckExternalStorage
  | OpGetMediaFiles (mediaType : string) (limit : Z).

Definition run_op (s : HookState) (op : hop) : hio unit :=
  match op with
  | OpListFiles p => listFiles p ;! aw_ret tt
  | OpNavigateTo p => navigateTo s p
  | OpNavigateUp => navigateUp s
  | OpNavigateBack => navigateBack s
  | OpReadFile p => readFile p ;! aw_ret tt
  | OpCreateFile p c => createFile s p c ;! aw_ret tt
  | OpCreateTempFile c f => createTempFile c f ;! aw_ret tt
  | OpDownloadFile u f => downloadFile u f ;! aw_ret tt
  | OpSaveToMediaLibrary u a => saveToMediaLibrary u a ;! aw_ret tt
  | OpListSystemFiles t => listSystemFiles s t ;! aw_ret tt
  | OpCheckExternalStorage => checkExternalStorage s ;! aw_ret tt
  | OpGetMediaFiles t n => getMediaFiles s t n ;! aw_ret tt
  end.

(** The world after [c] has run on [w] with the oracle [o]. *)
Definition after {A} (c : hio A) (w : HWorld) (o : list settlement) : HWorld := snd (fst (c w o)).

(** The hook in use: each operation runs to completion, with the
    closures of the render of the committed state. *)
Inductive hstep : HWorld -> HWorld -> Prop :=
  | hs_op w op o : hstep w (after (run_op (hook w) op) w o).

(** Mounted on a device: the effect has run on the first render. *)
Definition mounted (h : FHeap) (o : list settlement) : HWorld :=
  after initializeNative (mkHWorld h ∅ initial_state) o.

End Hook.

(** ** Frame lemmas *)

Section Frame.
Context (P : HWorld -> Prop).

Lemma keeps_hlift {A} (c : fio A) : (forall w h, P w -> P (with_fs w h)) -> keeps P (lift c).
Proof. intros Hf w o Hw. unfold lift. destruct (c (fs w) o) as [[r h] o']. by apply Hf. Qed.

Lemma keeps_set_hook f : (forall w, P w -> P (with_hook w (f (hook w)))) -> keeps P (set_hook f).
Proof. intros Hf. by apply keeps_modify. Qed.
End Frame.

Lemma no_throw_hlift {A} (c : fio A) : no_throw c -> no_throw (lift c).
Proof. intros Hc w o. unfold lift. destruct (Hc (fs w) o) as (v & h & o' & ->). eauto. Qed.

Lemma no_throw_set_hook f : no_throw (set_hook f).
Proof. apply no_throw_modify. Qed.

Lemma no_throw_hlog env f m : no_throw (hlog env f m).
Proof.
  apply no_throw_hlift. intros h o. destruct (flog_run (fenv env) f m h o) as (h' & -> & _). eauto.
Qed.

#[export] Hint Resolve no_throw_set_hook no_throw_hlog : tah.

Definition native_of (w : HWorld) : bool * option (gmap string string) :=
  (hasNativeAccess (hook w), systemDirectories (hook w)).

(** The state a listing operation leaves once it has settled. *)
Definition loaded (w : HWorld) : Prop := isLoading (hook w) = false.

Lemma ensures_loaded {A} (c : hio A) : ensures loaded (aw_finally c (set_hook (set_isLoading false))).
Proof. apply ensures_finally, ensures_modify. done. Qed.

(** ** Running the operations *)

Lemma with_fs_id w : with_fs w (fs w) = w.
Proof. by destruct w. Qed.

Lemma lift_run {A} (c : fio A) w o r h o' : c (fs w) o = (r, h, o') -> lift c w o = (r, with_fs w h, o').
Proof. intros Hc. unfold lift. by rewrite Hc. Qed.

Lemma lift_getInfoAsync w p o : lift (getInfoAsync p) w (Fulfilled :: o) = (Normal (info_of (fs w) p), w, o).
Proof. unfold lift. cbn. by rewrite with_fs_id. Qed.

Lemma lift_readDirectoryAsync w d o : nodes (fs w) !! canon d = Some DirNode ->
  lift (readDirectoryAsync d) w (Fulfilled :: o) =
    (Normal (omap (fun kv => child_name (canon d) kv.1) (map_to_list (nodes (fs w)))), w, o).
Proof. intros Hd. unfold lift, readDirectoryAsync. cbn. rewrite Hd. cbn. by rewrite with_fs_id. Qed.

Lemma hlog_frame (env : NEnv) f m w o :
  exists w', hlog env f m w o = (Normal tt, w', o) /\ hook w' = hook w /\ albums w' = albums w /\
    nodes (fs w') = nodes (fs w) /\ assets (fs w') = assets (fs w).
Proof. unfold hlog, lift, flog. cbn. destruct (f _ _ _) as [[? ?] ?]. by eexists. Qed.

Lemma keeps_eq_lift_getInfoAsync w0 p : keeps (eq w0) (lift (getInfoAsync p)).
Proof.
  intros w o <-. unfold lift, getInfoAsync. destruct o as [|[|r] o]; cbn; by rewrite with_fs_id.
Qed.

Lemma no_throw_file_detail d n : no_throw (file_detail d n).
Proof. unfold file_detail. auto with tah. Qed.

Lemma keeps_eq_file_detail w0 d n : keeps (eq w0) (file_detail d n).
Proof. unfold file_detail. solve_keeps. apply keeps_eq_lift_getInfoAsync. Qed.

Lemma map_all_file_detail d files w o : exists L o', map_all files (file_detail d) w o = (Normal L, w, o').
Proof.
  destruct (no_throw_map_all files _ (no_throw_file_detail d) w o) as (L & w' & o' & Hm).
  pose proof (keeps_map_all (eq w) files _ (keeps_eq_file_detail w d) w o eq_refl) as Hk.
  rewrite Hm in Hk. cbn in Hk. subst. eauto.
Qed.

Lemma hook_listFiles_dir (env : NEnv) w p o :
  nodes (fs w) !! canon (normalized p) = Some DirNode ->
  exists L w' o', listFiles env p w (Fulfilled :: Fulfilled :: o) = (Normal L, w', o') /\
    hook w' = set_isLoading false (set_fileList L (set_currentPath (normalized p) (set_error None (set_isLoading true (hook w))))) /\
    nodes (fs w') = nodes (fs w) /\ albums w' = albums w.
Proof.
  intros Hd. unfold listFiles.
  erewrite bind_step by reflexivity. erewrite bind_step by reflexivity.
  unfold aw_finally, aw_catch.
  erewrite bind_step by apply lift_getInfoAsync.
  unfold info_of. cbn [fs with_hook]. rewrite Hd. cbn [fi_exists fi_isDirectory negb].
  erewrite bind_step by (apply lift_readDirectoryAsync; exact Hd).
  match goal with |- context [aw_bind (map_all ?fl (file_detail ?d)) _ ?w2 ?o2] =>
    destruct (map_all_file_detail d fl w2 o2) as (L & o3 & Hm); rewrite (bind_step _ _ _ _ _ _ _ Hm) end.
  erewrite bind_step by reflexivity. erewrite bind_step by reflexivity.
  match goal with |- context [aw_bind (hlog env ?f ?m) _ ?w4 ?o4] =>
    destruct (hlog_frame env f m w4 o4) as (w5 & Hl & Hh & Ha & Hn & _); rewrite (bind_step _ _ _ _ _ _ _ Hl) end.
  cbn. do 3 eexists. split; [reflexivity|]. cbn. rewrite Hh, Hn, Ha. cbn. done.
Qed.

Lemma listFiles_missing (env : NEnv) w p o :
  nodes (fs w) !! canon (normalized p) = None ->
  exists w', listFiles env p w (Fulfilled :: o) = (Normal [], w', o) /\
    hook w' = set_isLoading false (set_error (Some ("Failed to list files: Path does not exist: " +:+ normalized p))
                (set_error None (set_isLoading true (hook w)))) /\
    nodes (fs w') = nodes (fs w).
Proof.
  intros Hd. unfold listFiles.
  erewrite bind_step by reflexivity. erewrite bind_step by reflexivity.
  unfold aw_finally, aw_catch.
  erewrite bind_step by apply lift_getInfoAsync.
  unfold info_of. cbn [fs with_hook]. rewrite Hd. cbn [fi_exists negb aw_throw].
  match goal with |- context [aw_bind (hlog env ?f ?m) _ ?w4 ?o4] =>
    destruct (hlog_frame env f m w4 o4) as (w5 & Hl & Hh & Ha & Hn & _); rewrite (bind_step _ _ _ _ _ _ _ Hl) end.
  cbn. eexists. split; [reflexivity|]. cbn. rewrite Hh, Hn. done.
Qed.

Lemma up_path_name d n :
  Js.includes slash n = false -> up_path (d +:+ "/" +:+ n +:+ "/") = d +:+ "/".
Proof.
  intros Hn. unfold up_path.
  replace (d +:+ "/" +:+ n +:+ "/") with ((d +:+ String slash n) +:+ "/") by (rewrite Js.str_app_assoc; reflexivity).
  rewrite canon_snoc, Js.lastIndexOf_app_last by done. by rewrite Js.substring_prefix.
Qed.

(** C25: [navigateUp] undoes [navigateTo] into a subdirectory: from the
    directory [d/], navigating to its subdirectory [n] lists [d/n/],
    and the [navigateUp] of the next render lists [d/] again, with [d/]
    recorded once in the history. *)
Theorem navigateUp_navigateTo (env : NEnv) w d n o1 o2 :
  currentPath (hook w) = d +:+ "/" -> n <> EmptyString -> Js.includes slash n = false ->
  d +:+ "/" +:+ n +:+ "/" <> documentDirectory env ->
  nodes (fs w) !! d = Some DirNode -> nodes (fs w) !! (d +:+ "/" +:+ n) = Some DirNode ->
  let w1 := after (navigateTo env (hook w) (d +:+ "/" +:+ n)) w (Fulfilled :: Fulfilled :: o1) in
  let w2 := after (navigateUp env (hook w1)) w1 (Fulfilled :: Fulfilled :: o2) in
  currentPath (hook w1) = d +:+ "/" +:+ n +:+ "/" /\ currentPath (hook w2) = d +:+ "/" /\
  pathHistory (hook w2) = pathHistory (hook w) ++ [d +:+ "/"].
Proof.
  intros Hc Hn Hs Hroot Hd Hdn.
  assert (Hnorm : normalized (d +:+ "/" +:+ n) = d +:+ "/" +:+ n +:+ "/").
  { rewrite <- Js.str_app_assoc, normalized_name by done. by rewrite !Js.str_app_assoc. }
  unfold after, navigateTo, aw_catch. erewrite bind_step by reflexivity.
  destruct (hook_listFiles_dir env (with_hook w (set_pathHistory (pathHistory (hook w) ++ [currentPath (hook w)]) (hook w)))
              (d +:+ "/" +:+ n) o1) as (L & w1 & o1' & Hl & Hh1 & Hn1 & _).
  { cbn. rewrite Hnorm.
    replace (d +:+ "/" +:+ n +:+ "/") with ((d +:+ "/" +:+ n) +:+ "/") by (rewrite Js.str_app_assoc; reflexivity).
    rewrite canon_snoc. exact Hdn. }
  rewrite (bind_step _ _ _ _ _ _ _ Hl). cbn [aw_ret fst snd]. rewrite Hnorm in Hh1.
  rewrite Hh1. cbn. split; [done|].
  unfold navigateUp, aw_catch. cbn [currentPath set_isLoading set_fileList set_currentPath set_error].
  destruct (String.eqb_spec (d +:+ "/" +:+ n +:+ "/") (documentDirectory env)) as [E|_]; [done|].
  rewrite up_path_name by done.
  destruct (hook_listFiles_dir env w1 (d +:+ "/") o2) as (L2 & w2 & o2' & Hl2 & Hh2 & _).
  { rewrite normalized_slash by apply Js.endsWith_snoc. rewrite canon_snoc, Hn1. exact Hd. }
  rewrite (bind_step _ _ _ _ _ _ _ Hl2). cbn. rewrite Hh2, Hh1, Hc. cbn.
  rewrite normalized_slash by apply Js.endsWith_snoc. done.
Qed.

(** C27: A [navigateTo] whose target does not exist still pushes the
    directory it left on the history: [listFiles] catches the failure,
    so the path and the listing stay while the history grows and the
    error is recorded. *)
Theorem navigateTo_failed_records_history (env : NEnv) w p o :
  nodes (fs w) !! canon (normalized p) = None ->
  let w' := after (navigateTo env (hook w) p) w (Fulfilled :: o) in
  currentPath (hook w') = currentPath (hook w) /\
  pathHistory (hook w') = pathHistory (hook w) ++ [currentPath (hook w)] /\
  error (hook w') = Some ("Failed to list files: Path does not exist: " +:+ normalized p).
Proof.
  intros Hd. unfold after, navigateTo, aw_catch. erewrite bind_step by reflexivity.
  destruct (listFiles_missing env (with_hook w (set_pathHistory (pathHistory (hook w) ++ [currentPath (hook w)]) (hook w))) p o)
    as (w1 & Hl & Hh & _); [exact Hd|].
  rewrite (bind_step _ _ _ _ _ _ _ Hl). cbn. by rewrite Hh.
Qed.

(** C29: With the media permission granted, [saveToMediaLibrary] adds
    the file to the library and to the named album, whether the album
    existed (it is extended) or not (it is created with the file). *)
Theorem saveToMediaLibrary_in_album (env : NEnv) w uri name o :
  media_status (fenv env) = "granted" -> name <> EmptyString ->
  let w' := after (saveToMediaLibrary env uri (Some name)) w (Fulfilled :: Fulfilled :: Fulfilled :: Fulfilled :: o) in
  albums w' !! name = Some (default [] (albums w !! name) ++ [uri]) /\ assets (fs w') = assets (fs w) ++ [uri].
Proof.
  intros Hs Hn. unfold after, saveToMediaLibrary, aw_catch. rewrite Hs.
  rewrite (truthy_Some name Hn). cbn -[hlog].
  destruct (albums w !! name) as [l|] eqn:Ha; cbn -[hlog];
  match goal with |- context [hlog env ?f ?m ?w4 ?o4] =>
    destruct (hlog_frame env f m w4 o4) as (w5 & -> & _ & Hal & _ & Has) end; cbn;
  rewrite Hal, Has; cbn; by rewrite lookup_insert_eq.
Qed.

Ltac native_keeps :=
  repeat match goal with
  | |- keeps _ (aw_bind _ _) => apply keeps_bind; [|intros ?]
  | |- keeps _ (aw_catch _ _) => apply keeps_catch; [|intros ?]
  | |- keeps _ (aw_finally _ _) => apply keeps_finally
  | |- keeps _ (if _ then _ else _) => apply keeps_if
  | |- keeps _ (map_all _ _) => apply keeps_map_all; intros ?
  | |- keeps _ (aw_ret _) => apply keeps_ret
  | |- keeps _ aw_get => apply keeps_get
  | |- keeps _ (aw_throw _) => apply keeps_throw
  | |- keeps _ (lift _) => apply keeps_hlift; intros ???; assumption
  | |- keeps _ (set_hook _) => apply keeps_set_hook; intros ??; assumption
  | |- keeps _ (aw_await _) => apply keeps_await; intros ??; assumption
  | |- keeps _ (hlog _ _ _) => unfold hlog
  | |- keeps _ (listFiles _ _) => unfold listFiles
  | |- keeps _ (file_detail _ _) => unfold file_detail
  | |- keeps _ (match _ with _ => _ end) => case_match
  | |- keeps _ _ => progress cbv zeta
  end.

Lemma keeps_native_run_op (env : NEnv) s op x : keeps (fun w => native_of w = x) (run_op env s op).
Proof.
  destruct op; cbn [run_op];
    unfold listFiles, navigateTo, navigateUp, navigateBack, readFile, createFile, createTempFile, downloadFile,
      saveToMediaLibrary, listSystemFiles, checkExternalStorage, getMediaFiles, media_query, file_detail, hlog;
    native_keeps.
Qed.


Lemma mounted_refused (env : NEnv) h o :
  is_android env = false \/ storage_permission env = false -> native_of (mounted env h o) = (false, None).
Proof.
  intros Hc. unfold mounted, after, initializeNative, aw_catch.
  destruct (is_android env) eqn:Ea; [|done].
  destruct Hc as [Hc|Hc]; [congruence|]. rewrite Hc.
  destruct o as [|[|r] o]; cbn -[hlog];
  match goal with |- context [hlog env ?f ?m ?w4 ?o4] =>
    destruct (hlog_frame env f m w4 o4) as (w5 & -> & Hh & _) end; cbn; unfold native_of; by rewrite Hh.
Qed.

(** C26: On a device that is not Android or refuses the storage
    permission, no state reachable from the mount has native access or
    system directories, and [listSystemFiles] there resolves [[]] with
    its error without awaiting the native module. *)
Theorem refused_storage_no_native (env : NEnv) h o w dirType o' :
  is_android env = false \/ storage_permission env = false ->
  rtc (hstep env) (mounted env h o) w ->
  hasNativeAccess (hook w) = false /\ systemDirectories (hook w) = None /\
  exists w', listSystemFiles env (hook w) dirType w o' = (Normal [], w', o') /\
    error (hook w') = Some "Failed to list system files: Native file system access not available".
Proof.
  intros Hc Hr.
  assert (Hn : native_of w = (false, None)).
  { revert w Hr. apply rtc_ind_r; [by apply mounted_refused|].
    intros w1 w2 _ Hs IH. destruct Hs as [w1 op o1]. exact (keeps_native_run_op env (hook w1) op _ w1 o1 IH). }
  injection Hn as Ha Hd. split; [done|]. split; [done|].
  unfold listSystemFiles, aw_finally, aw_catch. rewrite Ha. cbn -[hlog].
  match goal with |- context [hlog env ?f ?m ?w4 ?o4] =>
    destruct (hlog_frame env f m w4 o4) as (w5 & -> & Hh & _) end.
  cbn. eexists. split; [reflexivity|]. reflexivity.
Qed.

(** C28: Each of the three listing operations of the hook completes
    normally whatever the storage, the native module and the media
    library answer, and leaves [isLoading] false: their [catch] only
    logs and records the error, and their [finally] lowers the flag. *)
Theorem listing_settles env s p dirType mediaType limit :
  (no_throw (listFiles env p) /\ ensures loaded (listFiles env p)) /\
  (no_throw (listSystemFiles env s dirType) /\ ensures loaded (listSystemFiles env s dirType)) /\
  (no_throw (getMediaFiles env s mediaType limit) /\ ensures loaded (getMediaFiles env s mediaType limit)).
Proof.
  unfold listFiles, listSystemFiles, getMediaFiles.
  repeat split; try (auto 10 with tah);
    (apply ensures_bind_r; [auto with tah|intros ?]); (apply ensures_bind_r; [auto with tah|intros ?]);
    apply ensures_loaded.
Qed.

(** ** Witnesses *)

(** A phone that is not Android, with [file:///data/docs] on disk. *)
Definition nav_env : NEnv :=
  mkNEnv demo_fenv "file:///data/" false false (<["dcim" := "/storage/emulated/0/DCIM"]> ∅) (fun _ => []) true []
    (fun _ => "").

Definition nav_world : HWorld :=
  mkHWorld (with_nodes demo_disk (<["file:///data/docs" := DirNode]> (nodes demo_disk))) ∅ (initial_state nav_env).

Lemma navigateUp_navigateTo_witness :
  currentPath (hook nav_world) = "file:///data" +:+ "/" /\ "docs" <> EmptyString /\ Js.includes slash "docs" = false /\
  "file:///data" +:+ "/" +:+ "docs" +:+ "/" <> documentDirectory nav_env /\
  nodes (fs nav_world) !! "file:///data" = Some DirNode /\
  nodes (fs nav_world) !! ("file:///data" +:+ "/" +:+ "docs") = Some DirNode /\
  (let w1 := after (navigateTo nav_env (hook nav_world) ("file:///data" +:+ "/" +:+ "docs")) nav_world [Fulfilled; Fulfilled] in
   let w2 := after (navigateUp nav_env (hook w1)) w1 [Fulfilled; Fulfilled] in
   currentPath (hook w1) = "file:///data" +:+ "/" +:+ "docs" +:+ "/" /\ currentPath (hook w2) = "file:///data" +:+ "/" /\
   pathHistory (hook w2) = pathHistory (hook nav_world) ++ ["file:///data" +:+ "/"]).
Proof.
  assert (H1 : currentPath (hook nav_world) = "file:///data" +:+ "/") by reflexivity.
  assert (H2 : "docs" <> EmptyString) by discriminate.
  assert (H3 : Js.includes slash "docs" = false) by reflexivity.
  assert (H4 : "file:///data" +:+ "/" +:+ "docs" +:+ "/" <> documentDirectory nav_env)
    by (apply String.eqb_neq; vm_compute; reflexivity).
  assert (H5 : nodes (fs nav_world) !! "file:///data" = Some DirNode) by (vm_compute; reflexivity).
  assert (H6 : nodes (fs nav_world) !! ("file:///data" +:+ "/" +:+ "docs") = Some DirNode) by (vm_compute; reflexivity).
  exact (conj H1 (conj H2 (conj H3 (conj H4 (conj H5 (conj H6
           (navigateUp_navigateTo nav_env nav_world "file:///data" "docs" [] [] H1 H2 H3 H4 H5 H6))))))).
Defined.

Lemma navigateTo_failed_records_history_witness :
  nodes (fs nav_world) !! canon (normalized "file:///data/missing") = None /\
  (let w' := after (navigateTo nav_env (hook nav_world) "file:///data/missing") nav_world [Fulfilled] in
   currentPath (hook w') = currentPath (hook nav_world) /\
   pathHistory (hook w') = pathHistory (hook nav_world) ++ [currentPath (hook nav_world)] /\
   error (hook w') = Some ("Failed to list files: Path does not exist: " +:+ normalized "file:///data/missing")).
Proof.
  assert (H : nodes (fs nav_world) !! canon (normalized "file:///data/missing") = None) by (vm_compute; reflexivity).
  exact (conj H (navigateTo_failed_records_history nav_env nav_world "file:///data/missing" [] H)).
Defined.

Lemma saveToMediaLibrary_in_album_witness :
  media_status (fenv nav_env) = "granted" /\ "Camera" <> EmptyString /\
  (let w' := after (saveToMediaLibrary nav_env "file:///cache/shot.png" (Some "Camera")) nav_world
               [Fulfilled; Fulfilled; Fulfilled; Fulfilled] in
   albums w' !! "Camera" = Some (default [] (albums nav_world !! "Camera") ++ ["file:///cache/shot.png"]) /\
   assets (fs w') = assets (fs nav_world) ++ ["file:///cache/shot.png"]).
Proof.
  assert (H1 : media_status (fenv nav_env) = "granted") by reflexivity.
  assert (H2 : "Camera" <> EmptyString) by discriminate.
  exact (conj H1 (conj H2 (saveToMediaLibrary_in_album nav_env nav_world "file:///cache/shot.png" "Camera" [] H1 H2))).
Defined.

Lemma refused_storage_no_native_witness :
  (is_android nav_env = false \/ storage_permission nav_env = false) /\
  rtc (hstep nav_env) (mounted nav_env demo_disk []) (mounted nav_env demo_disk []) /\
  (hasNativeAccess (hook (mounted nav_env demo_disk [])) = false /\
   systemDirectories (hook (mounted nav_env demo_disk [])) = None /\
   exists w', listSystemFiles nav_env (hook (mounted nav_env demo_disk [])) "dcim" (mounted nav_env demo_disk []) [] =
                (Normal [], w', []) /\
     error (hook w') = Some "Failed to list system files: Native file system access not available").
Proof.
  assert (H1 : is_android nav_env = false \/ storage_permission nav_env = false) by (left; reflexivity).
  assert (H2 : rtc (hstep nav_env) (mounted nav_env demo_disk []) (mounted nav_env demo_disk [])) by apply rtc_refl.
  exact (conj H1 (conj H2 (refused_storage_no_native nav_env demo_disk [] _ "dcim" [] H1 H2))).
Defined.

End FsHook.
