(* ===== verification/NativeSms.v ===== *)
(** * The SMS module and the SMS service

    [src/src/native-modules/NativeSmsAccess.js] (Module [NativeSms]):
    [initializeNativeSmsAccess], [requestSmsPermission],
    [getSmsMessages], [getSmsThreads] and [getThreadMessages].  No native
    bridge exists: on Android the module makes its answers up, with
    [Math.random] for the directions, the times, the senders and the read
    flags; elsewhere it answers [false] or [[]].  The SMS service of
    [src/unnamed/part_005] (Module [SmsService]): [isSmsAvailable], the
    placeholder [getSmsMessages] and [generateMockSmsData].

    The heap is the application [Logger] with its events and the number
    of [Math.random()] values drawn so far; [random k] is the [k]-th
    value as a multiple of [2^-53] (taken modulo [2^53], so every stream
    is one [Math.random] can produce), and the arithmetic on it is exact.
    [new Date().getTime()] is the constant [now] of one call, and
    [toISOString] a parameter.

    The theorems hold for every random stream: the messages
    [getSmsMessages] returns number at most [maxCount], pass every filter
    of the options and are sorted newest first; a thread of [n]
    generated messages has exactly [n - 4] read ones (the last four lie
    within a day); every thread reports between 5 and 54 messages.  The
    service's [getSmsMessages] never returns a message.  The products
    with [Math.random()] are exact here, where JavaScript rounds them to
    doubles (for one draw in [2^53], [Math.floor(r * 3)] differs). *)

From S2P Require Import Prelude JsString Await Logger.

Module NativeSms.

(** A message of [getSmsMessages] or [getThreadMessages] (lines 80-88,
    213-221). *)
Record SmsMessage := mkSms {
  sm_id : string;
  sm_address : string;
  sm_timestamp : Z;
  sm_date : string;
  sm_body : string;
  sm_read : bool;
  sm_type : string
}.

(** A thread of [getSmsThreads] (lines 167-174). *)
Record SmsThread := mkThread {
  th_id : string;
  th_messageCount : Z;
  th_snippet : string;
  th_timestamp : Z;
  th_date : string;
  th_addresses : list string
}.

(** The [options] of [getSmsMessages]: [None] is [undefined]. *)
Record SmsOptions := mkOptions {
  maxCount : option Z;
  includeInbox : option bool;
  includeSent : option bool;
  afterDate : option Z;                 (** a timestamp, as [new Date(afterDate)] reads it *)
  phoneFilter : option string
}.

Record SmsEnv := mkSmsEnv {
  is_android : bool;                    (** [Platform.OS === 'android'] *)
  sms_available : bool;                 (** [SMS.isAvailableAsync()] *)
  now : Z;                              (** [new Date().getTime()] *)
  toISOString : Z -> string;
  random : nat -> Z;                    (** the values of [Math.random()], in units of [2^-53] *)
  clock : Z                             (** [Date.now()] of the log entries *)
}.

Record NHeap := mkNHeap {
  nlg : Logger.Logger;
  nlg_events : list Logger.log_event;
  draws : nat
}.

Abbreviation nio := (aw NHeap).

(** [1] in units of [2^-53]. *)
Definition RAND_ONE : Z := 2 ^ 53.

Definition phoneNumbers : list string := ["+1234567890"; "+1987654321"; "+12223334444"].

(** [date.toISOString().replace('T', ' ').substr(0, 19)]. *)
Definition sql_date (iso : string) : string := String.substring 0 19 (Js.replace1 "T" " " iso).

Definition js_bool (b : bool) : string := if b then "true" else "false".

(** Newest first: [(a, b) => b.timestamp - a.timestamp]. *)
Definition newest_first (a b : SmsMessage) : Z := sm_timestamp b - sm_timestamp a.

Section Module.
Context (env : SmsEnv).

Definition nlog (shorthand : Logger.Logger -> Z -> string -> Logger.Logger * list Logger.log_event * Logger.LogEntry)
    (message : string) : nio unit :=
  aw_modify (fun h => let '(lg', evs, _) := shorthand (nlg h) (clock env) message in
                      mkNHeap lg' (nlg_events h ++ evs) (draws h)).

(** [Math.random()]. *)
Definition math_random : nio Z :=
  fun h o => (Normal (random env (draws h) mod RAND_ONE)%Z, mkNHeap (nlg h) (nlg_events h) (S (draws h)), o).

(** [initializeNativeSmsAccess()] (lines 16-39). *)
Definition initializeNativeSmsAccess : nio bool :=
  if negb (is_android env) then
    nlog Logger.warning "Native SMS access is only available on Android" ;! aw_ret false
  else
    nlog Logger.info "Initializing native SMS access" ;!
    aw_catch
      (aw_await id ;!
       if negb (sms_available env) then
         nlog Logger.warning "SMS functionality is not available on this device" ;! aw_ret false
       else aw_ret true)
      (fun e => nlog Logger.error ("Failed to initialize native SMS access: " +:+ e) ;! aw_ret false).

(** [requestSmsPermission()] (lines 45-61): simulated. *)
Definition requestSmsPermission : nio bool :=
  if negb (is_android env) then aw_ret false
  else nlog Logger.info "SMS permission requested (simulated)" ;! aw_ret true.

(** The loop of [generateSampleSmsData] from [i], [fuel] more times
    (lines 75-89). *)
Fixpoint sample_from (i : nat) (fuel : nat) : nio (list SmsMessage) :=
  match fuel with
  | O => aw_ret []
  | S f =>
      let! r1 := math_random in
      let isInbox := (2 ^ 52 <? r1)%Z in
      let! r2 := math_random in
      let timestamp := (now env - (r2 * 604800000) / RAND_ONE)%Z in
      let! r3 := math_random in
      let address := nth (Z.to_nat ((r3 * 3) / RAND_ONE)) phoneNumbers "" in
      let! r4 := math_random in
      let m := mkSms (pretty (Z.of_nat i + 1)%Z) address timestamp (sql_date (toISOString env timestamp))
                 ("This is a sample " +:+ (if isInbox then "received" else "sent") +:+ " message #" +:+
                  pretty (Z.of_nat i + 1)%Z +:+
                  ". It simulates what would be returned by the native module in a real implementation.")
                 (3 * RAND_ONE <? 10 * r4)%Z (if isInbox then "inbox" else "sent") in
      let! rest := sample_from (S i) f in
      aw_ret (m :: rest)
  end.

(** [generateSampleSmsData(count)] (lines 70-93). *)
Definition generateSampleSmsData (count : Z) : nio (list SmsMessage) :=
  let! messages := sample_from 0 (Z.to_nat count) in
  aw_ret (sort_by newest_first messages).

(** The filters of lines 121-136. *)
Definition apply_filters (incInbox incSent : bool) (after : option Z) (phone : option string)
    (messages : list SmsMessage) : list SmsMessage :=
  let messages := if negb incInbox then List.filter (fun m => negb (String.eqb (sm_type m) "inbox")) messages
                  else messages in
  let messages := if negb incSent then List.filter (fun m => negb (String.eqb (sm_type m) "sent")) messages
                  else messages in
  let messages := match after with
                  | Some t => if negb (t =? 0)%Z then List.filter (fun m => (t <? sm_timestamp m)%Z) messages
                              else messages
                  | None => messages
                  end in
  if truthy phone then List.filter (fun m => String.eqb (sm_address m) (default "" phone)) messages
  else messages.

(** [getSmsMessages(options = {})] (lines 100-144). *)
Definition getSmsMessages (options : SmsOptions) : nio (list SmsMessage) :=
  if negb (is_android env) then aw_ret []
  else
    aw_catch
      (let mc := default 100%Z (maxCount options) in
       let incInbox := default true (includeInbox options) in
       let incSent := default true (includeSent options) in
       nlog Logger.info ("Getting SMS messages (maxCount: " +:+ pretty mc +:+ ", includeInbox: " +:+
                         js_bool incInbox +:+ ", includeSent: " +:+ js_bool incSent +:+ ")") ;!
       let! messages := generateSampleSmsData mc in
       let messages := apply_filters incInbox incSent (afterDate options) (phoneFilter options) messages in
       nlog Logger.success ("Retrieved " +:+ pretty (List.length messages) +:+ " SMS messages") ;!
       aw_ret messages)
      (fun e => nlog Logger.error ("Failed to get SMS messages: " +:+ e) ;! aw_ret []).

(** The callback of [phoneNumbers.map] (lines 163-175). *)
Fixpoint threads_from (index : nat) (numbers : list string) : nio (list SmsThread) :=
  match numbers with
  | [] => aw_ret []
  | phoneNumber :: rest =>
      let! r1 := math_random in
      let timestamp := (now env - (r1 * 604800000) / RAND_ONE)%Z in
      let! r2 := math_random in
      let t := mkThread (pretty (Z.of_nat index + 1)%Z) ((r2 * 50) / RAND_ONE + 5)%Z
                 ("Latest message in this conversation #" +:+ pretty (Z.of_nat index + 1)%Z)
                 timestamp (sql_date (toISOString env timestamp)) [phoneNumber] in
      let! ts := threads_from (S index) rest in
      aw_ret (t :: ts)
  end.

(** [getSmsThreads()] (lines 150-186). *)
Definition getSmsThreads : nio (list SmsThread) :=
  if negb (is_android env) then aw_ret []
  else
    aw_catch
      (nlog Logger.info "Getting SMS threads" ;!
       let! threads := threads_from 0 phoneNumbers in
       let sortedThreads := sort_by (fun a b => th_timestamp b - th_timestamp a)%Z threads in
       nlog Logger.success ("Retrieved " +:+ pretty (List.length sortedThreads) +:+ " SMS threads") ;!
       aw_ret sortedThreads)
      (fun e => nlog Logger.error ("Failed to get SMS threads: " +:+ e) ;! aw_ret []).

(** The [i]-th message of a thread (lines 209-221). *)
Definition thread_message (threadId phoneNumber : string) (count : Z) (i : nat) : SmsMessage :=
  let isInbox := Nat.eqb (i mod 2) 0 in
  let timestamp := (now env - (count - Z.of_nat i) * 21600000)%Z in
  mkSms (threadId +:+ "_" +:+ pretty (Z.of_nat i + 1)%Z) phoneNumber timestamp (sql_date (toISOString env timestamp))
    ((if isInbox then "Received" else "Sent") +:+ " message #" +:+ pretty (Z.of_nat i + 1)%Z +:+ " in thread " +:+
     threadId +:+ ".")
    (timestamp <? now env - 86400000)%Z (if isInbox then "inbox" else "sent").

(** [getThreadMessages(threadId, maxCount = 50)] (lines 194-233). *)
Definition getThreadMessages (threadId : string) (count : Z) : nio (list SmsMessage) :=
  if negb (is_android env) then aw_ret []
  else
    aw_catch
      (nlog Logger.info ("Getting messages for thread " +:+ threadId +:+ " (maxCount: " +:+ pretty count +:+ ")") ;!
       let phoneNumber := "+1" +:+ Js.padStart 10 "0" threadId in
       let messages := map (thread_message threadId phoneNumber count) (seq 0 (Z.to_nat count)) in
       let sortedMessages := sort_by newest_first messages in
       nlog Logger.success ("Retrieved " +:+ pretty (List.length sortedMessages) +:+ " messages for thread " +:+
                            threadId) ;!
       aw_ret sortedMessages)
      (fun e => nlog Logger.error ("Failed to get thread messages: " +:+ e) ;! aw_ret []).

End Module.
(** ** Running the generators *)

(** Newest first, as the comparator [b.timestamp - a.timestamp] sorts. *)
Definition newest_sorted : list SmsMessage -> Prop := StronglySorted (fun a b => sm_timestamp b <= sm_timestamp a)%Z.

(** Logging and drawing a random number complete normally without
    touching the settlement oracle. *)
Lemma nlog_run env f m h o : exists h', nlog env f m h o = (Normal tt, h', o).
Proof. unfold nlog. cbn. destruct (f _ _ _) as [[? ?] ?]. by eexists. Qed.

Lemma math_random_range env h o : exists r h', math_random env h o = (Normal r, h', o) /\ (0 <= r < RAND_ONE)%Z.
Proof. unfold math_random. do 2 eexists. split; [reflexivity|]. apply Z.mod_pos_bound. done. Qed.

Ltac step_random :=
  match goal with |- context [aw_bind (math_random ?env) _ ?h ?o] =>
    let r := fresh "r" in let h1 := fresh "h" in let Hr := fresh "Hr" in let Hb := fresh "Hb" in
    destruct (math_random_range env h o) as (r & h1 & Hr & Hb); rewrite (bind_step _ _ _ _ _ _ _ Hr) end.

Lemma sample_from_run env i n h o :
  exists ms h', sample_from env i n h o = (Normal ms, h', o) /\ List.length ms = n.
Proof.
  revert i h. induction n as [|n IH]; intros i h; [by do 2 eexists|]. cbn [sample_from].
  do 4 step_random.
  match goal with |- context [aw_bind (sample_from env (S i) n) _ ?h ?o] =>
    destruct (IH (S i) h) as (ms & h' & Hs & Hl); rewrite (bind_step _ _ _ _ _ _ _ Hs) end.
  cbn. do 2 eexists. split; [reflexivity|]. simpl. by rewrite Hl.
Qed.

Ltac step_nlog :=
  match goal with |- context [aw_bind (nlog ?e ?f ?m) _ ?h ?o] =>
    let h1 := fresh "h" in let Hn := fresh "Hn" in
    destruct (nlog_run e f m h o) as (h1 & Hn); rewrite (bind_step _ _ _ _ _ _ _ Hn) end.

Lemma apply_filters_In ib sb a ph l m :
  In m (apply_filters ib sb a ph l) <->
  In m l /\ (ib = false -> String.eqb (sm_type m) "inbox" = false) /\
  (sb = false -> String.eqb (sm_type m) "sent" = false) /\
  (forall t, a = Some t -> t <> 0%Z -> (t < sm_timestamp m)%Z) /\
  (truthy ph = true -> String.eqb (sm_address m) (default "" ph) = true).
Proof.
  unfold apply_filters.
  destruct ib, sb; destruct a as [t|]; try destruct (Z.eqb_spec t 0); destruct (truthy ph); simpl;
    rewrite ?filter_In, ?negb_true_iff, ?Z.ltb_lt; naive_solver.
Qed.

Lemma apply_filters_sorted (R : SmsMessage -> SmsMessage -> Prop) ib sb a ph l :
  StronglySorted R l -> StronglySorted R (apply_filters ib sb a ph l) /\ List.length (apply_filters ib sb a ph l) <= List.length l.
Proof.
  unfold apply_filters. intros Hl.
  destruct ib, sb; destruct a as [t|]; try destruct (t =? 0)%Z; destruct (truthy ph); simpl;
    repeat (apply StronglySorted_filter || (etransitivity; [apply filter_length_le|])); split;
    repeat (apply StronglySorted_filter); try done;
    repeat (etransitivity; [apply filter_length_le|]); lia.
Qed.


Lemma sort_newest_sorted l : newest_sorted (sort_by newest_first l).
Proof.
  apply sort_by_sorted; [intros x y z; lia|..]; unfold newest_first; intros a b; lia.
Qed.

(** C33: On Android, [getSmsMessages(options)] completes normally for every
    random stream, and the messages it returns number at most [maxCount]
    (default 100), are sorted newest first, and pass every filter of the
    options: no inbox message when [includeInbox] is [false], no sent one
    when [includeSent] is [false], only messages after a non-zero
    [afterDate], and only messages of a non-empty [phoneNumber]. *)
Theorem getSmsMessages_filtered env opts h o :
  is_android env = true ->
  exists ms h', getSmsMessages env opts h o = (Normal ms, h', o) /\
    List.length ms <= Z.to_nat (default 100%Z (maxCount opts)) /\ newest_sorted ms /\
    Forall (fun m => (includeInbox opts = Some false -> sm_type m <> "inbox") /\
                     (includeSent opts = Some false -> sm_type m <> "sent") /\
                     (forall t, afterDate opts = Some t -> t <> 0%Z -> (t < sm_timestamp m)%Z) /\
                     (forall p, phoneFilter opts = Some p -> p <> "" -> sm_address m = p)) ms.
Proof.
  intros Ha. unfold getSmsMessages. rewrite Ha. cbn [negb]. unfold aw_catch. cbv zeta.
  step_nlog. unfold generateSampleSmsData.
  match goal with |- context [aw_bind (aw_bind (sample_from _ 0 ?n) _) _ ?h ?o] =>
    destruct (sample_from_run env 0 n h o) as (ms & h2 & Hs & Hlen) end.
  rewrite aw_bind_assoc, (bind_step _ _ _ _ _ _ _ Hs), aw_bind_ret_l. step_nlog. cbn.
  set (l := sort_by newest_first ms).
  destruct (apply_filters_sorted _ (default true (includeInbox opts)) (default true (includeSent opts))
              (afterDate opts) (phoneFilter opts) l (sort_newest_sorted ms)) as [Hsort Hle].
  do 2 eexists. split; [reflexivity|]. split; [|split; [exact Hsort|]].
  - rewrite Hle. unfold l. rewrite sort_by_perm. lia.
  - apply Forall_forall. intros m Hm%list_elem_of_In. apply apply_filters_In in Hm as (_ & H1 & H2 & H3 & H4).
    repeat split.
    + intros Hi E. rewrite Hi in H1. simpl in H1. rewrite E in H1. by specialize (H1 eq_refl).
    + intros Hi E. rewrite Hi in H2. simpl in H2. rewrite E in H2. by specialize (H2 eq_refl).
    + exact H3.
    + intros p Hp Hne. rewrite Hp in H4. simpl in H4. apply String.eqb_eq, H4, truthy_Some, Hne.
Qed.

Lemma thread_read_iff env tid ph n i :
  (0 <= n)%Z -> sm_read (thread_message env tid ph n i) = Nat.ltb i (Z.to_nat n - 4).
Proof.
  intros Hn. unfold thread_message. simpl.
  destruct (Z.ltb_spec (now env - (n - Z.of_nat i) * 21600000) (now env - 86400000));
    destruct (Nat.ltb_spec i (Z.to_nat n - 4)); try done; lia.
Qed.

(** On Android, [getThreadMessages(threadId, n)] completes normally
    with exactly [n] messages, all addressed to the padded number of the
    thread, of which exactly [n - 4] are read: only the last four lie
    within the day before [now]. *)
Theorem thread_read_count env tid n h o :
  is_android env = true ->
  exists ms h', getThreadMessages env tid n h o = (Normal ms, h', o) /\
    List.length ms = Z.to_nat n /\ List.length (List.filter sm_read ms) = Z.to_nat n - 4 /\
    Forall (fun m => sm_address m = "+1" +:+ Js.padStart 10 "0" tid) ms.
Proof.
  intros Ha. unfold getThreadMessages. rewrite Ha. cbn [negb]. unfold aw_catch. cbv zeta.
  step_nlog. step_nlog. cbn.
  set (l := map (thread_message env tid _ n) (seq 0 (Z.to_nat n))).
  do 2 eexists. split; [reflexivity|].
  pose proof (sort_by_perm newest_first l) as Hp.
  split; [|split].
  - rewrite Hp. unfold l. by rewrite length_map, length_seq.
  - rewrite (Permutation_length (filter_perm sm_read _ _ Hp)). unfold l. rewrite filter_map_length.
    destruct (Z.le_gt_cases 0 n) as [Hle|Hgt].
    + rewrite (List.filter_ext _ (fun i => Nat.ltb i (Z.to_nat n - 4))) by (intros; by apply thread_read_iff).
      rewrite filter_lt_seq. lia.
    + replace (Z.to_nat n) with 0 by lia. done.
  - apply (Permutation_Forall (Permutation_sym Hp)). unfold l. apply Forall_map, Forall_forall. done.
Qed.

Fixpoint threads_from_run env i nums h o :
  exists ts h', threads_from env i nums h o = (Normal ts, h', o) /\ List.length ts = List.length nums /\
    Forall (fun t => (5 <= th_messageCount t <= 54)%Z) ts.
Proof.
  destruct nums as [|p nums]; [do 2 eexists; split; [reflexivity|by split]|]. cbn [threads_from].
  step_random. step_random.
  destruct (threads_from_run env (S i) nums h1 o) as (ts & h' & Hs & Hl & Hf).
  rewrite (bind_step _ _ _ _ _ _ _ Hs). cbn. do 2 eexists. split; [reflexivity|]. split; [simpl; lia|].
  constructor; [|exact Hf]. simpl. unfold RAND_ONE in *.
  assert (0 <= (r0 * 50) / 2 ^ 53)%Z by (apply Z.div_pos; lia).
  assert ((r0 * 50) / 2 ^ 53 < 50)%Z by (apply Z.div_lt_upper_bound; lia). lia.
Qed.

(** On Android, [getSmsThreads()] completes normally for every random
    stream with the three sample threads, sorted newest first, each
    reporting between 5 and 54 messages. *)
Theorem getSmsThreads_bounded env h o :
  is_android env = true ->
  exists ts h', getSmsThreads env h o = (Normal ts, h', o) /\ List.length ts = 3 /\
    StronglySorted (fun a b => th_timestamp b <= th_timestamp a)%Z ts /\
    Forall (fun t => (5 <= th_messageCount t <= 54)%Z) ts.
Proof.
  intros Ha. unfold getSmsThreads. rewrite Ha. cbn [negb]. unfold aw_catch. cbv zeta.
  step_nlog.
  match goal with |- context [aw_bind (threads_from _ 0 ?nums) _ ?h ?o] =>
    destruct (threads_from_run env 0 nums h o) as (ts & h2 & Hs & Hl & Hf) end.
  rewrite (bind_step _ _ _ _ _ _ _ Hs). step_nlog. cbn.
  do 2 eexists. split; [reflexivity|].
  pose proof (sort_by_perm (fun a b => th_timestamp b - th_timestamp a)%Z ts) as Hp.
  split; [|split].
  - rewrite Hp, Hl. reflexivity.
  - apply sort_by_sorted; [intros x y z; lia|..]; intros a b; lia.
  - exact (Permutation_Forall (Permutation_sym Hp) Hf).
Qed.

(** ** Witnesses *)

(** An Android phone whose [Math.random()] draws [k * 2^-53] at the
    [k]-th call. *)
Definition sms_env : SmsEnv := mkSmsEnv true true 1700000000000%Z (fun _ => "") (fun k => Z.of_nat k) 0%Z.

Definition sms_heap : NHeap := mkNHeap Logger.new_Logger [] 0.

Definition sms_options : SmsOptions := mkOptions (Some 20%Z) (Some false) None (Some 1699000000000%Z) None.

Lemma getSmsMessages_filtered_witness :
  is_android sms_env = true /\
  exists ms h', getSmsMessages sms_env sms_options sms_heap [] = (Normal ms, h', []) /\
    List.length ms <= Z.to_nat (default 100%Z (maxCount sms_options)) /\ newest_sorted ms /\
    Forall (fun m => (includeInbox sms_options = Some false -> sm_type m <> "inbox") /\
                     (includeSent sms_options = Some false -> sm_type m <> "sent") /\
                     (forall t, afterDate sms_options = Some t -> t <> 0%Z -> (t < sm_timestamp m)%Z) /\
                     (forall p, phoneFilter sms_options = Some p -> p <> "" -> sm_address m = p)) ms.
Proof.
  assert (H : is_android sms_env = true) by reflexivity.
  exact (conj H (getSmsMessages_filtered sms_env sms_options sms_heap [] H)).
Defined.

Lemma thread_read_count_witness :
  is_android sms_env = true /\
  exists ms h', getThreadMessages sms_env "42" 10 sms_heap [] = (Normal ms, h', []) /\
    List.length ms = Z.to_nat 10 /\ List.length (List.filter sm_read ms) = Z.to_nat 10 - 4 /\
    Forall (fun m => sm_address m = "+1" +:+ Js.padStart 10 "0" "42") ms.
Proof.
  assert (H : is_android sms_env = true) by reflexivity.
  exact (conj H (thread_read_count sms_env "42" 10 sms_heap [] H)).
Defined.

Lemma getSmsThreads_bounded_witness :
  is_android sms_env = true /\
  exists ts h', getSmsThreads sms_env sms_heap [] = (Normal ts, h', []) /\ List.length ts = 3 /\
    StronglySorted (fun a b => th_timestamp b <= th_timestamp a)%Z ts /\
    Forall (fun t => (5 <= th_messageCount t <= 54)%Z) ts.
Proof.
  assert (H : is_android sms_env = true) by reflexivity.
  exact (conj H (getSmsThreads_bounded sms_env sms_heap [] H)).
Defined.

End NativeSms.

Module SmsService.
Import NativeSms.

(** A message of [generateMockSmsData] (lines 144-150). *)
Record MockSms := mkMock {
  mk_id : string;
  mk_address : string;
  mk_body : string;
  mk_date_sent : Z;
  mk_type : Z                           (** 1 = inbox, 2 = sent *)
}.

Definition mockSenders : list string := ["+1234567890"; "+9876543210"; "+1122334455"].
Definition mockTypes : list Z := [1; 2]%Z.

Section Service.
Context (env : SmsEnv).

(** [isSmsAvailable()] (lines 12-19). *)
Definition isSmsAvailable : nio bool :=
  aw_catch (aw_await id ;! aw_ret (sms_available env))
           (fun e => nlog env Logger.error ("SMS availability check error: " +:+ e) ;! aw_ret false).

(** [getSmsMessages(options = {})] (lines 26-54): a placeholder. *)
Definition getSmsMessages : nio (list SmsMessage) :=
  aw_catch
    (let! isAvailable := isSmsAvailable in
     if negb isAvailable then aw_throw "SMS functionality not available on this device"
     else
       nlog env Logger.warning "SMS reading not available in Expo. This is a mock implementation." ;!
       aw_ret [])
    (fun e => nlog env Logger.error ("Failed to get SMS messages: " +:+ e) ;! aw_throw e).

(** [generateMockSmsData(count = 10)] (lines 136-154), at [Date.now()]. *)
Definition mock_message (i : nat) : MockSms :=
  mkMock (pretty (Z.of_nat i)) (nth (i mod 3) mockSenders "")
    ("This is a sample message #" +:+ pretty (Z.of_nat i + 1)%Z +:+ " for testing purposes.")
    (clock env - Z.of_nat i * 3600000)%Z (nth (i mod 2) mockTypes 0%Z).

Definition generateMockSmsData (count : Z) : list MockSms := map mock_message (seq 0 (Z.to_nat count)).

End Service.

(** The service's [getSmsMessages] never returns a message: it
    completes with [[]] only when [SMS.isAvailableAsync()] says yes, and
    otherwise (a [false] answer or a rejected availability check) rethrows
    "SMS functionality not available on this device". *)
Theorem service_getSmsMessages_placeholder env h o :
  match (SmsService.getSmsMessages env h o).1.1 with
  | Normal ms => ms = [] /\ sms_available env = true
  | Abrupt r => r = "SMS functionality not available on this device"
  end.
Proof.
  unfold SmsService.getSmsMessages, isSmsAvailable, aw_catch, aw_bind, aw_await.
  destruct o as [|[|r] o]; cbn; destruct (sms_available env); cbn;
    repeat match goal with |- context [nlog ?e ?f ?m ?h ?o] => destruct (NativeSms.nlog_run e f m h o) as [? ->]; cbn end;
    auto.
Qed.
End SmsService.
