(* ===== verification/NativeFs.v ===== *)
(** * The native file-system and screen-capture modules

    [src/src/native-modules/NativeFileSystem.js] holds two modules, both
    simulated in JavaScript over the Expo libraries.

    - [NativeFileSystem] (lines 1-207), Module [NativeFileSystem]:
      [initializeNativeFileSystem], [getStorageDirectories],
      [listSystemDirectoryFiles], [isExternalStorageAvailable],
      [requestStoragePermission] and [getMediaFiles], over the storage of
      [FileService] and the media library of [FsHook].  The hook of
      [FsHook] calls the first five through the values of its [NEnv].
    - [NativeScreenCapture] (lines 207-357), Module [ScreenCapture]:
      [initializeScreenCapture], [takeScreenshot], [isScreenshotAllowed],
      [preventScreenshots] and [allowScreenshots], with the screen
      capture flag of [expo-screen-capture] beside the storage; and the
      screen functions of [src/src/services/deviceService.js] that call
      them ([takeScreenshot], [areScreenshotsDisabled],
      [preventScreenshots], [allowScreenshots], lines 163-245).

    The theorems: the system listing never fails, keeps the storage,
    lists each entry of the directory once with the directories first,
    and on a directory path ending with a slash gives exactly the
    entries the hook's [listFiles] shows; [deviceService.takeScreenshot]
    answers [null] off Android, rejects with ["placeholder"] in a
    development build, and in a production build resolves to the path of
    an empty file it wrote; and [areScreenshotsDisabled] on Android stays
    [false] after [preventScreenshots] has set the flag.  The
    [SCREEN_CAPTURE_JAVA_CODE] string (lines 358-720) is Java source
    that no JavaScript runs. *)

From S2P Require Import Prelude JsString Await Logger FileService FsHook.

Module NativeFileSystem.
Import FileService FsHook.

(** What [getStorageDirectories()] resolves to (lines 42-69); [null] is
    [None]. *)
Record StorageDirectories := mkDirs {
  internal : string;
  sdcard : option string;
  dcim : option string;
  pictures : option string;
  downloads : option string
}.

(** The platform the module runs on. *)
Record NFEnv := mkNFEnv {
  nf_fenv : FEnv;                       (** [expo-file-system], the media permission, [localeCompare] *)
  nf_documentDirectory : string;        (** [FileSystem.documentDirectory] *)
  nf_android : bool;                    (** [Platform.OS === 'android'] *)
  nf_media_library : list Asset
}.

(** The names [readDirectoryAsync] lists. *)
Definition dir_entries (h : FHeap) (d : string) : list string :=
  omap (fun kv => child_name (canon d) kv.1) (map_to_list (nodes h)).

(** The platform of a hook environment, as the native module sees it. *)
Definition native_env (env : NEnv) : NFEnv :=
  mkNFEnv (fenv env) (documentDirectory env) (is_android env) (media_library env).

Section Module.
Context (env : NFEnv).

Definition nlog := flog (nf_fenv env).

(** [initializeNativeFileSystem()] (lines 17-34). *)
Definition initializeNativeFileSystem : fio bool :=
  if negb (nf_android env) then
    nlog Logger.warning "Native file system access is only available on Android" ;! aw_ret false
  else
    nlog Logger.info "Initializing native file system access" ;!
    aw_catch
      (aw_await id ;! aw_ret (String.eqb (media_status (nf_fenv env)) "granted"))
      (fun e => nlog Logger.error ("Failed to initialize native file system: " +:+ e) ;! aw_ret false).

(** The object of lines 42-48 and 63-69. *)
Definition no_directories : StorageDirectories := mkDirs (nf_documentDirectory env) None None None None.

(** [getStorageDirectories()] (lines 40-71). *)
Definition getStorageDirectories : fio StorageDirectories :=
  if negb (nf_android env) then aw_ret no_directories
  else
    aw_catch
      (let doc := nf_documentDirectory env in
       aw_ret (mkDirs doc None (Some (doc +:+ "dcim/")) (Some (doc +:+ "pictures/")) (Some (doc +:+ "downloads/"))))
      (fun e => nlog Logger.error ("Failed to get storage directories: " +:+ e) ;! aw_ret no_directories).

(** The callback of [files.map] (lines 88-110); [modificationTime] is
    not modelled, as in [FsHook.HFile]. *)
Definition file_detail (path filename : string) : fio HFile :=
  let filePath := path +:+ filename in
  aw_catch
    (let! info := getInfoAsync filePath in
     aw_ret (mkHFile filename filePath (default 0%Z (fi_size info)) (fi_isDirectory info) (Some (fi_uri info)) None))
    (fun e => aw_ret (mkHFile filename filePath 0 false None (Some e))).

(** The comparator of lines 114-118. *)
Definition file_cmp (a b : HFile) : Z :=
  if hf_isDirectory a && negb (hf_isDirectory b) then (-1)%Z
  else if negb (hf_isDirectory a) && hf_isDirectory b then 1%Z
  else locale_compare (nf_fenv env) (hf_name a) (hf_name b).

(** [listSystemDirectoryFiles(path)] (lines 79-123):
    [readDirectoryAsync(path).catch(() => [])], the details of every
    entry with [Promise.all], sorted. *)
Definition listSystemDirectoryFiles (path : string) : fio (list HFile) :=
  aw_catch
    (let! files := aw_catch (readDirectoryAsync path) (fun _ => aw_ret []) in
     let! fileDetails := map_all files (file_detail path) in
     aw_ret (sort_by file_cmp fileDetails))
    (fun e => nlog Logger.error ("Failed to list system directory files: " +:+ e) ;! aw_ret []).

(** [isExternalStorageAvailable()] (lines 129-142). *)
Definition isExternalStorageAvailable : fio bool :=
  if negb (nf_android env) then aw_ret false
  else aw_catch (aw_ret false)
         (fun e => nlog Logger.error ("Failed to check external storage: " +:+ e) ;! aw_ret false).

(** [requestStoragePermission()] (lines 148-156). *)
Definition requestStoragePermission : fio bool :=
  aw_catch
    (aw_await id ;! aw_ret (String.eqb (media_status (nf_fenv env)) "granted"))
    (fun e => nlog Logger.error ("Failed to request storage permission: " +:+ e) ;! aw_ret false).

(** [getMediaFiles(mediaType, limit = 50)] (lines 164-197). *)
Definition getMediaFiles (mediaType : string) (limit : Z) : fio (list MediaFile) :=
  aw_catch
    (aw_await id ;!
     if negb (String.eqb (media_status (nf_fenv env)) "granted") then
       nlog Logger.warning "Media library permission not granted" ;! aw_ret []
     else
       aw_await id ;!
       aw_ret (map (to_media_file mediaType) (getAssets (expo_media_type mediaType) limit (nf_media_library env))))
    (fun e => nlog Logger.error ("Failed to get media files: " +:+ e) ;! aw_ret []).

End Module.

(** ** The system listing *)

(** [getInfoAsync] changes nothing. *)
Lemma keeps_eq_getInfoAsync h0 p : keeps (eq h0) (getInfoAsync p).
Proof. intros h o <-. unfold getInfoAsync. destruct o as [|[|r] o]; reflexivity. Qed.

(** An entry's details never fail and keep its name. *)
Lemma file_detail_name p n h o :
  exists f o', file_detail p n h o = (Normal f, h, o') /\ hf_name f = n.
Proof.
  unfold file_detail, aw_catch, aw_bind, getInfoAsync, aw_await.
  destruct o as [|[|r] o]; cbn; eauto.
Qed.

(** [Promise.all] of the details keeps the names, in order. *)
Lemma map_all_file_detail_names p files h o :
  exists L o', map_all files (file_detail p) h o = (Normal L, h, o') /\ map hf_name L = files.
Proof.
  revert o. induction files as [|n files IH]; intros o; [by do 2 eexists|]. cbn [map_all].
  destruct (file_detail_name p n h o) as (f & o1 & Hf & Hn). rewrite (bind_step _ _ _ _ _ _ _ Hf).
  destruct (IH o1) as (L & o2 & Hm & HL). rewrite (bind_step _ _ _ _ _ _ _ Hm).
  exists (f :: L), o2. split; [done|]. simpl. by rewrite Hn, HL.
Qed.

(** [readDirectoryAsync(path).catch(() => [])]: the entries or none. *)
Lemma read_or_empty p h o :
  exists files o', aw_catch (readDirectoryAsync p) (fun _ => aw_ret []) h o = (Normal files, h, o') /\
    (files = [] \/ files = dir_entries h p).
Proof.
  unfold aw_catch, readDirectoryAsync, aw_bind, aw_await.
  destruct o as [|[|r] o]; cbn; [..|by eauto]; destruct (nodes h !! canon p) as [[]|]; cbn; eauto.
Qed.

Lemma file_cmp_dirs_first env : forall a b, hf_isDirectory a = true -> hf_isDirectory b = false -> (file_cmp env a b < 0)%Z.
Proof. intros a b Ha Hb. unfold file_cmp. rewrite Ha, Hb. simpl. lia. Qed.

Lemma file_cmp_files_after env : forall a b, hf_isDirectory a = false -> hf_isDirectory b = true -> (0 <= file_cmp env a b)%Z.
Proof. intros a b Ha Hb. unfold file_cmp. rewrite Ha, Hb. simpl. lia. Qed.

(** [listSystemDirectoryFiles] never fails and keeps the storage: it
    lists each entry of the directory once, directories first, or
    nothing when the directory cannot be read. *)
Theorem listSystemDirectoryFiles_total env p h o :
  exists L o', listSystemDirectoryFiles env p h o = (Normal L, h, o') /\
    key_first hf_isDirectory L = true /\ (L = [] \/ map hf_name L ≡ₚ dir_entries h p).
Proof.
  unfold listSystemDirectoryFiles, aw_catch at 1.
  destruct (read_or_empty p h o) as (files & o1 & Hr & Hf).
  rewrite (bind_step _ _ _ _ _ _ _ Hr).
  destruct (map_all_file_detail_names p files h o1) as (L & o2 & Hm & HL).
  rewrite (bind_step _ _ _ _ _ _ _ Hm). cbn.
  exists (sort_by (file_cmp env) L), o2. split; [done|]. split.
  - apply sort_by_key_first; [apply file_cmp_dirs_first|apply file_cmp_files_after].
  - destruct Hf as [-> | ->].
    + left. destruct L; [done|discriminate].
    + right. rewrite <- HL. apply Permutation_map, sort_by_perm.
Qed.

(** The hook's detail callback is the module's, on the storage. *)
Lemma hook_file_detail d n w o : FsHook.file_detail d n w o = lift (NativeFileSystem.file_detail d n) w o.
Proof.
  unfold FsHook.file_detail, NativeFileSystem.file_detail, lift, aw_catch, aw_bind, getInfoAsync, aw_await.
  destruct o as [|[|r] o]; cbn; by rewrite ?with_fs_id.
Qed.

Lemma hook_map_all_detail d files w o :
  map_all files (FsHook.file_detail d) w o = lift (map_all files (NativeFileSystem.file_detail d)) w o.
Proof.
  revert o. induction files as [|n files IH]; intros o; [unfold lift; cbn; by rewrite with_fs_id|].
  cbn [map_all]. destruct (file_detail_name d n (fs w) o) as (f & o1 & Hf & _).
  destruct (map_all_file_detail_names d files (fs w) o1) as (L & o2 & Hm & _).
  rewrite (bind_step _ _ _ _ _ _ _ (eq_trans (hook_file_detail d n w o) (lift_run _ _ _ _ _ _ Hf))).
  rewrite with_fs_id, (bind_step _ _ _ _ _ _ _ (eq_trans (IH o1) (lift_run _ _ _ _ _ _ Hm))), with_fs_id.
  unfold lift. cbn. rewrite Hf. cbn. rewrite Hm. cbn. by rewrite with_fs_id.
Qed.

(** C30: On a directory path ending with a slash, the system listing of
    [NativeFileSystem] and the [fileList] that the hook's [listFiles]
    sets are the same list, for every settlement of the entries'
    [getInfoAsync] calls. *)
Theorem listSystemDirectoryFiles_listFiles (env : NEnv) w p o :
  Js.endsWith slash p = true -> nodes (fs w) !! canon p = Some DirNode ->
  exists L o', listSystemDirectoryFiles (native_env env) p (fs w) (Fulfilled :: o) = (Normal L, fs w, o') /\
    fileList (hook (after (FsHook.listFiles env p) w (Fulfilled :: Fulfilled :: o))) = L.
Proof.
  intros Hs Hd.
  destruct (map_all_file_detail_names p (dir_entries (fs w) p) (fs w) o) as (L & o2 & Hm & _).
  exists (sort_by (file_cmp (native_env env)) L), o2. split.
  - assert (Hr : aw_catch (readDirectoryAsync p) (fun _ => aw_ret []) (fs w) (Fulfilled :: o) =
                  (Normal (dir_entries (fs w) p), fs w, o))
      by (apply catch_step; unfold readDirectoryAsync; cbn; by rewrite Hd).
    unfold listSystemDirectoryFiles. apply catch_step.
    by rewrite (bind_step _ _ _ _ _ _ _ Hr), (bind_step _ _ _ _ _ _ _ Hm).
  - unfold after, FsHook.listFiles. rewrite (normalized_slash p Hs).
    erewrite bind_step by reflexivity. erewrite bind_step by reflexivity.
    unfold aw_finally, aw_catch.
    erewrite bind_step by apply lift_getInfoAsync.
    unfold info_of. cbn [fs with_hook]. rewrite Hd. cbn [fi_exists fi_isDirectory negb].
    erewrite bind_step by (apply lift_readDirectoryAsync; exact Hd).
    erewrite bind_step by (rewrite hook_map_all_detail; apply lift_run; exact Hm).
    erewrite bind_step by reflexivity. erewrite bind_step by reflexivity.
    match goal with |- context [aw_bind (hlog env ?f ?m) _ ?w4 ?o4] =>
      destruct (hlog_frame env f m w4 o4) as (w5 & Hl & Hh & _); rewrite (bind_step _ _ _ _ _ _ _ Hl) end.
    cbn. rewrite Hh. done.
Qed.

(** ** Witnesses *)

Lemma listSystemDirectoryFiles_listFiles_witness :
  Js.endsWith slash "file:///data/" = true /\ nodes (fs nav_world) !! canon "file:///data/" = Some DirNode /\
  exists L o', listSystemDirectoryFiles (native_env nav_env) "file:///data/" (fs nav_world) [Fulfilled] =
                 (Normal L, fs nav_world, o') /\
    fileList (hook (after (FsHook.listFiles nav_env "file:///data/") nav_world [Fulfilled; Fulfilled])) = L.
Proof.
  assert (H1 : Js.endsWith slash "file:///data/" = true) by reflexivity.
  assert (H2 : nodes (fs nav_world) !! canon "file:///data/" = Some DirNode) by (vm_compute; reflexivity).
  exact (conj H1 (conj H2 (listSystemDirectoryFiles_listFiles nav_env nav_world "file:///data/" [] H1 H2))).
Defined.

End NativeFileSystem.

Module ScreenCapture.
Import FileService.

(** The storage and the screen-capture flag of [expo-screen-capture]
    ([preventScreenCaptureAsync] raises it, [allowScreenCaptureAsync]
    lowers it). *)
Record SHeap := mkSHeap {
  sfs : FHeap;
  prevented : bool
}.

Abbreviation sio := (aw SHeap).

Record SEnv := mkSEnv {
  s_fenv : FEnv;                        (** [cacheDirectory], the clock of the log *)
  s_android : bool;                     (** [Platform.OS === 'android'] *)
  s_production : bool;                  (** [process.env.NODE_ENV === 'production'] *)
  s_now : Z;                            (** [new Date().getTime()] *)
  s_capture_enabled : bool              (** [ScreenCapture.isScreenCaptureEnabledAsync()] off Android *)
}.

(** A call of [expo-file-system] on the storage. *)
Definition slift {A} (c : fio A) : sio A :=
  fun h o => let '(r, fh, o') := c (sfs h) o in (r, mkSHeap fh (prevented h), o').

(** [ScreenCapture.preventScreenCaptureAsync()] or
    [allowScreenCaptureAsync()]. *)
Definition set_capture (b : bool) : sio unit := aw_await (fun h => mkSHeap (sfs h) b).

Section Module.
Context (env : SEnv).

Definition slog shorthand message : sio unit := slift (flog (s_fenv env) shorthand message).

(** [initializeScreenCapture()] (lines 222-237). *)
Definition initializeScreenCapture : sio bool :=
  if negb (s_android env) then
    slog Logger.warning "Native screen capture is only available on Android" ;! aw_ret false
  else
    slog Logger.info "Initializing screen capture module" ;!
    aw_catch (aw_ret true)
      (fun e => slog Logger.error ("Failed to initialize screen capture: " +:+ e) ;! aw_ret false).

Definition screenshotDirectory : string := cacheDirectory (s_fenv env) +:+ "screenshots/".

Definition screenshotPath : string :=
  screenshotDirectory +:+ "screenshot_" +:+ pretty (s_now env) +:+ ".jpg".

(** [takeScreenshot()] (lines 243-293): the Android check is outside
    the [try]. *)
Definition takeScreenshot : sio string :=
  if negb (s_android env) then aw_throw "Screenshot functionality is only available on Android"
  else
    aw_catch
      (slog Logger.info "Taking screenshot" ;!
       slift (aw_catch (makeDirectoryAsync screenshotDirectory) (fun _ => aw_ret tt)) ;!
       if s_production env then
         slift (writeAsStringAsync screenshotPath "") ;!
         slog Logger.success ("Screenshot saved to: " +:+ screenshotPath) ;!
         aw_ret screenshotPath
       else
         slog Logger.warning "Running in web/development environment - native screenshot not available" ;!
         aw_throw "placeholder")
      (fun e => slog Logger.error ("Screenshot error: " +:+ e) ;! aw_throw e).

(** [isScreenshotAllowed()] (lines 299-313): [typeof ScreenCapture] of
    an imported namespace is never ['undefined']. *)
Definition isScreenshotAllowed : sio bool :=
  if negb (s_android env) then aw_ret false
  else aw_catch (aw_ret true)
         (fun e => slog Logger.error ("Failed to check screenshot permissions: " +:+ e) ;! aw_ret false).

(** [preventScreenshots()] (lines 319-333). *)
Definition preventScreenshots : sio unit :=
  aw_catch
    (if negb (s_android env) then aw_ret tt
     else slog Logger.info "Preventing screenshots" ;! set_capture true)
    (fun e => slog Logger.error ("Failed to prevent screenshots: " +:+ e)).

(** [allowScreenshots()] (lines 338-352). *)
Definition allowScreenshots : sio unit :=
  aw_catch
    (if negb (s_android env) then aw_ret tt
     else slog Logger.info "Allowing screenshots" ;! set_capture false)
    (fun e => slog Logger.error ("Failed to allow screenshots: " +:+ e)).

(** ** The screen functions of [deviceService.js] (lines 163-245) *)

(** [takeScreenshot()] (lines 163-189). *)
Definition device_takeScreenshot : sio (option string) :=
  aw_catch
    (let! allowed := isScreenshotAllowed in
     if negb allowed then
       slog Logger.warning "Screenshot taking is not allowed on this device" ;! aw_ret None
     else
       initializeScreenCapture ;!
       let! path := takeScreenshot in
       if negb (truthy (Some path)) then aw_throw "Failed to take screenshot"
       else slog Logger.success ("Screenshot taken successfully: " +:+ path) ;! aw_ret (Some path))
    (fun e => slog Logger.error ("Screenshot error: " +:+ e) ;! aw_throw e).

(** [areScreenshotsDisabled()] (lines 195-209). *)
Definition areScreenshotsDisabled : sio bool :=
  aw_catch
    (if s_android env then
       let! allowed := isScreenshotAllowed in aw_ret (negb allowed)
     else aw_await id ;! aw_ret (s_capture_enabled env))
    (fun e => slog Logger.error ("Screen capture check error: " +:+ e) ;! aw_ret false).

(** [preventScreenshots()] (lines 214-227). *)
Definition device_preventScreenshots : sio unit :=
  aw_catch
    ((if s_android env then preventScreenshots else set_capture true) ;!
     slog Logger.info "Screenshot prevention enabled")
    (fun e => slog Logger.error ("Prevent screenshots error: " +:+ e)).

(** [allowScreenshots()] (lines 232-245). *)
Definition device_allowScreenshots : sio unit :=
  aw_catch
    ((if s_android env then allowScreenshots else set_capture false) ;!
     slog Logger.info "Screenshot prevention disabled")
    (fun e => slog Logger.error ("Allow screenshots error: " +:+ e)).

End Module.

(** ** Taking screenshots *)

(** Logging completes and changes neither the storage nor the flag. *)
Lemma slog_run env f m h o : exists h', slog env f m h o = (Normal tt, h', o) /\ nodes (sfs h') = nodes (sfs h) /\ prevented h' = prevented h.
Proof. unfold slog, slift, flog. cbn. destruct (f _ _ _) as [[? ?] ?]. by eexists. Qed.

Ltac step_slog :=
  match goal with |- context [aw_bind (slog ?e ?f ?m) _ ?h ?o] =>
    let h1 := fresh "h" in let Hl := fresh "Hl" in let Hn := fresh "Hn" in let Hp := fresh "Hp" in
    destruct (slog_run e f m h o) as (h1 & Hl & Hn & Hp); rewrite (bind_step _ _ _ _ _ _ _ Hl) end.

Lemma isScreenshotAllowed_run env h o : isScreenshotAllowed env h o = (Normal (s_android env), h, o).
Proof. unfold isScreenshotAllowed. by destruct (s_android env). Qed.

Lemma initializeScreenCapture_run env h o :
  exists h', initializeScreenCapture env h o = (Normal (s_android env), h', o) /\
    nodes (sfs h') = nodes (sfs h) /\ prevented h' = prevented h.
Proof.
  unfold initializeScreenCapture. destruct (s_android env); cbn [negb]; step_slog; by eexists.
Qed.

(** [makeDirectoryAsync(...).catch(() => {})] completes normally. *)
Lemma mkdir_caught_run d h o :
  exists h' o', slift (aw_catch (makeDirectoryAsync d) (fun _ => aw_ret tt)) h o = (Normal tt, h', o') /\
    prevented h' = prevented h.
Proof.
  unfold slift, aw_catch. destruct (makeDirectoryAsync d (sfs h) o) as [[[[]|r] h1] o1]; cbn; eauto.
Qed.

(** A development build throws ["placeholder"] after the warning. *)
Lemma takeScreenshot_development env h o :
  s_android env = true -> s_production env = false ->
  exists h' o', takeScreenshot env h o = (Abrupt "placeholder", h', o') /\ prevented h' = prevented h.
Proof.
  intros Ha Hp. unfold takeScreenshot. rewrite Ha, Hp. cbn [negb]. unfold aw_catch.
  step_slog. destruct (mkdir_caught_run (screenshotDirectory env) h0 o) as (h2 & o2 & Hm & Hp2).
  rewrite (bind_step _ _ _ _ _ _ _ Hm). step_slog. cbn [aw_throw]. step_slog.
  do 2 eexists. split; [reflexivity|]. congruence.
Qed.

(** A production build writes the empty file and returns its path. *)
Lemma takeScreenshot_production env h o m :
  s_android env = true -> s_production env = true ->
  mkdirs (String.length (screenshotDirectory env)) (canon (screenshotDirectory env)) (nodes (sfs h)) = Some m ->
  parent (canon (screenshotPath env)) = Some (canon (screenshotDirectory env)) ->
  m !! canon (screenshotPath env) <> Some DirNode ->
  exists h', takeScreenshot env h (Fulfilled :: Fulfilled :: o) = (Normal (screenshotPath env), h', o) /\
    nodes (sfs h') = <[canon (screenshotPath env) := FileNode "" 0]> m /\ prevented h' = prevented h.
Proof.
  intros Ha Hp Hm Hpar Hnd. unfold takeScreenshot. rewrite Ha, Hp. cbn [negb]. unfold aw_catch.
  step_slog.
  assert (Hmk : slift (aw_catch (makeDirectoryAsync (screenshotDirectory env)) (fun _ => aw_ret tt)) h0
                  (Fulfilled :: Fulfilled :: o) = (Normal tt, mkSHeap (with_nodes (sfs h0) m) (prevented h0), Fulfilled :: o)).
  { unfold slift, makeDirectoryAsync. cbn. rewrite Hn, Hm. reflexivity. }
  rewrite (bind_step _ _ _ _ _ _ _ Hmk).
  assert (Hd : m !! canon (screenshotDirectory env) = Some DirNode) by exact (mkdirs_dir _ _ _ _ Hm).
  assert (Hw : slift (writeAsStringAsync (screenshotPath env) "") (mkSHeap (with_nodes (sfs h0) m) (prevented h0))
                 (Fulfilled :: o) =
               (Normal tt, mkSHeap (with_nodes (sfs h0) (<[canon (screenshotPath env) := FileNode "" 0]> m)) (prevented h0), o)).
  { unfold slift, writeAsStringAsync. cbn. rewrite Hpar. cbn. rewrite Hd.
    destruct (m !! canon (screenshotPath env)) as [[]|]; [reflexivity|congruence|reflexivity]. }
  rewrite (bind_step _ _ _ _ _ _ _ Hw). step_slog. eexists. split; [reflexivity|]. cbn in *. split; congruence.
Qed.

Lemma screenshotPath_truthy env : truthy (Some (screenshotPath env)) = true.
Proof.
  unfold screenshotPath, screenshotDirectory. apply truthy_Some.
  destruct (cacheDirectory (s_fenv env)); discriminate.
Qed.

(** [deviceService.takeScreenshot] off Android answers [null] (the
    module's own Android error is never reached), and in a development
    build on Android rejects with ["placeholder"]. *)
Theorem device_takeScreenshot_fallbacks env h o :
  (s_android env = false -> fst (fst (device_takeScreenshot env h o)) = Normal None) /\
  (s_android env = true -> s_production env = false -> fst (fst (device_takeScreenshot env h o)) = Abrupt "placeholder").
Proof.
  unfold device_takeScreenshot. split.
  - intros Ha. unfold aw_catch. rewrite (bind_step _ _ _ _ _ _ _ (isScreenshotAllowed_run env h o)), Ha.
    cbn [negb]. step_slog. reflexivity.
  - intros Ha Hp. unfold aw_catch. rewrite (bind_step _ _ _ _ _ _ _ (isScreenshotAllowed_run env h o)), Ha.
    cbn [negb]. destruct (initializeScreenCapture_run env h o) as (h1 & Hi & _).
    rewrite (bind_step _ _ _ _ _ _ _ Hi).
    destruct (takeScreenshot_development env h1 o Ha Hp) as (h2 & o2 & Ht & _).
    unfold aw_bind at 1. rewrite Ht. cbn [aw_throw]. step_slog. reflexivity.
Qed.

(** C32: In a production build on Android, when the screenshots folder
    can be made under [cacheDirectory], [deviceService.takeScreenshot]
    resolves to [cacheDirectory/screenshots/screenshot_<now>.jpg], and
    an empty file is there: the module never returns an empty path. *)
Theorem device_takeScreenshot_production env h o m :
  s_android env = true -> s_production env = true ->
  mkdirs (String.length (screenshotDirectory env)) (canon (screenshotDirectory env)) (nodes (sfs h)) = Some m ->
  parent (canon (screenshotPath env)) = Some (canon (screenshotDirectory env)) ->
  m !! canon (screenshotPath env) <> Some DirNode ->
  exists h', device_takeScreenshot env h (Fulfilled :: Fulfilled :: o) = (Normal (Some (screenshotPath env)), h', o) /\
    nodes (sfs h') !! canon (screenshotPath env) = Some (FileNode "" 0).
Proof.
  intros Ha Hp Hm Hpar Hnd. unfold device_takeScreenshot, aw_catch.
  rewrite (bind_step _ _ _ _ _ _ _ (isScreenshotAllowed_run env h _)), Ha. cbn [negb].
  destruct (initializeScreenCapture_run env h (Fulfilled :: Fulfilled :: o)) as (h1 & Hi & Hn1 & _).
  rewrite (bind_step _ _ _ _ _ _ _ Hi). rewrite <- Hn1 in Hm.
  destruct (takeScreenshot_production env h1 o m Ha Hp Hm Hpar Hnd) as (h2 & Ht & Hn2 & _).
  rewrite (bind_step _ _ _ _ _ _ _ Ht), screenshotPath_truthy. cbn [negb]. step_slog.
  eexists. split; [reflexivity|]. rewrite Hn, Hn2. apply lookup_insert_eq.
Qed.

Lemma preventScreenshots_run env h o :
  s_android env = true -> exists h', preventScreenshots env h (Fulfilled :: o) = (Normal tt, h', o) /\ prevented h' = true.
Proof.
  intros Ha. unfold preventScreenshots. rewrite Ha. cbn [negb]. unfold aw_catch. step_slog.
  by eexists.
Qed.

(** C31: On Android, after [deviceService.preventScreenshots] has set the
    flag, [areScreenshotsDisabled] still answers [false]: it asks
    [isScreenshotAllowed], which is [true] on every Android device. *)
Theorem prevent_not_reported env h o1 o2 :
  s_android env = true ->
  let h1 := snd (fst (device_preventScreenshots env h (Fulfilled :: o1))) in
  prevented h1 = true /\ fst (fst (areScreenshotsDisabled env h1 o2)) = Normal false.
Proof.
  intros Ha. cbv zeta. split.
  - unfold device_preventScreenshots. rewrite Ha. unfold aw_catch at 1.
    destruct (preventScreenshots_run env h o1 Ha) as (h1 & Hr & Hp1).
    rewrite (bind_step _ _ _ _ _ _ _ Hr).
    destruct (slog_run env Logger.info "Screenshot prevention enabled" h1 o1) as (h2 & -> & _ & Hp2). cbn. congruence.
  - unfold areScreenshotsDisabled. rewrite Ha. unfold aw_catch.
    rewrite (bind_step _ _ _ _ _ _ _ (isScreenshotAllowed_run env _ o2)), Ha. reflexivity.
Qed.

(** ** Witnesses *)

(** An Android production build with [file:///cache/] on disk. *)
Definition shot_env : SEnv := mkSEnv demo_fenv true true 1700000000000%Z false.

Definition shot_heap : SHeap := mkSHeap demo_disk false.

Definition shot_dirs : gmap string node :=
  default ∅ (mkdirs (String.length (screenshotDirectory shot_env)) (canon (screenshotDirectory shot_env))
               (nodes (sfs shot_heap))).

Lemma device_takeScreenshot_production_witness :
  s_android shot_env = true /\ s_production shot_env = true /\
  mkdirs (String.length (screenshotDirectory shot_env)) (canon (screenshotDirectory shot_env)) (nodes (sfs shot_heap)) =
    Some shot_dirs /\
  parent (canon (screenshotPath shot_env)) = Some (canon (screenshotDirectory shot_env)) /\
  shot_dirs !! canon (screenshotPath shot_env) <> Some DirNode /\
  exists h', device_takeScreenshot shot_env shot_heap [Fulfilled; Fulfilled] = (Normal (Some (screenshotPath shot_env)), h', []) /\
    nodes (sfs h') !! canon (screenshotPath shot_env) = Some (FileNode "" 0).
Proof.
  assert (H1 : s_android shot_env = true) by reflexivity.
  assert (H2 : s_production shot_env = true) by reflexivity.
  assert (H3 : mkdirs (String.length (screenshotDirectory shot_env)) (canon (screenshotDirectory shot_env))
                 (nodes (sfs shot_heap)) = Some shot_dirs) by (vm_compute; reflexivity).
  assert (H4 : parent (canon (screenshotPath shot_env)) = Some (canon (screenshotDirectory shot_env)))
    by (vm_compute; reflexivity).
  assert (H5 : shot_dirs !! canon (screenshotPath shot_env) <> Some DirNode) by (vm_compute; discriminate).
  exact (conj H1 (conj H2 (conj H3 (conj H4 (conj H5
           (device_takeScreenshot_production shot_env shot_heap [] shot_dirs H1 H2 H3 H4 H5)))))).
Defined.

Lemma prevent_not_reported_witness :
  s_android shot_env = true /\
  (let h1 := snd (fst (device_preventScreenshots shot_env shot_heap [Fulfilled])) in
   prevented h1 = true /\ fst (fst (areScreenshotsDisabled shot_env h1 [])) = Normal false).
Proof.
  assert (H : s_android shot_env = true) by reflexivity.
  exact (conj H (prevent_not_reported shot_env shot_heap [] [] H)).
Defined.

End ScreenCapture.
