(* ===== verification/Permissions.v ===== *)
(** * The permissions hook

    [usePermissions] of [src/unnamed/part_006], lines 504-742: two
    [useState] cells ([permissionStatus], a JavaScript object from
    permission names to statuses, and [isLoading]); [requestPermission]
    asks one Expo library for a permission, or probes the storage by
    writing and deleting [cacheDirectory/permission_test.txt];
    [requestAllPermissions] asks for the five required permissions in
    turn and records whether SMS is available; the mount effect
    [loadInitialStatus] reads the statuses without asking.

    The world is the device's storage of [FileService] and the committed
    state of the hook.  The answers of the Expo libraries are the record
    [PEnv]; each of their promises is an [await] of the oracle.  [pstep]
    is the hook in use: after the mount effect, any operation of the
    latest render runs to completion.

    The theorems: [requestAllPermissions] on Android records exactly the
    answers of the libraries, ["granted"] for a writable cache and the
    SMS availability, and leaves the storage as it was; the storage probe
    deletes a file of the user that happens to have the probe's name;
    and no reachable state reports the [sms] permission as granted, since
    its status is ["available"] or ["unavailable"]. *)

From S2P Require Import Prelude JsString Await Logger FileService.

Module Permissions.
Import FileService.

(** [requiredPermissions] (lines 523-529). *)
Definition requiredPermissions : list string := ["location"; "camera"; "mediaLibrary"; "contacts"; "storage"].

(** The two [useState] cells (lines 519-520). *)
Record PState := mkPState {
  permissionStatus : gmap string string;
  isLoading : bool
}.

(** What the platform and the Expo libraries answer. *)
Record PEnv := mkPEnv {
  p_fenv : FEnv;                        (** [cacheDirectory], the clock of the log *)
  p_android : bool;                     (** [Platform.OS === 'android'] *)
  get_status : string -> string;        (** [get...PermissionsAsync()] of a permission *)
  request_status : string -> string;    (** [request...PermissionsAsync()] of a permission *)
  sms_available : bool                  (** [SMS.isAvailableAsync()] *)
}.

Record PWorld := mkPWorld {
  pfs : FHeap;
  pstate : PState
}.

Abbreviation pio := (aw PWorld).

(** A call of [expo-file-system] on the storage. *)
Definition plift {A} (c : fio A) : pio A :=
  fun w o => let '(r, h, o') := c (pfs w) o in (r, mkPWorld h (pstate w), o').

(** [setPermissionStatus(prev => f(prev))]. *)
Definition set_status (f : gmap string string -> gmap string string) : pio unit :=
  aw_modify (fun w => mkPWorld (pfs w) (mkPState (f (permissionStatus (pstate w))) (isLoading (pstate w)))).

(** [setIsLoading(b)]. *)
Definition set_isLoading (b : bool) : pio unit :=
  aw_modify (fun w => mkPWorld (pfs w) (mkPState (permissionStatus (pstate w)) b)).

(** [FileSystem.deleteAsync(fileUri)]: a file, or a directory with
    everything under it; a missing path rejects. *)
Definition deleteAsync (p : string) : fio unit :=
  aw_await id ;!
  let! h := aw_get in
  match nodes h !! canon p with
  | None => aw_throw ("File '" +:+ p +:+ "' could not be deleted because it could not be found")
  | Some (FileNode _ _) => aw_modify (fun h => with_nodes h (delete (canon p) (nodes h)))
  | Some DirNode =>
      aw_modify (fun h => with_nodes h
        (filter (fun kv : string * node => kv.1 <> canon p /\ strip_prefix (canon p +:+ "/") kv.1 = None) (nodes h)))
  end.

(** [isPermissionGranted(permission)] (lines 649-651), over the
    [permissionStatus] of its render. *)
Definition isPermissionGranted (s : PState) (permission : string) : bool :=
  match permissionStatus s !! permission with
  | Some status => String.eqb status "granted"
  | None => false
  end.

(** [areAllPermissionsGranted()] (lines 657-661). *)
Definition areAllPermissionsGranted (s : PState) : bool := forallb (isPermissionGranted s) requiredPermissions.

(** The permissions an Expo library answers for. *)
Definition library_permission (permission : string) : bool :=
  String.eqb permission "location" || String.eqb permission "camera" ||
  String.eqb permission "mediaLibrary" || String.eqb permission "contacts".

(** ['available'] or ['unavailable'] (lines 632, 721). *)
Definition sms_status (available : bool) : string := if available then "available" else "unavailable".

Section Hook.
Context (env : PEnv).

Definition plog shorthand message : pio unit := plift (flog (p_fenv env) shorthand message).

(** [checkSmsAvailable()] (lines 535-542). *)
Definition checkSmsAvailable : pio bool :=
  aw_catch (aw_await id ;! aw_ret (sms_available env))
    (fun e => plog Logger.warning ("SMS check error: " +:+ e) ;! aw_ret false).

Definition testPath : string := cacheDirectory (p_fenv env) +:+ "permission_test.txt".

(** Writing and deleting [testPath] (lines 580-587, 699-706). *)
Definition storage_probe : pio string :=
  aw_catch
    (plift (writeAsStringAsync testPath "test") ;!
     plift (deleteAsync testPath) ;!
     aw_ret "granted")
    (fun _ => aw_ret "denied").

(** The [switch] of [requestPermission] (lines 553-595). *)
Definition request_one (permission : string) : pio string :=
  if library_permission permission then aw_await id ;! aw_ret (request_status env permission)
  else if String.eqb permission "storage" then
    (if p_android env then storage_probe else aw_ret "granted")
  else aw_ret "unknown".

(** [requestPermission(permission)] (lines 549-615). *)
Definition requestPermission (permission : string) : pio string :=
  aw_catch
    (let! status := request_one permission in
     set_status (fun prev => <[permission := status]> prev) ;!
     plog Logger.info ("Permission " +:+ permission +:+ ": " +:+ status) ;!
     aw_ret status)
    (fun e =>
       plog Logger.error ("Permission request error for " +:+ permission +:+ ": " +:+ e) ;!
       set_status (fun prev => <[permission := "error"]> prev) ;!
       aw_ret "error").

(** The loop of lines 627-630. *)
Fixpoint request_each (ps : list string) (statuses : gmap string string) : pio (gmap string string) :=
  match ps with
  | [] => aw_ret statuses
  | p :: ps' => let! status := requestPermission p in request_each ps' (<[p := status]> statuses)
  end.

(** [requestAllPermissions()] (lines 620-642), over the
    [permissionStatus] of its render. *)
Definition requestAllPermissions (s : PState) : pio (gmap string string) :=
  set_isLoading true ;!
  aw_finally
    (aw_catch
       (let! statuses := request_each requiredPermissions ∅ in
        let! available := checkSmsAvailable in
        let statuses := <["sms" := sms_status available]> statuses in
        set_status (fun _ => statuses) ;!
        aw_ret statuses)
       (fun e => plog Logger.error ("Failed to request all permissions: " +:+ e) ;! aw_ret (permissionStatus s)))
    (set_isLoading false).

(** The [switch] of [loadInitialStatus] (lines 676-710): the storage is
    probed on every platform. *)
Definition check_one (permission : string) : pio string :=
  if library_permission permission then aw_await id ;! aw_ret (get_status env permission)
  else if String.eqb permission "storage" then storage_probe
  else aw_ret "unknown".

(** The loop of lines 672-717. *)
Fixpoint check_each (ps : list string) (statuses : gmap string string) : pio (gmap string string) :=
  match ps with
  | [] => aw_ret statuses
  | p :: ps' =>
      let! statuses := aw_catch (let! status := check_one p in aw_ret (<[p := status]> statuses))
                         (fun e => plog Logger.error ("Error checking " +:+ p +:+ " permission: " +:+ e) ;!
                                   aw_ret (<[p := "error"]> statuses)) in
      check_each ps' statuses
  end.

(** [loadInitialStatus()], the mount effect (lines 664-731). *)
Definition loadInitialStatus : pio unit :=
  set_isLoading true ;!
  aw_finally
    (aw_catch
       (let! statuses := check_each requiredPermissions ∅ in
        let! available := checkSmsAvailable in
        set_status (fun _ => <["sms" := sms_status available]> statuses))
       (fun e => plog Logger.error ("Failed to load initial permission status: " +:+ e)))
    (set_isLoading false).

(** The operations the hook returns (lines 734-741) that change state. *)
Inductive pop :=
  | OpRequest (permission : string)
  | OpRequestAll.

Definition run_op (s : PState) (op : pop) : pio unit :=
  match op with
  | OpRequest p => requestPermission p ;! aw_ret tt
  | OpRequestAll => requestAllPermissions s ;! aw_ret tt
  end.

(** The world after [c] has run on [w] with the oracle [o]. *)
Definition after {A} (c : pio A) (w : PWorld) (o : list settlement) : PWorld := snd (fst (c w o)).

(** The hook in use: each operation runs to completion, with the
    closures of the render of the committed state. *)
Inductive pstep : PWorld -> PWorld -> Prop :=
  | ps_op w op o : pstep w (after (run_op (pstate w) op) w o).

(** Mounted: the first render's state, then the effect. *)
Definition mounted (h : FHeap) (o : list settlement) : PWorld :=
  after loadInitialStatus (mkPWorld h (mkPState ∅ false)) o.

End Hook.

(** The state the [sms] entry never takes. *)
Definition sms_ungranted (w : PWorld) : Prop := permissionStatus (pstate w) !! "sms" <> Some "granted".

(** The statuses [requestAllPermissions] records from the libraries'
    answers and the storage probe. *)
Definition requested_statuses (env : PEnv) (storage : string) : gmap string string :=
  <["storage" := storage]> (<["contacts" := request_status env "contacts"]>
    (<["mediaLibrary" := request_status env "mediaLibrary"]> (<["camera" := request_status env "camera"]>
      (<["location" := request_status env "location"]> ∅)))).

(** Logging completes and changes neither the storage nor the state. *)
Lemma plog_run env f m w o :
  exists w', plog env f m w o = (Normal tt, w', o) /\ nodes (pfs w') = nodes (pfs w) /\ pstate w' = pstate w.
Proof. unfold plog, plift, flog. cbn. destruct (f _ _ _) as [[? ?] ?]. by eexists. Qed.

Ltac step_plog :=
  match goal with |- context [aw_bind (plog ?e ?f ?m) _ ?w ?o] =>
    let w1 := fresh "w" in let Hl := fresh "Hl" in let Hn := fresh "Hn" in let Hs := fresh "Hs" in
    destruct (plog_run e f m w o) as (w1 & Hl & Hn & Hs); rewrite (bind_step _ _ _ _ _ _ _ Hl) end.


Section Inv.
Context (env : PEnv).

(** ** The [sms] entry *)

Lemma keeps_plift {A} P (c : fio A) : (forall w h, P w -> P (mkPWorld h (pstate w))) -> keeps P (plift c).
Proof. intros Hf w o Hw. unfold plift. destruct (c (pfs w) o) as [[r h] o']. by apply Hf. Qed.

Lemma keeps_plog P f m : (forall w h, P w -> P (mkPWorld h (pstate w))) -> keeps P (plog env f m).
Proof. apply keeps_plift. Qed.

Lemma keeps_set_isLoading b : keeps sms_ungranted (set_isLoading b).
Proof. apply keeps_modify. done. Qed.

Lemma keeps_insert_status p s : (p = "sms" -> s <> "granted") -> keeps sms_ungranted (set_status (<[p := s]>)).
Proof.
  intros Hs. apply keeps_modify. intros w Hw. unfold sms_ungranted in *. cbn.
  destruct (String.eqb_spec p "sms") as [->|Hne].
  - rewrite lookup_insert_eq. intros [= Heq]. by apply (Hs eq_refl).
  - by rewrite lookup_insert_ne by congruence.
Qed.

(** [requestPermission('sms')] falls to the [default] case. *)
Lemma request_one_sms : request_one env "sms" = aw_ret "unknown".
Proof. reflexivity. Qed.

Lemma keeps_requestPermission p : keeps sms_ungranted (requestPermission env p).
Proof.
  unfold requestPermission. apply keeps_catch; [|intros e].
  - destruct (String.eqb_spec p "sms") as [->|Hne].
    + rewrite request_one_sms. intros w o Hw. rewrite aw_bind_ret_l. revert w o Hw.
      apply keeps_bind; [apply keeps_insert_status; discriminate|intros []].
      apply keeps_bind; [apply keeps_plog; done|intros []]. apply keeps_ret.
    + apply keeps_bind; [|intros s].
      * unfold request_one, storage_probe. solve_keeps; apply keeps_plift; done.
      * apply keeps_bind; [apply keeps_insert_status; congruence|intros []].
        apply keeps_bind; [apply keeps_plog; done|intros []]. apply keeps_ret.
  - apply keeps_bind; [apply keeps_plog; done|intros []].
    apply keeps_bind; [apply keeps_insert_status; discriminate|intros []]. apply keeps_ret.
Qed.

Lemma keeps_reset_status m b : keeps sms_ungranted (set_status (fun _ => <["sms" := sms_status b]> m)).
Proof. apply keeps_modify. intros w _. unfold sms_ungranted. cbn. rewrite lookup_insert_eq. by destruct b. Qed.

Lemma keeps_request_each ps m : keeps sms_ungranted (request_each env ps m).
Proof.
  revert m. induction ps as [|p ps IH]; intros m; cbn [request_each]; [apply keeps_ret|].
  apply keeps_bind; [apply keeps_requestPermission|intros s]. apply IH.
Qed.

Lemma keeps_checkSmsAvailable : keeps sms_ungranted (checkSmsAvailable env).
Proof. unfold checkSmsAvailable. solve_keeps. apply keeps_plog. done. Qed.

Lemma keeps_run_op s op : keeps sms_ungranted (run_op env s op).
Proof.
  destruct op; cbn [run_op]; (apply keeps_bind; [|intros; apply keeps_ret]); [apply keeps_requestPermission|].
  unfold requestAllPermissions. apply keeps_bind; [apply keeps_set_isLoading|intros []].
  apply keeps_finally; [|apply keeps_set_isLoading].
  apply keeps_catch; [|intros e; apply keeps_bind; [apply keeps_plog; done|intros; apply keeps_ret]].
  apply keeps_bind; [apply keeps_request_each|intros m].
  apply keeps_bind; [apply keeps_checkSmsAvailable|intros b].
  apply keeps_bind; [apply keeps_reset_status|intros; apply keeps_ret].
Qed.
End Inv.

Lemma mounted_sms_ungranted env h o : sms_ungranted (mounted env h o).
Proof.
  unfold mounted, after, loadInitialStatus.
  apply (keeps_bind sms_ungranted _ _ (keeps_set_isLoading true)); [|done]. intros [].
  apply keeps_finally; [|apply keeps_set_isLoading].
  apply keeps_catch; [|intros e; apply keeps_plog; done].
  apply keeps_bind; [|intros m; apply keeps_bind; [apply keeps_checkSmsAvailable|intros b; apply keeps_reset_status]].
  clear. generalize (∅ : gmap string string). induction requiredPermissions as [|p ps IH]; intros m; cbn [check_each];
    [apply keeps_ret|].
  apply keeps_bind; [|intros; apply IH].
  apply keeps_catch; [|intros e; solve_keeps; apply keeps_plog; done].
  unfold check_one, storage_probe. solve_keeps; apply keeps_plift; done.
Qed.

(** C36: No state reachable from the mount reports the [sms] permission
    as granted: [requestAllPermissions] and the mount record it as
    ["available"] or ["unavailable"], and [requestPermission('sms')] as
    ["unknown"], so [isPermissionGranted('sms')] is always [false]. *)
Theorem sms_never_granted env h o w :
  rtc (pstep env) (mounted env h o) w -> isPermissionGranted (pstate w) "sms" = false.
Proof.
  intros Hr. assert (Hw : sms_ungranted w).
  { revert w Hr. apply rtc_ind_r; [apply mounted_sms_ungranted|].
    intros w1 w2 _ Hs IH. destruct Hs as [w1 op o1]. exact (keeps_run_op env (pstate w1) op w1 o1 IH). }
  unfold isPermissionGranted. unfold sms_ungranted in Hw.
  destruct (permissionStatus (pstate w) !! "sms") as [st|]; [|done].
  destruct (String.eqb_spec st "granted") as [->|]; [done|reflexivity].
Qed.

Section Run.
Context (env : PEnv).

(** ** Requesting the permissions *)

Lemma requestPermission_run p w o s w1 o1 :
  request_one env p w o = (Normal s, w1, o1) ->
  exists w2, requestPermission env p w o = (Normal s, w2, o1) /\
    pstate w2 = mkPState (<[p := s]> (permissionStatus (pstate w1))) (isLoading (pstate w1)) /\
    nodes (pfs w2) = nodes (pfs w1).
Proof.
  intros Hr. unfold requestPermission.
  unfold aw_catch. rewrite (bind_step _ _ _ _ _ _ _ Hr).
  erewrite bind_step by reflexivity. step_plog. cbn. eexists. split; [reflexivity|]. by rewrite Hs, Hn.
Qed.

Lemma request_one_library p w : library_permission p = true ->
  request_one env p w [] = (Normal (request_status env p), w, []).
Proof. intros Hp. unfold request_one. by rewrite Hp. Qed.

(** The probe leaves a storage without the test file as it was. *)
Lemma storage_probe_restores w d :
  parent (canon (testPath env)) = Some d -> nodes (pfs w) !! d = Some DirNode ->
  nodes (pfs w) !! canon (testPath env) = None ->
  storage_probe env w [] = (Normal "granted", w, []).
Proof.
  intros Hpar Hd Hn. unfold storage_probe, aw_catch, plift, writeAsStringAsync, deleteAsync.
  cbn -[insert delete lookup]. rewrite Hn, Hpar. cbn -[insert delete lookup]. rewrite Hd.
  cbn -[insert delete lookup]. rewrite lookup_insert_eq. cbn -[insert delete lookup].
  rewrite delete_insert_id by exact Hn. destruct w as [[] []]; reflexivity.
Qed.

Lemma checkSmsAvailable_run w : checkSmsAvailable env w [] = (Normal (sms_available env), w, []).
Proof. reflexivity. Qed.
End Run.


Ltac step_request :=
  cbn [request_each]; rewrite ?aw_bind_assoc;
  match goal with |- context [aw_bind (requestPermission ?e ?p) _ ?w []] =>
    let w2 := fresh "w" in let Hr := fresh "Hr" in let Hs := fresh "Hs" in let Hn := fresh "Hn" in
    destruct (requestPermission_run e p w [] _ _ _ (request_one_library e p w eq_refl)) as (w2 & Hr & Hs & Hn);
    rewrite (bind_step _ _ _ _ _ _ _ Hr) end.

(** On Android, when every promise fulfils and the cache directory holds
    no test file, [requestAllPermissions] records the libraries'
    answers, ["granted"] for the storage and the SMS availability, and
    leaves the storage as it was. *)
Theorem requestAllPermissions_android env s w d :
  p_android env = true -> parent (canon (testPath env)) = Some d -> nodes (pfs w) !! d = Some DirNode ->
  nodes (pfs w) !! canon (testPath env) = None ->
  exists w', requestAllPermissions env s w [] =
               (Normal (<["sms" := sms_status (sms_available env)]> (requested_statuses env "granted")), w', []) /\
    pstate w' = mkPState (<["sms" := sms_status (sms_available env)]> (requested_statuses env "granted")) false /\
    nodes (pfs w') = nodes (pfs w).
Proof.
  intros Ha Hpar Hd Hnone. unfold requestAllPermissions.
  erewrite bind_step by reflexivity. unfold aw_finally, aw_catch. cbn [request_each requiredPermissions].
  do 4 step_request.
  assert (Hst : request_one env "storage" w3 [] = (Normal "granted", w3, [])).
  { unfold request_one. cbn [library_permission String.eqb Ascii.eqb Bool.eqb andb orb]. rewrite Ha.
    assert (Hnodes : nodes (pfs w3) = nodes (pfs w)) by (cbn in *; congruence).
    apply (storage_probe_restores env w3 d); congruence. }
  destruct (requestPermission_run env "storage" w3 [] _ _ _ Hst) as (w4 & Hr4 & Hs4 & Hn4).
  cbn [request_each]; rewrite ?aw_bind_assoc.
  rewrite (bind_step _ _ _ _ _ _ _ Hr4). cbn [request_each]. rewrite aw_bind_ret_l.
  rewrite (bind_step _ _ _ _ _ _ _ (checkSmsAvailable_run env w4)).
  erewrite bind_step by reflexivity. cbn.
  eexists. split; [reflexivity|]. cbn. split; [|cbn in *; congruence].
  reflexivity.
Qed.

(** The probe of a storage that has the test file deletes it. *)
Lemma storage_probe_existing env w d c sz :
  parent (canon (testPath env)) = Some d -> nodes (pfs w) !! d = Some DirNode ->
  nodes (pfs w) !! canon (testPath env) = Some (FileNode c sz) ->
  exists w', storage_probe env w [] = (Normal "granted", w', []) /\
    nodes (pfs w') = delete (canon (testPath env)) (nodes (pfs w)) /\ pstate w' = pstate w.
Proof.
  intros Hpar Hd Hn. unfold storage_probe, aw_catch, plift, writeAsStringAsync, deleteAsync.
  cbn -[insert delete lookup]. rewrite Hn, Hpar. cbn -[insert delete lookup]. rewrite Hd.
  cbn -[insert delete lookup]. rewrite lookup_insert_eq. cbn -[insert delete lookup].
  eexists. split; [reflexivity|]. cbn. split; [|done]. apply delete_insert_eq.
Qed.

(** C35: On Android, [requestPermission('storage')] deletes a file that the
    user had at [cacheDirectory/permission_test.txt]: the probe
    overwrites it and deletes it, and reports the storage ["granted"]. *)
Theorem storage_probe_deletes_file env w d c sz :
  p_android env = true -> parent (canon (testPath env)) = Some d -> nodes (pfs w) !! d = Some DirNode ->
  nodes (pfs w) !! canon (testPath env) = Some (FileNode c sz) ->
  exists w', requestPermission env "storage" w [] = (Normal "granted", w', []) /\
    nodes (pfs w') !! canon (testPath env) = None /\
    permissionStatus (pstate w') !! "storage" = Some "granted".
Proof.
  intros Ha Hpar Hd Hn.
  destruct (storage_probe_existing env w d c sz Hpar Hd Hn) as (w1 & Hp & Hn1 & _).
  assert (Hst : request_one env "storage" w [] = (Normal "granted", w1, [])).
  { unfold request_one. cbn [library_permission String.eqb Ascii.eqb Bool.eqb andb orb]. by rewrite Ha. }
  destruct (requestPermission_run env "storage" w [] _ _ _ Hst) as (w2 & Hr & Hs & Hn2).
  exists w2. split; [exact Hr|]. split.
  - rewrite Hn2, Hn1. apply lookup_delete_eq.
  - rewrite Hs. cbn. apply lookup_insert_eq.
Qed.

(** ** Witnesses *)

(** An Android phone that grants every request, with the user's own
    [permission_test.txt] in the cache. *)
Definition perm_env : PEnv := mkPEnv demo_fenv true (fun _ => "granted") (fun _ => "granted") true.

Definition perm_disk : FHeap :=
  with_nodes demo_disk (<["file:///cache/permission_test.txt" := FileNode "mine" 4]> (nodes demo_disk)).

Definition perm_world : PWorld := mkPWorld perm_disk (mkPState ∅ false).

Lemma sms_never_granted_witness :
  rtc (pstep perm_env) (mounted perm_env perm_disk []) (mounted perm_env perm_disk []) /\
  isPermissionGranted (pstate (mounted perm_env perm_disk [])) "sms" = false.
Proof.
  assert (H : rtc (pstep perm_env) (mounted perm_env perm_disk []) (mounted perm_env perm_disk [])) by apply rtc_refl.
  exact (conj H (sms_never_granted perm_env perm_disk [] _ H)).
Defined.

Lemma storage_probe_deletes_file_witness :
  p_android perm_env = true /\ parent (canon (testPath perm_env)) = Some "file:///cache" /\
  nodes (pfs perm_world) !! "file:///cache" = Some DirNode /\
  nodes (pfs perm_world) !! canon (testPath perm_env) = Some (FileNode "mine" 4) /\
  exists w', requestPermission perm_env "storage" perm_world [] = (Normal "granted", w', []) /\
    nodes (pfs w') !! canon (testPath perm_env) = None /\
    permissionStatus (pstate w') !! "storage" = Some "granted".
Proof.
  assert (H1 : p_android perm_env = true) by reflexivity.
  assert (H2 : parent (canon (testPath perm_env)) = Some "file:///cache") by (vm_compute; reflexivity).
  assert (H3 : nodes (pfs perm_world) !! "file:///cache" = Some DirNode) by (vm_compute; reflexivity).
  assert (H4 : nodes (pfs perm_world) !! canon (testPath perm_env) = Some (FileNode "mine" 4)) by (vm_compute; reflexivity).
  exact (conj H1 (conj H2 (conj H3 (conj H4
           (storage_probe_deletes_file perm_env perm_world "file:///cache" "mine" 4 H1 H2 H3 H4))))).
Defined.

End Permissions.
