(* ===== verification/Settings.v ===== *)
(** * The settings form

    [SettingsForm] of [src/unnamed/part_004], lines 22-197: seven
    [useState] cells, the mount effect [loadSavedCredentials],
    [handleConnect], [handleReset], and the two text fields whose
    [value] is the field's text, or [maskSensitive] of it while it is
    hidden, and whose [onChangeText] is the setter of the cell.

    A text of the form is a JavaScript string, the list of its UTF-16
    code units ([Encryption.js_string]), so that [maskSensitive] is the
    one of [Encryption].  The world is the form's state, the two
    credentials the secure storage holds, the credentials and the
    connection flag of the [telegramAPI] singleton, the alerts shown,
    the calls of [onConnect] and the log.  What the storage read at
    mount answers is the record [SettingsEnv]; the two saves of
    [handleConnect] are [await]s of the oracle; [telegramAPI.initialize]
    is the code of [src/src/api/telegramAPI.js], lines 99-114, without
    the polling and the [getMe] test it starts, which are [Connection]'s.
    A user event is an edit of a field (a function from the text the
    field shows to the new text, which React Native passes to
    [onChangeText]), a press of an eye button, of Reset or of Connect;
    [sstep] runs one to completion.

    The theorems: [initialize] accepts any non-empty token and chat id
    without asking Telegram, so Connect always reports success; while the
    token is hidden, an edit of the field replaces the token by the edit
    of its mask, so typing one character at the end of a long token and
    pressing Connect saves the masked token, hands it to the client, which
    reports itself connected, and to [onConnect]; Reset restores the
    saved credentials. *)

From S2P Require Import Prelude Await Encryption.

Module Settings.
Import Encryption.

(** The [useState] cells (lines 27-33). *)
Record FormState := mkForm {
  botToken : js_string;
  chatId : js_string;
  isLoading : bool;
  isTokenVisible : bool;
  isChatIdVisible : bool;
  savedToken : js_string;
  savedChatId : js_string
}.

(** The fields of the [telegramAPI] singleton that [initialize] sets. *)
Record Client := mkClient {
  api_token : option js_string;         (** [this.token] *)
  api_chatId : option js_string;        (** [this.chatId] *)
  api_connected : bool                  (** [this.connected] *)
}.

Record SWorld := mkSWorld {
  form : FormState;
  stored_token : option js_string;      (** [storage.saveBotToken] *)
  stored_chat : option js_string;       (** [storage.saveChatId] *)
  alerts : list (string * string);      (** [Alert.alert(title, message)] *)
  connects : list (js_string * js_string);  (** [onConnect(botToken, chatId)] *)
  slog : list (string * string);        (** [logger.<level>(message)] *)
  telegram : Client
}.

Abbreviation sio := (aw SWorld).

(** What the storage holds at mount. *)
Record SettingsEnv := mkSettingsEnv {
  loaded_token : option js_string;      (** [await storage.getBotToken()] *)
  loaded_chat : option js_string        (** [await storage.getChatId()] *)
}.

(** The first render with the props [initialToken] and [initialChatId]
    (lines 22-33). *)
Definition initial_form (initialToken initialChatId : js_string) : FormState :=
  mkForm initialToken initialChatId false false false [] [].

Definition set_botToken v s := mkForm v (chatId s) (isLoading s) (isTokenVisible s) (isChatIdVisible s) (savedToken s) (savedChatId s).
Definition set_chatId v s := mkForm (botToken s) v (isLoading s) (isTokenVisible s) (isChatIdVisible s) (savedToken s) (savedChatId s).
Definition set_isLoading v s := mkForm (botToken s) (chatId s) v (isTokenVisible s) (isChatIdVisible s) (savedToken s) (savedChatId s).
Definition set_isTokenVisible v s := mkForm (botToken s) (chatId s) (isLoading s) v (isChatIdVisible s) (savedToken s) (savedChatId s).
Definition set_isChatIdVisible v s := mkForm (botToken s) (chatId s) (isLoading s) (isTokenVisible s) v (savedToken s) (savedChatId s).
Definition set_savedToken v s := mkForm (botToken s) (chatId s) (isLoading s) (isTokenVisible s) (isChatIdVisible s) v (savedChatId s).
Definition set_savedChatId v s := mkForm (botToken s) (chatId s) (isLoading s) (isTokenVisible s) (isChatIdVisible s) (savedToken s) v.

Definition set_form (f : FormState -> FormState) : sio unit :=
  aw_modify (fun w => mkSWorld (f (form w)) (stored_token w) (stored_chat w) (alerts w) (connects w) (slog w) (telegram w)).

Definition log (level message : string) : sio unit :=
  aw_modify (fun w => mkSWorld (form w) (stored_token w) (stored_chat w) (alerts w) (connects w) (slog w ++ [(level, message)]) (telegram w)).

Definition alert (title message : string) : sio unit :=
  aw_modify (fun w => mkSWorld (form w) (stored_token w) (stored_chat w) (alerts w ++ [(title, message)]) (connects w) (slog w) (telegram w)).

(** [if (!text)] of a string. *)
Definition js_truthy (t : js_string) : bool := negb (bool_decide (t = [])).

(** [telegramAPI.initialize(token, chatId)] ([src/src/api/telegramAPI.js],
    lines 99-114): [createTelegramAPI(token)] (lines 11-14) is [null]
    exactly for a falsy token; the client is connected when the API
    object exists and [chatId] is truthy, and [initialize] returns
    [this.connected]. *)
Definition telegram_initialize (token chat : js_string) : sio bool :=
  let connected := js_truthy token && js_truthy chat in
  aw_modify (fun w => mkSWorld (form w) (stored_token w) (stored_chat w) (alerts w) (connects w) (slog w)
                        (mkClient (Some token) (Some chat) connected)) ;!
  aw_ret connected.

(** [value={isVisible ? text : maskSensitive(text)}] (lines 119, 146). *)
Definition shown (visible : bool) (text : js_string) : js_string :=
  if visible then text else maskSensitive text 4.

(** [hasChanges] (line 107). *)
Definition hasChanges (s : FormState) : bool :=
  negb (bool_decide (botToken s = savedToken s)) || negb (bool_decide (chatId s = savedChatId s)).

Section Form.
Context (env : SettingsEnv).

(** [loadSavedCredentials()], the mount effect (lines 36-56), over the
    first render's [botToken] and [chatId]. *)
Definition loadSavedCredentials (first : FormState) : sio unit :=
  aw_catch
    (aw_await id ;!
     let token := match loaded_token env with Some t => if js_truthy t then t else [] | None => [] end in
     aw_await id ;!
     let chat := match loaded_chat env with Some c => if js_truthy c then c else [] | None => [] end in
     set_form (set_savedToken token) ;!
     set_form (set_savedChatId chat) ;!
     (if negb (js_truthy (botToken first)) && js_truthy token then set_form (set_botToken token) else aw_ret tt) ;!
     (if negb (js_truthy (chatId first)) && js_truthy chat then set_form (set_chatId chat) else aw_ret tt) ;!
     log "DEBUG" "Loaded saved credentials")
    (fun e => log "ERROR" ("Failed to load credentials: " +:+ e)).

End Form.

(** [handleConnect()] (lines 59-96), over the state of its render;
    the parent passes [onConnect], and [Keyboard.dismiss()] has no effect
    on the state. *)
Definition handleConnect (s : FormState) : sio unit :=
  if negb (js_truthy (botToken s)) || negb (js_truthy (chatId s)) then
    alert "Missing Information" "Please enter both Bot Token and Chat ID"
  else
    set_form (set_isLoading true) ;!
    aw_finally
      (aw_catch
         (aw_await (fun w => mkSWorld (form w) (Some (botToken s)) (stored_chat w) (alerts w) (connects w) (slog w) (telegram w)) ;!
          aw_await (fun w => mkSWorld (form w) (stored_token w) (Some (chatId s)) (alerts w) (connects w) (slog w) (telegram w)) ;!
          let! success := telegram_initialize (botToken s) (chatId s) in
          if success then
            (log "SUCCESS" "Connected to Telegram API" ;!
             set_form (set_savedToken (botToken s)) ;!
             set_form (set_savedChatId (chatId s)) ;!
             aw_modify (fun w => mkSWorld (form w) (stored_token w) (stored_chat w) (alerts w)
                                    (connects w ++ [(botToken s, chatId s)]) (slog w) (telegram w)))
          else
            (log "ERROR" "Failed to connect to Telegram API" ;!
             alert "Connection Failed" "Could not connect to Telegram with the provided credentials."))
         (fun e => log "ERROR" ("Connection error: " +:+ e) ;! alert "Connection Error" e))
      (set_form (set_isLoading false)).

(** [handleReset()] (lines 100-104), over the state of its render. *)
Definition handleReset (s : FormState) : sio unit :=
  set_form (set_botToken (savedToken s)) ;!
  set_form (set_chatId (savedChatId s)) ;!
  log "INFO" "Reset to saved credentials".

(** What the user does on the rendered form (lines 112-190). *)
Inductive ui_event :=
  | EditToken (edit : js_string -> js_string)     (** [onChangeText] of the token field *)
  | EditChatId (edit : js_string -> js_string)    (** [onChangeText] of the chat id field *)
  | ToggleToken                                   (** the token's eye button *)
  | ToggleChatId                                  (** the chat id's eye button *)
  | PressReset                                    (** shown when [hasChanges], disabled while loading *)
  | PressConnect.                                 (** disabled while loading or with an empty field *)

Definition run_event (s : FormState) (ev : ui_event) : sio unit :=
  match ev with
  | EditToken edit => set_form (set_botToken (edit (shown (isTokenVisible s) (botToken s))))
  | EditChatId edit => set_form (set_chatId (edit (shown (isChatIdVisible s) (chatId s))))
  | ToggleToken => set_form (set_isTokenVisible (negb (isTokenVisible s)))
  | ToggleChatId => set_form (set_isChatIdVisible (negb (isChatIdVisible s)))
  | PressReset => handleReset s
  | PressConnect => handleConnect s
  end.

(** Whether the button of an event can be pressed (lines 170-183). *)
Definition enabled (s : FormState) (ev : ui_event) : bool :=
  match ev with
  | PressReset => hasChanges s && negb (isLoading s)
  | PressConnect => negb (isLoading s) && js_truthy (botToken s) && js_truthy (chatId s)
  | _ => true
  end.

(** The world after [c] has run on [w] with the oracle [o]. *)
Definition after {A} (c : sio A) (w : SWorld) (o : list settlement) : SWorld := snd (fst (c w o)).

(** The form in use: each enabled event runs to completion on the
    committed state. *)
Inductive sstep : SWorld -> SWorld -> Prop :=
  | ss_event w ev o : enabled (form w) ev = true -> sstep w (after (run_event (form w) ev) w o).

(** ** Connect *)

Lemma js_truthy_nonempty t : t <> [] -> js_truthy t = true.
Proof. intros Ht. unfold js_truthy. by rewrite bool_decide_eq_false_2. Qed.

(** Once both saves resolve, Connect with a token and a chat id hands
    them to the client, which calls itself connected without asking
    Telegram; the form then reports success, records the credentials as
    saved and calls [onConnect]: the ["Connection Failed"] alert is never
    shown. *)
Lemma handleConnect_accepts s w :
  botToken s <> [] -> chatId s <> [] ->
  let w' := after (handleConnect s) w [Fulfilled; Fulfilled] in
  stored_token w' = Some (botToken s) /\ stored_chat w' = Some (chatId s) /\
  telegram w' = mkClient (Some (botToken s)) (Some (chatId s)) true /\
  savedToken (form w') = botToken s /\ savedChatId (form w') = chatId s /\ isLoading (form w') = false /\
  connects w' = connects w ++ [(botToken s, chatId s)] /\
  slog w' = slog w ++ [("SUCCESS", "Connected to Telegram API")] /\ alerts w' = alerts w.
Proof.
  intros Ht Hc. unfold after, handleConnect.
  rewrite (js_truthy_nonempty _ Ht), (js_truthy_nonempty _ Hc). cbn [negb orb].
  unfold aw_finally, aw_catch, telegram_initialize. cbn.
  rewrite (js_truthy_nonempty _ Ht), (js_truthy_nonempty _ Hc). cbn. done.
Qed.

(** ** The token field *)

(** Past eight units, the mask puts its bullet's first unit at index 4. *)
Lemma maskSensitive_nth4 t : 8 < List.length t -> nth 4 (maskSensitive t 4) 0%Z = 226%Z.
Proof.
  intros Hl. unfold maskSensitive.
  rewrite (bool_decide_eq_false_2 (t = [])) by (intros ->; simpl in Hl; lia).
  replace (Nat.leb (List.length t) (4 * 2)) with false by (symmetry; apply Nat.leb_gt; lia). cbn [orb].
  rewrite app_nth2; rewrite length_take; [|lia]. replace (4 - Nat.min 4 (List.length t)) with 0 by lia.
  destruct (Nat.min 10 (List.length t - 4 * 2)) as [|k] eqn:Ek; [lia|]. reflexivity.
Qed.

(** C34: While the token is hidden, the field shows [maskSensitive] of
    the token and [onChangeText] stores what the field holds: typing a
    character [c] at the end of a token longer than eight units (whose
    fifth unit is not the mask's) makes the token the mask followed by
    [c], not the token followed by [c].  Pressing Connect then saves that
    masked text as the bot token, initializes the client with it, which
    reports itself connected, logs the success, records it as the saved
    token and passes it to [onConnect]. *)
Theorem hidden_edit_persists_masked w c :
  isTokenVisible (form w) = false -> isLoading (form w) = false -> chatId (form w) <> [] ->
  8 < List.length (botToken (form w)) -> nth 4 (botToken (form w)) 0%Z <> 226%Z ->
  let masked := maskSensitive (botToken (form w)) 4 ++ [c] in
  let w1 := after (run_event (form w) (EditToken (fun v => v ++ [c]))) w [] in
  sstep w w1 /\ botToken (form w1) = masked /\ masked <> botToken (form w) ++ [c] /\
  (let w2 := after (run_event (form w1) PressConnect) w1 [Fulfilled; Fulfilled] in
   sstep w1 w2 /\ stored_token w2 = Some masked /\
   telegram w2 = mkClient (Some masked) (Some (chatId (form w))) true /\
   savedToken (form w2) = masked /\ connects w2 = connects w ++ [(masked, chatId (form w))] /\
   slog w2 = slog w ++ [("SUCCESS", "Connected to Telegram API")]).
Proof.
  intros Hv Hl Hc Hlen Hn. cbv zeta.
  set (w1 := after (run_event (form w) (EditToken (fun v => v ++ [c]))) w []).
  assert (Hb : botToken (form w1) = maskSensitive (botToken (form w)) 4 ++ [c]) by (cbn; by rewrite Hv).
  assert (Hm : maskSensitive (botToken (form w)) 4 ++ [c] <> []) by (by destruct (maskSensitive _ _)).
  split; [by constructor|]. split; [exact Hb|]. split.
  - intros Heq. apply Hn. rewrite <- (maskSensitive_nth4 _ Hlen).
    assert (H4 : 4 < List.length (maskSensitive (botToken (form w)) 4))
      by (apply (f_equal (fun l => List.length l)) in Heq; rewrite !length_app in Heq; cbn in Heq; lia).
    rewrite <- (app_nth1 _ [c] 0%Z H4), Heq. rewrite app_nth1 by lia. reflexivity.
  - rewrite <- Hb in Hm |- *.
    assert (Hc1 : chatId (form w1) <> []) by exact Hc. assert (Hl1 : isLoading (form w1) = false) by exact Hl.
    destruct (handleConnect_accepts (form w1) w1 Hm Hc1) as (Hs & _ & Ht & Hst & _ & _ & Hcn & Hlg & _).
    split; [constructor; unfold enabled; by rewrite (js_truthy_nonempty _ Hm), (js_truthy_nonempty _ Hc1), Hl1|].
    cbn [run_event]. rewrite Hs, Ht, Hst, Hcn, Hlg. done.
Qed.

(** Reset puts the saved credentials back in the fields, so the form has
    no changes left. *)
Theorem reset_restores w o :
  let w' := after (run_event (form w) PressReset) w o in
  botToken (form w') = savedToken (form w) /\ chatId (form w') = savedChatId (form w) /\ hasChanges (form w') = false.
Proof.
  cbv zeta. cbn. unfold hasChanges. cbn. rewrite !bool_decide_eq_true_2 by done. done.
Qed.

(** ** Witnesses *)

(** A form showing the masked token ["123456789:ABCDEF"] and the chat
    id ["42"], with the client not initialized. *)
Definition demo_token : js_string := map (fun a => Z.of_nat (nat_of_ascii a)) (list_ascii_of_string "123456789:ABCDEF").

Definition demo_form_world : SWorld :=
  mkSWorld (mkForm demo_token [52; 50]%Z false false false demo_token [52; 50]%Z) (Some demo_token) (Some [52; 50]%Z) [] [] []
    (mkClient None None false).

Lemma hidden_edit_persists_masked_witness :
  isTokenVisible (form demo_form_world) = false /\ isLoading (form demo_form_world) = false /\
  chatId (form demo_form_world) <> [] /\ 8 < List.length (botToken (form demo_form_world)) /\
  nth 4 (botToken (form demo_form_world)) 0%Z <> 226%Z /\
  (let masked := maskSensitive (botToken (form demo_form_world)) 4 ++ [71%Z] in
   let w1 := after (run_event (form demo_form_world) (EditToken (fun v => v ++ [71%Z]))) demo_form_world [] in
   sstep demo_form_world w1 /\ botToken (form w1) = masked /\ masked <> botToken (form demo_form_world) ++ [71%Z] /\
   (let w2 := after (run_event (form w1) PressConnect) w1 [Fulfilled; Fulfilled] in
    sstep w1 w2 /\ stored_token w2 = Some masked /\
    telegram w2 = mkClient (Some masked) (Some (chatId (form demo_form_world))) true /\
    savedToken (form w2) = masked /\ connects w2 = connects demo_form_world ++ [(masked, chatId (form demo_form_world))] /\
    slog w2 = slog demo_form_world ++ [("SUCCESS", "Connected to Telegram API")])).
Proof.
  assert (H1 : isTokenVisible (form demo_form_world) = false) by reflexivity.
  assert (H2 : isLoading (form demo_form_world) = false) by reflexivity.
  assert (H3 : chatId (form demo_form_world) <> []) by discriminate.
  assert (H4 : 8 < List.length (botToken (form demo_form_world))) by (vm_compute; lia).
  assert (H5 : nth 4 (botToken (form demo_form_world)) 0%Z <> 226%Z) by (vm_compute; discriminate).
  exact (conj H1 (conj H2 (conj H3 (conj H4 (conj H5
           (hidden_edit_persists_masked demo_form_world 71%Z H1 H2 H3 H4 H5)))))).
Defined.

End Settings.
