(* ===== verification/SmsHook.v ===== *)
(** * The message service hook

    [useMessageService] of [src/unnamed/part_006], lines 284-503: four
    [useState] cells, the mount effect [initialize] that asks
    [SMS.isAvailableAsync()] and, on Android, initializes the native SMS
    module and requests its permission, and the three readers
    [getSmsMessages], [getSmsThreads] and [getThreadMessages], each a
    [useCallback] over [isAvailable] and [hasPermission] that checks
    them, calls the native module of [NativeSms], and records its error
    and loading flag.  [formatSmsAsCSV] and [formatSmsAsText] are the
    ones of [AppCore] and [Formats].

    The world is the heap of the native module (the log and the random
    draws) and the committed state of the hook; [mstep] is the hook in
    use after the mount effect.

    The theorems: off Android the permission is never granted, so in
    every reachable state each reader answers [[]] and records an
    error; on Android with SMS available the mounted hook reads the
    three sample threads, sorted and bounded, without an error. *)

From S2P Require Import Prelude JsString Await Logger NativeSms.

Module SmsHook.
Import NativeSms.

(** The [useState] cells (lines 295-298). *)
Record MState := mkMState {
  isAvailable : bool;
  isLoading : bool;
  hasPermission : bool;
  error : option string
}.

Definition set_isAvailable v s := mkMState v (isLoading s) (hasPermission s) (error s).
Definition set_isLoading v s := mkMState (isAvailable s) v (hasPermission s) (error s).
Definition set_hasPermission v s := mkMState (isAvailable s) (isLoading s) v (error s).
Definition set_error v s := mkMState (isAvailable s) (isLoading s) (hasPermission s) v.

(** The first render's state. *)
Definition initial_state : MState := mkMState false false false None.

Record MWorld := mkMWorld {
  mheap : NHeap;
  mstate : MState
}.

Abbreviation mio := (aw MWorld).

(** A call of the native module. *)
Definition mlift {A} (c : nio A) : mio A :=
  fun w o => let '(r, h, o') := c (mheap w) o in (r, mkMWorld h (mstate w), o').

(** [setX(v)]. *)
Definition set_m (f : MState -> MState) : mio unit := aw_modify (fun w => mkMWorld (mheap w) (f (mstate w))).

Section Hook.
Context (env : SmsEnv).

Definition mlog shorthand message : mio unit := mlift (nlog env shorthand message).

(** [initialize()], the mount effect (lines 301-328). *)
Definition initialize : mio unit :=
  aw_catch
    (aw_await id ;!
     let available := sms_available env in
     set_m (set_isAvailable available) ;!
     if available && is_android env then
       mlift (initializeNativeSmsAccess env) ;!
       let! granted := mlift (requestSmsPermission env) in
       set_m (set_hasPermission granted) ;!
       (if granted then mlog Logger.success "SMS access enabled"
        else mlog Logger.warning "SMS permission not granted")
     else aw_ret tt)
    (fun e => mlog Logger.error ("Failed to initialize SMS service: " +:+ e)).

(** The body the three readers share (lines 336-360, 368-392,
    402-426): the checks of [isAvailable] and [hasPermission] of their
    render, the native call, the log line, and the error and loading
    flag. *)
Definition guarded_read {A} (s : MState) (what : string) (read : nio (list A)) (retrieved : nat -> string) :
    mio (list A) :=
  set_m (set_isLoading true) ;!
  set_m (set_error None) ;!
  aw_finally
    (aw_catch
       (if negb (isAvailable s) then aw_throw "SMS functionality is not available on this device"
        else if negb (hasPermission s) then aw_throw "SMS permission not granted"
        else
          let! xs := mlift read in
          mlog Logger.info (retrieved (List.length xs)) ;!
          aw_ret xs)
       (fun e =>
          let errorMsg := "Failed to get " +:+ what +:+ ": " +:+ e in
          mlog Logger.error errorMsg ;!
          set_m (set_error (Some errorMsg)) ;!
          aw_ret []))
    (set_m (set_isLoading false)).

(** [getSmsMessages(options = {})] (lines 335-361). *)
Definition getSmsMessages (s : MState) (options : SmsOptions) : mio (list SmsMessage) :=
  guarded_read s "SMS messages" (NativeSms.getSmsMessages env options)
    (fun n => "Retrieved " +:+ pretty n +:+ " SMS messages").

(** [getSmsThreads()] (lines 367-393). *)
Definition getSmsThreads (s : MState) : mio (list SmsThread) :=
  guarded_read s "SMS threads" (NativeSms.getSmsThreads env)
    (fun n => "Retrieved " +:+ pretty n +:+ " SMS threads").

(** [getThreadMessages(threadId, maxCount = 50)] (lines 401-427). *)
Definition getThreadMessages (s : MState) (threadId : string) (maxCount : Z) : mio (list SmsMessage) :=
  guarded_read s "thread messages" (NativeSms.getThreadMessages env threadId maxCount)
    (fun n => "Retrieved " +:+ pretty n +:+ " messages for thread " +:+ threadId).

(** The readers the hook returns (lines 493-503). *)
Inductive mop :=
  | OpMessages (options : SmsOptions)
  | OpThreads
  | OpThreadMessages (threadId : string) (maxCount : Z).

Definition run_op (s : MState) (op : mop) : mio unit :=
  match op with
  | OpMessages opts => getSmsMessages s opts ;! aw_ret tt
  | OpThreads => getSmsThreads s ;! aw_ret tt
  | OpThreadMessages t n => getThreadMessages s t n ;! aw_ret tt
  end.

(** The world after [c] has run on [w] with the oracle [o]. *)
Definition after {A} (c : mio A) (w : MWorld) (o : list settlement) : MWorld := snd (fst (c w o)).

(** The hook in use: each reader of the latest render runs to
    completion. *)
Inductive mstep : MWorld -> MWorld -> Prop :=
  | ms_op w op o : mstep w (after (run_op (mstate w) op) w o).

(** Mounted: the first render's state, then the effect. *)
Definition mounted (h : NHeap) (o : list settlement) : MWorld := after initialize (mkMWorld h initial_state) o.

End Hook.

(** The hook has not been granted the permission. *)
Definition denied (w : MWorld) : Prop := hasPermission (mstate w) = false.

(** What a reader records when the guard of its render stops it. *)
Definition denial_error (s : MState) (what : string) : string :=
  "Failed to get " +:+ what +:+ ": " +:+
  (if isAvailable s then "SMS permission not granted" else "SMS functionality is not available on this device").

(** The reader [c] of the render [s], run on [w], answers [[]], records
    the error of its guard and clears its loading flag. *)
Definition refused {A} (c : mio (list A)) (s : MState) (what : string) (w : MWorld) (o : list settlement) : Prop :=
  exists w', c w o = (Normal [], w', o) /\ error (mstate w') = Some (denial_error s what) /\ isLoading (mstate w') = false.

(** Logging completes and keeps the hook's state. *)
Lemma mlog_run env f m w o :
  exists w', mlog env f m w o = (Normal tt, w', o) /\ mstate w' = mstate w.
Proof. unfold mlog, mlift. destruct (nlog_run env f m (mheap w) o) as (h' & ->). by eexists. Qed.

Ltac step_mlog :=
  match goal with |- context [aw_bind (mlog ?e ?f ?m) _ ?w ?o] =>
    let w1 := fresh "w" in let Hl := fresh "Hl" in let Hs := fresh "Hs" in
    destruct (mlog_run e f m w o) as (w1 & Hl & Hs); rewrite (bind_step _ _ _ _ _ _ _ Hl) end.

(** A reader of a render without the permission answers [[]] and records
    why. *)
Lemma guarded_read_denied {A} env s what (read : nio (list A)) retrieved w o :
  hasPermission s = false ->
  exists w', guarded_read env s what read retrieved w o = (Normal [], w', o) /\
    mstate w' = set_isLoading false (set_error (Some ("Failed to get " +:+ what +:+ ": " +:+
                  (if isAvailable s then "SMS permission not granted"
                   else "SMS functionality is not available on this device")))
                  (set_error None (set_isLoading true (mstate w)))).
Proof.
  intros Hp. unfold guarded_read, aw_finally, aw_catch.
  erewrite bind_step by reflexivity. erewrite bind_step by reflexivity. rewrite Hp.
  destruct (isAvailable s); cbn [negb aw_throw]; step_mlog; cbn; eexists; (split; [reflexivity|]); by rewrite Hs.
Qed.

(** ** Off Android *)

Lemma keeps_denied_mlift {A} (c : nio A) : keeps denied (mlift c).
Proof. intros w o Hw. unfold mlift. by destruct (c (mheap w) o) as [[r h] o']. Qed.

Lemma keeps_denied_guarded_read {A} env s what (read : nio (list A)) retrieved :
  keeps denied (guarded_read env s what read retrieved).
Proof.
  unfold guarded_read, mlog. solve_keeps; try apply keeps_denied_mlift;
    try (apply keeps_modify; intros w Hw; exact Hw).
  apply keeps_finally; [|apply keeps_modify; intros w Hw; exact Hw].
  solve_keeps; try apply keeps_denied_mlift; apply keeps_modify; intros w Hw; exact Hw.
Qed.

Lemma keeps_denied_run_op env s op : keeps denied (run_op env s op).
Proof. destruct op; cbn [run_op]; apply keeps_bind; try (intros; apply keeps_ret); apply keeps_denied_guarded_read. Qed.

Lemma mounted_denied env h o : is_android env = false -> denied (mounted env h o).
Proof.
  intros Ha. unfold mounted, after, initialize. cbv zeta. rewrite Ha, andb_false_r.
  apply (keeps_catch denied); [solve_keeps; apply keeps_modify; done|intros e; apply keeps_denied_mlift|done].
Qed.

Lemma guarded_read_refused {A} env s what (read : nio (list A)) retrieved w o :
  hasPermission s = false -> refused (guarded_read env s what read retrieved) s what w o.
Proof.
  intros Hp. destruct (guarded_read_denied env s what read retrieved w o Hp) as (w' & E & Hs).
  exists w'. rewrite E, Hs. unfold denial_error. by destruct (isAvailable s).
Qed.

(** C37: Off Android the SMS permission is never granted: in every state
    reachable from the mount, whether [SMS.isAvailableAsync()] said yes
    or no, each of the three readers, whatever its arguments, stops at
    the guard of [isAvailable] or [hasPermission]: it answers [[]],
    records the guard's error and clears its loading flag. *)
Theorem sms_unreadable_off_android env h o w o' :
  is_android env = false -> rtc (mstep env) (mounted env h o) w ->
  hasPermission (mstate w) = false /\
  (forall opts, refused (getSmsMessages env (mstate w) opts) (mstate w) "SMS messages" w o') /\
  refused (getSmsThreads env (mstate w)) (mstate w) "SMS threads" w o' /\
  (forall t n, refused (getThreadMessages env (mstate w) t n) (mstate w) "thread messages" w o').
Proof.
  intros Ha Hr. assert (Hw : denied w).
  { revert w Hr. apply rtc_ind_r; [by apply mounted_denied|].
    intros w1 w2 _ Hs IH. destruct Hs as [w1 op o1]. exact (keeps_denied_run_op env (mstate w1) op w1 o1 IH). }
  split; [exact Hw|]. split; [|split]; intros; by apply guarded_read_refused.
Qed.

(** ** On Android *)

Lemma initializeNativeSmsAccess_ready env h :
  is_android env = true -> sms_available env = true ->
  exists h', initializeNativeSmsAccess env h [] = (Normal true, h', []).
Proof.
  intros Ha Hs. unfold initializeNativeSmsAccess. rewrite Ha. cbn [negb]. step_nlog.
  unfold aw_catch, aw_await, aw_bind. cbn. rewrite Hs. by eexists.
Qed.

Lemma requestSmsPermission_android env h o :
  is_android env = true -> exists h', requestSmsPermission env h o = (Normal true, h', o).
Proof. intros Ha. unfold requestSmsPermission. rewrite Ha. cbn [negb]. step_nlog. by eexists. Qed.

Lemma mounted_ready env h :
  is_android env = true -> sms_available env = true ->
  isAvailable (mstate (mounted env h [])) = true /\ hasPermission (mstate (mounted env h [])) = true /\
  error (mstate (mounted env h [])) = None.
Proof.
  intros Ha Hs. unfold mounted, after, initialize, aw_catch. cbv zeta.
  erewrite bind_step by reflexivity. rewrite Hs. erewrite bind_step by reflexivity. rewrite Ha. cbn [andb].
  destruct (initializeNativeSmsAccess_ready env h Ha Hs) as (h1 & Hi).
  erewrite bind_step by (unfold mlift; cbn; rewrite Hi; reflexivity).
  destruct (requestSmsPermission_android env h1 [] Ha) as (h2 & Hr).
  erewrite bind_step by (unfold mlift; cbn; rewrite Hr; reflexivity).
  erewrite bind_step by reflexivity.
  destruct (nlog_run env Logger.success "SMS access enabled" h2 []) as (h3 & Hn3).
  unfold mlog, mlift. cbn -[nlog]. rewrite Hn3. done.
Qed.

(** On Android with SMS available, once mounted (every promise
    fulfilled), [getSmsThreads] reads the three sample threads, each
    with 5 to 54 messages, and leaves no error and no loading flag. *)
Theorem mounted_reads_threads env h :
  is_android env = true -> sms_available env = true ->
  let w := mounted env h [] in
  exists ts w', getSmsThreads env (mstate w) w [] = (Normal ts, w', []) /\ List.length ts = 3 /\
    Forall (fun t => (5 <= th_messageCount t <= 54)%Z) ts /\
    error (mstate w') = None /\ isLoading (mstate w') = false.
Proof.
  intros Ha Hs. cbv zeta. destruct (mounted_ready env h Ha Hs) as (Hav & Hp & He).
  set (w := mounted env h []) in *.
  destruct (getSmsThreads_bounded env (mheap w) [] Ha) as (ts & h' & Ht & Hl & _ & Hf).
  unfold getSmsThreads, guarded_read, aw_finally, aw_catch.
  erewrite bind_step by reflexivity. erewrite bind_step by reflexivity. rewrite Hav, Hp. cbn [negb].
  erewrite bind_step by (unfold mlift; cbn; rewrite Ht; reflexivity).
  step_mlog. cbn. do 2 eexists. split; [reflexivity|]. split; [exact Hl|]. split; [exact Hf|].
  cbn. rewrite Hs0. cbn. done.
Qed.

(** ** Witnesses *)

(** An iPhone with SMS: available, not Android. *)
Definition ios_env : SmsEnv := mkSmsEnv false true 1700000000000%Z (fun _ => "") (fun k => Z.of_nat k) 0%Z.

Definition ios_heap : NHeap := mkNHeap Logger.new_Logger [] 0.

Lemma sms_unreadable_off_android_witness :
  is_android ios_env = false /\ rtc (mstep ios_env) (mounted ios_env ios_heap []) (mounted ios_env ios_heap []) /\
  (let w := mounted ios_env ios_heap [] in
   hasPermission (mstate w) = false /\
   (forall opts, refused (getSmsMessages ios_env (mstate w) opts) (mstate w) "SMS messages" w []) /\
   refused (getSmsThreads ios_env (mstate w)) (mstate w) "SMS threads" w [] /\
   (forall t n, refused (getThreadMessages ios_env (mstate w) t n) (mstate w) "thread messages" w [])).
Proof.
  assert (H1 : is_android ios_env = false) by reflexivity.
  assert (H2 : rtc (mstep ios_env) (mounted ios_env ios_heap []) (mounted ios_env ios_heap [])) by apply rtc_refl.
  exact (conj H1 (conj H2 (sms_unreadable_off_android ios_env ios_heap [] _ [] H1 H2))).
Defined.

End SmsHook.
